(** * AB8500 charger driver (drivers/power/ab8500_charger.c)

    A shallow embedding of the charger control logic of the AB8500
    power-management IC driver: the register lookup tables, the current
    stepping engine, USB link classification, the VBUS drop controller,
    the event flags and the power-supply health property. *)

From Stdlib Require Import ZArith List Bool Lia.
From Stdlib Require String.
Import ListNotations.
Open Scope Z_scope.

(** ** C integer types *)

(** [u8]: a value stored to a [u8] object keeps its low 8 bits. *)
Definition to_u8 (x : Z) : Z := x mod 256.

(** [unsigned int] and [int] on the 32-bit ARM target of the driver. *)
Definition to_u32 (x : Z) : Z := x mod 2 ^ 32.
Definition to_int (x : Z) : Z :=
  let y := x mod 2 ^ 32 in if y <? 2 ^ 31 then y else y - 2 ^ 32.

(** C truth value of an [int] used as a condition. *)
Definition truthy (x : Z) : bool := negb (x =? 0).

(** ** Charger constants *)

Definition NO_PW_CONN : Z := 0.
Definition AC_PW_CONN : Z := 1.
Definition USB_PW_CONN : Z := 2.

Definition USB_CH_ENA : Z := 0x01.
Definition MAIN_CH_DET : Z := 0x01.
Definition USB_CH_CV_ON : Z := 0x08.
Definition VBUS_DET_DBNC100 : Z := 0x02.
Definition VBUS_DET_DBNC1 : Z := 0x01.

Definition MAIN_CH_INPUT_CURR_SHIFT : Z := 4.
Definition VBUS_IN_CURR_LIM_SHIFT : Z := 4.
Definition AUTO_VBUS_IN_CURR_LIM_SHIFT : Z := 4.
Definition VBUS_IN_CURR_LIM_RETRY_SET_TIME : Z := 30.
Definition VBUS_IN_CURR_LIM_RETRY_MAX_TIME : Z := 3840.

Definition VBUS_CH_NOK : Z := 0x08.
Definition USB_CH_TH_PROT : Z := 0x02.
Definition VBUS_OVV_TH : Z := 0x01.

Definition AB8500_USB_LINK_STATUS : Z := 0x78.

Definition LOW_VOLT_REG : Z := 0x4E.
Definition STEP_MDELAY : Z := 1.
Definition WAIT_ACA_RID_ENUMERATION : Z := 5 * 1000.

Definition USB_CH_IP_CUR_LVL_0P05 : Z := 50.
Definition USB_CH_IP_CUR_LVL_0P09 : Z := 98.
Definition USB_CH_IP_CUR_LVL_0P19 : Z := 193.
Definition USB_CH_IP_CUR_LVL_0P29 : Z := 290.
Definition USB_CH_IP_CUR_LVL_0P38 : Z := 380.
Definition USB_CH_IP_CUR_LVL_0P45 : Z := 450.
Definition USB_CH_IP_CUR_LVL_0P5 : Z := 500.
Definition USB_CH_IP_CUR_LVL_0P6 : Z := 600.
Definition USB_CH_IP_CUR_LVL_0P7 : Z := 700.
Definition USB_CH_IP_CUR_LVL_0P8 : Z := 800.
Definition USB_CH_IP_CUR_LVL_0P9 : Z := 900.
Definition USB_CH_IP_CUR_LVL_1P0 : Z := 1000.
Definition USB_CH_IP_CUR_LVL_1P1 : Z := 1100.
Definition USB_CH_IP_CUR_LVL_1P3 : Z := 1300.
Definition USB_CH_IP_CUR_LVL_1P4 : Z := 1400.
Definition USB_CH_IP_CUR_LVL_1P5 : Z := 1500.

Definition VBAT_TRESH_IP_CUR_RED : Z := 3800.

(** ** Lookup tables *)

(** C array indexing [a[i]] and [ARRAY_SIZE(a)]. *)
Definition at_index (a : list Z) (i : Z) : Z := nth (Z.to_nat i) a 0.
Definition ARRAY_SIZE (a : list Z) : Z := Z.of_nat (length a).

Definition ab8500_charger_voltage_map : list Z :=
  [ 3500; 3525; 3550; 3575; 3600; 3625; 3650; 3675; 3700; 3725;
    3750; 3775; 3800; 3825; 3850; 3875; 3900; 3925; 3950; 3975;
    4000; 4025; 4050; 4060; 4070; 4080; 4090; 4100; 4110; 4120;
    4130; 4140; 4150; 4160; 4170; 4180; 4190; 4200; 4210; 4220;
    4230; 4240; 4250; 4260; 4270; 4280; 4290; 4300; 4310; 4320;
    4330; 4340; 4350; 4360; 4370; 4380; 4390; 4400; 4410; 4420;
    4430; 4440; 4450; 4460; 4470; 4480; 4490; 4500; 4510; 4520;
    4530; 4540; 4550; 4560; 4570; 4580; 4590; 4600 ].

Definition ab8500_charger_current_map : list Z :=
  [ 100; 200; 300; 400; 500; 600; 700; 800; 900; 1000;
    1100; 1200; 1300; 1400; 1500 ].

Definition ab8500_charger_vbus_in_curr_map : list Z :=
  [ USB_CH_IP_CUR_LVL_0P05; USB_CH_IP_CUR_LVL_0P09; USB_CH_IP_CUR_LVL_0P19;
    USB_CH_IP_CUR_LVL_0P29; USB_CH_IP_CUR_LVL_0P38; USB_CH_IP_CUR_LVL_0P45;
    USB_CH_IP_CUR_LVL_0P5; USB_CH_IP_CUR_LVL_0P6; USB_CH_IP_CUR_LVL_0P7;
    USB_CH_IP_CUR_LVL_0P8; USB_CH_IP_CUR_LVL_0P9; USB_CH_IP_CUR_LVL_1P0;
    USB_CH_IP_CUR_LVL_1P1; USB_CH_IP_CUR_LVL_1P3; USB_CH_IP_CUR_LVL_1P4;
    USB_CH_IP_CUR_LVL_1P5 ].

(** The search loop shared by the three encoders:
    [for (i = start; i < ARRAY_SIZE(map); i++)
       if (x < map[i]) return i - 1;]
    [n] counts the iterations still to run; [None] means the loop ran to
    its end without returning. *)
Fixpoint regval_scan (map : list Z) (x : Z) (i : Z) (n : nat) : option Z :=
  match n with
  | O => None
  | S n' =>
      if x <? at_index map i then Some (i - 1)
      else regval_scan map x (i + 1) n'
  end.

(** The tail common to the encoders: only the last element is accepted,
    anything else is an error. *)
Definition regval_last (map : list Z) (x : Z) : Z :=
  let i := ARRAY_SIZE map - 1 in
  if x =? at_index map i then i else -1.

Definition ab8500_voltage_to_regval (voltage : Z) : Z :=
  if voltage <? at_index ab8500_charger_voltage_map 0 then LOW_VOLT_REG
  else
    match regval_scan ab8500_charger_voltage_map voltage 1
            (Z.to_nat (ARRAY_SIZE ab8500_charger_voltage_map - 1)) with
    | Some r => r
    | None => regval_last ab8500_charger_voltage_map voltage
    end.

Definition ab8500_current_to_regval (curr : Z) : Z :=
  if curr <? at_index ab8500_charger_current_map 0 then 0
  else
    match regval_scan ab8500_charger_current_map curr 0
            (Z.to_nat (ARRAY_SIZE ab8500_charger_current_map)) with
    | Some r => r
    | None => regval_last ab8500_charger_current_map curr
    end.

Definition ab8500_vbus_in_curr_to_regval (curr : Z) : Z :=
  if curr <? at_index ab8500_charger_vbus_in_curr_map 0 then 0
  else
    match regval_scan ab8500_charger_vbus_in_curr_map curr 0
            (Z.to_nat (ARRAY_SIZE ab8500_charger_vbus_in_curr_map)) with
    | Some r => r
    | None => regval_last ab8500_charger_vbus_in_curr_map curr
    end.

(** ** Kernel headers that are not part of the driver file

    The register addresses come from <linux/mfd/abx500/ab8500-bm.h> and
    the error numbers from <asm-generic/errno-base.h>.  The driver only
    names them, so they are kept abstract: the embedding takes them as a
    record and the properties below hold for every assignment that a C
    compiler would accept (distinct [case] labels, positive errnos). *)
Record kernel_headers : Type := {
  AB8500_CHARGER : Z;
  AB8500_USB : Z;
  AB8500_INTERRUPT : Z;
  AB8500_CH_USBCH_STAT1_REG : Z;
  AB8500_CH_USBCH_STAT2_REG : Z;
  AB8500_CHARGER_CTRL : Z;
  AB8500_MCH_IPT_CURLVL_REG : Z;
  AB8500_USBCH_CTRL1_REG : Z;
  AB8500_USBCH_IPT_CRNTLVL_REG : Z;
  AB8500_CH_OPT_CRNTLVL_REG : Z;
  AB8500_MAIN_WDOG_CTRL_REG : Z;
  AB8500_IT_SOURCE21_REG : Z;
  AB8500_USB_LINE_STAT_REG : Z;
  AB8500_USB_LINE_CTRL2_REG : Z;
  EPERM : Z;
  ENXIO : Z;
  EBUSY : Z;
  EINVAL : Z
}.

(** What the C compiler guarantees about the names used by the driver. *)
Definition headers_ok (h : kernel_headers) : Prop :=
  AB8500_MCH_IPT_CURLVL_REG h <> AB8500_USBCH_IPT_CRNTLVL_REG h /\
  AB8500_MCH_IPT_CURLVL_REG h <> AB8500_CH_OPT_CRNTLVL_REG h /\
  AB8500_USBCH_IPT_CRNTLVL_REG h <> AB8500_CH_OPT_CRNTLVL_REG h /\
  0 < EPERM h /\ 0 < ENXIO h /\ 0 < EBUSY h /\ 0 < EINVAL h.

(** The values of the AB8500 register map (UM0836) and of Linux. *)
Definition ab8500_headers : kernel_headers := {|
  AB8500_CHARGER := 0x0B;
  AB8500_USB := 0x05;
  AB8500_INTERRUPT := 0x0E;
  AB8500_CH_USBCH_STAT1_REG := 0x02;
  AB8500_CH_USBCH_STAT2_REG := 0x03;
  AB8500_CHARGER_CTRL := 0x56;
  AB8500_MCH_IPT_CURLVL_REG := 0x82;
  AB8500_USBCH_CTRL1_REG := 0xC0;
  AB8500_USBCH_IPT_CRNTLVL_REG := 0xC2;
  AB8500_CH_OPT_CRNTLVL_REG := 0x42;
  AB8500_MAIN_WDOG_CTRL_REG := 0x01;
  AB8500_IT_SOURCE21_REG := 0x14;
  AB8500_USB_LINE_STAT_REG := 0x80;
  AB8500_USB_LINE_CTRL2_REG := 0x82;
  EPERM := 1;
  ENXIO := 6;
  EBUSY := 16;
  EINVAL := 22
|}.

(** ** Data model *)

(** UsbLineStatus register - usb types *)
Inductive ab8500_charger_link_status : Type :=
| USB_STAT_NOT_CONFIGURED
| USB_STAT_STD_HOST_NC
| USB_STAT_STD_HOST_C_NS
| USB_STAT_STD_HOST_C_S
| USB_STAT_HOST_CHG_NM
| USB_STAT_HOST_CHG_HS
| USB_STAT_HOST_CHG_HS_CHIRP
| USB_STAT_DEDICATED_CHG
| USB_STAT_ACA_RID_A
| USB_STAT_ACA_RID_B
| USB_STAT_ACA_RID_C_NM
| USB_STAT_ACA_RID_C_HS
| USB_STAT_ACA_RID_C_HS_CHIRP
| USB_STAT_HM_IDGND
| USB_STAT_RESERVED
| USB_STAT_NOT_VALID_LINK.

(** The enumerators in declaration order; the numeric value of each is
    its position, and an [int] outside the list names no enumerator. *)
Definition link_status_enumerators : list ab8500_charger_link_status :=
  [ USB_STAT_NOT_CONFIGURED; USB_STAT_STD_HOST_NC; USB_STAT_STD_HOST_C_NS;
    USB_STAT_STD_HOST_C_S; USB_STAT_HOST_CHG_NM; USB_STAT_HOST_CHG_HS;
    USB_STAT_HOST_CHG_HS_CHIRP; USB_STAT_DEDICATED_CHG; USB_STAT_ACA_RID_A;
    USB_STAT_ACA_RID_B; USB_STAT_ACA_RID_C_NM; USB_STAT_ACA_RID_C_HS;
    USB_STAT_ACA_RID_C_HS_CHIRP; USB_STAT_HM_IDGND; USB_STAT_RESERVED;
    USB_STAT_NOT_VALID_LINK ].

Definition link_status_of_int (v : Z) : option ab8500_charger_link_status :=
  if v <? 0 then None else nth_error link_status_enumerators (Z.to_nat v).

Definition int_of_link_status (s : ab8500_charger_link_status) : Z :=
  match s with
  | USB_STAT_NOT_CONFIGURED => 0
  | USB_STAT_STD_HOST_NC => 1
  | USB_STAT_STD_HOST_C_NS => 2
  | USB_STAT_STD_HOST_C_S => 3
  | USB_STAT_HOST_CHG_NM => 4
  | USB_STAT_HOST_CHG_HS => 5
  | USB_STAT_HOST_CHG_HS_CHIRP => 6
  | USB_STAT_DEDICATED_CHG => 7
  | USB_STAT_ACA_RID_A => 8
  | USB_STAT_ACA_RID_B => 9
  | USB_STAT_ACA_RID_C_NM => 10
  | USB_STAT_ACA_RID_C_HS => 11
  | USB_STAT_ACA_RID_C_HS_CHIRP => 12
  | USB_STAT_HM_IDGND => 13
  | USB_STAT_RESERVED => 14
  | USB_STAT_NOT_VALID_LINK => 15
  end.

Inductive ab8500_usb_state : Type :=
| AB8500_BM_USB_STATE_RESET_HS
| AB8500_BM_USB_STATE_RESET_FS
| AB8500_BM_USB_STATE_CONFIGURED
| AB8500_BM_USB_STATE_SUSPEND
| AB8500_BM_USB_STATE_RESUME
| AB8500_BM_USB_STATE_MAX.

(** The enumerations of <linux/power_supply.h> that the driver uses. *)
Inductive power_supply_type : Type :=
| POWER_SUPPLY_TYPE_BATTERY
| POWER_SUPPLY_TYPE_UPS
| POWER_SUPPLY_TYPE_MAINS
| POWER_SUPPLY_TYPE_USB.

Inductive power_supply_property : Type :=
| POWER_SUPPLY_PROP_STATUS
| POWER_SUPPLY_PROP_HEALTH
| POWER_SUPPLY_PROP_PRESENT
| POWER_SUPPLY_PROP_ONLINE
| POWER_SUPPLY_PROP_VOLTAGE_NOW
| POWER_SUPPLY_PROP_VOLTAGE_AVG
| POWER_SUPPLY_PROP_CURRENT_NOW
| POWER_SUPPLY_PROP_CURRENT_AVG.

Inductive power_supply_health : Type :=
| POWER_SUPPLY_HEALTH_UNKNOWN
| POWER_SUPPLY_HEALTH_GOOD
| POWER_SUPPLY_HEALTH_OVERHEAT
| POWER_SUPPLY_HEALTH_DEAD
| POWER_SUPPLY_HEALTH_OVERVOLTAGE
| POWER_SUPPLY_HEALTH_UNSPEC_FAILURE
| POWER_SUPPLY_HEALTH_COLD.

(** What [val->intval] holds after a query: a health enumerator or a
    plain integer. *)
Inductive power_supply_propval : Type :=
| Health (v : power_supply_health)
| Intval (v : Z).

Record ab8500_charger_info : Type := {
  charger_connected : Z;
  charger_online : Z;
  charger_voltage : Z;
  cv_active : Z;
  wd_expired : bool
}.

Record ab8500_charger_event_flags : Type := {
  mainextchnotok : bool;
  main_thermal_prot : bool;
  usb_thermal_prot : bool;
  vbus_ovv : bool;
  usbchargernotok : bool;
  chgwdexp : bool;
  vbus_collapse : bool;
  vbus_drop_end : bool;
  report_charger_no_charge : bool
}.

Record ab8500_charger_usb_state : Type := {
  usb_current : Z;
  usb_current_tmp : Z;
  state : ab8500_usb_state;
  state_tmp : ab8500_usb_state
}.

(** [real_max_usb_in_curr] is an [int[2]]: the pair holds elements 0 and 1. *)
Record ab8500_vbus_drop : Type := {
  real_max_usb_in_curr : Z * Z;
  retry_current_time : Z;
  work_expire : Z
}.

(** The fields of [di->pdata] and [di->bat] that the driver reads. *)
Record ab8500_bm_charger_parameters : Type := {
  usb_curr_max : Z;
  usb_curr_max_nc : Z
}.

Record ab8500_bm_data : Type := {
  chg_params : ab8500_bm_charger_parameters;
  enable_overshoot : bool
}.

Record ab8500_charger_platform_data : Type := {
  autopower_cfg : bool
}.

Record ab8500_charger : Type := {
  max_usb_in_curr : Z;
  vbus_detected : bool;
  vbus_detected_start : bool;
  ac_conn : bool;
  vddadc_en_ac : bool;
  vddadc_en_usb : bool;
  vbat : Z;
  old_vbat : Z;
  autopower : bool;
  invalid_charger_detect_state : Z;
  is_usb_host : bool;
  is_aca_rid : Z;
  current_stepping_sessions : Z;
  pdata : ab8500_charger_platform_data;
  bat : ab8500_bm_data;
  flags : ab8500_charger_event_flags;
  usb_state : ab8500_charger_usb_state;
  ac : ab8500_charger_info;
  usb : ab8500_charger_info;
  vbus_drop : ab8500_vbus_drop
}.

(** *** Field assignment

    [set_f v s] is the structure [s] after the assignment [s.f = v]. *)

Definition set_charger_connected (v : Z) (c : ab8500_charger_info)
  : ab8500_charger_info :=
  {| charger_connected := v; charger_online := charger_online c;
     charger_voltage := charger_voltage c; cv_active := cv_active c;
     wd_expired := wd_expired c |}.

Definition set_charger_voltage (v : Z) (c : ab8500_charger_info)
  : ab8500_charger_info :=
  {| charger_connected := charger_connected c;
     charger_online := charger_online c;
     charger_voltage := v; cv_active := cv_active c;
     wd_expired := wd_expired c |}.

Definition set_cv_active (v : Z) (c : ab8500_charger_info)
  : ab8500_charger_info :=
  {| charger_connected := charger_connected c;
     charger_online := charger_online c;
     charger_voltage := charger_voltage c; cv_active := v;
     wd_expired := wd_expired c |}.

Definition set_usb_thermal_prot (v : bool) (f : ab8500_charger_event_flags)
  : ab8500_charger_event_flags :=
  {| mainextchnotok := mainextchnotok f;
     main_thermal_prot := main_thermal_prot f;
     usb_thermal_prot := v; vbus_ovv := vbus_ovv f;
     usbchargernotok := usbchargernotok f; chgwdexp := chgwdexp f;
     vbus_collapse := vbus_collapse f; vbus_drop_end := vbus_drop_end f;
     report_charger_no_charge := report_charger_no_charge f |}.

Definition set_vbus_ovv (v : bool) (f : ab8500_charger_event_flags)
  : ab8500_charger_event_flags :=
  {| mainextchnotok := mainextchnotok f;
     main_thermal_prot := main_thermal_prot f;
     usb_thermal_prot := usb_thermal_prot f; vbus_ovv := v;
     usbchargernotok := usbchargernotok f; chgwdexp := chgwdexp f;
     vbus_collapse := vbus_collapse f; vbus_drop_end := vbus_drop_end f;
     report_charger_no_charge := report_charger_no_charge f |}.

Definition set_usbchargernotok (v : bool) (f : ab8500_charger_event_flags)
  : ab8500_charger_event_flags :=
  {| mainextchnotok := mainextchnotok f;
     main_thermal_prot := main_thermal_prot f;
     usb_thermal_prot := usb_thermal_prot f; vbus_ovv := vbus_ovv f;
     usbchargernotok := v; chgwdexp := chgwdexp f;
     vbus_collapse := vbus_collapse f; vbus_drop_end := vbus_drop_end f;
     report_charger_no_charge := report_charger_no_charge f |}.

Definition set_vbus_collapse (v : bool) (f : ab8500_charger_event_flags)
  : ab8500_charger_event_flags :=
  {| mainextchnotok := mainextchnotok f;
     main_thermal_prot := main_thermal_prot f;
     usb_thermal_prot := usb_thermal_prot f; vbus_ovv := vbus_ovv f;
     usbchargernotok := usbchargernotok f; chgwdexp := chgwdexp f;
     vbus_collapse := v; vbus_drop_end := vbus_drop_end f;
     report_charger_no_charge := report_charger_no_charge f |}.

Definition set_vbus_drop_end (v : bool) (f : ab8500_charger_event_flags)
  : ab8500_charger_event_flags :=
  {| mainextchnotok := mainextchnotok f;
     main_thermal_prot := main_thermal_prot f;
     usb_thermal_prot := usb_thermal_prot f; vbus_ovv := vbus_ovv f;
     usbchargernotok := usbchargernotok f; chgwdexp := chgwdexp f;
     vbus_collapse := vbus_collapse f; vbus_drop_end := v;
     report_charger_no_charge := report_charger_no_charge f |}.

Definition set_report_charger_no_charge (v : bool)
  (f : ab8500_charger_event_flags) : ab8500_charger_event_flags :=
  {| mainextchnotok := mainextchnotok f;
     main_thermal_prot := main_thermal_prot f;
     usb_thermal_prot := usb_thermal_prot f; vbus_ovv := vbus_ovv f;
     usbchargernotok := usbchargernotok f; chgwdexp := chgwdexp f;
     vbus_collapse := vbus_collapse f; vbus_drop_end := vbus_drop_end f;
     report_charger_no_charge := v |}.

Definition set_real_max_usb_in_curr (v : Z * Z) (d : ab8500_vbus_drop)
  : ab8500_vbus_drop :=
  {| real_max_usb_in_curr := v;
     retry_current_time := retry_current_time d;
     work_expire := work_expire d |}.

Definition set_retry_current_time (v : Z) (d : ab8500_vbus_drop)
  : ab8500_vbus_drop :=
  {| real_max_usb_in_curr := real_max_usb_in_curr d;
     retry_current_time := v;
     work_expire := work_expire d |}.

(** The general assignment to [*di], one argument per field. *)
Definition update_di (di : ab8500_charger)
  (f_max : Z -> Z) (f_det f_det_start f_autopower : bool -> bool)
  (f_inv : Z -> Z) (f_host : bool -> bool) (f_rid f_sess : Z -> Z)
  (f_flags : ab8500_charger_event_flags -> ab8500_charger_event_flags)
  (f_usb : ab8500_charger_info -> ab8500_charger_info)
  (f_drop : ab8500_vbus_drop -> ab8500_vbus_drop) : ab8500_charger :=
  {| max_usb_in_curr := f_max (max_usb_in_curr di);
     vbus_detected := f_det (vbus_detected di);
     vbus_detected_start := f_det_start (vbus_detected_start di);
     ac_conn := ac_conn di;
     vddadc_en_ac := vddadc_en_ac di;
     vddadc_en_usb := vddadc_en_usb di;
     vbat := vbat di;
     old_vbat := old_vbat di;
     autopower := f_autopower (autopower di);
     invalid_charger_detect_state := f_inv (invalid_charger_detect_state di);
     is_usb_host := f_host (is_usb_host di);
     is_aca_rid := f_rid (is_aca_rid di);
     current_stepping_sessions := f_sess (current_stepping_sessions di);
     pdata := pdata di;
     bat := bat di;
     flags := f_flags (flags di);
     usb_state := usb_state di;
     ac := ac di;
     usb := f_usb (usb di);
     vbus_drop := f_drop (vbus_drop di) |}.

Definition keep {A : Type} (x : A) : A := x.

Definition set_max_usb_in_curr (v : Z) (di : ab8500_charger) :=
  update_di di (fun _ => v) keep keep keep keep keep keep keep keep keep keep.
Definition set_vbus_detected (v : bool) (di : ab8500_charger) :=
  update_di di keep (fun _ => v) keep keep keep keep keep keep keep keep keep.
Definition set_vbus_detected_start (v : bool) (di : ab8500_charger) :=
  update_di di keep keep (fun _ => v) keep keep keep keep keep keep keep keep.
Definition set_autopower (v : bool) (di : ab8500_charger) :=
  update_di di keep keep keep (fun _ => v) keep keep keep keep keep keep keep.
Definition set_invalid_charger_detect_state (v : Z) (di : ab8500_charger) :=
  update_di di keep keep keep keep (fun _ => v) keep keep keep keep keep keep.
Definition set_is_usb_host (v : bool) (di : ab8500_charger) :=
  update_di di keep keep keep keep keep (fun _ => v) keep keep keep keep keep.
Definition set_is_aca_rid (v : Z) (di : ab8500_charger) :=
  update_di di keep keep keep keep keep keep (fun _ => v) keep keep keep keep.
Definition set_current_stepping_sessions (v : Z) (di : ab8500_charger) :=
  update_di di keep keep keep keep keep keep keep (fun _ => v) keep keep keep.
Definition on_flags
  (f : ab8500_charger_event_flags -> ab8500_charger_event_flags)
  (di : ab8500_charger) :=
  update_di di keep keep keep keep keep keep keep keep f keep keep.
Definition on_usb (f : ab8500_charger_info -> ab8500_charger_info)
  (di : ab8500_charger) :=
  update_di di keep keep keep keep keep keep keep keep keep f keep.
Definition on_vbus_drop (f : ab8500_vbus_drop -> ab8500_vbus_drop)
  (di : ab8500_charger) :=
  update_di di keep keep keep keep keep keep keep keep keep keep f.

(** ** The driver's environment

    The chip is reached through the abx500 register interface, the ADC
    and the kernel's work queue and power-supply class.  None of them is
    part of the driver, so each call is recorded in a trace and the
    chip's answers are taken from an arbitrary [abx500_bus]: the answer to
    the n-th call made since the clock started. *)

Inductive power_supply : Type := AC_CHG_PSY | USB_CHG_PSY.

Inductive work_item : Type :=
| CHECK_HW_FAILURE_WORK
| CHECK_USBCHGNOTOK_WORK
| ATTACH_WORK
| VBUS_DROP_END_WORK.

(** The ADC channels of <linux/mfd/abx500/ab8500-gpadc.h> used here. *)
Inductive gpadc_channel : Type := VBUS_V | USB_CHARGER_C.

Inductive event : Type :=
| Get_register (bank reg : Z)
| Set_register (bank reg value : Z)
| Mask_and_set_register (bank reg mask value : Z)
| Gpadc_convert (input : gpadc_channel)
| Msleep (ms : Z)
| Power_supply_changed (psy : power_supply)
| Sysfs_notify (psy : power_supply)
| Queue_delayed_work (w : work_item) (delay_ms : Z)
| Cancel_delayed_work_sync (w : work_item).

(** [bus_reply n] is the return code of the n-th call and, for a read,
    the byte found in [*value] after it.  [gpadc_reply n] is the result
    of a conversion made as n-th call.  [vbus_ch_drop_end_irq n] tells
    whether the VBUS_CH_DROP_END interrupt is served between the n-th
    call and the driver's next look at its flags. *)
Record abx500_bus : Type := {
  bus_reply : nat -> Z * Z;
  gpadc_reply : nat -> Z;
  vbus_ch_drop_end_irq : nat -> bool
}.

Record world : Type := {
  w_di : ab8500_charger;
  w_clock : nat;
  w_trace : list event
}.

(** A driver routine: a function of the world it runs in. *)
Definition prog (A : Type) : Type := world -> A * world.

Definition Return {A : Type} (a : A) : prog A := fun w => (a, w).

Definition bind {A B : Type} (m : prog A) (k : A -> prog B) : prog B :=
  fun w => let (a, w') := m w in k a w'.

Declare Scope prog_scope.
Delimit Scope prog_scope with prog.
Bind Scope prog_scope with prog.

Notation "x <- m ;; k" := (bind m (fun x => k))
  (at level 61, m at next level, right associativity) : prog_scope.
Notation "' pat <- m ;; k" := (bind m (fun x => match x with pat => k end))
  (at level 61, pat pattern, m at next level, right associativity)
  : prog_scope.
Notation "m ;; k" := (bind m (fun _ => k))
  (at level 61, right associativity) : prog_scope.

Open Scope prog_scope.

Definition get_di : prog ab8500_charger := fun w => (w_di w, w).

Definition modify_di (f : ab8500_charger -> ab8500_charger) : prog unit :=
  fun w => (tt, {| w_di := f (w_di w); w_clock := w_clock w;
                   w_trace := w_trace w |}).

(** A call that does not wait for an answer from the chip. *)
Definition emit (e : event) : prog unit :=
  fun w => (tt, {| w_di := w_di w; w_clock := w_clock w;
                   w_trace := w_trace w ++ [e] |}).

(** A call answered by the chip: it is logged and the clock advances. *)
Definition call {A : Type} (e : event) (answer : nat -> A) : prog A :=
  fun w => (answer (w_clock w),
            {| w_di := w_di w; w_clock := S (w_clock w);
               w_trace := w_trace w ++ [e] |}).

Definition when (c : bool) (m : prog unit) : prog unit :=
  if c then m else Return tt.

Section Driver.

Variable h : kernel_headers.
Variable bus : abx500_bus.

Definition abx500_get_register_interruptible (bank reg : Z) : prog (Z * Z) :=
  call (Get_register bank reg)
       (fun n => (fst (bus_reply bus n), to_u8 (snd (bus_reply bus n)))).

Definition abx500_set_register_interruptible (bank reg value : Z) : prog Z :=
  call (Set_register bank reg (to_u8 value)) (fun n => fst (bus_reply bus n)).

Definition abx500_mask_and_set_register_interruptible
  (bank reg bitmask bitvalues : Z) : prog Z :=
  call (Mask_and_set_register bank reg (to_u8 bitmask) (to_u8 bitvalues))
       (fun n => fst (bus_reply bus n)).

Definition ab8500_gpadc_convert (input : gpadc_channel) : prog Z :=
  call (Gpadc_convert input) (fun n => to_int (gpadc_reply bus n)).

Definition msleep (ms : Z) : prog unit := emit (Msleep ms).
Definition power_supply_changed (psy : power_supply) : prog unit :=
  emit (Power_supply_changed psy).
Definition sysfs_notify (psy : power_supply) : prog unit :=
  emit (Sysfs_notify psy).
Definition queue_delayed_work (w : work_item) (delay_ms : Z) : prog unit :=
  emit (Queue_delayed_work w delay_ms).
Definition cancel_delayed_work_sync (w : work_item) : prog unit :=
  emit (Cancel_delayed_work_sync w).

(** *** Connection state and notifications *)

Definition ab8500_enable_disable_sw_fallback (fallback : bool) : prog unit :=
  '(ret, reg) <- abx500_get_register_interruptible 0x15 0x00 ;;
  if truthy ret then Return tt else
  ret <- abx500_set_register_interruptible 0x11 0x00 0x2 ;;
  if truthy ret then Return tt else
  let reg := if fallback then to_u8 (Z.lor reg 0x8)
             else to_u8 (Z.land reg (Z.lnot 0x8)) in
  ret <- abx500_set_register_interruptible 0x15 0x00 reg ;;
  if truthy ret then Return tt else
  ret <- abx500_set_register_interruptible 0x11 0x00 0x0 ;;
  Return tt.

Definition ab8500_power_supply_changed (psy : power_supply) : prog unit :=
  di <- get_di ;;
  when (autopower_cfg (pdata di))
    (if negb (truthy (charger_connected (usb di))) &&
        negb (truthy (charger_connected (ac di))) &&
        autopower di
     then
       modify_di (set_autopower false) ;;
       ab8500_enable_disable_sw_fallback false
     else if negb (autopower di) &&
             (truthy (charger_connected (ac di)) ||
              truthy (charger_connected (usb di)))
     then
       modify_di (set_autopower true) ;;
       ab8500_enable_disable_sw_fallback true
     else Return tt) ;;
  power_supply_changed psy.

Definition ab8500_charger_set_usb_connected (connected : bool) : prog unit :=
  di <- get_di ;;
  when (negb (Z.b2z connected =? charger_connected (usb di)))
    (modify_di (on_usb (set_charger_connected (Z.b2z connected))) ;;
     when (negb connected)
       (modify_di (on_vbus_drop (set_real_max_usb_in_curr (0, 0))) ;;
        modify_di (on_flags (set_vbus_drop_end false)) ;;
        modify_di (on_vbus_drop
          (set_retry_current_time VBUS_IN_CURR_LIM_RETRY_SET_TIME)) ;;
        modify_di (set_is_usb_host false) ;;
        modify_di (set_is_aca_rid 0) ;;
        modify_di (on_flags (set_report_charger_no_charge false))) ;;
     di <- get_di ;;
     if is_usb_host di then sysfs_notify USB_CHG_PSY
     else sysfs_notify AC_CHG_PSY).

Definition ab8500_charger_psy_changed : prog unit :=
  di <- get_di ;;
  if is_usb_host di then power_supply_changed USB_CHG_PSY
  else power_supply_changed AC_CHG_PSY.

Definition ab8500_charger_get_vbus_voltage : prog Z :=
  di <- get_di ;;
  if truthy (charger_connected (usb di)) then ab8500_gpadc_convert VBUS_V
  else Return 0.

(** *** Charger detection *)

Definition ab8500_charger_detect_chargers (probe : bool) : prog Z :=
  let result := NO_PW_CONN in
  when (negb probe) (msleep 110) ;;
  '(ret, val) <- abx500_get_register_interruptible
                   (AB8500_CHARGER h) (AB8500_CH_USBCH_STAT1_REG h) ;;
  if ret <? 0 then Return ret else
  let result :=
    if truthy (Z.land val VBUS_DET_DBNC1) &&
       truthy (Z.land val VBUS_DET_DBNC100)
    then Z.lor result USB_PW_CONN else result in
  Return result.

(** *** USB link classification *)

(** The assignments shared by the plain cases of the switch. *)
Definition usb_type (curr : Z) (host : bool) (rid : Z) : prog unit :=
  modify_di (set_max_usb_in_curr curr) ;;
  modify_di (set_is_usb_host host) ;;
  modify_di (set_is_aca_rid rid).

(** [case USB_STAT_HM_IDGND:] also reached by falling through. *)
Definition usb_type_not_allowed : prog Z :=
  modify_di (set_max_usb_in_curr USB_CH_IP_CUR_LVL_0P05) ;;
  Return (- ENXIO h).

(** [case USB_STAT_NOT_CONFIGURED:] also reached by falling through. *)
Definition usb_type_not_configured : prog Z :=
  di <- get_di ;;
  if truthy (usb_curr_max_nc (chg_params (bat di))) then
    modify_di (set_max_usb_in_curr (usb_curr_max_nc (chg_params (bat di)))) ;;
    Return 0
  else usb_type_not_allowed.

(** [case USB_STAT_RESERVED:] VBUS has collapsed four times in a row. *)
Definition usb_type_reserved : prog Z :=
  vbusv <- ab8500_charger_get_vbus_voltage ;;
  '(ret, val) <- abx500_get_register_interruptible
                   0x02 (AB8500_MAIN_WDOG_CTRL_REG h) ;;
  ret <- abx500_mask_and_set_register_interruptible
           (AB8500_CHARGER h) (AB8500_USBCH_CTRL1_REG h) 0x03 0x02 ;;
  ret <- abx500_set_register_interruptible
           (AB8500_CHARGER h) (AB8500_CHARGER_CTRL h) 0x01 ;;
  ret <- abx500_mask_and_set_register_interruptible
           (AB8500_CHARGER h) (AB8500_USBCH_CTRL1_REG h) 0x03 0x03 ;;
  '(ret, val) <- abx500_get_register_interruptible
                   (AB8500_CHARGER h) 0x02 ;;
  if truthy (Z.land val 0x04) then
    modify_di (on_flags (set_vbus_collapse false)) ;;
    Return 0
  else
    modify_di (on_flags (set_vbus_collapse true)) ;;
    Return (- EBUSY h).

Definition ab8500_charger_max_usb_curr (link_status : Z) : prog Z :=
  ret <-
    match link_status_of_int link_status with
    | Some USB_STAT_STD_HOST_NC
    | Some USB_STAT_STD_HOST_C_NS
    | Some USB_STAT_STD_HOST_C_S =>
        usb_type USB_CH_IP_CUR_LVL_0P5 true 0 ;; Return 0
    | Some USB_STAT_HOST_CHG_HS_CHIRP =>
        usb_type USB_CH_IP_CUR_LVL_0P5 true 0 ;; Return 0
    | Some USB_STAT_HOST_CHG_HS =>
        usb_type USB_CH_IP_CUR_LVL_0P5 true 0 ;; Return 0
    | Some USB_STAT_ACA_RID_C_HS =>
        usb_type USB_CH_IP_CUR_LVL_0P9 false 0 ;; Return 0
    | Some USB_STAT_ACA_RID_A =>
        usb_type USB_CH_IP_CUR_LVL_0P5 false 1 ;; Return 0
    | Some USB_STAT_ACA_RID_B =>
        usb_type USB_CH_IP_CUR_LVL_1P3 false 1 ;; Return 0
    | Some USB_STAT_HOST_CHG_NM =>
        usb_type USB_CH_IP_CUR_LVL_0P5 true 0 ;; Return 0
    | Some USB_STAT_DEDICATED_CHG =>
        usb_type USB_CH_IP_CUR_LVL_1P5 false 0 ;; Return 0
    | Some USB_STAT_ACA_RID_C_HS_CHIRP
    | Some USB_STAT_ACA_RID_C_NM =>
        usb_type USB_CH_IP_CUR_LVL_1P5 false 1 ;; Return 0
    | Some USB_STAT_RESERVED => usb_type_reserved
    | Some USB_STAT_NOT_VALID_LINK => usb_type_not_configured
    | Some USB_STAT_NOT_CONFIGURED => usb_type_not_configured
    | Some USB_STAT_HM_IDGND => usb_type_not_allowed
    | None =>
        modify_di (set_max_usb_in_curr USB_CH_IP_CUR_LVL_0P05) ;;
        Return (- ENXIO h)
    end ;;
  di <- get_di ;;
  modify_di (on_vbus_drop
    (set_real_max_usb_in_curr
       (max_usb_in_curr di, snd (real_max_usb_in_curr (vbus_drop di))))) ;;
  Return ret.

Definition ab8500_charger_read_usb_type : prog Z :=
  '(ret, val) <- abx500_get_register_interruptible
                   (AB8500_INTERRUPT h) (AB8500_IT_SOURCE21_REG h) ;;
  if ret <? 0 then Return ret else
  '(ret, val) <- abx500_get_register_interruptible
                   (AB8500_USB h) (AB8500_USB_LINE_STAT_REG h) ;;
  if ret <? 0 then Return ret else
  let val := to_u8 (Z.shiftr (Z.land val AB8500_USB_LINK_STATUS) 3) in
  ab8500_charger_max_usb_curr val.

(** *** Current stepping *)

Definition ab8500_charger_check_continue_stepping (di : ab8500_charger)
  (reg : Z) : bool :=
  if reg =? AB8500_USBCH_IPT_CRNTLVL_REG h
  then negb (vbus_drop_end (flags di))
  else true.

(** VBUS_CH_DROP_END interrupt: the drop has been removed.  The delay
    [retry_current_time * HZ] is a product of [unsigned int], a second
    taken as 1000 ticks; [round_jiffies] only aligns the timer. *)
Definition ab8500_charger_vbuschdropend_handler : prog unit :=
  modify_di (on_flags (set_vbus_drop_end true)) ;;
  di <- get_di ;;
  queue_delayed_work VBUS_DROP_END_WORK
    (to_u32 (retry_current_time (vbus_drop di) * 1000)).

(** The interrupt thread runs beside the stepping loop; the loop meets
    its effect when it next reads the flags. *)
Definition serve_interrupts : prog unit :=
  fun w =>
    if vbus_ch_drop_end_irq bus (w_clock w)
    then ab8500_charger_vbuschdropend_handler w
    else (tt, w).

(** The value passed for [(u8) i << shift_value] to a [u8] parameter. *)
Definition step_value (i shift_value : Z) : Z :=
  to_u8 (Z.shiftl (to_u8 i) shift_value).

(** [for (i = prev_curr_index - 1; i >= curr_index; i--)] *)
Fixpoint step_down (reg shift_value step_mdelay curr_index : Z)
  (n : nat) (i : Z) (ret : Z) : prog Z :=
  match n with
  | O => Return ret
  | S n' =>
      if i >=? curr_index then
        ret <- abx500_set_register_interruptible
                 (AB8500_CHARGER h) reg (step_value i shift_value) ;;
        if truthy ret then Return ret else
        when (negb (i =? curr_index)) (msleep step_mdelay) ;;
        step_down reg shift_value step_mdelay curr_index n' (i - 1) ret
      else Return ret
  end.

(** [for (i = prev_curr_index + 1; i <= curr_index && allow; i++)] *)
Fixpoint step_up (reg shift_value step_mdelay curr_index : Z)
  (n : nat) (i : Z) (allow : bool) (ret : Z) : prog Z :=
  match n with
  | O => Return ret
  | S n' =>
      if (i <=? curr_index) && allow then
        ret <- abx500_set_register_interruptible
                 (AB8500_CHARGER h) reg (step_value i shift_value) ;;
        if truthy ret then Return ret else
        when (negb (i =? curr_index)) (msleep step_mdelay) ;;
        serve_interrupts ;;
        di <- get_di ;;
        let allow := ab8500_charger_check_continue_stepping di reg in
        step_up reg shift_value step_mdelay curr_index n' (i + 1) allow ret
      else Return ret
  end.

(** What the [switch (reg)] of [ab8500_charger_set_current] settles. *)
Record stepping_plan : Type := {
  shift_value : Z;
  prev_curr_index : Z;
  curr_index : Z;
  step_mdelay : Z;
  no_stepping : bool
}.

(** The [switch (reg)]: the error that leaves the function, or [ret] as
    the switch leaves it together with the plan. *)
Definition set_current_switch (ich reg reg_value ret : Z)
  : prog (Z + Z * stepping_plan) :=
  di <- get_di ;;
  if reg =? AB8500_MCH_IPT_CURLVL_REG h then
    Return (inr (ret, {|
      shift_value := MAIN_CH_INPUT_CURR_SHIFT;
      prev_curr_index := Z.shiftr reg_value MAIN_CH_INPUT_CURR_SHIFT;
      curr_index := ab8500_current_to_regval ich;
      step_mdelay := STEP_MDELAY;
      no_stepping := negb (truthy (charger_connected (ac di))) |}))
  else if reg =? AB8500_USBCH_IPT_CRNTLVL_REG h then
    let prev := Z.shiftr reg_value VBUS_IN_CURR_LIM_SHIFT in
    '(ret, reg_value) <- abx500_get_register_interruptible
                           (AB8500_CHARGER h) (AB8500_CH_USBCH_STAT2_REG h) ;;
    if ret <? 0 then Return (inl ret) else
    let reg_value := Z.shiftr reg_value AUTO_VBUS_IN_CURR_LIM_SHIFT in
    Return (inr (ret, {|
      shift_value := VBUS_IN_CURR_LIM_SHIFT;
      prev_curr_index := Z.min prev reg_value;
      curr_index := ab8500_vbus_in_curr_to_regval ich;
      step_mdelay := STEP_MDELAY * 10;
      no_stepping := negb (truthy (charger_connected (usb di))) |}))
  else if reg =? AB8500_CH_OPT_CRNTLVL_REG h then
    let prev := Z.shiftr reg_value 0 in
    let curr := ab8500_current_to_regval ich in
    Return (inr (ret, {|
      shift_value := 0;
      prev_curr_index := prev;
      curr_index := curr;
      step_mdelay :=
        if curr =? 0 then STEP_MDELAY
        else if curr - prev >? 1 then STEP_MDELAY * 10
        else STEP_MDELAY;
      no_stepping := negb (truthy (charger_connected (usb di))) &&
                     negb (truthy (charger_connected (ac di))) |}))
  else Return (inl (- ENXIO h)).

(** What follows the [switch]: the range check, the unchanged case, and
    the write or the stepping loop.  The result is [ret] at
    [exit_set_current]. *)
Definition set_current_steps (reg : Z) (p : stepping_plan) (ret : Z)
  : prog Z :=
  if curr_index p <? 0 then Return (- ENXIO h)
  else if prev_curr_index p =? curr_index p then Return 0
  else if no_stepping p then
    abx500_set_register_interruptible (AB8500_CHARGER h) reg
      (step_value (curr_index p) (shift_value p))
  else if prev_curr_index p >? curr_index p then
    step_down reg (shift_value p) (step_mdelay p) (curr_index p)
      (Z.to_nat (prev_curr_index p - curr_index p))
      (prev_curr_index p - 1) ret
  else
    step_up reg (shift_value p) (step_mdelay p) (curr_index p)
      (Z.to_nat (curr_index p - prev_curr_index p))
      (prev_curr_index p + 1) true ret.

(** The body of [ab8500_charger_set_current] between the two updates of
    the session counter. *)
Definition set_current_body (ich reg : Z) : prog Z :=
  '(ret, reg_value) <- abx500_get_register_interruptible
                         (AB8500_CHARGER h) reg ;;
  if ret <? 0 then Return ret else
  plan <- set_current_switch ich reg reg_value ret ;;
  match plan with
  | inl ret => Return ret
  | inr (ret, p) => set_current_steps reg p ret
  end.

Definition ab8500_charger_set_current (ich reg : Z) : prog Z :=
  modify_di (fun di => set_current_stepping_sessions
                         (current_stepping_sessions di + 1) di) ;;
  ret <- set_current_body ich reg ;;
  modify_di (fun di => set_current_stepping_sessions
                         (current_stepping_sessions di - 1) di) ;;
  Return ret.

Definition ab8500_charger_set_vbus_in_curr (ich_in : Z) : prog Z :=
  di <- get_di ;;
  let min_value := Z.min (usb_curr_max (chg_params (bat di))) ich_in in
  let min_value :=
    if fst (real_max_usb_in_curr (vbus_drop di)) >? 0
    then Z.min (fst (real_max_usb_in_curr (vbus_drop di))) min_value
    else min_value in
  let min_value :=
    if usb_current (usb_state di) >=? 100
    then Z.min (usb_current (usb_state di)) min_value
    else min_value in
  let min_value :=
    if min_value =? 100 then
      if vbat di <? VBAT_TRESH_IP_CUR_RED then USB_CH_IP_CUR_LVL_0P05
      else min_value
    else if min_value =? 500 then
      if vbat di <? VBAT_TRESH_IP_CUR_RED then USB_CH_IP_CUR_LVL_0P45
      else min_value
    else min_value in
  ab8500_charger_set_current min_value (AB8500_USBCH_IPT_CRNTLVL_REG h).

(** *** Deferred work and interrupt handlers *)

Definition ab8500_charger_check_hw_failure_work : prog unit :=
  di <- get_di ;;
  proceed <-
    (if vbus_ovv (flags di) then
       '(ret, reg_value) <- abx500_get_register_interruptible
                              (AB8500_CHARGER h)
                              (AB8500_CH_USBCH_STAT2_REG h) ;;
       if ret <? 0 then Return false else
       when (negb (truthy (Z.land reg_value VBUS_OVV_TH)))
         (modify_di (on_flags (set_vbus_ovv false)) ;;
          ab8500_power_supply_changed USB_CHG_PSY) ;;
       Return true
     else Return true) ;;
  if proceed then
    di <- get_di ;;
    when (vbus_ovv (flags di))
      (queue_delayed_work CHECK_HW_FAILURE_WORK 1000)
  else Return tt.

Definition ab8500_charger_usb_link_attach_work : prog unit :=
  di <- get_di ;;
  proceed <-
    (if truthy (charger_online (usb di)) then
       ret <- ab8500_charger_set_vbus_in_curr (max_usb_in_curr di) ;;
       Return (negb (truthy ret))
     else Return true) ;;
  if proceed then
    ab8500_charger_set_usb_connected true ;;
    ab8500_charger_psy_changed
  else Return tt.

(** The first half of [ab8500_charger_usb_link_status_work]: forcing the
    chip to accept a charger it found invalid.  [false] is the early
    [return] that waits for the next link status interrupt. *)
Definition invalid_charger_detect (detected_chargers : Z) : prog bool :=
  if truthy (Z.land detected_chargers USB_PW_CONN) then
    '(ret, val) <- abx500_get_register_interruptible
                     (AB8500_USB h) (AB8500_USB_LINE_STAT_REG h) ;;
    di <- get_di ;;
    if (ret >=? 0) &&
       (Z.shiftr (Z.land val AB8500_USB_LINK_STATUS) 3 =?
          int_of_link_status USB_STAT_NOT_VALID_LINK) &&
       (invalid_charger_detect_state di =? 0)
    then
      abx500_mask_and_set_register_interruptible
        (AB8500_CHARGER h) (AB8500_USBCH_CTRL1_REG h)
        USB_CH_ENA USB_CH_ENA ;;
      abx500_mask_and_set_register_interruptible
        (AB8500_USB h) (AB8500_USB_LINE_CTRL2_REG h) 0x01 0x01 ;;
      modify_di (set_invalid_charger_detect_state 1) ;;
      Return false
    else
      when (invalid_charger_detect_state di =? 1)
        (abx500_mask_and_set_register_interruptible
           (AB8500_USB h) (AB8500_USB_LINE_CTRL2_REG h) 0x01 0x00 ;;
         modify_di (set_invalid_charger_detect_state 2)) ;;
      Return true
  else
    modify_di (set_invalid_charger_detect_state 0) ;;
    Return true.

Definition ab8500_charger_usb_link_status_work : prog unit :=
  detected_chargers <- ab8500_charger_detect_chargers false ;;
  if detected_chargers <? 0 then Return tt else
  proceed <- invalid_charger_detect detected_chargers ;;
  if negb proceed then Return tt else
  if negb (truthy (Z.land detected_chargers USB_PW_CONN)) then
    modify_di (set_vbus_detected false) ;;
    ab8500_charger_set_usb_connected false ;;
    ab8500_charger_psy_changed ;;
    cancel_delayed_work_sync ATTACH_WORK
  else
    modify_di (set_vbus_detected true) ;;
    ret <- ab8500_charger_read_usb_type ;;
    if negb (truthy ret) then
      di <- get_di ;;
      if is_aca_rid di =? 1 then
        modify_di (set_is_aca_rid (is_aca_rid di + 1)) ;;
        queue_delayed_work ATTACH_WORK WAIT_ACA_RID_ENUMERATION
      else queue_delayed_work ATTACH_WORK 0
    else if ret =? - ENXIO h then
      modify_di (on_flags (set_report_charger_no_charge true)) ;;
      modify_di (set_is_usb_host true) ;;
      ab8500_charger_set_usb_connected true ;;
      ab8500_charger_psy_changed
    else Return tt.

Definition ab8500_charger_check_usbchargernotok_work : prog unit :=
  '(ret, reg_value) <- abx500_get_register_interruptible
                         (AB8500_CHARGER h) (AB8500_CH_USBCH_STAT2_REG h) ;;
  if ret <? 0 then Return tt else
  di <- get_di ;;
  let prev_status := usbchargernotok (flags di) in
  (if truthy (Z.land reg_value VBUS_CH_NOK) then
     modify_di (on_flags (set_usbchargernotok true)) ;;
     queue_delayed_work CHECK_USBCHGNOTOK_WORK 1000
   else
     modify_di (on_flags (set_usbchargernotok false)) ;;
     modify_di (on_flags (set_vbus_collapse false))) ;;
  di <- get_di ;;
  when (negb (Bool.eqb prev_status (usbchargernotok (flags di))))
    ab8500_charger_psy_changed.

Definition ab8500_charger_check_usb_thermal_prot_work : prog unit :=
  '(ret, reg_value) <- abx500_get_register_interruptible
                         (AB8500_CHARGER h) (AB8500_CH_USBCH_STAT2_REG h) ;;
  if ret <? 0 then Return tt else
  (if truthy (Z.land reg_value USB_CH_TH_PROT) then
     modify_di (on_flags (set_usb_thermal_prot true))
   else
     modify_di (on_flags (set_usb_thermal_prot false))) ;;
  ab8500_charger_psy_changed.

(** The decision of [ab8500_charger_vbus_drop_end_work] once the
    auto-limit register has been read: the new contents of [*vd], and
    [false] for the [return] that gives up retrying. *)
Definition vbus_drop_end_sample (reg_value : Z) (vd : ab8500_vbus_drop)
  : ab8500_vbus_drop * bool :=
  let curr := at_index ab8500_charger_vbus_in_curr_map
                (Z.shiftr reg_value AUTO_VBUS_IN_CURR_LIM_SHIFT) in
  if negb (snd (real_max_usb_in_curr vd) =? curr) then
    (set_retry_current_time VBUS_IN_CURR_LIM_RETRY_SET_TIME
       (set_real_max_usb_in_curr (fst (real_max_usb_in_curr vd), curr) vd),
     true)
  else
    let new_time := to_int (Z.shiftl (retry_current_time vd) 1) in
    if new_time >? VBUS_IN_CURR_LIM_RETRY_MAX_TIME then
      (set_real_max_usb_in_curr
         (snd (real_max_usb_in_curr vd), snd (real_max_usb_in_curr vd)) vd,
       false)
    else (set_retry_current_time (to_u32 new_time) vd, true).

Definition ab8500_charger_vbus_drop_end_work : prog unit :=
  modify_di (on_flags (set_vbus_drop_end false)) ;;
  abx500_set_register_interruptible
    (AB8500_CHARGER h) (AB8500_CHARGER_CTRL h) 0x01 ;;
  '(ret, reg_value) <- abx500_get_register_interruptible
                         (AB8500_CHARGER h) (AB8500_CH_USBCH_STAT2_REG h) ;;
  proceed <-
    (if ret <? 0 then Return true
     else
       di <- get_di ;;
       let (vd, proceed) := vbus_drop_end_sample reg_value (vbus_drop di) in
       modify_di (on_vbus_drop (fun _ => vd)) ;;
       Return proceed) ;;
  if proceed then
    di <- get_di ;;
    if truthy (charger_connected (usb di)) then
      ab8500_charger_set_vbus_in_curr (max_usb_in_curr di) ;; Return tt
    else Return tt
  else Return tt.

Definition ab8500_charger_vbusovv_handler : prog unit :=
  modify_di (on_flags (set_vbus_ovv true)) ;;
  ab8500_charger_psy_changed ;;
  queue_delayed_work CHECK_HW_FAILURE_WORK 0.

(** *** Power-supply properties *)

Definition ab8500_charger_get_usb_current : prog Z :=
  di <- get_di ;;
  if truthy (charger_online (usb di))
  then ab8500_gpadc_convert USB_CHARGER_C
  else Return 0.

Definition ab8500_charger_usb_cv : prog Z :=
  di <- get_di ;;
  if truthy (charger_online (usb di)) then
    '(ret, val) <- abx500_get_register_interruptible
                     (AB8500_CHARGER h) (AB8500_CH_USBCH_STAT1_REG h) ;;
    if ret <? 0 then Return 0
    else if truthy (Z.land val USB_CH_CV_ON) then Return 1
    else Return 0
  else Return 0.

(** [case POWER_SUPPLY_PROP_HEALTH:] *)
Definition usb_health (di : ab8500_charger) : power_supply_health :=
  if report_charger_no_charge (flags di) then POWER_SUPPLY_HEALTH_UNKNOWN
  else if usbchargernotok (flags di) then POWER_SUPPLY_HEALTH_UNSPEC_FAILURE
  else if wd_expired (ac di) || wd_expired (usb di)
       then POWER_SUPPLY_HEALTH_DEAD
  else if usb_thermal_prot (flags di) then POWER_SUPPLY_HEALTH_OVERHEAT
  else if vbus_ovv (flags di) then POWER_SUPPLY_HEALTH_OVERVOLTAGE
  else POWER_SUPPLY_HEALTH_GOOD.

(** The result pairs the return code with the value stored in [*val];
    [old] is what [*val] held before the call. *)
Definition ab8500_charger_usb_get_property (psy_type : power_supply_type)
  (psp : power_supply_property) (old : power_supply_propval)
  : prog (Z * power_supply_propval) :=
  match psy_type with
  | POWER_SUPPLY_TYPE_MAINS | POWER_SUPPLY_TYPE_USB =>
      di <- get_di ;;
      match psp with
      | POWER_SUPPLY_PROP_HEALTH => Return (0, Health (usb_health di))
      | POWER_SUPPLY_PROP_ONLINE
      | POWER_SUPPLY_PROP_PRESENT =>
          match psy_type with
          | POWER_SUPPLY_TYPE_MAINS =>
              if is_usb_host di then Return (0, Intval 0)
              else Return (0, Intval (charger_connected (usb di)))
          | _ =>
              if is_usb_host di
              then Return (0, Intval (charger_connected (usb di)))
              else Return (0, Intval 0)
          end
      | POWER_SUPPLY_PROP_VOLTAGE_NOW =>
          v <- ab8500_charger_get_vbus_voltage ;;
          modify_di (on_usb (set_charger_voltage v)) ;;
          Return (0, Intval (to_int (v * 1000)))
      | POWER_SUPPLY_PROP_VOLTAGE_AVG =>
          v <- ab8500_charger_usb_cv ;;
          modify_di (on_usb (set_cv_active v)) ;;
          Return (0, Intval v)
      | POWER_SUPPLY_PROP_CURRENT_NOW =>
          v <- ab8500_charger_get_usb_current ;;
          Return (0, Intval (to_int (v * 1000)))
      | POWER_SUPPLY_PROP_CURRENT_AVG =>
          if vbus_collapse (flags di) then Return (0, Intval 1)
          else Return (0, Intval 0)
      | _ => Return (- EINVAL h, old)
      end
  | _ => Return (- ENXIO h, old)
  end.

End Driver.

(** ** Vocabulary of the properties *)

(** The state of [*di] when [ab8500_charger_probe] has filled it in:
    [kzalloc] clears it, then the probe sets the platform data and
    [usb_state.usb_current = -1]. *)
Definition no_flags : ab8500_charger_event_flags :=
  {| mainextchnotok := false; main_thermal_prot := false;
     usb_thermal_prot := false; vbus_ovv := false; usbchargernotok := false;
     chgwdexp := false; vbus_collapse := false; vbus_drop_end := false;
     report_charger_no_charge := false |}.

Definition no_charger : ab8500_charger_info :=
  {| charger_connected := 0; charger_online := 0; charger_voltage := 0;
     cv_active := 0; wd_expired := false |}.

Definition probe_usb_state : ab8500_charger_usb_state :=
  {| usb_current := -1; usb_current_tmp := 0;
     state := AB8500_BM_USB_STATE_RESET_HS;
     state_tmp := AB8500_BM_USB_STATE_RESET_HS |}.

Definition probe_di (pd : ab8500_charger_platform_data) (b : ab8500_bm_data)
  : ab8500_charger :=
  {| max_usb_in_curr := 0; vbus_detected := false;
     vbus_detected_start := false; ac_conn := false;
     vddadc_en_ac := false; vddadc_en_usb := false;
     vbat := 0; old_vbat := 0; autopower := false;
     invalid_charger_detect_state := 0; is_usb_host := false;
     is_aca_rid := 0; current_stepping_sessions := 0;
     pdata := pd; bat := b; flags := no_flags;
     usb_state := probe_usb_state; ac := no_charger; usb := no_charger;
     vbus_drop := {| real_max_usb_in_curr := (0, 0);
                     retry_current_time := 0; work_expire := 0 |} |}.

(** A board description and a bus that answers every call alike. *)
Definition sample_bat : ab8500_bm_data :=
  {| chg_params := {| usb_curr_max := 1500; usb_curr_max_nc := 0 |};
     enable_overshoot := false |}.

Definition sample_pdata : ab8500_charger_platform_data :=
  {| autopower_cfg := false |}.

Definition steady_bus (ret val : Z) : abx500_bus :=
  {| bus_reply := fun _ => (ret, val);
     gpadc_reply := fun _ => 0;
     vbus_ch_drop_end_irq := fun _ => false |}.

(** The same bus with the VBUS_CH_DROP_END interrupt served at time [t]. *)
Definition drop_end_bus (ret val : Z) (t : nat) : abx500_bus :=
  {| bus_reply := fun _ => (ret, val);
     gpadc_reply := fun _ => 0;
     vbus_ch_drop_end_irq := fun n => Nat.eqb n t |}.

(** A bus whose answer depends on the time of the call. *)
Definition scripted_bus (script : list (Z * Z)) : abx500_bus :=
  {| bus_reply := fun n => nth n script (0, 0);
     gpadc_reply := fun _ => 0;
     vbus_ch_drop_end_irq := fun _ => false |}.

(** A bus whose registers hold [val] until time [t] and [val'] from then
    on, every call answered without error. *)
Definition changing_bus (t : nat) (val val' : Z) : abx500_bus :=
  {| bus_reply := fun n => (0, if (n <? t)%nat then val else val');
     gpadc_reply := fun _ => 0;
     vbus_ch_drop_end_irq := fun _ => false |}.

Definition boot (di : ab8500_charger) : world :=
  {| w_di := di; w_clock := O; w_trace := [] |}.

(** The events a routine added to the trace. *)
Definition events_since (w w' : world) : list event :=
  skipn (length (w_trace w)) (w_trace w').

(** The bytes written to one register, in the order of the writes. *)
Fixpoint register_writes (bank reg : Z) (t : list event) : list Z :=
  match t with
  | [] => []
  | Set_register b r v :: t' =>
      if (b =? bank) && (r =? reg) then v :: register_writes bank reg t'
      else register_writes bank reg t'
  | _ :: t' => register_writes bank reg t'
  end.

(** Calls that change a register of the chip. *)
Definition is_write (e : event) : bool :=
  match e with
  | Set_register _ _ _ | Mask_and_set_register _ _ _ _ => true
  | _ => false
  end.

Definition hardware_writes (t : list event) : list event :=
  filter is_write t.

(** A table whose entries grow strictly, as a check that computes. *)
Fixpoint increasing (a : list Z) : bool :=
  match a with
  | x :: (y :: _) as t => (x <? y) && increasing t
  | _ => true
  end.


(** What the lookup claims of an encoder [enc] for a table [a]: an entry
    of the table is encoded to its own index, the code that decodes to
    it, a value strictly between two entries gets the code of the lower
    one, and a value above the top entry is rejected. *)
Definition encodes_table (enc : Z -> Z) (a : list Z) : Prop :=
  (forall k, 0 <= k < ARRAY_SIZE a ->
     enc (at_index a k) = k /\
     at_index a (enc (at_index a k)) = at_index a k) /\
  (forall k x, 0 <= k < ARRAY_SIZE a - 1 ->
     at_index a k < x < at_index a (k + 1) ->
     enc x = k /\ at_index a (enc x) < x) /\
  (forall x, at_index a (ARRAY_SIZE a - 1) < x -> enc x < 0).

(** Values below the lowest entry get the lowest code. *)
Definition floors_below (enc : Z -> Z) (a : list Z) : Prop :=
  forall x, x < at_index a 0 -> enc x = 0.



(** The only change an interrupt served during stepping makes to [*di]. *)
Definition drop_end_raised (di di' : ab8500_charger) : Prop :=
  di' = di \/ di' = on_flags (set_vbus_drop_end true) di.

(** The shape shared by the three encoders: the floor [low] below the
    first entry, the scan from [start], the test of the last entry. *)
Definition table_to_regval (a : list Z) (start low : Z) (x : Z) : Z :=
  if x <? at_index a 0 then low
  else
    match regval_scan a x start (Z.to_nat (ARRAY_SIZE a - start)) with
    | Some r => r
    | None => regval_last a x
    end.

(** The write that sets code [c] in a current register. *)
Definition step_write (h : kernel_headers) (reg sh c : Z) : event :=
  Set_register (AB8500_CHARGER h) reg (step_value c sh).


(** *** What [ab8500_charger_set_current] works with

    The three current registers, and for each of them the code the
    function takes as previous (from the chip's answers at time [t]),
    the code it aims at, the position of the code in the register, the
    number of reads before the first write, and the charger whose
    presence allows stepping. *)
Definition supported_register (h : kernel_headers) (reg : Z) : Prop :=
  reg = AB8500_MCH_IPT_CURLVL_REG h \/
  reg = AB8500_USBCH_IPT_CRNTLVL_REG h \/
  reg = AB8500_CH_OPT_CRNTLVL_REG h.

Definition previous_code (h : kernel_headers) (bus : abx500_bus)
  (reg : Z) (t : nat) : Z :=
  let reg_value := to_u8 (snd (bus_reply bus t)) in
  if reg =? AB8500_MCH_IPT_CURLVL_REG h then Z.shiftr reg_value 4
  else if reg =? AB8500_USBCH_IPT_CRNTLVL_REG h then
    Z.min (Z.shiftr reg_value 4)
          (Z.shiftr (to_u8 (snd (bus_reply bus (S t)))) 4)
  else reg_value.

Definition target_code (h : kernel_headers) (reg ich : Z) : Z :=
  if reg =? AB8500_USBCH_IPT_CRNTLVL_REG h
  then ab8500_vbus_in_curr_to_regval ich
  else ab8500_current_to_regval ich.

Definition register_shift (h : kernel_headers) (reg : Z) : Z :=
  if reg =? AB8500_CH_OPT_CRNTLVL_REG h then 0 else 4.




(** The write that puts code [c] into the code field of [reg]. *)
Definition code_write (h : kernel_headers) (reg c : Z) : event :=
  Set_register (AB8500_CHARGER h) reg (Z.shiftl c (register_shift h reg)).

(** The driver state of the samples: a USB charger is plugged in. *)
Definition usb_plugged_di : ab8500_charger :=
  on_usb (set_charger_connected 1) (probe_di sample_pdata sample_bat).





(** *** The recovery from a collapsed VBUS

    The calls of [case USB_STAT_RESERVED:] after the voltage measurement,
    and the byte that the last of them, the poll of the charger status,
    leaves in [val]. *)
Definition recovery_sequence (h : kernel_headers) : list event :=
  [ Get_register 0x02 (AB8500_MAIN_WDOG_CTRL_REG h);
    Mask_and_set_register (AB8500_CHARGER h) (AB8500_USBCH_CTRL1_REG h)
      0x03 0x02;
    Set_register (AB8500_CHARGER h) (AB8500_CHARGER_CTRL h) 0x01;
    Mask_and_set_register (AB8500_CHARGER h) (AB8500_USBCH_CTRL1_REG h)
      0x03 0x03;
    Get_register (AB8500_CHARGER h) 0x02 ].

Definition vbus_measurement (w : world) : list event :=
  if truthy (charger_connected (usb (w_di w)))
  then [Gpadc_convert VBUS_V] else [].

Definition polled_status (bus : abx500_bus) (w : world) : Z :=
  to_u8 (snd (bus_reply bus
                (w_clock w + length (vbus_measurement w) + 4)%nat)).

(** *** The event flags by name *)
Inductive flag_name : Type :=
| Mainextchnotok
| Main_thermal_prot
| Usb_thermal_prot
| Vbus_ovv
| Usbchargernotok
| Chgwdexp
| Vbus_collapse
| Vbus_drop_end
| Report_charger_no_charge.

Definition flag_value (n : flag_name) (f : ab8500_charger_event_flags)
  : bool :=
  match n with
  | Mainextchnotok => mainextchnotok f
  | Main_thermal_prot => main_thermal_prot f
  | Usb_thermal_prot => usb_thermal_prot f
  | Vbus_ovv => vbus_ovv f
  | Usbchargernotok => usbchargernotok f
  | Chgwdexp => chgwdexp f
  | Vbus_collapse => vbus_collapse f
  | Vbus_drop_end => vbus_drop_end f
  | Report_charger_no_charge => report_charger_no_charge f
  end.

(** From [f] to [f'] a flag has gone from false to true only if it is
    in [raised], and from true to false only if it is in [cleared]. *)
Definition flag_moves (raised cleared : list flag_name)
  (f f' : ab8500_charger_event_flags) : Prop :=
  forall n,
    (flag_value n f = false -> flag_value n f' = true -> In n raised) /\
    (flag_value n f = true -> flag_value n f' = false -> In n cleared).

(** The bit of the status byte that a check task samples. *)
Definition status_bit (bus : abx500_bus) (w : world) (mask : Z) : bool :=
  truthy (Z.land (to_u8 (snd (bus_reply bus (w_clock w)))) mask).

(** A routine that raises no flag outside [raised] and clears no flag
    outside [cleared], whatever the world it runs in. *)
Definition writes_flags {A : Type} (raised cleared : list flag_name)
  (m : prog A) : Prop :=
  forall w,
    flag_moves raised cleared (flags (w_di w)) (flags (w_di (snd (m w)))).

(** The routines of the driver that assign an event flag: two interrupt
    handlers, three check tasks, two other deferred works, the
    connection update and the USB classification. *)
Inductive flag_writer : Type :=
| Vbusovv_handler
| Vbuschdropend_handler
| Check_hw_failure_work
| Check_usbchargernotok_work
| Check_usb_thermal_prot_work
| Vbus_drop_end_work
| Usb_link_status_work
| Set_usb_connected (connected : bool)
| Max_usb_curr (link_status : Z).

Definition writer_run (h : kernel_headers) (bus : abx500_bus)
  (r : flag_writer) (w : world) : world :=
  match r with
  | Vbusovv_handler => snd (ab8500_charger_vbusovv_handler w)
  | Vbuschdropend_handler => snd (ab8500_charger_vbuschdropend_handler w)
  | Check_hw_failure_work =>
      snd (ab8500_charger_check_hw_failure_work h bus w)
  | Check_usbchargernotok_work =>
      snd (ab8500_charger_check_usbchargernotok_work h bus w)
  | Check_usb_thermal_prot_work =>
      snd (ab8500_charger_check_usb_thermal_prot_work h bus w)
  | Vbus_drop_end_work => snd (ab8500_charger_vbus_drop_end_work h bus w)
  | Usb_link_status_work =>
      snd (ab8500_charger_usb_link_status_work h bus w)
  | Set_usb_connected c => snd (ab8500_charger_set_usb_connected c w)
  | Max_usb_curr l => snd (ab8500_charger_max_usb_curr h bus l w)
  end.

(** The flags each of them can take from false to true ... *)
Definition may_raise (r : flag_writer) : list flag_name :=
  match r with
  | Vbusovv_handler => [Vbus_ovv]
  | Vbuschdropend_handler => [Vbus_drop_end]
  | Check_hw_failure_work => []
  | Check_usbchargernotok_work => [Usbchargernotok]
  | Check_usb_thermal_prot_work => [Usb_thermal_prot]
  | Vbus_drop_end_work => []
  | Usb_link_status_work => [Vbus_collapse; Report_charger_no_charge]
  | Set_usb_connected _ => []
  | Max_usb_curr _ => [Vbus_collapse]
  end.

(** ... and from true to false. *)
Definition may_clear (r : flag_writer) : list flag_name :=
  match r with
  | Vbusovv_handler => []
  | Vbuschdropend_handler => []
  | Check_hw_failure_work => [Vbus_ovv]
  | Check_usbchargernotok_work => [Usbchargernotok; Vbus_collapse]
  | Check_usb_thermal_prot_work => [Usb_thermal_prot]
  | Vbus_drop_end_work => [Vbus_drop_end]
  | Usb_link_status_work =>
      [Vbus_collapse; Vbus_drop_end; Report_charger_no_charge]
  | Set_usb_connected _ => [Vbus_drop_end; Report_charger_no_charge]
  | Max_usb_curr _ => [Vbus_collapse]
  end.

(** A state in which the watchdog has expired and the thermal protection
    is active while the link-status work has reported that no charge is
    possible. *)
Definition expired_hot_no_charge_di : ab8500_charger :=
  update_di (probe_di sample_pdata sample_bat)
    keep keep keep keep keep (fun _ => true) keep keep
    (fun f => set_report_charger_no_charge true
                (set_usb_thermal_prot true f))
    (fun u => {| charger_connected := 1; charger_online := 1;
                 charger_voltage := charger_voltage u;
                 cv_active := cv_active u; wd_expired := true |})
    keep.

(** A state with a configured USB host that grants 500 mA, after two
    drop-end observations. *)
Definition configured_usb_state : ab8500_charger_usb_state :=
  {| usb_current := 500; usb_current_tmp := 500;
     state := AB8500_BM_USB_STATE_CONFIGURED;
     state_tmp := AB8500_BM_USB_STATE_CONFIGURED |}.

Definition configured_di : ab8500_charger :=
  {| max_usb_in_curr := 500; vbus_detected := true;
     vbus_detected_start := false; ac_conn := false;
     vddadc_en_ac := false; vddadc_en_usb := true;
     vbat := 3900; old_vbat := 3900; autopower := false;
     invalid_charger_detect_state := 0; is_usb_host := true;
     is_aca_rid := 0; current_stepping_sessions := 0;
     pdata := sample_pdata; bat := sample_bat; flags := no_flags;
     usb_state := configured_usb_state; ac := no_charger;
     usb := {| charger_connected := 1; charger_online := 1;
               charger_voltage := 0; cv_active := 0; wd_expired := false |};
     vbus_drop := {| real_max_usb_in_curr := (500, 380);
                     retry_current_time := 60; work_expire := 0 |} |}.

(** A state in which the driver holds the AC charger for connected. *)
Definition ac_plugged_di : ab8500_charger :=
  {| max_usb_in_curr := 0; vbus_detected := false;
     vbus_detected_start := false; ac_conn := true;
     vddadc_en_ac := true; vddadc_en_usb := false;
     vbat := 3900; old_vbat := 3900; autopower := false;
     invalid_charger_detect_state := 0; is_usb_host := false;
     is_aca_rid := 0; current_stepping_sessions := 0;
     pdata := sample_pdata; bat := sample_bat; flags := no_flags;
     usb_state := probe_usb_state;
     ac := {| charger_connected := 1; charger_online := 1;
              charger_voltage := 0; cv_active := 0; wd_expired := false |};
     usb := no_charger;
     vbus_drop := {| real_max_usb_in_curr := (0, 0);
                     retry_current_time := 0; work_expire := 0 |} |}.

(** The status byte that [ab8500_charger_detect_chargers] samples. *)
Definition usbch_stat1 (bus : abx500_bus) (w : world) : Z :=
  to_u8 (snd (bus_reply bus (w_clock w))).

(** *** The VBUS drop controller

    The ceiling that a byte of the auto-limit register stands for, the
    byte that the drop-end work samples (its second call, after the reset
    of the drop counter), the world in which the work, its sample taken,
    goes on to retry, and [n] observations of the same byte in a row. *)
Definition auto_limit_ceiling (reg_value : Z) : Z :=
  at_index ab8500_charger_vbus_in_curr_map
    (Z.shiftr reg_value AUTO_VBUS_IN_CURR_LIM_SHIFT).

Definition drop_end_sample_byte (bus : abx500_bus) (w : world) : Z :=
  to_u8 (snd (bus_reply bus (S (w_clock w)))).

Definition drop_end_sampled (h : kernel_headers) (bus : abx500_bus)
  (w : world) : world :=
  {| w_di := on_vbus_drop
               (fun vd => fst (vbus_drop_end_sample
                                 (drop_end_sample_byte bus w) vd))
               (on_flags (set_vbus_drop_end false) (w_di w));
     w_clock := S (S (w_clock w));
     w_trace := w_trace w ++
       [ Set_register (AB8500_CHARGER h) (AB8500_CHARGER_CTRL h) 0x01;
         Get_register (AB8500_CHARGER h) (AB8500_CH_USBCH_STAT2_REG h) ] |}.

Fixpoint drop_end_observations (n : nat) (reg_value : Z)
  (vd : ab8500_vbus_drop) : ab8500_vbus_drop :=
  match n with
  | O => vd
  | S n' =>
      drop_end_observations n' reg_value
        (fst (vbus_drop_end_sample reg_value vd))
  end.

(** [n] rounds of the drop-end interrupt followed by its deferred work. *)
Fixpoint drop_end_rounds (h : kernel_headers) (bus : abx500_bus) (n : nat)
  (w : world) : world :=
  match n with
  | O => w
  | S n' =>
      drop_end_rounds h bus n'
        (snd (ab8500_charger_vbus_drop_end_work h bus
                (snd (ab8500_charger_vbuschdropend_handler w))))
  end.

(** The freeze as the specification words it, for the rest of the
    connection: from the world [w] in which a work has given up retrying,
    every later round of interrupt and work that finds the USB charger
    still connected leaves the raw ceiling and the backoff alone and
    writes no input current. *)
Definition frozen_for_session (h : kernel_headers) (bus : abx500_bus)
  (w : world) : Prop :=
  forall n,
    let wn := drop_end_rounds h bus n w in
    truthy (charger_connected (usb (w_di wn))) = true ->
    vbus_drop (w_di wn) = vbus_drop (w_di w) /\
    register_writes (AB8500_CHARGER h) (AB8500_USBCH_IPT_CRNTLVL_REG h)
      (events_since w wn) = [].

(** A routine that leaves [di->vbus_drop] as it is. *)
Definition keeps_vbus_drop {A : Type} (m : prog A) : Prop :=
  forall w, vbus_drop (w_di (snd (m w))) = vbus_drop (w_di w).

(** ** The USB stack, the charging interface and the start-up code

    The routines of the driver that the sections above do not need: the
    current granted by the USB stack, the detection of the USB type at
    plug-in, the interface that the charging algorithm calls
    ([ab8500_charger_usb_en] and its companions), the battery-voltage
    check, the watchdog set-up and the initialisation of the chip. *)

(** *** Further constants of the driver *)

Definition MAIN_WDOG_ENA : Z := 0x01.
Definition MAIN_WDOG_KICK : Z := 0x02.
Definition USB_CHG_NO_OVERSHOOT_ENA_N : Z := 0x02.
Definition LED_INDICATOR_PWM_ENA : Z := 0x01.
Definition LED_INDICATOR_PWM_DIS : Z := 0x00.
Definition LED_IND_CUR_5MA : Z := 0x04.
Definition LED_INDICATOR_PWM_DUTY_252_256 : Z := 0xBF.
Definition WD_TIMER : Z := 0x30.
Definition AB8500_OTP_NO_OF_REGS : Z := 0x10.

(** *** Assignments to the remaining fields *)

Definition set_charger_online (v : Z) (c : ab8500_charger_info)
  : ab8500_charger_info :=
  {| charger_connected := charger_connected c; charger_online := v;
     charger_voltage := charger_voltage c; cv_active := cv_active c;
     wd_expired := wd_expired c |}.

Definition set_wd_expired (v : bool) (c : ab8500_charger_info)
  : ab8500_charger_info :=
  {| charger_connected := charger_connected c;
     charger_online := charger_online c;
     charger_voltage := charger_voltage c; cv_active := cv_active c;
     wd_expired := v |}.

Definition set_usb_current (v : Z) (s : ab8500_charger_usb_state)
  : ab8500_charger_usb_state :=
  {| usb_current := v; usb_current_tmp := usb_current_tmp s;
     state := state s; state_tmp := state_tmp s |}.

Definition set_usb_current_tmp (v : Z) (s : ab8500_charger_usb_state)
  : ab8500_charger_usb_state :=
  {| usb_current := usb_current s; usb_current_tmp := v;
     state := state s; state_tmp := state_tmp s |}.

Definition set_state (v : ab8500_usb_state) (s : ab8500_charger_usb_state)
  : ab8500_charger_usb_state :=
  {| usb_current := usb_current s; usb_current_tmp := usb_current_tmp s;
     state := v; state_tmp := state_tmp s |}.

Definition set_state_tmp (v : ab8500_usb_state)
  (s : ab8500_charger_usb_state) : ab8500_charger_usb_state :=
  {| usb_current := usb_current s; usb_current_tmp := usb_current_tmp s;
     state := state s; state_tmp := v |}.

(** The assignment to the fields of [*di] that [update_di] leaves alone. *)
Definition update_di_rest (di : ab8500_charger)
  (f_vddadc_usb : bool -> bool) (f_vbat f_old_vbat : Z -> Z)
  (f_usb_state : ab8500_charger_usb_state -> ab8500_charger_usb_state)
  (f_ac : ab8500_charger_info -> ab8500_charger_info) : ab8500_charger :=
  {| max_usb_in_curr := max_usb_in_curr di;
     vbus_detected := vbus_detected di;
     vbus_detected_start := vbus_detected_start di;
     ac_conn := ac_conn di;
     vddadc_en_ac := vddadc_en_ac di;
     vddadc_en_usb := f_vddadc_usb (vddadc_en_usb di);
     vbat := f_vbat (vbat di);
     old_vbat := f_old_vbat (old_vbat di);
     autopower := autopower di;
     invalid_charger_detect_state := invalid_charger_detect_state di;
     is_usb_host := is_usb_host di;
     is_aca_rid := is_aca_rid di;
     current_stepping_sessions := current_stepping_sessions di;
     pdata := pdata di;
     bat := bat di;
     flags := flags di;
     usb_state := f_usb_state (usb_state di);
     ac := f_ac (ac di);
     usb := usb di;
     vbus_drop := vbus_drop di |}.

Definition set_vddadc_en_usb (v : bool) (di : ab8500_charger) :=
  update_di_rest di (fun _ => v) keep keep keep keep.
Definition set_vbat (v : Z) (di : ab8500_charger) :=
  update_di_rest di keep (fun _ => v) keep keep keep.
Definition set_old_vbat (v : Z) (di : ab8500_charger) :=
  update_di_rest di keep keep (fun _ => v) keep keep.
Definition on_usb_state
  (f : ab8500_charger_usb_state -> ab8500_charger_usb_state)
  (di : ab8500_charger) :=
  update_di_rest di keep keep keep f keep.
Definition on_ac (f : ab8500_charger_info -> ab8500_charger_info)
  (di : ab8500_charger) :=
  update_di_rest di keep keep keep keep f.

Section UsbStack.

Variable h : kernel_headers.
Variable bus : abx500_bus.

(** [is_ab8500_1p1_or_earlier(di->parent)]: the revision of the chip the
    driver was probed on. *)
Variable is_ab8500_1p1_or_earlier : bool.

(** *** The current granted by the USB stack *)

Definition ab8500_charger_get_usb_cur : prog Z :=
  di <- get_di ;;
  let usb_current := usb_current (usb_state di) in
  ret <-
    (if usb_current =? 100 then
       modify_di (set_max_usb_in_curr USB_CH_IP_CUR_LVL_0P09) ;; Return 0
     else if usb_current =? 200 then
       modify_di (set_max_usb_in_curr USB_CH_IP_CUR_LVL_0P19) ;; Return 0
     else if usb_current =? 300 then
       modify_di (set_max_usb_in_curr USB_CH_IP_CUR_LVL_0P29) ;; Return 0
     else if usb_current =? 400 then
       modify_di (set_max_usb_in_curr USB_CH_IP_CUR_LVL_0P38) ;; Return 0
     else if usb_current =? 500 then
       modify_di (set_max_usb_in_curr USB_CH_IP_CUR_LVL_0P5) ;; Return 0
     else
       modify_di (set_max_usb_in_curr USB_CH_IP_CUR_LVL_0P05) ;;
       Return (- EPERM h)) ;;
  di <- get_di ;;
  modify_di (on_vbus_drop
    (set_real_max_usb_in_curr
       (max_usb_in_curr di, snd (real_max_usb_in_curr (vbus_drop di))))) ;;
  Return ret.

(** *** Detection of the USB type at plug-in *)

(** [for (i = 0; i < 10; i++)] of [ab8500_charger_detect_usb_type], with
    [n] turns still to run: [inl ret] is a [return ret] from inside the
    loop, [inr val] the end of the loop with [val] as it stands. *)
Fixpoint detect_usb_type_poll (n : nat) (val : Z) : prog (Z + Z) :=
  match n with
  | O => Return (inr val)
  | S n' =>
      msleep 250 ;;
      '(ret, val) <- abx500_get_register_interruptible bus
                       (AB8500_INTERRUPT h) (AB8500_IT_SOURCE21_REG h) ;;
      if ret <? 0 then Return (inl ret) else
      '(ret, val) <- abx500_get_register_interruptible bus
                       (AB8500_USB h) (AB8500_USB_LINE_STAT_REG h) ;;
      if ret <? 0 then Return (inl ret) else
      let val := to_u8 (Z.shiftr (Z.land val AB8500_USB_LINK_STATUS) 3) in
      if truthy val then Return (inr val)
      else detect_usb_type_poll n' val
  end.

Definition ab8500_charger_detect_usb_type : prog Z :=
  r <- detect_usb_type_poll 10 0 ;;
  match r with
  | inl ret => Return ret
  | inr val => ab8500_charger_max_usb_curr h bus val
  end.

(** The branch shared by the two revisions of the chip. *)
Definition detect_usb_type_and_connect : prog unit :=
  ret <- ab8500_charger_detect_usb_type ;;
  when (negb (truthy ret))
    (ab8500_charger_set_usb_connected true ;;
     ab8500_charger_psy_changed).

Definition ab8500_charger_detect_usb_type_work : prog unit :=
  ret <- ab8500_charger_detect_chargers h bus false ;;
  if ret <? 0 then Return tt else
  if negb (truthy (Z.land ret USB_PW_CONN)) then
    modify_di (set_vbus_detected false) ;;
    ab8500_charger_set_usb_connected false ;;
    ab8500_charger_psy_changed
  else
    modify_di (set_vbus_detected true) ;;
    if is_ab8500_1p1_or_earlier then detect_usb_type_and_connect
    else
      di <- get_di ;;
      when (vbus_detected_start di)
        (modify_di (set_vbus_detected_start false) ;;
         detect_usb_type_and_connect).

(** *** The state reported by the USB stack *)

(** [case AB8500_BM_USB_STATE_CONFIGURED:] also reached by falling
    through from RESUME. *)
Definition usb_state_configured : prog unit :=
  ret <- ab8500_charger_get_usb_cur ;;
  if negb (truthy ret) then
    di <- get_di ;;
    ret <- ab8500_charger_set_vbus_in_curr h bus (max_usb_in_curr di) ;;
    if truthy ret then Return tt else
    ab8500_charger_set_usb_connected true ;;
    ab8500_charger_psy_changed
  else Return tt.

Definition ab8500_charger_usb_state_changed_work : prog unit :=
  di <- get_di ;;
  if negb (vbus_detected di) then Return tt else
  modify_di (on_usb_state (fun s => set_state (state_tmp s) s)) ;;
  modify_di (on_usb_state (fun s => set_usb_current (usb_current_tmp s) s)) ;;
  di <- get_di ;;
  match state (usb_state di) with
  | AB8500_BM_USB_STATE_RESET_HS
  | AB8500_BM_USB_STATE_RESET_FS
  | AB8500_BM_USB_STATE_SUSPEND
  | AB8500_BM_USB_STATE_MAX =>
      ab8500_charger_set_usb_connected false ;;
      ab8500_charger_psy_changed
  | AB8500_BM_USB_STATE_RESUME =>
      msleep 1000 ;;
      usb_state_configured
  | AB8500_BM_USB_STATE_CONFIGURED => usb_state_configured
  end.

(** *** Output current and watchdog *)

Definition ab8500_charger_set_output_curr (ich_out : Z) : prog Z :=
  ab8500_charger_set_current h bus ich_out (AB8500_CH_OPT_CRNTLVL_REG h).

(** CH_WD_EXP interrupt: the charger watchdog has expired. *)
Definition ab8500_charger_chwdexp_handler : prog unit :=
  di <- get_di ;;
  when (truthy (charger_online (ac di)))
    (modify_di (on_ac (set_wd_expired true)) ;;
     ab8500_charger_psy_changed) ;;
  di <- get_di ;;
  when (truthy (charger_online (usb di)))
    (modify_di (on_usb (set_wd_expired true)) ;;
     ab8500_charger_psy_changed).

End UsbStack.

(** *** Vocabulary: what a routine does in every world

    [always I m]: the worlds before and after any run of [m] are related
    by [I].  Two relations are used: a field of [*di] read with [f] is the
    same after as before, and the trace has only grown, by events that
    all satisfy [P]. *)
Definition always {A : Type} (I : world -> world -> Prop) (m : prog A)
  : Prop :=
  forall w, I w (snd (m w)).

Definition same_field {X : Type} (f : ab8500_charger -> X)
  : world -> world -> Prop :=
  fun w w' => f (w_di w') = f (w_di w).

Definition adds_events (P : event -> Prop) : world -> world -> Prop :=
  fun w w' => exists evs, w_trace w' = w_trace w ++ evs /\ Forall P evs.

(** What [ab8500_charger_set_current], called in the world [w], may
    write: an event that is a write sets a code between the previous
    code and the target code, in the register of the call, and there is
    a target code. *)
Definition written_code (h : kernel_headers) (bus : abx500_bus)
  (ich reg : Z) (w : world) (e : event) : Prop :=
  is_write e = true ->
  exists c, e = code_write h reg c /\
    Z.min (previous_code h bus reg (w_clock w) + 1)
          (target_code h reg ich) <= c <=
    Z.max (previous_code h bus reg (w_clock w) - 1)
          (target_code h reg ich) /\
    0 <= target_code h reg ich.

(** *** Vocabulary: plug detection

    What [ab8500_charger_detect_chargers] finds in the status byte it
    samples, the world it leaves behind when called from a work, and the
    link status held in a byte of the UsbLineStatus register. *)
Definition vbus_debounced (bus : abx500_bus) (w : world) : bool :=
  truthy (Z.land (usbch_stat1 bus w) VBUS_DET_DBNC1) &&
  truthy (Z.land (usbch_stat1 bus w) VBUS_DET_DBNC100).

Definition chargers_detected (h : kernel_headers) (w : world) : world :=
  {| w_di := w_di w; w_clock := S (w_clock w);
     w_trace := w_trace w ++
       [ Msleep 110;
         Get_register (AB8500_CHARGER h) (AB8500_CH_USBCH_STAT1_REG h) ] |}.

Definition line_status (val : Z) : Z :=
  Z.shiftr (Z.land (to_u8 val) AB8500_USB_LINK_STATUS) 3.

(** *** Vocabulary: the polls of [ab8500_charger_detect_usb_type]

    One poll sleeps 250 ms and reads two registers.  [polled h k w] is
    the world after [k] polls, and [poll_status bus w j] the link status
    that the poll number [j], counted from 0, finds. *)
Definition usb_type_poll (h : kernel_headers) : list event :=
  [ Msleep 250;
    Get_register (AB8500_INTERRUPT h) (AB8500_IT_SOURCE21_REG h);
    Get_register (AB8500_USB h) (AB8500_USB_LINE_STAT_REG h) ].

Definition polled (h : kernel_headers) (k : nat) (w : world) : world :=
  {| w_di := w_di w; w_clock := (w_clock w + 2 * k)%nat;
     w_trace := w_trace w ++ concat (repeat (usb_type_poll h) k) |}.

Definition poll_status (bus : abx500_bus) (w : world) (j : nat) : Z :=
  line_status (snd (bus_reply bus (w_clock w + 2 * j + 1)%nat)).

Import String.StringSyntax.
Delimit Scope string_scope with string.

(** ** More kernel headers

    Registers, bits and values of <linux/mfd/abx500/ab8500-bm.h> and
    <linux/mfd/abx500/ab8500.h>, and the constants of the notifier
    interface, that the routines below name.  As before they are kept
    abstract; [bm_headers_ok] says what the driver relies on. *)
Record bm_headers : Type := {
  AB8500_SYS_CTRL2_BLOCK : Z;
  AB8500_RTC : Z;
  AB8500_DEVELOPMENT : Z;
  AB8500_STE_TEST : Z;
  AB8500_OTP_EMUL : Z;
  AB8500_CH_VOLT_LVL_REG : Z;
  AB8500_CH_VOLT_LVL_MAX_REG : Z;
  AB8500_CH_OPT_CRNTLVL_MAX_REG : Z;
  AB8500_CH_WD_TIMER_REG : Z;
  AB8500_LED_INDICATOR_PWM_CTRL : Z;
  AB8500_LED_INDICATOR_PWM_DUTY : Z;
  AB8500_USBCH_CTRL2_REG : Z;
  AB8500_RTC_BACKUP_CHG_REG : Z;
  AB8500_RTC_CTRL_REG : Z;
  AB8500_OTP_CONF_15 : Z;
  CH_VOL_LVL_4P6 : Z;
  CH_OP_CUR_LVL_1P6 : Z;
  VBUS_OVV_SELECT_6P3V : Z;
  VBUS_AUTO_IN_CURR_LIM_ENA : Z;
  RTC_BUP_CH_ENA : Z;
  USB_EVENT_VBUS : Z;
  NOTIFY_DONE : Z;
  NOTIFY_OK : Z
}.

(** [otp_regs[AB8500_OTP_CONF_15]] is an element of the array of
    [AB8500_OTP_NO_OF_REGS] bytes. *)
Definition bm_headers_ok (r : bm_headers) : Prop :=
  0 <= AB8500_OTP_CONF_15 r < AB8500_OTP_NO_OF_REGS.

(** An assignment of these names, for running the routines on samples. *)
Definition ab8500_bm_headers : bm_headers := {|
  AB8500_SYS_CTRL2_BLOCK := 0x02;
  AB8500_RTC := 0x0F;
  AB8500_DEVELOPMENT := 0x11;
  AB8500_STE_TEST := 0x14;
  AB8500_OTP_EMUL := 0x15;
  AB8500_CH_VOLT_LVL_REG := 0x40;
  AB8500_CH_VOLT_LVL_MAX_REG := 0x41;
  AB8500_CH_OPT_CRNTLVL_MAX_REG := 0x43;
  AB8500_CH_WD_TIMER_REG := 0x50;
  AB8500_LED_INDICATOR_PWM_CTRL := 0x53;
  AB8500_LED_INDICATOR_PWM_DUTY := 0x54;
  AB8500_USBCH_CTRL2_REG := 0xC1;
  AB8500_RTC_BACKUP_CHG_REG := 0x0C;
  AB8500_RTC_CTRL_REG := 0x0B;
  AB8500_OTP_CONF_15 := 0x0E;
  CH_VOL_LVL_4P6 := 0x4D;
  CH_OP_CUR_LVL_1P6 := 0x0F;
  VBUS_OVV_SELECT_6P3V := 0x38;
  VBUS_AUTO_IN_CURR_LIM_ENA := 0x04;
  RTC_BUP_CH_ENA := 0x10;
  USB_EVENT_VBUS := 1;
  NOTIFY_DONE := 0;
  NOTIFY_OK := 1
|}.

(** The configuration options that the driver tests with [#ifdef]. *)
Record kernel_config : Type := {
  CONFIG_AB8500_BM_ENABLE_CONTROL_CHARGING_LED : bool;
  CONFIG_AB8500_BM_ENABLE_BACKUP_CHARGER : bool
}.

(** The fields of [di->bat] read when the backup charger is configured. *)
Record ab8500_bm_backup : Type := {
  bkup_bat_v : Z;
  bkup_bat_i : Z
}.

(** ** Kernel services beside the register interface

    The routines below also use the regulator framework, work items and
    queries of the work queue, a delay loop and the class of power
    supplies.  These calls are kept in a journal of their own: each entry
    is stamped with the length of the trace at the time of the call, so
    that the journal and the trace together give the calls in their
    order.  Delays are given in milliseconds, one second for [HZ]. *)

Inductive deferred_work : Type :=
| CHECK_VBAT_WORK
| USB_STATE_CHANGED_WORK.

Inductive kernel_service : Type :=
| Regulator_enable
| Regulator_disable
| Queue_delayed (w : deferred_work) (delay_ms : Z)
| Delayed_work_pending (w : deferred_work)
| Cancel_delayed_work (w : deferred_work)
| Udelay (us : Z)
| Class_for_each_device.

(** A power supply of the class, as [ab8500_charger_get_ext_psy_data]
    sees it: its type, the names it supplies, its properties and what
    [get_property] answers for each (return code and [intval]). *)
Record ext_power_supply : Type := {
  ext_type : power_supply_type;
  supplied_to : list String.string;
  properties : list power_supply_property;
  get_property : power_supply_property -> Z * Z
}.

(** What the kernel answers: whether a delayed work is pending and the
    devices of the power supply class, each at the n-th service call. *)
Record kernel_env : Type := {
  delayed_work_pending_reply : nat -> bool;
  power_supply_class : nat -> list ext_power_supply
}.

Record system : Type := {
  sys_world : world;
  sys_calls : list (nat * kernel_service)
}.

Definition sprog (A : Type) : Type := system -> A * system.

Definition sReturn {A : Type} (a : A) : sprog A := fun s => (a, s).

Definition sbind {A B : Type} (m : sprog A) (k : A -> sprog B) : sprog B :=
  fun s => let (a, s') := m s in k a s'.

Declare Scope sprog_scope.
Delimit Scope sprog_scope with sprog.
Bind Scope sprog_scope with sprog.

Notation "x <- m ;; k" := (sbind m (fun x => k))
  (at level 61, m at next level, right associativity) : sprog_scope.
Notation "m ;; k" := (sbind m (fun _ => k))
  (at level 61, right associativity) : sprog_scope.

(** A routine of the sections above, run on the world of the system. *)
Definition lift {A : Type} (m : prog A) : sprog A :=
  fun s => let (a, w) := m (sys_world s) in
           (a, {| sys_world := w; sys_calls := sys_calls s |}).

(** A service call and the answer to it, if it has one. *)
Definition ask {A : Type} (k : kernel_service) (answer : nat -> A)
  : sprog A :=
  fun s => (answer (length (sys_calls s)),
            {| sys_world := sys_world s;
               sys_calls := sys_calls s ++
                 [(length (w_trace (sys_world s)), k)] |}).

Definition service (k : kernel_service) : sprog unit :=
  ask k (fun _ => tt).

Definition swhen (c : bool) (m : sprog unit) : sprog unit :=
  if c then m else sReturn tt.

(** [psy->name] of the USB supply, as the probe sets it. *)
Definition usb_chg_psy_name : String.string := "ab8500_usb"%string.

(** [a[i] = v] on an array held as a list; the driver only stores inside
    the array. *)
Fixpoint array_store (a : list Z) (i : nat) (v : Z) : list Z :=
  match a, i with
  | [], _ => []
  | _ :: rest, O => v :: rest
  | x :: rest, S i' => x :: array_store rest i' v
  end.

Section Interface.

Variable h : kernel_headers.
Variable r : bm_headers.
Variable cfg : kernel_config.
Variable bkup : ab8500_bm_backup.
Variable bus : abx500_bus.
Variable env : kernel_env.
Variable is_ab8500_1p1_or_earlier : bool.

(** *** The charging LED *)

Definition ab8500_charger_led_en (on : bool) : prog Z :=
  if on then
    ret <- abx500_set_register_interruptible bus (AB8500_CHARGER h)
             (AB8500_LED_INDICATOR_PWM_CTRL r)
             (Z.lor LED_IND_CUR_5MA LED_INDICATOR_PWM_ENA) ;;
    if truthy ret then Return ret else
    ret <- abx500_set_register_interruptible bus (AB8500_CHARGER h)
             (AB8500_LED_INDICATOR_PWM_DUTY r)
             LED_INDICATOR_PWM_DUTY_252_256 ;;
    if truthy ret then Return ret else
    Return ret
  else
    ret <- abx500_set_register_interruptible bus (AB8500_CHARGER h)
             (AB8500_LED_INDICATOR_PWM_CTRL r) LED_INDICATOR_PWM_DIS ;;
    if truthy ret then Return ret else
    Return ret.

(** *** The interface of the charging algorithm

    [charger->psy.type] selects the device; both supplies of this driver
    belong to the one [*di]. *)

Local Open Scope sprog_scope.

(** The [if (enable)] branch of [ab8500_charger_usb_en]: [inl ret] is a
    [return ret] from inside it, [inr ret] falls through to the call of
    [ab8500_charger_psy_changed]. *)
Definition usb_en_enable (vset ich_out : Z) : sprog (Z + Z) :=
  di <- lift get_di ;;
  if negb (truthy (charger_connected (usb di))) then
    sReturn (inl (- ENXIO h))
  else
  swhen (negb (vddadc_en_usb di))
    (service Regulator_enable ;;
     lift (modify_di (set_vddadc_en_usb true))) ;;
  let volt_index := ab8500_voltage_to_regval vset in
  let curr_index := ab8500_current_to_regval ich_out in
  if (volt_index <? 0) || (curr_index <? 0) then
    sReturn (inl (- ENXIO h))
  else
  ret <- lift (abx500_set_register_interruptible bus (AB8500_CHARGER h)
                 (AB8500_CH_VOLT_LVL_REG r) (to_u8 volt_index)) ;;
  if truthy ret then sReturn (inl ret) else
  di <- lift get_di ;;
  let overshoot :=
    if negb (enable_overshoot (bat di)) then USB_CHG_NO_OVERSHOOT_ENA_N
    else 0 in
  ret <- lift (abx500_set_register_interruptible bus (AB8500_CHARGER h)
                 (AB8500_USBCH_CTRL1_REG h) (Z.lor USB_CH_ENA overshoot)) ;;
  if truthy ret then sReturn (inl ret) else
  swhen (CONFIG_AB8500_BM_ENABLE_CONTROL_CHARGING_LED cfg)
    (ret <- lift (ab8500_charger_led_en true) ;; sReturn tt) ;;
  lift (modify_di (on_usb (set_charger_online 1))) ;;
  di <- lift get_di ;;
  ret <- lift (ab8500_charger_set_vbus_in_curr h bus (max_usb_in_curr di)) ;;
  if truthy ret then sReturn (inl ret) else
  ret <- lift (ab8500_charger_set_output_curr h bus ich_out) ;;
  if truthy ret then sReturn (inl ret) else
  service (Queue_delayed CHECK_VBAT_WORK 1000) ;;
  sReturn (inr ret).

(** The [else] branch. *)
Definition usb_en_disable : sprog (Z + Z) :=
  ret <- lift (abx500_set_register_interruptible bus (AB8500_CHARGER h)
                 (AB8500_USBCH_CTRL1_REG h) 0) ;;
  if truthy ret then sReturn (inl ret) else
  swhen (CONFIG_AB8500_BM_ENABLE_CONTROL_CHARGING_LED cfg)
    (ret <- lift (ab8500_charger_led_en false) ;; sReturn tt) ;;
  ret <- lift (ab8500_charger_set_vbus_in_curr h bus 0) ;;
  if truthy ret then sReturn (inl ret) else
  ret <- lift (ab8500_charger_set_output_curr h bus 0) ;;
  if truthy ret then sReturn (inl ret) else
  lift (modify_di (on_usb (set_charger_online 0))) ;;
  lift (modify_di (on_usb (set_wd_expired false))) ;;
  di <- lift get_di ;;
  swhen (vddadc_en_usb di)
    (service Regulator_disable ;;
     lift (modify_di (set_vddadc_en_usb false))) ;;
  pending <- ask (Delayed_work_pending CHECK_VBAT_WORK)
               (delayed_work_pending_reply env) ;;
  swhen pending (service (Cancel_delayed_work CHECK_VBAT_WORK)) ;;
  sReturn (inr ret).

Definition ab8500_charger_usb_en (psy_type : power_supply_type)
  (enable : bool) (vset ich_out : Z) : sprog Z :=
  match psy_type with
  | POWER_SUPPLY_TYPE_MAINS | POWER_SUPPLY_TYPE_USB =>
      res <- (if enable then usb_en_enable vset ich_out
              else usb_en_disable) ;;
      match res with
      | inl ret => sReturn ret
      | inr ret => lift (ab8500_charger_psy_changed) ;; sReturn ret
      end
  | _ => sReturn (- ENXIO h)
  end.

Local Close Scope sprog_scope.

Definition ab8500_charger_update_charger_current
  (psy_type : power_supply_type) (ich_out : Z) : prog Z :=
  match psy_type with
  | POWER_SUPPLY_TYPE_MAINS | POWER_SUPPLY_TYPE_USB =>
      ret <- ab8500_charger_set_output_curr h bus ich_out ;;
      if truthy ret then Return ret else
      ret <- abx500_set_register_interruptible bus (AB8500_CHARGER h)
               (AB8500_CHARGER_CTRL h) 0x1 ;;
      if truthy ret then Return ret else
      Return ret
  | _ => Return (- ENXIO h)
  end.

(** *** The battery voltage check *)

(** [for (j = 0; j < ext->num_properties; j++)] over the properties
    still to visit. *)
Fixpoint ext_psy_properties (ext : ext_power_supply)
  (props : list power_supply_property) : prog unit :=
  match props with
  | [] => Return tt
  | prop :: rest =>
      (let (err, intval) := get_property ext prop in
       if truthy err then Return tt else
       match prop with
       | POWER_SUPPLY_PROP_VOLTAGE_NOW =>
           match ext_type ext with
           | POWER_SUPPLY_TYPE_BATTERY =>
               modify_di (set_vbat (to_int (Z.quot intval 1000)))
           | _ => Return tt
           end
       | _ => Return tt
       end) ;;
      ext_psy_properties ext rest
  end.

(** [for (i = 0; i < ext->num_supplicants; i++)] with [psy_found] as it
    stands. *)
Fixpoint ext_psy_found (names : list String.string) (psy_found : bool)
  : bool :=
  match names with
  | [] => psy_found
  | name :: rest =>
      ext_psy_found rest
        (if String.eqb name usb_chg_psy_name then true else psy_found)
  end.

Definition ab8500_charger_get_ext_psy_data (ext : ext_power_supply)
  : prog Z :=
  let psy_found := ext_psy_found (supplied_to ext) false in
  if negb psy_found then Return 0 else
  ext_psy_properties ext (properties ext) ;;
  Return 0.

(** [class_for_each_device] of the driver core with
    [ab8500_charger_get_ext_psy_data] as callback: it stops at the first
    device for which the callback does not return 0. *)
Fixpoint class_for_each_device (devs : list ext_power_supply) : prog Z :=
  match devs with
  | [] => Return 0
  | dev :: rest =>
      error <- ab8500_charger_get_ext_psy_data dev ;;
      if truthy error then Return error
      else class_for_each_device rest
  end.

Local Open Scope sprog_scope.

Definition ab8500_charger_check_vbat_work : sprog unit :=
  devs <- ask Class_for_each_device (power_supply_class env) ;;
  lift (class_for_each_device devs) ;;
  di <- lift get_di ;;
  swhen (old_vbat di =? 0)
    (lift (modify_di (set_old_vbat (vbat di)))) ;;
  di <- lift get_di ;;
  swhen (negb (((old_vbat di <=? VBAT_TRESH_IP_CUR_RED) &&
                (vbat di <=? VBAT_TRESH_IP_CUR_RED)) ||
               ((old_vbat di >? VBAT_TRESH_IP_CUR_RED) &&
                (vbat di >? VBAT_TRESH_IP_CUR_RED))))
    (lift (ab8500_charger_set_vbus_in_curr h bus (max_usb_in_curr di)) ;;
     lift (power_supply_changed USB_CHG_PSY)) ;;
  di <- lift get_di ;;
  lift (modify_di (set_old_vbat (vbat di))) ;;
  di <- lift get_di ;;
  let t :=
    if (vbat di <? VBAT_TRESH_IP_CUR_RED + 100) &&
       (vbat di >? VBAT_TRESH_IP_CUR_RED - 100)
    then 1 else 10 in
  service (Queue_delayed CHECK_VBAT_WORK (t * 1000)).

(** *** The notifier of the USB stack

    [power] points to an [unsigned]; [di], computed from [nb], is never
    NULL. *)
Definition ab8500_charger_usb_notifier_call (event : Z) (power : Z)
  : sprog Z :=
  let mA := to_u32 power in
  if negb (event =? USB_EVENT_VBUS r) then sReturn (NOTIFY_DONE r) else
  di <- lift get_di ;;
  let bm_usb_state :=
    if (usb_current (usb_state di) =? 2) && (mA >? 2)
    then AB8500_BM_USB_STATE_RESUME
    else if mA =? 0 then AB8500_BM_USB_STATE_RESET_HS
    else if mA =? 2 then AB8500_BM_USB_STATE_SUSPEND
    else if mA >=? 8 then AB8500_BM_USB_STATE_CONFIGURED
    else AB8500_BM_USB_STATE_RESET_FS in
  lift (modify_di (on_usb_state (set_state_tmp bm_usb_state))) ;;
  lift (modify_di (on_usb_state (set_usb_current_tmp (to_int mA)))) ;;
  service (Queue_delayed USB_STATE_CHANGED_WORK 500) ;;
  sReturn (NOTIFY_OK r).

Local Close Scope sprog_scope.

(** *** Start-up of the chip *)

(** [for (i = 0; i < ARRAY_SIZE(otp_regs); i++)] reading the registers
    from [i] on, [n] turns still to run; the result is [otp_regs] from
    index [i]. *)
Fixpoint otp_emul_read (n : nat) (i : Z) : prog (list Z) :=
  match n with
  | O => Return []
  | S n' =>
      '(ret, v) <- abx500_get_register_interruptible bus
                     (AB8500_OTP_EMUL r) (to_u8 i) ;;
      rest <- otp_emul_read n' (i + 1) ;;
      Return (v :: rest)
  end.

(** The loop that writes [otp_regs] back, from index [i] on: [ret] of
    the last write made, 0 if there is none. *)
Fixpoint otp_emul_write (regs : list Z) (i : Z) : prog Z :=
  match regs with
  | [] => Return 0
  | v :: rest =>
      ret <- abx500_set_register_interruptible bus
               (AB8500_OTP_EMUL r) (to_u8 i) v ;;
      if truthy ret then Return ret else
      otp_emul_write rest (i + 1)
  end.

Definition ab8500_enable_otp_emulation_of_main_wd (wdog_reg : Z)
  : prog unit :=
  ret <- abx500_set_register_interruptible bus
           (AB8500_DEVELOPMENT r) 0x00 0x2 ;;
  if truthy ret then Return tt else
  otp_regs <- otp_emul_read (Z.to_nat AB8500_OTP_NO_OF_REGS) 0 ;;
  let otp_wd := to_u8 (Z.land (at_index otp_regs (AB8500_OTP_CONF_15 r))
                          0xFE) in
  let otp_wd :=
    if truthy (Z.land (to_u8 wdog_reg) MAIN_WDOG_ENA)
    then to_u8 (Z.lor otp_wd MAIN_WDOG_ENA) else otp_wd in
  let otp_regs :=
    array_store otp_regs (Z.to_nat (AB8500_OTP_CONF_15 r)) otp_wd in
  ret <- abx500_set_register_interruptible bus
           (AB8500_STE_TEST r) 0xB1 0x2 ;;
  if truthy ret then Return tt else
  ret <- otp_emul_write otp_regs 0 ;;
  if truthy ret then Return tt else
  ret <- abx500_set_register_interruptible bus
           (AB8500_STE_TEST r) 0xB1 0x3 ;;
  if truthy ret then Return tt else
  Return tt.

Local Open Scope sprog_scope.

(** The writes of [ab8500_charger_init_hw_registers] made only on a chip
    later than 1.1: [inl ret] is the [goto out]. *)
Definition init_hw_max_levels : prog (Z + Z) :=
  (if negb is_ab8500_1p1_or_earlier then
     ret <- abx500_set_register_interruptible bus (AB8500_CHARGER h)
              (AB8500_CH_VOLT_LVL_MAX_REG r) (CH_VOL_LVL_4P6 r) ;;
     if truthy ret then Return (inl ret) else
     ret <- abx500_set_register_interruptible bus (AB8500_CHARGER h)
              (AB8500_CH_OPT_CRNTLVL_MAX_REG r) (CH_OP_CUR_LVL_1P6 r) ;;
     if truthy ret then Return (inl ret) else
     Return (inr ret)
   else Return (inr 0))%prog.

(** The part compiled under the two configuration options, entered with
    [ret] of the last write. *)
Definition init_hw_led_and_backup (ret : Z) : prog Z :=
  (res <-
     (if negb (CONFIG_AB8500_BM_ENABLE_CONTROL_CHARGING_LED cfg) then
        ret <- ab8500_charger_led_en false ;;
        if ret <? 0 then Return (inl ret) else Return (inr ret)
      else Return (inr ret)) ;;
   match res with
   | inl ret => Return ret
   | inr ret =>
       if CONFIG_AB8500_BM_ENABLE_BACKUP_CHARGER cfg then
         ret <- abx500_set_register_interruptible bus (AB8500_RTC r)
                  (AB8500_RTC_BACKUP_CHG_REG r)
                  (Z.lor (bkup_bat_v bkup) (bkup_bat_i bkup)) ;;
         if truthy ret then Return ret else
         abx500_mask_and_set_register_interruptible bus (AB8500_RTC r)
           (AB8500_RTC_CTRL_REG r) (RTC_BUP_CH_ENA r) (RTC_BUP_CH_ENA r) ;;
         Return ret
       else Return ret
   end)%prog.

Definition ab8500_charger_init_hw_registers : sprog Z :=
  res <- lift init_hw_max_levels ;;
  match res with
  | inl ret => sReturn ret
  | inr _ =>
  ret <- lift (abx500_set_register_interruptible bus (AB8500_CHARGER h)
                 (AB8500_USBCH_CTRL2_REG r)
                 (Z.lor (VBUS_OVV_SELECT_6P3V r)
                        (VBUS_AUTO_IN_CURR_LIM_ENA r))) ;;
  if truthy ret then sReturn ret else
  rv <- lift (abx500_get_register_interruptible bus
                (AB8500_SYS_CTRL2_BLOCK r) (AB8500_MAIN_WDOG_CTRL_REG h)) ;;
  let ret := fst rv in
  let save_val := snd rv in
  if ret <? 0 then sReturn 0 else
  lift (ab8500_enable_otp_emulation_of_main_wd save_val) ;;
  ret <- lift (abx500_set_register_interruptible bus
                 (AB8500_SYS_CTRL2_BLOCK r) (AB8500_MAIN_WDOG_CTRL_REG h)
                 (Z.lor (Z.lor save_val MAIN_WDOG_ENA) MAIN_WDOG_KICK)) ;;
  if truthy ret then sReturn ret else
  service (Udelay 63) ;;
  ret <- lift (abx500_set_register_interruptible bus
                 (AB8500_SYS_CTRL2_BLOCK r) (AB8500_MAIN_WDOG_CTRL_REG h)
                 (Z.lor MAIN_WDOG_ENA MAIN_WDOG_KICK)) ;;
  if truthy ret then sReturn ret else
  ret <- lift (abx500_set_register_interruptible bus
                 (AB8500_SYS_CTRL2_BLOCK r) (AB8500_MAIN_WDOG_CTRL_REG h)
                 save_val) ;;
  if truthy ret then sReturn ret else
  ret <- lift (abx500_set_register_interruptible bus (AB8500_CHARGER h)
                 (AB8500_CH_WD_TIMER_REG r) WD_TIMER) ;;
  if truthy ret then sReturn ret else
  lift (init_hw_led_and_backup ret)
  end.

Local Close Scope sprog_scope.

End Interface.

(** *** Vocabulary: what a routine does in every system

    [salways I m] is [always] for the routines that also call the kernel
    services.  [regulator_follows_flag] relates two systems when the
    calls made in between have enabled and disabled the VDD ADC
    regulator as often as [vddadc_en_usb] has changed: each enable
    counts 1, each disable -1, and the sum is the flag after minus the
    flag before. *)
Definition salways {A : Type} (I : system -> system -> Prop) (m : sprog A)
  : Prop :=
  forall s, I s (snd (m s)).

Definition regulator_delta (k : kernel_service) : Z :=
  match k with
  | Regulator_enable => 1
  | Regulator_disable => -1
  | _ => 0
  end.

Fixpoint regulator_uses (calls : list (nat * kernel_service)) : Z :=
  match calls with
  | [] => 0
  | c :: rest => regulator_delta (snd c) + regulator_uses rest
  end.

Definition regulator_follows_flag (s s' : system) : Prop :=
  exists calls,
    sys_calls s' = sys_calls s ++ calls /\
    regulator_uses calls =
      Z.b2z (vddadc_en_usb (w_di (sys_world s'))) -
      Z.b2z (vddadc_en_usb (w_di (sys_world s))).

(** The service calls made since the journal had [n] entries. *)
Definition calls_since (n : nat) (s : system)
  : list (nat * kernel_service) :=
  skipn n (sys_calls s).

(** *** Samples for the interface

    The configuration of a board without charging LED control and
    without backup charger, a kernel in which no work is pending and no
    power supply is registered, and the system at the start of time. *)
Definition sample_config : kernel_config :=
  {| CONFIG_AB8500_BM_ENABLE_CONTROL_CHARGING_LED := false;
     CONFIG_AB8500_BM_ENABLE_BACKUP_CHARGER := false |}.

Definition quiet_env : kernel_env :=
  {| delayed_work_pending_reply := fun _ => false;
     power_supply_class := fun _ => [] |}.

Definition start (di : ab8500_charger) : system :=
  {| sys_world := boot di; sys_calls := [] |}.

(** *** Vocabulary: the battery voltage check

    The world with [di->vbat] assigned, and the delay in ms after which
    [ab8500_charger_check_vbat_work] runs again for a battery at [vbat]
    mV. *)
Definition with_vbat (v : Z) (w : world) : world :=
  {| w_di := set_vbat v (w_di w); w_clock := w_clock w;
     w_trace := w_trace w |}.

Definition vbat_check_period (vbat : Z) : Z :=
  if (3700 <? vbat) && (vbat <? 3900) then 1000 else 10000.

(** Both voltages on the same side of the threshold of 3800 mV. *)
Definition same_side (old_vbat vbat : Z) : Prop :=
  (old_vbat <= 3800 /\ vbat <= 3800) \/ (3800 < old_vbat /\ 3800 < vbat).

(** *** Vocabulary: start-up

    What [ab8500_charger_init_hw_registers] does after the watchdog
    set-up on a chip that accepts it, under the two configuration
    options. *)
Definition init_hw_closing (h : kernel_headers) (r : bm_headers)
  (cfg : kernel_config) (bkup : ab8500_bm_backup) : list event :=
  (if CONFIG_AB8500_BM_ENABLE_CONTROL_CHARGING_LED cfg then []
   else [ Set_register (AB8500_CHARGER h)
            (AB8500_LED_INDICATOR_PWM_CTRL r) LED_INDICATOR_PWM_DIS ]) ++
  (if CONFIG_AB8500_BM_ENABLE_BACKUP_CHARGER cfg
   then [ Set_register (AB8500_RTC r) (AB8500_RTC_BACKUP_CHG_REG r)
            (to_u8 (Z.lor (bkup_bat_v bkup) (bkup_bat_i bkup)));
          Mask_and_set_register (AB8500_RTC r) (AB8500_RTC_CTRL_REG r)
            (to_u8 (RTC_BUP_CH_ENA r)) (to_u8 (RTC_BUP_CH_ENA r)) ]
   else []).

(** The writes among them whose return the function tests: the last
    call, the mask-and-set of the backup charging, is not one of them. *)
Definition init_hw_closing_tested (cfg : kernel_config) : nat :=
  ((if CONFIG_AB8500_BM_ENABLE_CONTROL_CHARGING_LED cfg then 0 else 1) +
   (if CONFIG_AB8500_BM_ENABLE_BACKUP_CHARGER cfg then 1 else 0))%nat.

(** The replies that [ab8500_enable_otp_emulation_of_main_wd], entered
    at time [t], waits for: of its 35 accesses it tests the first write,
    the write after the 16 reads and the 16 writes that follow; it does
    not look at the return of a read, and after its last write it ends
    whatever the return. *)
Definition otp_writes_accepted (bus : abx500_bus) (t : nat) : Prop :=
  forall n, (n = 0 \/ 17 <= n < 34)%nat ->
    fst (bus_reply bus (n + t)%nat) = 0.

(** * Properties *)

(** ** The model at work *)

Example current_to_regval_samples :
  map ab8500_current_to_regval [99; 100; 299; 300; 1500; 1501] =
  [0; 0; 1; 2; 14; -1].
Proof. reflexivity. Qed.

Example vbus_in_curr_to_regval_samples :
  map ab8500_vbus_in_curr_to_regval [49; 50; 100; 300; 1500; 1501] =
  [0; 0; 1; 3; 15; -1].
Proof. reflexivity. Qed.

Example voltage_to_regval_samples :
  map ab8500_voltage_to_regval [3499; 3500; 4055; 4600; 4601] =
  [LOW_VOLT_REG; 0; 22; 77; -1].
Proof. reflexivity. Qed.

(** USB input current from code 1 to 300 mA: two reads, two steps. *)
Example set_current_up_trace :
  let run := ab8500_charger_set_current ab8500_headers (steady_bus 0 0x10)
               300 0xC2 (boot usb_plugged_di) in
  fst run = 0 /\
  w_trace (snd run) =
    [ Get_register 0x0B 0xC2; Get_register 0x0B 0x03;
      Set_register 0x0B 0xC2 0x20; Msleep 10;
      Set_register 0x0B 0xC2 0x30 ] /\
  current_stepping_sessions (w_di (snd run)) = 0.
Proof. cbv zeta. repeat split; reflexivity. Qed.

(** Output current from code 3 down to 100 mA. *)
Example set_current_down_trace :
  let run := ab8500_charger_set_current ab8500_headers (steady_bus 0 0x03)
               100 0x42 (boot usb_plugged_di) in
  fst run = 0 /\
  w_trace (snd run) =
    [ Get_register 0x0B 0x42;
      Set_register 0x0B 0x42 2; Msleep 1;
      Set_register 0x0B 0x42 1; Msleep 1;
      Set_register 0x0B 0x42 0 ].
Proof. cbv zeta. split; reflexivity. Qed.

(** The drop-end interrupt served after the first step ends the ramp. *)
Example set_current_stopped_trace :
  let run := ab8500_charger_set_current ab8500_headers
               (drop_end_bus 0 0x00 3) 1500 0xC2 (boot usb_plugged_di) in
  fst run = 0 /\
  w_trace (snd run) =
    [ Get_register 0x0B 0xC2; Get_register 0x0B 0x03;
      Set_register 0x0B 0xC2 0x10; Msleep 10;
      Queue_delayed_work VBUS_DROP_END_WORK 0 ] /\
  vbus_drop_end (flags (w_di (snd run))) = true.
Proof. cbv zeta. repeat split; reflexivity. Qed.

(** A write that the chip refuses ends the call with its error. *)
Example set_current_refused_trace :
  let run := ab8500_charger_set_current ab8500_headers
               (scripted_bus [(0, 0x10); (0, 0x10); (-5, 0)])
               300 0xC2 (boot usb_plugged_di) in
  fst run = -5 /\
  w_trace (snd run) =
    [ Get_register 0x0B 0xC2; Get_register 0x0B 0x03;
      Set_register 0x0B 0xC2 0x20 ] /\
  current_stepping_sessions (w_di (snd run)) = 0.
Proof. cbv zeta. repeat split; reflexivity. Qed.

(** Without a charger the target is written at once. *)
Example set_current_no_stepping_trace :
  let run := ab8500_charger_set_current ab8500_headers (steady_bus 0 0x00)
               500 0x42 (boot (probe_di sample_pdata sample_bat)) in
  fst run = 0 /\
  w_trace (snd run) = [Get_register 0x0B 0x42; Set_register 0x0B 0x42 4].
Proof. cbv zeta. split; reflexivity. Qed.

(** A dedicated charger is good for 1500 mA and is no host; an ACA with
    RID_A gets 500 mA. *)
Example max_usb_curr_samples :
  let dedicated := snd (ab8500_charger_max_usb_curr ab8500_headers
                          (steady_bus 0 0)
                          (int_of_link_status USB_STAT_DEDICATED_CHG)
                          (boot usb_plugged_di)) in
  let rid_a := snd (ab8500_charger_max_usb_curr ab8500_headers
                      (steady_bus 0 0)
                      (int_of_link_status USB_STAT_ACA_RID_A)
                      (boot usb_plugged_di)) in
  (max_usb_in_curr (w_di dedicated), is_usb_host (w_di dedicated)) =
    (1500, false) /\
  (max_usb_in_curr (w_di rid_a), is_aca_rid (w_di rid_a)) = (500, 1).
Proof. cbv zeta. split; reflexivity. Qed.

(** ** Lookup tables *)

Lemma increasing_nth (a : list Z) :
  increasing a = true ->
  forall i j : nat, (i < j < length a)%nat -> nth i a 0 < nth j a 0.
Proof.
  induction a as [|x a IH]; intros Hi i j Hij; [simpl in Hij; lia|].
  destruct a as [|y a]; [simpl in Hij; lia|].
  apply andb_prop in Hi. destruct Hi as [Hxy Hi]. apply Z.ltb_lt in Hxy.
  destruct j as [|j]; [lia|].
  destruct i as [|i].
  - destruct j as [|j]; [exact Hxy|].
    change (x < nth (S j) (y :: a) 0).
    assert (nth 0 (y :: a) 0 < nth (S j) (y :: a) 0)
      by (apply IH; [exact Hi | simpl in *; lia]).
    simpl in *; lia.
  - change (nth i (y :: a) 0 < nth j (y :: a) 0).
    apply IH; [exact Hi | simpl in *; lia].
Qed.

Lemma increasing_at_index (a : list Z) (i j : Z) :
  increasing a = true -> 0 <= i -> i < j -> j < ARRAY_SIZE a ->
  at_index a i < at_index a j.
Proof.
  intros Ha Hi Hij Hj. unfold at_index, ARRAY_SIZE in *.
  apply increasing_nth; [exact Ha | lia].
Qed.

Lemma increasing_at_index_le (a : list Z) (i j : Z) :
  increasing a = true -> 0 <= i -> i <= j -> j < ARRAY_SIZE a ->
  at_index a i <= at_index a j.
Proof.
  intros Ha Hi Hij Hj.
  destruct (Z.eq_dec i j) as [->|Hne]; [lia|].
  apply Z.lt_le_incl, increasing_at_index; auto; lia.
Qed.

(** The scan stops at the first entry above [x]. *)
Lemma regval_scan_hit (a : list Z) (x k : Z) (n : nat) (s : Z) :
  increasing a = true ->
  0 <= s -> 0 <= k -> s <= k + 1 -> k + 1 < s + Z.of_nat n ->
  k + 1 < ARRAY_SIZE a ->
  at_index a k <= x < at_index a (k + 1) ->
  regval_scan a x s n = Some k.
Proof.
  intros Ha. revert s.
  induction n as [|n IH]; intros s Hs Hk Hsk Hn Hlen Hx; [lia|].
  simpl. destruct (Z.ltb_spec x (at_index a s)) as [Hlt|Hge].
  - destruct (Z.eq_dec s (k + 1)) as [->|Hne]; [f_equal; lia|].
    exfalso.
    assert (at_index a s <= at_index a k)
      by (apply increasing_at_index_le; auto; lia).
    lia.
  - assert (s <> k + 1) by (intros ->; lia).
    apply IH; auto; lia.
Qed.

(** The scan runs to its end when no entry is above [x]. *)
Lemma regval_scan_miss (a : list Z) (x : Z) (n : nat) (s : Z) :
  (forall j, s <= j < s + Z.of_nat n -> at_index a j <= x) ->
  regval_scan a x s n = None.
Proof.
  revert s. induction n as [|n IH]; intros s Hall; [reflexivity|].
  simpl. destruct (Z.ltb_spec x (at_index a s)) as [Hlt|Hge].
  - specialize (Hall s). lia.
  - apply IH. intros j Hj. apply Hall. lia.
Qed.

Section Encoders.

Variable a : list Z.
Variable start low : Z.
Hypothesis a_increasing : increasing a = true.
Hypothesis a_not_empty : 0 < ARRAY_SIZE a.
Hypothesis start_range : 0 <= start <= 1.

Local Abbreviation enc := (table_to_regval a start low).

Lemma enc_between (k x : Z) :
  0 <= k < ARRAY_SIZE a - 1 ->
  at_index a k <= x < at_index a (k + 1) ->
  enc x = k.
Proof.
  intros Hk Hx. unfold table_to_regval.
  assert (at_index a 0 <= at_index a k)
    by (apply increasing_at_index_le; auto; lia).
  destruct (Z.ltb_spec x (at_index a 0)); [lia|].
  rewrite (regval_scan_hit a x k); auto; lia.
Qed.

Lemma enc_top_or_above (x : Z) :
  at_index a (ARRAY_SIZE a - 1) <= x ->
  enc x = regval_last a x.
Proof.
  intros Hx. unfold table_to_regval.
  assert (at_index a 0 <= at_index a (ARRAY_SIZE a - 1))
    by (apply increasing_at_index_le; auto; lia).
  destruct (Z.ltb_spec x (at_index a 0)); [lia|].
  rewrite regval_scan_miss; [reflexivity|].
  intros j Hj.
  assert (at_index a j <= at_index a (ARRAY_SIZE a - 1))
    by (apply increasing_at_index_le; auto; lia).
  lia.
Qed.

Lemma enc_entry (k : Z) :
  0 <= k < ARRAY_SIZE a -> enc (at_index a k) = k.
Proof.
  intros Hk. destruct (Z.eq_dec k (ARRAY_SIZE a - 1)) as [->|Hne].
  - rewrite enc_top_or_above by lia. unfold regval_last.
    now rewrite Z.eqb_refl.
  - apply enc_between; [lia|].
    assert (at_index a k < at_index a (k + 1))
      by (apply increasing_at_index; auto; lia).
    lia.
Qed.

Lemma enc_encodes_table : encodes_table enc a.
Proof.
  repeat split.
  - now apply enc_entry.
  - now rewrite enc_entry.
  - apply enc_between; [lia|lia].
  - rewrite (enc_between k x); lia.
  - intros x Hx. rewrite enc_top_or_above by lia. unfold regval_last.
    destruct (Z.eqb_spec x (at_index a (ARRAY_SIZE a - 1))); lia.
Qed.

Lemma enc_floors_below : low = 0 -> floors_below enc a.
Proof.
  intros -> x Hx. unfold table_to_regval.
  destruct (Z.ltb_spec x (at_index a 0)); [reflexivity|lia].
Qed.

End Encoders.

(** C2. An entry of the output-current, VBUS-input-current or voltage
    table is encoded to its own index in the table, the code that
    decodes back to it; a value
    strictly between two entries gets the code of the entry below it and
    is never rounded up; a value above the top entry gives a negative
    result; and the two current encoders give code 0 to every value
    below their lowest entry. *)
Theorem regval_encoders_round_trip :
  encodes_table ab8500_current_to_regval ab8500_charger_current_map /\
  encodes_table ab8500_vbus_in_curr_to_regval
    ab8500_charger_vbus_in_curr_map /\
  encodes_table ab8500_voltage_to_regval ab8500_charger_voltage_map /\
  floors_below ab8500_current_to_regval ab8500_charger_current_map /\
  floors_below ab8500_vbus_in_curr_to_regval
    ab8500_charger_vbus_in_curr_map.
Proof.
  split; [|split; [|split; [|split]]].
  - apply (enc_encodes_table ab8500_charger_current_map 0 0);
      solve [reflexivity | lia].
  - apply (enc_encodes_table ab8500_charger_vbus_in_curr_map 0 0);
      solve [reflexivity | lia].
  - apply (enc_encodes_table ab8500_charger_voltage_map 1 LOW_VOLT_REG);
      solve [reflexivity | lia].
  - apply (enc_floors_below ab8500_charger_current_map 0 0). reflexivity.
  - apply (enc_floors_below ab8500_charger_vbus_in_curr_map 0 0).
    reflexivity.
Qed.

Lemma regval_encoders_round_trip_witness :
  ab8500_vbus_in_curr_to_regval 300 = 3 /\
  at_index ab8500_charger_vbus_in_curr_map
    (ab8500_vbus_in_curr_to_regval 300) < 300.
Proof.
  destruct regval_encoders_round_trip as [_ [[_ [H _]] _]].
  apply (H 3 300); vm_compute; split; congruence.
Defined.

(** ** Traces *)


Lemma register_writes_app (bank reg : Z) (a b : list event) :
  register_writes bank reg (a ++ b) =
  register_writes bank reg a ++ register_writes bank reg b.
Proof.
  induction a as [|e a IH]; [reflexivity|].
  destruct e; simpl; try apply IH.
  destruct ((bank0 =? bank) && (reg0 =? reg)); simpl; now rewrite IH.
Qed.

Lemma register_writes_hardware (bank reg : Z) (t : list event) :
  register_writes bank reg (hardware_writes t) = register_writes bank reg t.
Proof.
  induction t as [|e t IH]; [reflexivity|].
  destruct e; simpl; try apply IH.
  destruct ((bank0 =? bank) && (reg0 =? reg)); simpl; now rewrite IH.
Qed.

Lemma register_writes_steps (h : kernel_headers) (reg sh : Z) (l : list Z) :
  register_writes (AB8500_CHARGER h) reg (map (step_write h reg sh) l) =
  map (fun c => step_value c sh) l.
Proof.
  induction l as [|c l IH]; [reflexivity|].
  simpl. rewrite !Z.eqb_refl. simpl. now rewrite IH.
Qed.

Lemma events_since_app (w w' : world) (evs : list event) :
  w_trace w' = w_trace w ++ evs -> events_since w w' = evs.
Proof.
  intros H. unfold events_since. rewrite H.
  rewrite skipn_app, skipn_all, Nat.sub_diag. reflexivity.
Qed.





Lemma to_u8_step_value (i sh : Z) :
  to_u8 (step_value i sh) = step_value i sh.
Proof. unfold step_value, to_u8. apply Z.mod_mod. lia. Qed.



(** ** The stepping loops *)

Section Stepping.

Variable h : kernel_headers.
Variable bus : abx500_bus.

Variables reg sh d B : Z.





End Stepping.

Lemma drop_end_raised_refl (di : ab8500_charger) : drop_end_raised di di.
Proof. now left. Qed.


Section SteppingUp.

Variable h : kernel_headers.
Variable bus : abx500_bus.

Variables reg sh d B : Z.



End SteppingUp.

(** ** Setting a current *)

Section SetCurrent.

Variable h : kernel_headers.
Variable bus : abx500_bus.
Hypothesis h_ok : headers_ok h.

Lemma supported_register_cases (reg : Z) :
  supported_register h reg ->
  ((reg =? AB8500_MCH_IPT_CURLVL_REG h) = true /\
   (reg =? AB8500_USBCH_IPT_CRNTLVL_REG h) = false /\
   (reg =? AB8500_CH_OPT_CRNTLVL_REG h) = false) \/
  ((reg =? AB8500_MCH_IPT_CURLVL_REG h) = false /\
   (reg =? AB8500_USBCH_IPT_CRNTLVL_REG h) = true /\
   (reg =? AB8500_CH_OPT_CRNTLVL_REG h) = false) \/
  ((reg =? AB8500_MCH_IPT_CURLVL_REG h) = false /\
   (reg =? AB8500_USBCH_IPT_CRNTLVL_REG h) = false /\
   (reg =? AB8500_CH_OPT_CRNTLVL_REG h) = true).
Proof.
  destruct h_ok as [H1 [H2 [H3 _]]].
  intros [->|[->| ->]]; rewrite ?Z.eqb_refl.
  - left. repeat split; apply Z.eqb_neq; auto.
  - right; left. repeat split; apply Z.eqb_neq; auto.
  - right; right. repeat split; apply Z.eqb_neq; auto.
Qed.






End SetCurrent.


Lemma regval_scan_range (a : list Z) (x : Z) (n : nat) :
  forall (s r : Z),
    regval_scan a x s n = Some r -> s - 1 <= r < s + Z.of_nat n - 1.
Proof.
  induction n as [|n IH]; intros s r H; [discriminate|].
  simpl in H. destruct (x <? at_index a s).
  - injection H as <-. lia.
  - apply IH in H. lia.
Qed.

Lemma table_to_regval_range (a : list Z) (start low x : Z) :
  0 <= start <= ARRAY_SIZE a ->
  -1 <= low < ARRAY_SIZE a ->
  -1 <= table_to_regval a start low x < ARRAY_SIZE a.
Proof.
  intros Hs Hl. unfold table_to_regval.
  destruct (x <? at_index a 0); [lia|].
  destruct (regval_scan a x start (Z.to_nat (ARRAY_SIZE a - start))) eqn:E.
  - apply regval_scan_range in E. lia.
  - unfold regval_last. destruct (x =? _); lia.
Qed.

Lemma to_u8_range (x : Z) : 0 <= to_u8 x < 256.
Proof. unfold to_u8. apply Z.mod_pos_bound. lia. Qed.

Lemma shiftr4_range (x : Z) : 0 <= x < 256 -> 0 <= Z.shiftr x 4 < 16.
Proof.
  intros Hx. rewrite Z.shiftr_div_pow2 by lia. change (2 ^ 4) with 16.
  split; [apply Z.div_pos; lia | apply Z.div_lt_upper_bound; lia].
Qed.

Lemma target_code_range (h : kernel_headers) (reg ich : Z) :
  -1 <= target_code h reg ich < 16.
Proof.
  unfold target_code. destruct (reg =? _).
  - pose proof (table_to_regval_range ab8500_charger_vbus_in_curr_map 0 0 ich)
      as H. change (ARRAY_SIZE ab8500_charger_vbus_in_curr_map) with 16 in H.
    apply H; lia.
  - pose proof (table_to_regval_range ab8500_charger_current_map 0 0 ich)
      as H. change (ARRAY_SIZE ab8500_charger_current_map) with 15 in H.
    assert (-1 <= table_to_regval ab8500_charger_current_map 0 0 ich < 15)
      by (apply H; lia).
    change (ab8500_current_to_regval ich)
      with (table_to_regval ab8500_charger_current_map 0 0 ich). lia.
Qed.

Lemma previous_code_range (h : kernel_headers) (bus : abx500_bus)
  (reg : Z) (t : nat) :
  headers_ok h -> supported_register h reg ->
  0 <= previous_code h bus reg t /\
  previous_code h bus reg t * 2 ^ register_shift h reg < 256.
Proof.
  intros Hh Hreg. unfold previous_code, register_shift.
  pose proof (to_u8_range (snd (bus_reply bus t))) as H1.
  pose proof (to_u8_range (snd (bus_reply bus (S t)))) as H2.
  pose proof (shiftr4_range _ H1) as H3.
  pose proof (shiftr4_range _ H2) as H4.
  destruct (supported_register_cases h Hh reg Hreg)
    as [[E1 [E2 E3]]|[[E1 [E2 E3]]|[E1 [E2 E3]]]];
    rewrite E1, ?E2, ?E3;
    change (2 ^ 0) with 1; change (2 ^ 4) with 16; lia.
Qed.

Lemma step_value_shiftl (c sh : Z) :
  0 <= sh -> 0 <= c -> c * 2 ^ sh < 256 ->
  step_value c sh = Z.shiftl c sh.
Proof.
  intros Hsh Hc Hlt. unfold step_value, to_u8.
  assert (0 < 2 ^ sh) by (apply Z.pow_pos_nonneg; lia).
  assert (c < 256) by nia.
  rewrite (Z.mod_small c) by lia.
  rewrite Z.shiftl_mul_pow2 by lia. apply Z.mod_small. nia.
Qed.




Lemma register_shift_nonneg (h : kernel_headers) (reg : Z) :
  0 <= register_shift h reg.
Proof. unfold register_shift. destruct (reg =? _); lia. Qed.

Section SetCurrentRun.

Variable h : kernel_headers.
Variable bus : abx500_bus.
Hypothesis h_ok : headers_ok h.






End SetCurrentRun.


Lemma ab8500_headers_ok : headers_ok ab8500_headers.
Proof. unfold headers_ok. cbn. repeat split; lia. Qed.








(** The previous code is not always the code held by the register: for
    the USB input-current register the function takes the lower of it and
    the code of the automatic limit.  With the register at the code of
    100 mA and the automatic limit at code 0, the call for 300 mA starts
    from code 0 and makes three writes. *)
Lemma set_current_from_auto_limit :
  let bus := scripted_bus [(0, 0x10); (0, 0x00)] in
  let w := boot usb_plugged_di in
  let run := ab8500_charger_set_current ab8500_headers bus 300 0xC2 w in
  Z.shiftr (to_u8 (snd (bus_reply bus (w_clock w)))) 4 =
    target_code ab8500_headers 0xC2 100 /\
  previous_code ab8500_headers bus 0xC2 (w_clock w) = 0 /\
  fst run = 0 /\
  hardware_writes (events_since w (snd run)) =
    [Set_register 0x0B 0xC2 0x10; Set_register 0x0B 0xC2 0x20;
     Set_register 0x0B 0xC2 0x30].
Proof.
  cbv zeta. split; [reflexivity|]. split; [reflexivity|].
  split; reflexivity.
Qed.


Lemma unsupported_register_cases (h : kernel_headers) (reg : Z) :
  ~ supported_register h reg ->
  (reg =? AB8500_MCH_IPT_CURLVL_REG h) = false /\
  (reg =? AB8500_USBCH_IPT_CRNTLVL_REG h) = false /\
  (reg =? AB8500_CH_OPT_CRNTLVL_REG h) = false.
Proof.
  unfold supported_register. intros H.
  repeat split; apply Z.eqb_neq; intros ->; apply H; auto.
Qed.

(** C8 (amended).  For every call of [ab8500_charger_set_current] whose
    register is not one of the three current registers, or whose
    requested current has a negative lookup result, the call returns a
    negative error and has made no register write before returning; the
    error is -ENXIO whenever the reads the call makes are answered
    without error. *)
Theorem set_current_rejects_before_writing (h : kernel_headers)
  (bus : abx500_bus) (ich reg : Z) (w : world) :
  headers_ok h ->
  ~ supported_register h reg \/ target_code h reg ich < 0 ->
  let run := ab8500_charger_set_current h bus ich reg w in
  hardware_writes (events_since w (snd run)) = [] /\
  fst run < 0 /\
  (0 <= fst (bus_reply bus (w_clock w)) ->
   (reg = AB8500_USBCH_IPT_CRNTLVL_REG h ->
    0 <= fst (bus_reply bus (S (w_clock w)))) ->
   fst run = - ENXIO h).
Proof.
  intros Hh Hbad run. subst run.
  assert (Hneg : - ENXIO h < 0) by (unfold headers_ok in Hh; lia).
  unfold ab8500_charger_set_current, set_current_body, bind, modify_di,
    abx500_get_register_interruptible, call, Return.
  cbn [fst snd w_di w_clock w_trace].
  destruct (Z.ltb_spec (fst (bus_reply bus (w_clock w))) 0) as [Hr1|Hr1].
  - cbn [fst snd w_di w_clock w_trace].
    rewrite (events_since_app _ _ [Get_register (AB8500_CHARGER h) reg])
      by reflexivity.
    split; [reflexivity|]. split; [exact Hr1|]. lia.
  - unfold set_current_switch, bind, get_di, Return,
      abx500_get_register_interruptible, call.
    cbn [fst snd w_di w_clock w_trace].
    destruct (Z.eqb_spec reg (AB8500_MCH_IPT_CURLVL_REG h)) as [E1|E1].
    { destruct Hbad as [Hbad|Hbad];
        [exfalso; apply Hbad; left; exact E1|].
      unfold target_code in Hbad.
      assert (E2 : (reg =? AB8500_USBCH_IPT_CRNTLVL_REG h) = false)
        by (apply Z.eqb_neq; unfold headers_ok in Hh; rewrite E1; tauto).
      rewrite E2 in Hbad.
      unfold set_current_steps. cbn [curr_index].
      apply Z.ltb_lt in Hbad. rewrite Hbad.
      cbn [fst snd w_di w_clock w_trace].
      rewrite (events_since_app _ _ [Get_register (AB8500_CHARGER h) reg])
        by reflexivity.
      repeat split; auto. }
    destruct (Z.eqb_spec reg (AB8500_USBCH_IPT_CRNTLVL_REG h)) as [E2|E2].
    { destruct Hbad as [Hbad|Hbad];
        [exfalso; apply Hbad; right; left; exact E2|].
      unfold target_code in Hbad. rewrite <- E2, Z.eqb_refl in Hbad.
      cbn [fst snd w_di w_clock w_trace].
      destruct (Z.ltb_spec (fst (bus_reply bus (S (w_clock w)))) 0)
        as [Hr2|Hr2].
      - cbn [fst snd w_di w_clock w_trace].
        rewrite (events_since_app _ _
                   [Get_register (AB8500_CHARGER h) reg;
                    Get_register (AB8500_CHARGER h)
                      (AB8500_CH_USBCH_STAT2_REG h)])
          by (cbn [w_trace]; now rewrite <- app_assoc).
        split; [reflexivity|]. split; [exact Hr2|]. intros _ H.
        specialize (H E2). lia.
      - unfold set_current_steps. cbn [curr_index].
        apply Z.ltb_lt in Hbad. rewrite Hbad.
        cbn [fst snd w_di w_clock w_trace].
        rewrite (events_since_app _ _
                   [Get_register (AB8500_CHARGER h) reg;
                    Get_register (AB8500_CHARGER h)
                      (AB8500_CH_USBCH_STAT2_REG h)])
          by (cbn [w_trace]; now rewrite <- app_assoc).
        repeat split; auto. }
    destruct (Z.eqb_spec reg (AB8500_CH_OPT_CRNTLVL_REG h)) as [E3|E3].
    { destruct Hbad as [Hbad|Hbad];
        [exfalso; apply Hbad; right; right; exact E3|].
      unfold target_code in Hbad.
      apply Z.eqb_neq in E2. rewrite E2 in Hbad.
      unfold set_current_steps. cbn [curr_index].
      apply Z.ltb_lt in Hbad. rewrite Hbad.
      cbn [fst snd w_di w_clock w_trace].
      rewrite (events_since_app _ _ [Get_register (AB8500_CHARGER h) reg])
        by reflexivity.
      repeat split; auto. }
    cbn [fst snd w_di w_clock w_trace].
    rewrite (events_since_app _ _ [Get_register (AB8500_CHARGER h) reg])
      by reflexivity.
    repeat split; auto.
Qed.

Lemma set_current_rejects_before_writing_witness :
  let w := boot usb_plugged_di in
  let run := ab8500_charger_set_current ab8500_headers (steady_bus 0 0x10)
               1501 0x42 w in
  hardware_writes (events_since w (snd run)) = [] /\
  fst run < 0 /\
  fst run = - ENXIO ab8500_headers.
Proof.
  pose proof (set_current_rejects_before_writing ab8500_headers
                (steady_bus 0 0x10) 1501 0x42 (boot usb_plugged_di)) as H.
  destruct H as [H1 [H2 H3]].
  - exact ab8500_headers_ok.
  - right. vm_compute. reflexivity.
  - split; [exact H1|]. split; [exact H2|].
    apply H3; [vm_compute; discriminate|intros _; vm_compute; discriminate].
Defined.

(** C8 as stated fails when the first read fails: the call returns the
    error of the read, not -ENXIO, for a register it does not support. *)
Lemma set_current_read_failure_code :
  let w := boot usb_plugged_di in
  let run := ab8500_charger_set_current ab8500_headers (steady_bus (-5) 0)
               300 0x99 w in
  ~ supported_register ab8500_headers 0x99 /\
  fst run = -5 /\
  fst run <> - ENXIO ab8500_headers.
Proof.
  cbv zeta. split.
  - intros [H|[H|H]]; vm_compute in H; discriminate.
  - split; [reflexivity|]. vm_compute. discriminate.
Qed.


(** ** USB link classification *)

Lemma link_status_of_int_of_link_status (s : ab8500_charger_link_status) :
  link_status_of_int (int_of_link_status s) = Some s.
Proof. destruct s; reflexivity. Qed.

Lemma usb_type_reserved_run (h : kernel_headers) (bus : abx500_bus)
  (w : world) :
  usb_type_reserved h bus w =
  (if truthy (Z.land (polled_status bus w) 0x04) then 0 else - EBUSY h,
   {| w_di := on_flags
                (set_vbus_collapse
                   (negb (truthy (Z.land (polled_status bus w) 0x04))))
                (w_di w);
      w_clock := (w_clock w + length (vbus_measurement w) + 5)%nat;
      w_trace := w_trace w ++ vbus_measurement w ++ recovery_sequence h |}).
Proof.
  unfold usb_type_reserved, ab8500_charger_get_vbus_voltage,
    ab8500_gpadc_convert, bind, get_di, modify_di, Return,
    abx500_get_register_interruptible,
    abx500_mask_and_set_register_interruptible,
    abx500_set_register_interruptible, call,
    polled_status, vbus_measurement, recovery_sequence.
  destruct (truthy (charger_connected (usb (w_di w))));
    cbn [fst snd w_di w_clock w_trace length app].
  - replace (w_clock w + 1 + 4)%nat with (S (S (S (S (S (w_clock w))))))
      by lia.
    replace (w_clock w + 1 + 5)%nat
      with (S (S (S (S (S (S (w_clock w))))))) by lia.
    destruct (truthy _); cbn [negb]; rewrite <- !app_assoc; reflexivity.
  - replace (w_clock w + 0 + 4)%nat with (S (S (S (S (w_clock w)))))
      by lia.
    replace (w_clock w + 0 + 5)%nat
      with (S (S (S (S (S (w_clock w)))))) by lia.
    destruct (truthy _); cbn [negb]; rewrite <- !app_assoc; reflexivity.
Qed.

Lemma max_usb_curr_reserved_run (h : kernel_headers) (bus : abx500_bus)
  (w : world) :
  ab8500_charger_max_usb_curr h bus (int_of_link_status USB_STAT_RESERVED) w
  = (fst (usb_type_reserved h bus w),
     let w' := snd (usb_type_reserved h bus w) in
     {| w_di := on_vbus_drop
                  (set_real_max_usb_in_curr
                     (max_usb_in_curr (w_di w'),
                      snd (real_max_usb_in_curr (vbus_drop (w_di w')))))
                  (w_di w');
        w_clock := w_clock w'; w_trace := w_trace w' |}).
Proof.
  unfold ab8500_charger_max_usb_curr.
  rewrite link_status_of_int_of_link_status.
  unfold bind, get_di, modify_di, Return.
  destruct (usb_type_reserved h bus w) as [ret w']. reflexivity.
Qed.

(** C7.  When classification meets the RESERVED link status it measures
    VBUS if a charger is connected and then performs the recovery
    sequence: read the watchdog control register, force the charge path
    off, reset the drop counter, force the charge path on again, poll
    the charger status.  If the polled status has the charger-on bit
    (0x04) set, [flags.vbus_collapse] is cleared and the classification
    returns 0; if the bit is clear, [flags.vbus_collapse] is set and the
    classification returns -EBUSY. *)
Theorem reserved_link_recovery (h : kernel_headers) (bus : abx500_bus)
  (w : world) :
  let run := ab8500_charger_max_usb_curr h bus
               (int_of_link_status USB_STAT_RESERVED) w in
  let collapse := vbus_collapse (flags (w_di (snd run))) in
  events_since w (snd run) = vbus_measurement w ++ recovery_sequence h /\
  (Z.land (polled_status bus w) 0x04 <> 0 ->
   collapse = false /\ fst run = 0) /\
  (Z.land (polled_status bus w) 0x04 = 0 ->
   collapse = true /\ fst run = - EBUSY h).
Proof.
  cbv zeta. rewrite max_usb_curr_reserved_run, usb_type_reserved_run.
  cbn [fst snd w_di w_clock w_trace].
  split; [now apply events_since_app|].
  unfold truthy.
  destruct (Z.eqb_spec (Z.land (polled_status bus w) 4) 0) as [E|E];
    cbn [negb]; split; intros H; try contradiction; split; reflexivity.
Qed.

Lemma reserved_link_recovery_witness :
  let w := boot usb_plugged_di in
  let run := ab8500_charger_max_usb_curr ab8500_headers (steady_bus 0 0x04)
               (int_of_link_status USB_STAT_RESERVED) w in
  vbus_collapse (flags (w_di (snd run))) = false /\ fst run = 0.
Proof.
  apply (reserved_link_recovery ab8500_headers (steady_bus 0 0x04)
           (boot usb_plugged_di)).
  vm_compute. discriminate.
Defined.


(** ** Who writes the event flags *)

Lemma flag_moves_refl (R C : list flag_name)
  (f : ab8500_charger_event_flags) : flag_moves R C f f.
Proof. intros n. split; intros H1 H2; congruence. Qed.

Lemma flag_moves_trans (R C : list flag_name)
  (f1 f2 f3 : ab8500_charger_event_flags) :
  flag_moves R C f1 f2 -> flag_moves R C f2 f3 -> flag_moves R C f1 f3.
Proof.
  intros H12 H23 n. destruct (H12 n) as [Hr1 Hc1].
  destruct (H23 n) as [Hr2 Hc2].
  split; intros Ha Hb; destruct (flag_value n f2) eqn:E; auto.
Qed.

Lemma flag_moves_incl (R C R' C' : list flag_name)
  (f1 f2 : ab8500_charger_event_flags) :
  incl R R' -> incl C C' -> flag_moves R C f1 f2 -> flag_moves R' C' f1 f2.
Proof.
  intros HR HC H n. destruct (H n) as [Hr Hc]. split; auto.
Qed.

Lemma writes_Return {A : Type} (R C : list flag_name) (a : A) :
  writes_flags R C (Return a).
Proof. intros w. apply flag_moves_refl. Qed.

Lemma writes_bind {A B : Type} (R C : list flag_name) (m : prog A)
  (k : A -> prog B) :
  writes_flags R C m -> (forall a, writes_flags R C (k a)) ->
  writes_flags R C (bind m k).
Proof.
  intros Hm Hk w. unfold bind. specialize (Hm w).
  destruct (m w) as [a w1]. cbn [snd] in Hm.
  eapply flag_moves_trans; [exact Hm|apply Hk].
Qed.

Lemma writes_incl {A : Type} (R C R' C' : list flag_name) (m : prog A) :
  incl R R' -> incl C C' -> writes_flags R C m -> writes_flags R' C' m.
Proof.
  intros HR HC Hm w. eapply flag_moves_incl; [exact HR|exact HC|apply Hm].
Qed.

Lemma writes_emit (R C : list flag_name) (e : event) :
  writes_flags R C (emit e).
Proof. intros w. apply flag_moves_refl. Qed.

Lemma writes_call {A : Type} (R C : list flag_name) (e : event)
  (answer : nat -> A) : writes_flags R C (call e answer).
Proof. intros w. apply flag_moves_refl. Qed.

Lemma writes_get_di (R C : list flag_name) : writes_flags R C get_di.
Proof. intros w. apply flag_moves_refl. Qed.

Lemma writes_when (R C : list flag_name) (c : bool) (m : prog unit) :
  writes_flags R C m -> writes_flags R C (when c m).
Proof. intros Hm. destruct c; [exact Hm|apply writes_Return]. Qed.

(** An assignment to a field of [*di] other than the flags. *)
Lemma writes_modify_other (R C : list flag_name)
  (f : ab8500_charger -> ab8500_charger) :
  (forall di, flags (f di) = flags di) -> writes_flags R C (modify_di f).
Proof. intros Hf w. cbn. rewrite Hf. apply flag_moves_refl. Qed.

(** An assignment of [v] to the flag [n]. *)
Lemma writes_modify_flag (R C : list flag_name) (n : flag_name) (v : bool)
  (g : ab8500_charger_event_flags -> ab8500_charger_event_flags) :
  (forall f m, m <> n -> flag_value m (g f) = flag_value m f) ->
  (forall f, flag_value n (g f) = v) ->
  In n (if v then R else C) ->
  writes_flags R C (modify_di (on_flags g)).
Proof.
  intros Hg Hv Hin w m. cbn. unfold keep.
  assert (Hdec : m = n \/ m <> n) by (destruct m, n; auto; right; discriminate).
  destruct Hdec as [->|Hne].
  - rewrite Hv. destruct v; split; intros; congruence || assumption.
  - rewrite (Hg _ _ Hne). split; intros; congruence.
Qed.

Lemma set_vbus_collapse_only (v : bool) f m :
  m <> Vbus_collapse ->
  flag_value m (set_vbus_collapse v f) = flag_value m f.
Proof. destruct m; intros H; try reflexivity; now destruct H. Qed.

Lemma set_vbus_drop_end_only (v : bool) f m :
  m <> Vbus_drop_end ->
  flag_value m (set_vbus_drop_end v f) = flag_value m f.
Proof. destruct m; intros H; try reflexivity; now destruct H. Qed.

Lemma set_vbus_ovv_only (v : bool) f m :
  m <> Vbus_ovv -> flag_value m (set_vbus_ovv v f) = flag_value m f.
Proof. destruct m; intros H; try reflexivity; now destruct H. Qed.

Lemma set_usbchargernotok_only (v : bool) f m :
  m <> Usbchargernotok ->
  flag_value m (set_usbchargernotok v f) = flag_value m f.
Proof. destruct m; intros H; try reflexivity; now destruct H. Qed.

Lemma set_usb_thermal_prot_only (v : bool) f m :
  m <> Usb_thermal_prot ->
  flag_value m (set_usb_thermal_prot v f) = flag_value m f.
Proof. destruct m; intros H; try reflexivity; now destruct H. Qed.

Lemma set_report_charger_no_charge_only (v : bool) f m :
  m <> Report_charger_no_charge ->
  flag_value m (set_report_charger_no_charge v f) = flag_value m f.
Proof. destruct m; intros H; try reflexivity; now destruct H. Qed.

Create HintDb flags.

#[local] Hint Resolve writes_Return writes_emit writes_call writes_get_di
  writes_when : flags.
#[local] Hint Resolve set_vbus_collapse_only set_vbus_drop_end_only
  set_vbus_ovv_only set_usbchargernotok_only set_usb_thermal_prot_only
  set_report_charger_no_charge_only : flags.

(** The assignment [flags.n = v]. *)
Ltac writes_flag n v :=
  apply (writes_modify_flag _ _ n v);
  [auto with flags | intros ?; reflexivity | cbn; tauto].

(** Takes a routine apart along its binds and branches. *)
Ltac writes_step :=
  match goal with
  | |- writes_flags _ _ (bind _ _) => apply writes_bind; [|intros ?]
  | |- writes_flags _ _ (Return _) => apply writes_Return
  | |- writes_flags _ _ (when _ _) => apply writes_when
  | |- writes_flags _ _ get_di => apply writes_get_di
  | |- writes_flags _ _ (modify_di (on_flags (set_vbus_collapse ?v))) =>
      writes_flag Vbus_collapse v
  | |- writes_flags _ _ (modify_di (on_flags (set_vbus_drop_end ?v))) =>
      writes_flag Vbus_drop_end v
  | |- writes_flags _ _ (modify_di (on_flags (set_vbus_ovv ?v))) =>
      writes_flag Vbus_ovv v
  | |- writes_flags _ _ (modify_di (on_flags (set_usbchargernotok ?v))) =>
      writes_flag Usbchargernotok v
  | |- writes_flags _ _ (modify_di (on_flags (set_usb_thermal_prot ?v))) =>
      writes_flag Usb_thermal_prot v
  | |- writes_flags _ _
         (modify_di (on_flags (set_report_charger_no_charge ?v))) =>
      writes_flag Report_charger_no_charge v
  | |- writes_flags _ _ (modify_di _) =>
      apply writes_modify_other; intros ?; reflexivity
  | |- writes_flags _ _ (if ?c then _ else _) => destruct c
  | |- writes_flags _ _ (match ?x with _ => _ end) => destruct x
  | |- writes_flags _ _ (let (_, _) := ?x in _) => destruct x
  end.

Ltac writes :=
  repeat first
    [ writes_step
    | solve [auto with flags]
    | progress unfold abx500_get_register_interruptible,
        abx500_set_register_interruptible,
        abx500_mask_and_set_register_interruptible, ab8500_gpadc_convert,
        msleep, power_supply_changed, sysfs_notify, queue_delayed_work,
        cancel_delayed_work_sync ].

(** A routine seen with larger lists. *)
Ltac writes_weaken lem :=
  eapply writes_incl; [| |apply lem];
  intros ? ?; cbn in *; tauto.

Section FlagWriters.

Variable h : kernel_headers.
Variable bus : abx500_bus.

Lemma writes_psy_changed (R C : list flag_name) :
  writes_flags R C ab8500_charger_psy_changed.
Proof. unfold ab8500_charger_psy_changed. writes. Qed.

Lemma writes_get_vbus_voltage (R C : list flag_name) :
  writes_flags R C (ab8500_charger_get_vbus_voltage bus).
Proof. unfold ab8500_charger_get_vbus_voltage. writes. Qed.

Lemma writes_sw_fallback (R C : list flag_name) (b : bool) :
  writes_flags R C (ab8500_enable_disable_sw_fallback bus b).
Proof. unfold ab8500_enable_disable_sw_fallback. writes. Qed.

Lemma writes_power_supply_changed (R C : list flag_name) (psy : power_supply) :
  writes_flags R C (ab8500_power_supply_changed bus psy).
Proof.
  pose proof writes_sw_fallback.
  unfold ab8500_power_supply_changed. writes.
Qed.

Lemma writes_detect_chargers (R C : list flag_name) (probe : bool) :
  writes_flags R C (ab8500_charger_detect_chargers h bus probe).
Proof. unfold ab8500_charger_detect_chargers. writes. Qed.

Lemma writes_set_usb_connected (connected : bool) :
  writes_flags [] [Vbus_drop_end; Report_charger_no_charge]
    (ab8500_charger_set_usb_connected connected).
Proof. unfold ab8500_charger_set_usb_connected. writes. Qed.

Lemma writes_max_usb_curr (link_status : Z) :
  writes_flags [Vbus_collapse] [Vbus_collapse]
    (ab8500_charger_max_usb_curr h bus link_status).
Proof.
  pose proof writes_get_vbus_voltage.
  unfold ab8500_charger_max_usb_curr, usb_type, usb_type_reserved,
    usb_type_not_configured, usb_type_not_allowed.
  writes.
Qed.

Lemma writes_read_usb_type :
  writes_flags [Vbus_collapse] [Vbus_collapse]
    (ab8500_charger_read_usb_type h bus).
Proof.
  pose proof writes_max_usb_curr.
  unfold ab8500_charger_read_usb_type. writes.
Qed.

Lemma writes_invalid_charger_detect (R C : list flag_name) (d : Z) :
  writes_flags R C (invalid_charger_detect h bus d).
Proof. unfold invalid_charger_detect. writes. Qed.

Lemma writes_usb_link_status_work :
  writes_flags [Vbus_collapse; Report_charger_no_charge]
    [Vbus_collapse; Vbus_drop_end; Report_charger_no_charge]
    (ab8500_charger_usb_link_status_work h bus).
Proof.
  pose proof writes_detect_chargers.
  pose proof writes_invalid_charger_detect.
  pose proof writes_psy_changed.
  assert (writes_flags [Vbus_collapse; Report_charger_no_charge]
            [Vbus_collapse; Vbus_drop_end; Report_charger_no_charge]
            (ab8500_charger_read_usb_type h bus))
    by (writes_weaken writes_read_usb_type).
  assert (forall c, writes_flags [Vbus_collapse; Report_charger_no_charge]
            [Vbus_collapse; Vbus_drop_end; Report_charger_no_charge]
            (ab8500_charger_set_usb_connected c))
    by (intros c; writes_weaken (writes_set_usb_connected c)).
  unfold ab8500_charger_usb_link_status_work. writes.
Qed.

Lemma writes_vbuschdropend_handler :
  writes_flags [Vbus_drop_end] [] ab8500_charger_vbuschdropend_handler.
Proof. unfold ab8500_charger_vbuschdropend_handler. writes. Qed.

Lemma writes_serve_interrupts :
  writes_flags [Vbus_drop_end] [] (serve_interrupts bus).
Proof.
  intros w. unfold serve_interrupts.
  destruct (vbus_ch_drop_end_irq bus (w_clock w)).
  - apply writes_vbuschdropend_handler.
  - apply flag_moves_refl.
Qed.

Lemma writes_step_down (R C : list flag_name) (reg sh d B : Z) (n : nat) :
  forall i ret, writes_flags R C (step_down h bus reg sh d B n i ret).
Proof.
  induction n as [|n IH]; intros i ret; cbn [step_down]; writes.
Qed.

Lemma writes_step_up (reg sh d B : Z) (n : nat) :
  forall i allow ret,
    writes_flags [Vbus_drop_end] []
      (step_up h bus reg sh d B n i allow ret).
Proof.
  pose proof writes_serve_interrupts.
  induction n as [|n IH]; intros i allow ret; cbn [step_up]; writes.
Qed.

Lemma writes_set_current (ich reg : Z) :
  writes_flags [Vbus_drop_end] []
    (ab8500_charger_set_current h bus ich reg).
Proof.
  pose proof writes_step_down. pose proof writes_step_up.
  unfold ab8500_charger_set_current, set_current_body, set_current_switch,
    set_current_steps.
  writes.
Qed.

Lemma writes_set_vbus_in_curr (ich_in : Z) :
  writes_flags [Vbus_drop_end] []
    (ab8500_charger_set_vbus_in_curr h bus ich_in).
Proof.
  pose proof writes_set_current.
  unfold ab8500_charger_set_vbus_in_curr. writes.
Qed.

Lemma writes_vbus_drop_end_work :
  writes_flags [Vbus_drop_end] [Vbus_drop_end]
    (ab8500_charger_vbus_drop_end_work h bus).
Proof.
  assert (forall i, writes_flags [Vbus_drop_end] [Vbus_drop_end]
            (ab8500_charger_set_vbus_in_curr h bus i))
    by (intros i; writes_weaken (writes_set_vbus_in_curr i)).
  unfold ab8500_charger_vbus_drop_end_work. writes.
Qed.

Lemma writes_usb_link_attach_work :
  writes_flags [Vbus_drop_end] [Vbus_drop_end; Report_charger_no_charge]
    (ab8500_charger_usb_link_attach_work h bus).
Proof.
  pose proof writes_psy_changed.
  assert (forall c, writes_flags [Vbus_drop_end]
            [Vbus_drop_end; Report_charger_no_charge]
            (ab8500_charger_set_usb_connected c))
    by (intros c; writes_weaken (writes_set_usb_connected c)).
  assert (forall i, writes_flags [Vbus_drop_end]
            [Vbus_drop_end; Report_charger_no_charge]
            (ab8500_charger_set_vbus_in_curr h bus i))
    by (intros i; writes_weaken (writes_set_vbus_in_curr i)).
  unfold ab8500_charger_usb_link_attach_work. writes.
Qed.

Lemma writes_check_hw_failure_work :
  writes_flags [] [Vbus_ovv] (ab8500_charger_check_hw_failure_work h bus).
Proof.
  pose proof writes_power_supply_changed.
  unfold ab8500_charger_check_hw_failure_work. writes.
Qed.

Lemma writes_check_usbchargernotok_work :
  writes_flags [Usbchargernotok] [Usbchargernotok; Vbus_collapse]
    (ab8500_charger_check_usbchargernotok_work h bus).
Proof.
  pose proof writes_psy_changed.
  unfold ab8500_charger_check_usbchargernotok_work. writes.
Qed.

Lemma writes_check_usb_thermal_prot_work :
  writes_flags [Usb_thermal_prot] [Usb_thermal_prot]
    (ab8500_charger_check_usb_thermal_prot_work h bus).
Proof.
  pose proof writes_psy_changed.
  unfold ab8500_charger_check_usb_thermal_prot_work. writes.
Qed.

Lemma writes_vbusovv_handler :
  writes_flags [Vbus_ovv] [] ab8500_charger_vbusovv_handler.
Proof.
  pose proof writes_psy_changed.
  unfold ab8500_charger_vbusovv_handler. writes.
Qed.

(** The same without the interrupt: stepping raises nothing by itself. *)
Section Quiet.

Hypothesis quiet : forall n, vbus_ch_drop_end_irq bus n = false.

Lemma writes_serve_interrupts_quiet (R C : list flag_name) :
  writes_flags R C (serve_interrupts bus).
Proof.
  intros w. unfold serve_interrupts. rewrite quiet. apply flag_moves_refl.
Qed.

Lemma writes_step_up_quiet (R C : list flag_name) (reg sh d B : Z)
  (n : nat) :
  forall i allow ret,
    writes_flags R C (step_up h bus reg sh d B n i allow ret).
Proof.
  pose proof writes_serve_interrupts_quiet.
  induction n as [|n IH]; intros i allow ret; cbn [step_up]; writes.
Qed.

Lemma writes_set_current_quiet (R C : list flag_name) (ich reg : Z) :
  writes_flags R C (ab8500_charger_set_current h bus ich reg).
Proof.
  pose proof writes_step_down. pose proof writes_step_up_quiet.
  unfold ab8500_charger_set_current, set_current_body, set_current_switch,
    set_current_steps.
  writes.
Qed.

Lemma writes_set_vbus_in_curr_quiet (R C : list flag_name) (ich_in : Z) :
  writes_flags R C (ab8500_charger_set_vbus_in_curr h bus ich_in).
Proof.
  pose proof writes_set_current_quiet.
  unfold ab8500_charger_set_vbus_in_curr. writes.
Qed.

Lemma writes_vbus_drop_end_work_quiet :
  writes_flags [] [Vbus_drop_end] (ab8500_charger_vbus_drop_end_work h bus).
Proof.
  pose proof writes_set_vbus_in_curr_quiet.
  unfold ab8500_charger_vbus_drop_end_work. writes.
Qed.

End Quiet.

Lemma max_usb_curr_other_links (link_status : Z) (w : world) :
  link_status_of_int link_status <> Some USB_STAT_RESERVED ->
  flags (w_di (snd (ab8500_charger_max_usb_curr h bus link_status w))) =
  flags (w_di w).
Proof.
  intros Hl. unfold ab8500_charger_max_usb_curr.
  destruct (link_status_of_int link_status) as [[]|]; try congruence;
    unfold usb_type, usb_type_not_configured, usb_type_not_allowed,
      bind, get_di, modify_di, Return;
    cbn [fst snd w_di];
    try (destruct (truthy _)); reflexivity.
Qed.

End FlagWriters.

(** What the two check tasks that raise a flag store in it. *)
Lemma check_tasks_store_status (h : kernel_headers) (bus : abx500_bus)
  (w : world) :
  0 <= fst (bus_reply bus (w_clock w)) ->
  usb_thermal_prot
    (flags (w_di (writer_run h bus Check_usb_thermal_prot_work w))) =
    status_bit bus w USB_CH_TH_PROT /\
  usbchargernotok
    (flags (w_di (writer_run h bus Check_usbchargernotok_work w))) =
    status_bit bus w VBUS_CH_NOK.
Proof.
  intros Hr. apply Z.ltb_ge in Hr.
  unfold writer_run, ab8500_charger_check_usb_thermal_prot_work,
    ab8500_charger_check_usbchargernotok_work, ab8500_charger_psy_changed,
    status_bit, bind, get_di, modify_di, when, Return, queue_delayed_work,
    power_supply_changed, emit, abx500_get_register_interruptible, call.
  cbn [fst snd w_di w_clock w_trace]. rewrite Hr.
  split;
    repeat (match goal with
            | |- context [if ?c then _ else _] => destruct c
            end;
            cbn [fst snd w_di w_clock w_trace negb Bool.eqb when]);
    reflexivity.
Qed.

(** C5 (amended).  The event flags are written by nine routines, each
    within its own limits.  The interrupt handlers only raise their flag
    ([vbus_ovv], [vbus_drop_end]).  The hardware-failure check only
    clears [vbus_ovv]; the charger-not-ok and thermal check tasks store
    the sampled status bit in their flag, raising as well as clearing
    it, the former also clearing [vbus_collapse]; the drop-end work
    clears [vbus_drop_end]; the link-status work raises
    [report_charger_no_charge] and, through the routines it calls,
    changes [vbus_collapse] and clears [vbus_drop_end] and
    [report_charger_no_charge]; the connection update clears
    [vbus_drop_end] and [report_charger_no_charge].  The USB
    classification changes no flag except [vbus_collapse], and changes
    none at all unless the link status is RESERVED.  Beside these,
    [vbus_drop_end] can be raised by its interrupt handler served while
    a routine is stepping a current. *)
Theorem event_flag_writers (h : kernel_headers) (bus : abx500_bus)
  (w : world) :
  let f := flags (w_di w) in
  let after r := flags (w_di (writer_run h bus r w)) in
  (forall r,
     flag_moves (Vbus_drop_end :: may_raise r) (may_clear r) f (after r)) /\
  ((forall n, vbus_ch_drop_end_irq bus n = false) ->
   forall r, flag_moves (may_raise r) (may_clear r) f (after r)) /\
  (forall link_status,
     link_status_of_int link_status <> Some USB_STAT_RESERVED ->
     after (Max_usb_curr link_status) = f) /\
  (0 <= fst (bus_reply bus (w_clock w)) ->
   usb_thermal_prot (after Check_usb_thermal_prot_work) =
     status_bit bus w USB_CH_TH_PROT /\
   usbchargernotok (after Check_usbchargernotok_work) =
     status_bit bus w VBUS_CH_NOK).
Proof.
  cbv zeta. split; [|split; [|split]].
  - intros r. destruct r; cbn [writer_run may_raise may_clear];
      eapply flag_moves_incl;
      try (first [ apply writes_vbusovv_handler
                 | apply writes_vbuschdropend_handler
                 | apply writes_check_hw_failure_work
                 | apply writes_check_usbchargernotok_work
                 | apply writes_check_usb_thermal_prot_work
                 | apply writes_vbus_drop_end_work
                 | apply writes_usb_link_status_work
                 | apply writes_set_usb_connected
                 | apply writes_max_usb_curr ]);
      intros ? ?; cbn in *; tauto.
  - intros quiet r. destruct r; cbn [writer_run may_raise may_clear];
      first [ apply writes_vbusovv_handler
            | apply writes_vbuschdropend_handler
            | apply writes_check_hw_failure_work
            | apply writes_check_usbchargernotok_work
            | apply writes_check_usb_thermal_prot_work
            | apply (writes_vbus_drop_end_work_quiet h bus quiet)
            | apply writes_usb_link_status_work
            | apply writes_set_usb_connected
            | apply writes_max_usb_curr ].
  - intros link_status Hl. cbn [writer_run].
    now apply max_usb_curr_other_links.
  - apply check_tasks_store_status.
Qed.

Lemma event_flag_writers_witness :
  flag_moves [] [Vbus_drop_end]
    (flags usb_plugged_di)
    (flags (w_di (writer_run ab8500_headers (steady_bus 0 0x10)
                    Vbus_drop_end_work (boot usb_plugged_di)))) /\
  usb_thermal_prot
    (flags (w_di (writer_run ab8500_headers (steady_bus 0 0x02)
                    Check_usb_thermal_prot_work (boot usb_plugged_di)))) =
  true.
Proof.
  split.
  - apply (event_flag_writers ab8500_headers (steady_bus 0 0x10)
             (boot usb_plugged_di)).
    intros n. reflexivity.
  - destruct (event_flag_writers ab8500_headers (steady_bus 0 0x02)
                (boot usb_plugged_di)) as [_ [_ [_ H]]].
    destruct H as [H _]; [vm_compute; discriminate|].
    rewrite H. reflexivity.
Defined.

(** C5 as stated fails: classification of a RESERVED link whose recovery
    poll shows the charger off takes [vbus_collapse] from false to true. *)
Lemma classification_raises_vbus_collapse :
  let w := boot usb_plugged_di in
  let w' := snd (ab8500_charger_max_usb_curr ab8500_headers (steady_bus 0 0)
                   (int_of_link_status USB_STAT_RESERVED) w) in
  vbus_collapse (flags (w_di w)) = false /\
  vbus_collapse (flags (w_di w')) = true.
Proof. cbv zeta. split; reflexivity. Qed.



(** ** Health *)

(** C6 (amended).  The health property of either power supply is derived
    in the strict priority order no-charge-reported (UNKNOWN), charger
    not ok (UNSPEC_FAILURE), watchdog expired on the AC or the USB charger
    (DEAD), thermal protection (OVERHEAT), overvoltage (OVERVOLTAGE),
    else GOOD.  In particular a state with the watchdog expired and the
    thermal protection active never reports OVERHEAT, and reports DEAD
    whenever neither of the two conditions of higher priority holds. *)
Theorem usb_health_priority (h : kernel_headers) (bus : abx500_bus)
  (psy_type : power_supply_type) (old : power_supply_propval) (w : world) :
  psy_type = POWER_SUPPLY_TYPE_MAINS \/ psy_type = POWER_SUPPLY_TYPE_USB ->
  let di := w_di w in
  let no_charge := report_charger_no_charge (flags di) in
  let not_ok := usbchargernotok (flags di) in
  let wd := wd_expired (ac di) || wd_expired (usb di) in
  let hot := usb_thermal_prot (flags di) in
  let ovv := vbus_ovv (flags di) in
  ab8500_charger_usb_get_property h bus psy_type POWER_SUPPLY_PROP_HEALTH
    old w = (0, Health (usb_health di), w) /\
  (no_charge = true -> usb_health di = POWER_SUPPLY_HEALTH_UNKNOWN) /\
  (no_charge = false -> not_ok = true ->
   usb_health di = POWER_SUPPLY_HEALTH_UNSPEC_FAILURE) /\
  (no_charge = false -> not_ok = false -> wd = true ->
   usb_health di = POWER_SUPPLY_HEALTH_DEAD) /\
  (no_charge = false -> not_ok = false -> wd = false -> hot = true ->
   usb_health di = POWER_SUPPLY_HEALTH_OVERHEAT) /\
  (no_charge = false -> not_ok = false -> wd = false -> hot = false ->
   ovv = true -> usb_health di = POWER_SUPPLY_HEALTH_OVERVOLTAGE) /\
  (no_charge = false -> not_ok = false -> wd = false -> hot = false ->
   ovv = false -> usb_health di = POWER_SUPPLY_HEALTH_GOOD) /\
  (wd = true -> hot = true ->
   usb_health di <> POWER_SUPPLY_HEALTH_OVERHEAT).
Proof.
  intros Hpsy. cbv zeta. unfold usb_health.
  split.
  - destruct Hpsy as [-> | ->]; reflexivity.
  - destruct (report_charger_no_charge (flags (w_di w)));
      destruct (usbchargernotok (flags (w_di w)));
      destruct (wd_expired (ac (w_di w)) || wd_expired (usb (w_di w)));
      destruct (usb_thermal_prot (flags (w_di w)));
      destruct (vbus_ovv (flags (w_di w)));
      repeat split; intros; try congruence; try discriminate.
Qed.

Lemma usb_health_priority_witness :
  usb_health usb_plugged_di = POWER_SUPPLY_HEALTH_GOOD.
Proof.
  apply (usb_health_priority ab8500_headers (steady_bus 0 0)
           POWER_SUPPLY_TYPE_USB (Intval 0) (boot usb_plugged_di));
    solve [right; reflexivity | reflexivity].
Defined.

(** C6 as stated fails: with the watchdog expired and the thermal
    protection active the property reports UNKNOWN, not DEAD, when no
    charge is possible. *)
Lemma usb_health_not_dead :
  let di := expired_hot_no_charge_di in
  (wd_expired (ac di) || wd_expired (usb di)) = true /\
  usb_thermal_prot (flags di) = true /\
  ab8500_charger_usb_get_property ab8500_headers (steady_bus 0 0)
    POWER_SUPPLY_TYPE_USB POWER_SUPPLY_PROP_HEALTH (Intval 0) (boot di)
  = (0, Health POWER_SUPPLY_HEALTH_UNKNOWN, boot di) /\
  usb_health di <> POWER_SUPPLY_HEALTH_DEAD.
Proof.
  cbv zeta. repeat split; try reflexivity. vm_compute. discriminate.
Qed.


(** ** USB connection *)

(** C4 (amended).  When [ab8500_charger_set_usb_connected] takes the USB
    connection from connected to not connected, the VBUS drop state is
    reset ([real_max_usb_in_curr] to {0, 0}, [retry_current_time] to its
    30 s seed) together with [vbus_drop_end], [report_charger_no_charge],
    [is_usb_host] and [is_aca_rid], so that a reconnection starts the
    retry backoff at the seed; the USB link state ([usb_current],
    [usb_current_tmp], [state], [state_tmp]) is left as it was. *)
Theorem usb_disconnect_resets_vbus_drop (w : world) :
  charger_connected (usb (w_di w)) <> 0 ->
  let di := w_di w in
  let w' := snd (ab8500_charger_set_usb_connected false w) in
  let di' := w_di w' in
  let di'' := w_di (snd (ab8500_charger_set_usb_connected true w')) in
  charger_connected (usb di') = 0 /\
  real_max_usb_in_curr (vbus_drop di') = (0, 0) /\
  retry_current_time (vbus_drop di') = VBUS_IN_CURR_LIM_RETRY_SET_TIME /\
  vbus_drop_end (flags di') = false /\
  report_charger_no_charge (flags di') = false /\
  is_usb_host di' = false /\
  is_aca_rid di' = 0 /\
  usb_state di' = usb_state di /\
  charger_connected (usb di'') = 1 /\
  real_max_usb_in_curr (vbus_drop di'') = (0, 0) /\
  retry_current_time (vbus_drop di'') = VBUS_IN_CURR_LIM_RETRY_SET_TIME.
Proof.
  intros Hc. cbv zeta.
  unfold ab8500_charger_set_usb_connected, bind, get_di, modify_di, when,
    sysfs_notify, emit, Return.
  cbn [Z.b2z fst snd w_di negb].
  destruct (Z.eqb_spec 0 (charger_connected (usb (w_di w)))) as [E|_];
    [congruence|].
  cbn [negb fst snd w_di w_clock w_trace].
  repeat split; reflexivity.
Qed.

Lemma usb_disconnect_resets_vbus_drop_witness :
  let w' := snd (ab8500_charger_set_usb_connected false
                   (boot configured_di)) in
  real_max_usb_in_curr (vbus_drop (w_di w')) = (0, 0) /\
  retry_current_time (vbus_drop (w_di w')) = 30.
Proof.
  destruct (usb_disconnect_resets_vbus_drop (boot configured_di))
    as [_ [H1 [H2 _]]].
  - vm_compute. discriminate.
  - split; [exact H1|exact H2].
Defined.

(** C4 as stated fails: the disconnect leaves the USB link state as the
    USB stack last set it, not as the probe initialised it. *)
Lemma usb_disconnect_keeps_usb_state :
  let w' := snd (ab8500_charger_set_usb_connected false
                   (boot configured_di)) in
  charger_connected (usb configured_di) = 1 /\
  charger_connected (usb (w_di w')) = 0 /\
  usb_state (w_di w') = configured_usb_state /\
  usb_state (w_di w') <> probe_usb_state.
Proof.
  cbv zeta. repeat split; try reflexivity. vm_compute. discriminate.
Qed.


(** ** Charger detection *)

(** What the detection does, for every sampled hardware status: it
    returns NO_PW_CONN or USB_PW_CONN, USB being reported exactly when
    both debounced VBUS-detected bits (VBUS_DET_DBNC1 and
    VBUS_DET_DBNC100) are set in the USB-charger status register.  The
    AC bit is never set in its result: the only register the detection
    reads is that status register, after a 110 ms settle delay unless it
    runs from the probe. *)
Theorem detect_chargers_usb_only (h : kernel_headers) (bus : abx500_bus)
  (probe : bool) (w : world) :
  0 <= fst (bus_reply bus (w_clock w)) ->
  let run := ab8500_charger_detect_chargers h bus probe w in
  (fst run = NO_PW_CONN \/ fst run = USB_PW_CONN) /\
  (fst run = USB_PW_CONN <->
   Z.land (usbch_stat1 bus w) VBUS_DET_DBNC1 <> 0 /\
   Z.land (usbch_stat1 bus w) VBUS_DET_DBNC100 <> 0) /\
  Z.land (fst run) AC_PW_CONN = 0 /\
  events_since w (snd run) =
    (if probe then [] else [Msleep 110]) ++
    [Get_register (AB8500_CHARGER h) (AB8500_CH_USBCH_STAT1_REG h)] /\
  w_di (snd run) = w_di w.
Proof.
  intros Hr. cbv zeta.
  unfold ab8500_charger_detect_chargers, bind, when, msleep, emit, Return,
    abx500_get_register_interruptible, call, usbch_stat1.
  apply Z.ltb_ge in Hr.
  destruct probe; cbn [negb fst snd w_di w_clock w_trace]; rewrite Hr;
    unfold truthy;
    destruct (Z.eqb_spec (Z.land (to_u8 (snd (bus_reply bus (w_clock w))))
                            VBUS_DET_DBNC1) 0) as [E1|E1];
    destruct (Z.eqb_spec (Z.land (to_u8 (snd (bus_reply bus (w_clock w))))
                            VBUS_DET_DBNC100) 0) as [E2|E2];
    cbn [negb andb fst snd w_di w_clock w_trace];
    (split; [auto|]);
    (split; [split; [intros H; try discriminate H; tauto
                    | intros [H1 H2]; try reflexivity; contradiction]|]);
    (split; [reflexivity|]);
    (split; [apply events_since_app; cbn [w_trace];
             rewrite <- ?app_assoc; reflexivity | reflexivity]).
Qed.

Lemma detect_chargers_usb_only_witness :
  fst (ab8500_charger_detect_chargers ab8500_headers (steady_bus 0 0x03)
         false (boot usb_plugged_di)) = USB_PW_CONN.
Proof.
  apply (detect_chargers_usb_only ab8500_headers (steady_bus 0 0x03) false
           (boot usb_plugged_di)).
  - vm_compute. discriminate.
  - split; vm_compute; discriminate.
Defined.

(** C10, where the code falls short of it.  The comment of
    [ab8500_charger_detect_chargers] promises AC_PW_CONN, alone or with
    USB_PW_CONN, when the AC supply is connected, and the probe tests
    that bit of the result.  Called as the probe calls it, with the AC
    charger connected and every status bit of the chip set, the function
    reports USB alone. *)
Lemma detect_chargers_misses_ac :
  let run := ab8500_charger_detect_chargers ab8500_headers
               (steady_bus 0 0xFF) true (boot ac_plugged_di) in
  ac_conn ac_plugged_di = true /\
  charger_connected (ac ac_plugged_di) = 1 /\
  fst run = USB_PW_CONN /\
  Z.land (fst run) AC_PW_CONN = 0.
Proof. cbv zeta. repeat split; reflexivity. Qed.


(** ** The VBUS drop controller *)

Lemma keeps_vbus_drop_Return {A : Type} (a : A) :
  keeps_vbus_drop (Return a).
Proof. intros w. reflexivity. Qed.

Lemma keeps_vbus_drop_bind {A B : Type} (m : prog A) (k : A -> prog B) :
  keeps_vbus_drop m -> (forall a, keeps_vbus_drop (k a)) ->
  keeps_vbus_drop (bind m k).
Proof.
  intros Hm Hk w. unfold bind. specialize (Hm w).
  destruct (m w) as [a w1]. cbn [snd] in Hm. now rewrite Hk.
Qed.

Lemma keeps_vbus_drop_call {A : Type} (e : event) (answer : nat -> A) :
  keeps_vbus_drop (call e answer).
Proof. intros w. reflexivity. Qed.

Lemma keeps_vbus_drop_emit (e : event) : keeps_vbus_drop (emit e).
Proof. intros w. reflexivity. Qed.

Lemma keeps_vbus_drop_get_di : keeps_vbus_drop get_di.
Proof. intros w. reflexivity. Qed.

Lemma keeps_vbus_drop_when (c : bool) (m : prog unit) :
  keeps_vbus_drop m -> keeps_vbus_drop (when c m).
Proof. intros Hm. destruct c; [exact Hm|apply keeps_vbus_drop_Return]. Qed.

Lemma keeps_vbus_drop_modify (f : ab8500_charger -> ab8500_charger) :
  (forall di, vbus_drop (f di) = vbus_drop di) ->
  keeps_vbus_drop (modify_di f).
Proof. intros Hf w. cbn. apply Hf. Qed.

Create HintDb vbus_drop.

#[local] Hint Resolve keeps_vbus_drop_Return keeps_vbus_drop_call
  keeps_vbus_drop_emit keeps_vbus_drop_get_di keeps_vbus_drop_when
  : vbus_drop.

Ltac keeps_drop :=
  repeat first
    [ match goal with
      | |- keeps_vbus_drop (bind _ _) =>
          apply keeps_vbus_drop_bind; [|intros ?]
      | |- keeps_vbus_drop (when _ _) => apply keeps_vbus_drop_when
      | |- keeps_vbus_drop (modify_di _) =>
          apply keeps_vbus_drop_modify; intros ?; reflexivity
      | |- keeps_vbus_drop (if ?c then _ else _) => destruct c
      | |- keeps_vbus_drop (match ?x with _ => _ end) => destruct x
      | |- keeps_vbus_drop (let (_, _) := ?x in _) => destruct x
      end
    | solve [auto with vbus_drop]
    | progress unfold abx500_get_register_interruptible,
        abx500_set_register_interruptible, msleep, queue_delayed_work ].

Section DropController.

Variable h : kernel_headers.
Variable bus : abx500_bus.

Lemma keeps_vbus_drop_serve_interrupts :
  keeps_vbus_drop (serve_interrupts bus).
Proof.
  intros w. unfold serve_interrupts.
  destruct (vbus_ch_drop_end_irq bus (w_clock w)); reflexivity.
Qed.

Lemma keeps_vbus_drop_step_down (reg sh d B : Z) (n : nat) :
  forall i ret, keeps_vbus_drop (step_down h bus reg sh d B n i ret).
Proof.
  induction n as [|n IH]; intros i ret; cbn [step_down]; keeps_drop.
Qed.

Lemma keeps_vbus_drop_step_up (reg sh d B : Z) (n : nat) :
  forall i allow ret,
    keeps_vbus_drop (step_up h bus reg sh d B n i allow ret).
Proof.
  pose proof keeps_vbus_drop_serve_interrupts.
  induction n as [|n IH]; intros i allow ret; cbn [step_up]; keeps_drop.
Qed.

Lemma keeps_vbus_drop_set_current (ich reg : Z) :
  keeps_vbus_drop (ab8500_charger_set_current h bus ich reg).
Proof.
  pose proof keeps_vbus_drop_step_down.
  pose proof keeps_vbus_drop_step_up.
  unfold ab8500_charger_set_current, set_current_body, set_current_switch,
    set_current_steps.
  keeps_drop.
Qed.

Lemma keeps_vbus_drop_set_vbus_in_curr (ich_in : Z) :
  keeps_vbus_drop (ab8500_charger_set_vbus_in_curr h bus ich_in).
Proof.
  pose proof keeps_vbus_drop_set_current.
  unfold ab8500_charger_set_vbus_in_curr. keeps_drop.
Qed.

(** The work, once its sample is read: it stops there when the sample
    says so, and retries the input current otherwise. *)
Lemma vbus_drop_end_work_run (w : world) :
  0 <= fst (bus_reply bus (S (w_clock w))) ->
  let ws := drop_end_sampled h bus w in
  snd (ab8500_charger_vbus_drop_end_work h bus w) =
  if snd (vbus_drop_end_sample (drop_end_sample_byte bus w)
            (vbus_drop (w_di w)))
  then
    if truthy (charger_connected (usb (w_di w)))
    then snd (ab8500_charger_set_vbus_in_curr h bus
                (max_usb_in_curr (w_di w)) ws)
    else ws
  else ws.
Proof.
  intros Hr. cbv zeta. apply Z.ltb_ge in Hr.
  unfold ab8500_charger_vbus_drop_end_work, drop_end_sampled,
    drop_end_sample_byte, bind, modify_di, get_di, Return,
    abx500_set_register_interruptible, abx500_get_register_interruptible,
    call.
  cbn [fst snd w_di w_clock w_trace]. rewrite Hr.
  rewrite <- app_assoc. cbn [app].
  change (to_u8 1) with 1.
  destruct (vbus_drop_end_sample _ _) as [vd proceed] eqn:E.
  cbn [w_di] in E.
  change (vbus_drop (on_flags (set_vbus_drop_end false) (w_di w)))
    with (vbus_drop (w_di w)) in E.
  cbn [fst snd w_di w_clock w_trace].
  assert (Hdi : on_vbus_drop
                  (fun vd0 => fst (vbus_drop_end_sample
                     (to_u8 (snd (bus_reply bus (S (w_clock w))))) vd0))
                  (on_flags (set_vbus_drop_end false) (w_di w)) =
                on_vbus_drop (fun _ => vd)
                  (on_flags (set_vbus_drop_end false) (w_di w))).
  { unfold on_vbus_drop, update_di. f_equal. cbv beta.
    change (vbus_drop (on_flags (set_vbus_drop_end false) (w_di w)))
      with (vbus_drop (w_di w)).
    now rewrite E. }
  rewrite Hdi.
  destruct proceed; [|reflexivity].
  cbn [fst snd w_di w_clock w_trace].
  change (charger_connected (usb (on_vbus_drop (fun _ => vd)
            (on_flags (set_vbus_drop_end false) (w_di w)))))
    with (charger_connected (usb (w_di w))).
  destruct (truthy (charger_connected (usb (w_di w)))); [|reflexivity].
  change (max_usb_in_curr (on_vbus_drop (fun _ => vd)
            (on_flags (set_vbus_drop_end false) (w_di w))))
    with (max_usb_in_curr (w_di w)).
  match goal with
  | |- snd (let (_, _) := ?x in _) = snd ?y =>
      change x with y; destruct y
  end.
  reflexivity.
Qed.

Lemma vbus_drop_end_work_vbus_drop (w : world) :
  0 <= fst (bus_reply bus (S (w_clock w))) ->
  vbus_drop (w_di (snd (ab8500_charger_vbus_drop_end_work h bus w))) =
  fst (vbus_drop_end_sample (drop_end_sample_byte bus w)
         (vbus_drop (w_di w))).
Proof.
  intros Hr. rewrite (vbus_drop_end_work_run w Hr).
  destruct (snd (vbus_drop_end_sample _ _));
    [destruct (truthy _); [rewrite keeps_vbus_drop_set_vbus_in_curr|]|];
    reflexivity.
Qed.

End DropController.

Lemma to_int_double (r : Z) :
  0 <= r < 2 ^ 30 -> to_int (Z.shiftl r 1) = 2 * r.
Proof.
  intros Hr. rewrite Z.shiftl_mul_pow2 by lia. change (2 ^ 1) with 2.
  unfold to_int. change (2 ^ 30) with 1073741824 in Hr.
  change (2 ^ 32) with 4294967296. change (2 ^ 31) with 2147483648.
  rewrite Z.mod_small by lia.
  destruct (Z.ltb_spec (r * 2) 2147483648); lia.
Qed.

Section Sample.

Variable reg_value : Z.
Variable vd : ab8500_vbus_drop.

Local Abbreviation c := (auto_limit_ceiling reg_value).

Lemma sample_changed :
  snd (real_max_usb_in_curr vd) <> c ->
  vbus_drop_end_sample reg_value vd =
  (set_retry_current_time VBUS_IN_CURR_LIM_RETRY_SET_TIME
     (set_real_max_usb_in_curr (fst (real_max_usb_in_curr vd), c) vd),
   true).
Proof.
  intros Hne. unfold vbus_drop_end_sample. fold c.
  destruct (Z.eqb_spec (snd (real_max_usb_in_curr vd)) c); [contradiction|].
  reflexivity.
Qed.

Lemma sample_doubles :
  snd (real_max_usb_in_curr vd) = c ->
  0 <= retry_current_time vd ->
  2 * retry_current_time vd <= VBUS_IN_CURR_LIM_RETRY_MAX_TIME ->
  vbus_drop_end_sample reg_value vd =
  (set_retry_current_time (2 * retry_current_time vd) vd, true).
Proof.
  unfold VBUS_IN_CURR_LIM_RETRY_MAX_TIME. intros He H0 Hle.
  unfold vbus_drop_end_sample. fold c.
  destruct (Z.eqb_spec (snd (real_max_usb_in_curr vd)) c); [|contradiction].
  cbn [negb]. rewrite to_int_double by (change (2 ^ 30) with 1073741824; lia).
  unfold VBUS_IN_CURR_LIM_RETRY_MAX_TIME.
  destruct (Z.gtb_spec (2 * retry_current_time vd) 3840); [lia|].
  unfold to_u32. change (2 ^ 32) with 4294967296.
  now rewrite Z.mod_small by lia.
Qed.

Lemma sample_freezes :
  snd (real_max_usb_in_curr vd) = c ->
  VBUS_IN_CURR_LIM_RETRY_MAX_TIME < 2 * retry_current_time vd < 2 ^ 31 ->
  vbus_drop_end_sample reg_value vd =
  (set_real_max_usb_in_curr (c, c) vd, false).
Proof.
  unfold VBUS_IN_CURR_LIM_RETRY_MAX_TIME. intros He Hr.
  change (2 ^ 31) with 2147483648 in Hr.
  unfold vbus_drop_end_sample. fold c.
  destruct (Z.eqb_spec (snd (real_max_usb_in_curr vd)) c); [|contradiction].
  cbn [negb]. rewrite to_int_double by (change (2 ^ 30) with 1073741824; lia).
  unfold VBUS_IN_CURR_LIM_RETRY_MAX_TIME.
  destruct (Z.gtb_spec (2 * retry_current_time vd) 3840); [|lia].
  now rewrite He.
Qed.

End Sample.

(** Identical observations in a row, from a backoff of [30 * 2 ^ k]. *)
Lemma observations_backoff (reg_value : Z) (n : nat) :
  forall (k : Z) (vd : ab8500_vbus_drop),
    0 <= k <= 7 ->
    snd (real_max_usb_in_curr vd) = auto_limit_ceiling reg_value ->
    retry_current_time vd = 30 * 2 ^ k ->
    let vd' := drop_end_observations n reg_value vd in
    retry_current_time vd' = 30 * 2 ^ Z.min (k + Z.of_nat n) 7 /\
    snd (real_max_usb_in_curr vd') = auto_limit_ceiling reg_value /\
    fst (real_max_usb_in_curr vd') =
      (if k + Z.of_nat n <=? 7 then fst (real_max_usb_in_curr vd)
       else auto_limit_ceiling reg_value).
Proof.
  induction n as [|n IH]; intros k vd Hk Hc Hr; cbv zeta.
  - cbn [drop_end_observations].
    replace (Z.min (k + Z.of_nat 0) 7) with k by lia.
    destruct (Z.leb_spec (k + Z.of_nat 0) 7); [auto|lia].
  - cbn [drop_end_observations].
    assert (Hpow : 0 < 2 ^ k) by (apply Z.pow_pos_nonneg; lia).
    destruct (Z.eq_dec k 7) as [->|Hk7].
    + rewrite (sample_freezes reg_value vd Hc)
        by (rewrite Hr; change (2 ^ 7) with 128; change (2 ^ 31) with 2147483648;
            unfold VBUS_IN_CURR_LIM_RETRY_MAX_TIME; lia).
      cbn [fst].
      destruct (IH 7 (set_real_max_usb_in_curr
                        (auto_limit_ceiling reg_value,
                         auto_limit_ceiling reg_value) vd))
        as [H1 [H2 H3]]; [lia|reflexivity|exact Hr|].
      cbv zeta in H1, H3.
      split; [|split].
      * rewrite H1. f_equal. f_equal. lia.
      * exact H2.
      * rewrite H3. cbn [real_max_usb_in_curr set_real_max_usb_in_curr fst].
        destruct (Z.leb_spec (7 + Z.of_nat n) 7);
          destruct (Z.leb_spec (7 + Z.of_nat (S n)) 7); auto; lia.
    + assert (Hle : 2 ^ k <= 2 ^ 6) by (apply Z.pow_le_mono_r; lia).
      change (2 ^ 6) with 64 in Hle.
      rewrite (sample_doubles reg_value vd Hc)
        by (rewrite Hr; unfold VBUS_IN_CURR_LIM_RETRY_MAX_TIME; lia).
      cbn [fst].
      destruct (IH (k + 1) (set_retry_current_time
                              (2 * retry_current_time vd) vd))
        as [H1 [H2 H3]].
      * lia.
      * exact Hc.
      * cbn [retry_current_time set_retry_current_time]. rewrite Hr.
        rewrite Z.pow_add_r by lia. change (2 ^ 1) with 2. lia.
      * cbv zeta in H1, H3. split; [|split].
        -- rewrite H1. f_equal. f_equal. lia.
        -- exact H2.
        -- rewrite H3.
           cbn [real_max_usb_in_curr set_retry_current_time fst].
           destruct (Z.leb_spec (k + 1 + Z.of_nat n) 7);
             destruct (Z.leb_spec (k + Z.of_nat (S n)) 7); auto; lia.
Qed.


Lemma drop_end_rounds_vbus_drop (h : kernel_headers) (bus : abx500_bus)
  (byte : Z) (n : nat) :
  (forall t, 0 <= fst (bus_reply bus t) /\
             to_u8 (snd (bus_reply bus t)) = byte) ->
  forall w,
    vbus_drop (w_di (drop_end_rounds h bus n w)) =
    drop_end_observations n byte (vbus_drop (w_di w)).
Proof.
  intros Hbus. induction n as [|n IH]; intros w; [reflexivity|].
  cbn [drop_end_rounds drop_end_observations]. rewrite IH.
  rewrite vbus_drop_end_work_vbus_drop by apply Hbus.
  unfold drop_end_sample_byte. rewrite (proj2 (Hbus _)). reflexivity.
Qed.

(** A work that finds the same ceiling at a backoff that can double no
    more writes nothing but the reset of the drop counter. *)
Lemma frozen_round_writes (h : kernel_headers) (bus : abx500_bus)
  (w : world) :
  0 <= fst (bus_reply bus (S (w_clock w))) ->
  snd (real_max_usb_in_curr (vbus_drop (w_di w))) =
    auto_limit_ceiling (drop_end_sample_byte bus w) ->
  VBUS_IN_CURR_LIM_RETRY_MAX_TIME <
    2 * retry_current_time (vbus_drop (w_di w)) < 2 ^ 31 ->
  hardware_writes
    (events_since w (snd (ab8500_charger_vbus_drop_end_work h bus w))) =
  [Set_register (AB8500_CHARGER h) (AB8500_CHARGER_CTRL h) 0x01].
Proof.
  intros Hr He Hlt. rewrite (vbus_drop_end_work_run h bus w Hr).
  rewrite (sample_freezes _ _ He Hlt). cbn [snd].
  unfold drop_end_sampled.
  rewrite (events_since_app _ _
             [Set_register (AB8500_CHARGER h) (AB8500_CHARGER_CTRL h) 1;
              Get_register (AB8500_CHARGER h)
                (AB8500_CH_USBCH_STAT2_REG h)]) by reflexivity.
  reflexivity.
Qed.

(** C3 (amended).  In the drop-end work, once the auto-limit register
    is sampled: when the sampled ceiling differs from the one observed
    before, the new ceiling is recorded and the retry backoff is reset to
    its 30 s seed; when it equals the previous observation, the backoff
    doubles as long as the double does not exceed the 3840 s cap; in both
    cases the work goes on, with a USB charger connected, to set the
    input current again; and once the double would exceed the cap, the
    raw ceiling is frozen to the last retried ceiling, the backoff stays,
    and the work ends with no write but the reset of the drop counter, so
    no retry current is applied.  Over [n] rounds of interrupt and work
    that observe the same byte, starting from the seed, the backoff is
    30, 60, 120, ... up to 3840 after seven rounds; from the eighth round
    on the ceiling is frozen and every round leaves the input current
    alone.  The freeze lasts as long as the observations stay the same:
    a round that samples another ceiling is the first case again. *)
Theorem vbus_drop_end_backoff (h : kernel_headers) (bus : abx500_bus)
  (w : world) (n : nat) :
  0 <= fst (bus_reply bus (S (w_clock w))) ->
  let byte := drop_end_sample_byte bus w in
  let ceiling := auto_limit_ceiling byte in
  let vd := vbus_drop (w_di w) in
  let w' := snd (ab8500_charger_vbus_drop_end_work h bus w) in
  let vd' := vbus_drop (w_di w') in
  let retry :=
    truthy (charger_connected (usb (w_di w))) = true ->
    w' = snd (ab8500_charger_set_vbus_in_curr h bus
                (max_usb_in_curr (w_di w)) (drop_end_sampled h bus w)) in
  (snd (real_max_usb_in_curr vd) <> ceiling ->
   real_max_usb_in_curr vd' = (fst (real_max_usb_in_curr vd), ceiling) /\
   retry_current_time vd' = VBUS_IN_CURR_LIM_RETRY_SET_TIME /\
   retry) /\
  (snd (real_max_usb_in_curr vd) = ceiling ->
   0 <= retry_current_time vd ->
   2 * retry_current_time vd <= VBUS_IN_CURR_LIM_RETRY_MAX_TIME ->
   retry_current_time vd' = 2 * retry_current_time vd /\
   real_max_usb_in_curr vd' = real_max_usb_in_curr vd /\
   retry) /\
  (snd (real_max_usb_in_curr vd) = ceiling ->
   VBUS_IN_CURR_LIM_RETRY_MAX_TIME < 2 * retry_current_time vd < 2 ^ 31 ->
   real_max_usb_in_curr vd' = (ceiling, ceiling) /\
   retry_current_time vd' = retry_current_time vd /\
   hardware_writes (events_since w w') =
     [Set_register (AB8500_CHARGER h) (AB8500_CHARGER_CTRL h) 0x01]) /\
  ((forall t, 0 <= fst (bus_reply bus t) /\
              to_u8 (snd (bus_reply bus t)) = byte) ->
   snd (real_max_usb_in_curr vd) = ceiling ->
   retry_current_time vd = VBUS_IN_CURR_LIM_RETRY_SET_TIME ->
   let wn := drop_end_rounds h bus n w in
   let vdn := vbus_drop (w_di wn) in
   let next := snd (ab8500_charger_vbuschdropend_handler wn) in
   retry_current_time vdn = 30 * 2 ^ Z.min (Z.of_nat n) 7 /\
   ((n <= 7)%nat -> real_max_usb_in_curr vdn = real_max_usb_in_curr vd) /\
   ((8 <= n)%nat -> real_max_usb_in_curr vdn = (ceiling, ceiling)) /\
   ((7 <= n)%nat ->
    hardware_writes
      (events_since next
         (snd (ab8500_charger_vbus_drop_end_work h bus next))) =
    [Set_register (AB8500_CHARGER h) (AB8500_CHARGER_CTRL h) 0x01])).
Proof.
  intros Hr. cbv zeta.
  rewrite (vbus_drop_end_work_vbus_drop h bus w Hr).
  split; [|split; [|split]].
  - intros Hne. rewrite (sample_changed _ _ Hne).
    split; [reflexivity|]. split; [reflexivity|].
    intros Hconn. rewrite (vbus_drop_end_work_run h bus w Hr).
    rewrite (sample_changed _ _ Hne). cbn [snd]. now rewrite Hconn.
  - intros He H0 Hle. rewrite (sample_doubles _ _ He H0 Hle).
    split; [reflexivity|]. split; [reflexivity|].
    intros Hconn. rewrite (vbus_drop_end_work_run h bus w Hr).
    rewrite (sample_doubles _ _ He H0 Hle). cbn [snd]. now rewrite Hconn.
  - intros He Hlt. rewrite (sample_freezes _ _ He Hlt). cbn [fst].
    split; [reflexivity|]. split; [reflexivity|].
    now apply frozen_round_writes.
  - intros Hbus He Hret.
    rewrite (drop_end_rounds_vbus_drop h bus _ n Hbus).
    destruct (observations_backoff (drop_end_sample_byte bus w) n 0
                (vbus_drop (w_di w))) as [H1 [H2 H3]];
      [lia|exact He|exact Hret|].
    cbv zeta in H1, H3. rewrite Z.add_0_l in H1, H3.
    split; [exact H1|]. split; [|split].
    + intros Hn.
      destruct (Z.leb_spec (Z.of_nat n) 7) as [_|Hgt]; [|lia].
      destruct (real_max_usb_in_curr (drop_end_observations n _ _)) as [a b].
      destruct (real_max_usb_in_curr (vbus_drop (w_di w))) as [a0 b0].
      cbn [fst snd] in *. congruence.
    + intros Hn.
      destruct (Z.leb_spec (Z.of_nat n) 7) as [Hle|_]; [lia|].
      destruct (real_max_usb_in_curr (drop_end_observations n _ _)) as [a b].
      cbn [fst snd] in *. congruence.
    + intros Hn.
      set (next := snd (ab8500_charger_vbuschdropend_handler
                          (drop_end_rounds h bus n w))).
      assert (Hvd : vbus_drop (w_di next) =
                    drop_end_observations n (drop_end_sample_byte bus w)
                      (vbus_drop (w_di w)))
        by (rewrite <- (drop_end_rounds_vbus_drop h bus _ n Hbus);
            reflexivity).
      assert (Hbyte : drop_end_sample_byte bus next =
                      drop_end_sample_byte bus w)
        by (unfold drop_end_sample_byte at 1; apply Hbus).
      apply frozen_round_writes.
      * apply Hbus.
      * now rewrite Hvd, Hbyte.
      * rewrite Hvd, H1. replace (Z.min (Z.of_nat n) 7) with 7 by lia.
        change (2 ^ 7) with 128. change (2 ^ 31) with 2147483648.
        unfold VBUS_IN_CURR_LIM_RETRY_MAX_TIME. lia.
Qed.

Lemma vbus_drop_end_backoff_witness :
  let w' := snd (ab8500_charger_vbus_drop_end_work ab8500_headers
                   (steady_bus 0 0x40) (boot configured_di)) in
  retry_current_time (vbus_drop (w_di w')) = 120 /\
  real_max_usb_in_curr (vbus_drop (w_di w')) = (500, 380).
Proof.
  destruct (vbus_drop_end_backoff ab8500_headers (steady_bus 0 0x40)
              (boot configured_di) 0) as [_ [H _]].
  - vm_compute. discriminate.
  - destruct H as [H1 [H2 _]];
      [reflexivity | vm_compute; discriminate | vm_compute; discriminate |].
    split; [exact H1|exact H2].
Defined.

(** C3 as stated fails for the rest of the connection.  The auto-limit
    register holds the ceiling of 380 mA for seven rounds of interrupt
    and work: the backoff doubles from 60 s to the cap and the seventh
    work freezes the raw ceiling and gives up retrying.  The USB charger
    stays connected, and from then on the register holds the ceiling of
    500 mA: the next work records it, puts the backoff back to 30 s and
    writes the input current again. *)
Lemma vbus_drop_end_freeze_not_permanent :
  let bus := changing_bus 38 0x40 0x60 in
  let w0 := boot configured_di in
  let before := drop_end_rounds ab8500_headers bus 6 w0 in
  let frozen := drop_end_rounds ab8500_headers bus 7 w0 in
  let next := snd (ab8500_charger_vbuschdropend_handler frozen) in
  let w' := snd (ab8500_charger_vbus_drop_end_work ab8500_headers bus next) in
  (real_max_usb_in_curr (vbus_drop (w_di before)) = (500, 380) /\
   retry_current_time (vbus_drop (w_di before)) = 3840) /\
  (real_max_usb_in_curr (vbus_drop (w_di frozen)) = (380, 380) /\
   retry_current_time (vbus_drop (w_di frozen)) = 3840 /\
   w_clock frozen = 38%nat) /\
  (charger_connected (usb (w_di w')) = 1 /\
   auto_limit_ceiling (drop_end_sample_byte bus next) = 500 /\
   real_max_usb_in_curr (vbus_drop (w_di w')) = (380, 500) /\
   retry_current_time (vbus_drop (w_di w')) = 30 /\
   register_writes 0x0B 0xC2 (events_since next w') = [0x50; 0x40]) /\
  ~ frozen_for_session ab8500_headers bus frozen.
Proof.
  cbv zeta. split; [split; reflexivity|].
  split; [repeat split; reflexivity|].
  split; [repeat split; reflexivity|].
  intros H. destruct (H 1%nat) as [Hvd _]; [reflexivity|].
  vm_compute in Hvd. discriminate.
Qed.

(** * Further properties of the driver

    The routines around those verified above: notifications, plug
    detection, the USB stack, the interface of the charging algorithm,
    the battery voltage check and the start-up of the chip. *)

(** ** Relations kept by every run *)

Section Always.

Context {I : world -> world -> Prop}.
Hypothesis I_refl : forall w, I w w.
Hypothesis I_trans : forall w1 w2 w3, I w1 w2 -> I w2 w3 -> I w1 w3.

Lemma always_Return {A : Type} (a : A) : always I (Return a).
Proof. intros w. apply I_refl. Qed.

Lemma always_get_di : always I get_di.
Proof. intros w. apply I_refl. Qed.

Lemma always_bind {A B : Type} (m : prog A) (k : A -> prog B) :
  always I m -> (forall a, always I (k a)) -> always I (bind m k).
Proof.
  intros Hm Hk w. unfold bind. specialize (Hm w).
  destruct (m w) as [a w1]. cbn [snd] in Hm.
  eapply I_trans; [exact Hm|apply Hk].
Qed.

Lemma always_when (c : bool) (m : prog unit) :
  always I m -> always I (when c m).
Proof. intros Hm. destruct c; [exact Hm|apply always_Return]. Qed.

End Always.

Lemma same_field_refl {X : Type} (f : ab8500_charger -> X) (w : world) :
  same_field f w w.
Proof. reflexivity. Qed.

Lemma same_field_trans {X : Type} (f : ab8500_charger -> X)
  (w1 w2 w3 : world) :
  same_field f w1 w2 -> same_field f w2 w3 -> same_field f w1 w3.
Proof. unfold same_field. congruence. Qed.

Lemma same_field_emit {X : Type} (f : ab8500_charger -> X) (e : event) :
  always (same_field f) (emit e).
Proof. intros w. reflexivity. Qed.

Lemma same_field_call {X A : Type} (f : ab8500_charger -> X) (e : event)
  (answer : nat -> A) : always (same_field f) (call e answer).
Proof. intros w. reflexivity. Qed.

Lemma same_field_modify {X : Type} (f : ab8500_charger -> X)
  (g : ab8500_charger -> ab8500_charger) :
  (forall di, f (g di) = f di) -> always (same_field f) (modify_di g).
Proof. intros Hg w. apply Hg. Qed.

Lemma adds_events_refl (P : event -> Prop) (w : world) : adds_events P w w.
Proof. exists []. split; [now rewrite app_nil_r|constructor]. Qed.

Lemma adds_events_trans (P : event -> Prop) (w1 w2 w3 : world) :
  adds_events P w1 w2 -> adds_events P w2 w3 -> adds_events P w1 w3.
Proof.
  intros [e1 [H1 F1]] [e2 [H2 F2]]. exists (e1 ++ e2). split.
  - now rewrite H2, H1, app_assoc.
  - apply Forall_app. now split.
Qed.

Lemma adds_events_emit (P : event -> Prop) (e : event) :
  P e -> always (adds_events P) (emit e).
Proof. intros He w. exists [e]. split; [reflexivity|now constructor]. Qed.

Lemma adds_events_call {A : Type} (P : event -> Prop) (e : event)
  (answer : nat -> A) : P e -> always (adds_events P) (call e answer).
Proof. intros He w. exists [e]. split; [reflexivity|now constructor]. Qed.

Lemma adds_events_modify (P : event -> Prop)
  (g : ab8500_charger -> ab8500_charger) :
  always (adds_events P) (modify_di g).
Proof.
  intros w. exists []. split; [cbn; now rewrite app_nil_r|constructor].
Qed.

Lemma adds_events_weaken {A : Type} (P Q : event -> Prop) (m : prog A) :
  (forall e, P e -> Q e) -> always (adds_events P) m ->
  always (adds_events Q) m.
Proof.
  intros HPQ Hm w. destruct (Hm w) as [evs [Ht F]]. exists evs.
  split; [exact Ht|]. eapply Forall_impl; [exact HPQ|exact F].
Qed.

(** The events of a run, once the trace is known to have grown. *)
Lemma adds_events_since (P : event -> Prop) (w w' : world) :
  adds_events P w w' -> Forall P (events_since w w').
Proof.
  intros [evs [Ht F]]. unfold events_since. rewrite Ht.
  now rewrite skipn_app, skipn_all, Nat.sub_diag.
Qed.

Create HintDb always.

#[local] Hint Resolve same_field_emit same_field_call adds_events_modify
  : always.

(** The two relations are reflexive and transitive. *)
Ltac always_order :=
  first [ exact (same_field_refl _) | exact (same_field_trans _)
        | exact (adds_events_refl _) | exact (adds_events_trans _) ].

(** Takes a routine apart along its binds and branches; what is left are
    the calls and assignments that the relation has to be checked on. *)
Ltac always_step :=
  match goal with
  | |- always _ (bind _ _) => apply always_bind; [always_order| |intros ?]
  | |- always _ (Return _) => apply always_Return; always_order
  | |- always _ get_di => apply always_get_di; always_order
  | |- always _ (when _ _) => apply always_when; [always_order|]
  | |- always (same_field _) (call _ _) => apply same_field_call
  | |- always (same_field _) (emit _) => apply same_field_emit
  | |- always (same_field _) (modify_di _) =>
      apply same_field_modify; intros ?; reflexivity
  | |- always (adds_events _) (modify_di _) => apply adds_events_modify
  | |- always _ (if ?c then _ else _) => destruct c
  | |- always _ (match ?x with _ => _ end) => destruct x
  | |- always _ (let (_, _) := ?x in _) => destruct x
  end.

Ltac always_run :=
  repeat first
    [ always_step
    | solve [auto with always]
    | progress unfold abx500_get_register_interruptible,
        abx500_set_register_interruptible,
        abx500_mask_and_set_register_interruptible, ab8500_gpadc_convert,
        msleep, power_supply_changed, sysfs_notify, queue_delayed_work,
        cancel_delayed_work_sync ].

(** ** Stepping sessions *)

Section Sessions.

Variable h : kernel_headers.
Variable bus : abx500_bus.

Local Abbreviation sessions := (same_field current_stepping_sessions).

Lemma sessions_serve_interrupts : always sessions (serve_interrupts bus).
Proof.
  intros w. unfold serve_interrupts.
  destruct (vbus_ch_drop_end_irq bus (w_clock w)); reflexivity.
Qed.

Lemma sessions_step_down (reg sh d B : Z) (n : nat) :
  forall i ret, always sessions (step_down h bus reg sh d B n i ret).
Proof.
  induction n as [|n IH]; intros i ret; cbn [step_down]; always_run.
Qed.

Lemma sessions_step_up (reg sh d B : Z) (n : nat) :
  forall i allow ret,
    always sessions (step_up h bus reg sh d B n i allow ret).
Proof.
  pose proof sessions_serve_interrupts.
  induction n as [|n IH]; intros i allow ret; cbn [step_up]; always_run.
Qed.

Lemma sessions_set_current_body (ich reg : Z) :
  always sessions (set_current_body h bus ich reg).
Proof.
  pose proof sessions_step_down. pose proof sessions_step_up.
  unfold set_current_body, set_current_switch, set_current_steps.
  always_run.
Qed.

End Sessions.

(** X1.  [ab8500_charger_set_current] leaves the counter of stepping
    sessions as it found it, whatever the chip answers and whether or
    not the drop-end interrupt is served meanwhile; so does
    [ab8500_charger_set_vbus_in_curr], which calls it. *)
Theorem set_current_sessions_balanced (h : kernel_headers)
  (bus : abx500_bus) (ich reg : Z) (w : world) :
  current_stepping_sessions
    (w_di (snd (ab8500_charger_set_current h bus ich reg w))) =
  current_stepping_sessions (w_di w) /\
  current_stepping_sessions
    (w_di (snd (ab8500_charger_set_vbus_in_curr h bus ich w))) =
  current_stepping_sessions (w_di w).
Proof.
  assert (H : forall i r w0,
             current_stepping_sessions
               (w_di (snd (ab8500_charger_set_current h bus i r w0))) =
             current_stepping_sessions (w_di w0)).
  { intros i r w0. unfold ab8500_charger_set_current, bind, modify_di, Return.
    match goal with
    | |- context [set_current_body h bus i r ?w1] =>
        pose proof (sessions_set_current_body h bus i r w1) as Hb;
        destruct (set_current_body h bus i r w1) as [ret w2]
    end.
    unfold same_field in Hb. cbn [fst snd w_di] in *.
    unfold set_current_stepping_sessions at 1, update_di.
    cbn [current_stepping_sessions]. rewrite Hb. cbn. unfold keep. lia. }
  split; [apply H|].
  unfold ab8500_charger_set_vbus_in_curr, bind, get_di. cbn [fst snd].
  apply H.
Qed.

(** ** The codes that stepping writes *)

Section WrittenCodes.

Variable h : kernel_headers.
Variable bus : abx500_bus.

(** A write, if it is one, sets a code between [lo] and [hi]. *)
Local Abbreviation code_in reg sh lo hi :=
  (fun e : event =>
     is_write e = true ->
     exists c, e = step_write h reg sh c /\ lo <= c <= hi).

Lemma written_serve_interrupts (P : event -> Prop) :
  (forall w d, P (Queue_delayed_work w d)) ->
  always (adds_events P) (serve_interrupts bus).
Proof.
  intros HP w. unfold serve_interrupts.
  destruct (vbus_ch_drop_end_irq bus (w_clock w)).
  - exists [Queue_delayed_work VBUS_DROP_END_WORK
              (to_u32 (retry_current_time (vbus_drop (w_di w)) * 1000))].
    split; [reflexivity|]. constructor; [apply HP|constructor].
  - apply adds_events_refl.
Qed.

Lemma written_step_down (reg sh d B : Z) (n : nat) :
  forall i ret,
    always (adds_events (code_in reg sh B i))
      (step_down h bus reg sh d B n i ret).
Proof.
  induction n as [|n IH]; intros i ret; cbn [step_down];
    [always_run|].
  destruct (Z.geb_spec i B) as [Hi|Hi]; [|always_run].
  apply always_bind; [always_order| |intros r].
  - unfold abx500_set_register_interruptible. rewrite to_u8_step_value.
    apply adds_events_call. intros _. exists i. split; [reflexivity|lia].
  - destruct (truthy r); [always_run|].
    apply always_bind; [always_order| |intros _].
    + apply always_when; [always_order|]. apply adds_events_emit.
      discriminate.
    + eapply adds_events_weaken; [|apply IH].
      cbv beta. intros e He Hw. destruct (He Hw) as [c [-> Hc]].
      exists c. split; [reflexivity|lia].
Qed.

Lemma written_step_up (reg sh d B : Z) (n : nat) :
  forall i allow ret,
    always (adds_events (code_in reg sh i B))
      (step_up h bus reg sh d B n i allow ret).
Proof.
  induction n as [|n IH]; intros i allow ret; cbn [step_up];
    [always_run|].
  destruct (Z.leb_spec i B) as [Hi|Hi]; cbn [andb]; [|always_run].
  destruct allow; [|always_run].
  apply always_bind; [always_order| |intros r].
  - unfold abx500_set_register_interruptible. rewrite to_u8_step_value.
    apply adds_events_call. intros _. exists i. split; [reflexivity|lia].
  - destruct (truthy r); [always_run|].
    apply always_bind; [always_order| |intros _].
    + apply always_when; [always_order|]. apply adds_events_emit.
      discriminate.
    + apply always_bind; [always_order| |intros _].
      * apply written_serve_interrupts. discriminate.
      * apply always_bind; [always_order|always_run|intros di].
        eapply adds_events_weaken; [|apply IH].
        cbv beta. intros e He Hw. destruct (He Hw) as [c [-> Hc]].
        exists c. split; [reflexivity|lia].
Qed.

Lemma written_set_current_steps (reg : Z) (p : stepping_plan) (ret : Z) :
  always (adds_events
            (fun e => is_write e = true ->
               exists c, e = step_write h reg (shift_value p) c /\
                 Z.min (prev_curr_index p + 1) (curr_index p) <= c <=
                 Z.max (prev_curr_index p - 1) (curr_index p) /\
                 0 <= curr_index p))
    (set_current_steps h bus reg p ret).
Proof.
  unfold set_current_steps.
  destruct (Z.ltb_spec (curr_index p) 0) as [H0|H0]; [always_run|].
  destruct (Z.eqb_spec (prev_curr_index p) (curr_index p)) as [He|He];
    [always_run|].
  destruct (no_stepping p).
  - unfold abx500_set_register_interruptible. rewrite to_u8_step_value.
    apply adds_events_call. intros _. exists (curr_index p).
    split; [reflexivity|lia].
  - destruct (Z.gtb_spec (prev_curr_index p) (curr_index p)) as [Hd|Hd].
    + eapply adds_events_weaken; [|apply written_step_down].
      cbv beta. intros e Hc Hw. destruct (Hc Hw) as [c [-> Hr]].
      exists c. split; [reflexivity|lia].
    + eapply adds_events_weaken; [|apply written_step_up].
      cbv beta. intros e Hc Hw. destruct (Hc Hw) as [c [-> Hr]].
      exists c. split; [reflexivity|lia].
Qed.

Hypothesis h_ok : headers_ok h.

(** The code of a write that stays between the previous code and the
    target is written as it is, at the place of the code. *)
Lemma step_write_code (reg ich c : Z) (t : nat) :
  supported_register h reg ->
  0 <= target_code h reg ich ->
  Z.min (previous_code h bus reg t + 1) (target_code h reg ich) <= c <=
  Z.max (previous_code h bus reg t - 1) (target_code h reg ich) ->
  step_write h reg (register_shift h reg) c = code_write h reg c.
Proof.
  intros Hreg HB Hc. unfold step_write, code_write. f_equal.
  destruct (previous_code_range h bus reg t h_ok Hreg) as [HA HA'].
  pose proof (target_code_range h reg ich) as HB'.
  pose proof (register_shift_nonneg h reg) as Hs.
  apply step_value_shiftl; [lia|lia|].
  assert (0 < 2 ^ register_shift h reg) by (apply Z.pow_pos_nonneg; lia).
  assert (2 ^ register_shift h reg <= 16).
  { unfold register_shift. destruct (reg =? _);
      [change (2 ^ 0) with 1|change (2 ^ 4) with 16]; lia. }
  destruct (Z.max_spec (previous_code h bus reg t - 1)
              (target_code h reg ich)) as [[_ E]|[_ E]]; nia.
Qed.

Lemma written_set_current_body (ich reg : Z) (w : world) :
  adds_events (written_code h bus ich reg w)
    w (snd (set_current_body h bus ich reg w)).
Proof.
  set (P := written_code h bus ich reg w).
  assert (Hread : forall b r (a : nat -> Z * Z),
             always (adds_events P) (call (Get_register b r) a)).
  { intros b r a. apply adds_events_call. discriminate. }
  assert (Hsteps : forall p ret w0,
             supported_register h reg ->
             shift_value p = register_shift h reg ->
             prev_curr_index p = previous_code h bus reg (w_clock w) ->
             curr_index p = target_code h reg ich ->
             adds_events P w0 (snd (set_current_steps h bus reg p ret w0))).
  { intros p ret w0 Hreg Hs HA HB.
    destruct (written_set_current_steps reg p ret w0) as [evs [Ht F]].
    exists evs. split; [exact Ht|].
    eapply Forall_impl; [|exact F]. cbv beta. intros e He Hw.
    destruct (He Hw) as [c [-> [Hc H0]]]. exists c.
    rewrite Hs, HA, HB in *.
    split; [|split; [exact Hc|exact H0]].
    now apply (step_write_code reg ich c (w_clock w)). }
  destruct h_ok as [N1 [N2 [N3 _]]].
  unfold set_current_body, bind, abx500_get_register_interruptible.
  pose proof (Hread (AB8500_CHARGER h) reg
                (fun n => (fst (bus_reply bus n),
                           to_u8 (snd (bus_reply bus n)))) w) as H1.
  destruct (call _ _ w) as [[ret rv] w1] eqn:E1.
  unfold call in E1. injection E1 as Eret Erv Ew1.
  cbn [snd] in *.
  destruct (ret <? 0); [exact H1|].
  unfold set_current_switch, bind, get_di,
    abx500_get_register_interruptible. cbn [fst snd].
  destruct (Z.eqb_spec reg (AB8500_MCH_IPT_CURLVL_REG h)) as [Em|Em].
  - unfold Return. cbn [fst snd].
    eapply adds_events_trans; [exact H1|]. apply Hsteps.
    + left; exact Em.
    + cbn [shift_value]. unfold register_shift.
      destruct (Z.eqb_spec reg (AB8500_CH_OPT_CRNTLVL_REG h)); [|reflexivity].
      congruence.
    + cbn [prev_curr_index]. unfold previous_code.
      rewrite <- Erv. destruct (Z.eqb_spec reg (AB8500_MCH_IPT_CURLVL_REG h));
        [reflexivity|contradiction].
    + cbn [curr_index]. unfold target_code.
      destruct (Z.eqb_spec reg (AB8500_USBCH_IPT_CRNTLVL_REG h));
        [congruence|reflexivity].
  - destruct (Z.eqb_spec reg (AB8500_USBCH_IPT_CRNTLVL_REG h)) as [Eu|Eu].
    + pose proof (Hread (AB8500_CHARGER h) (AB8500_CH_USBCH_STAT2_REG h)
                    (fun n => (fst (bus_reply bus n),
                               to_u8 (snd (bus_reply bus n)))) w1) as H2.
      destruct (call _ _ w1) as [[ret2 rv2] w2] eqn:E2.
      unfold call in E2. injection E2 as Eret2 Erv2 Ew2.
      cbn [snd] in *.
      assert (H12 : adds_events P w w2)
        by (eapply adds_events_trans; eassumption).
      destruct (ret2 <? 0); unfold Return; cbn [fst snd]; [exact H12|].
      eapply adds_events_trans; [exact H12|]. apply Hsteps.
      * right; left; exact Eu.
      * cbn [shift_value]. unfold register_shift.
        destruct (Z.eqb_spec reg (AB8500_CH_OPT_CRNTLVL_REG h));
          [congruence|reflexivity].
      * cbn [prev_curr_index]. unfold previous_code.
        rewrite <- Erv, <- Erv2, <- Ew1. cbn [w_clock].
        destruct (Z.eqb_spec reg (AB8500_MCH_IPT_CURLVL_REG h));
          [contradiction|].
        destruct (Z.eqb_spec reg (AB8500_USBCH_IPT_CRNTLVL_REG h));
          [reflexivity|contradiction].
      * cbn [curr_index]. unfold target_code.
        destruct (Z.eqb_spec reg (AB8500_USBCH_IPT_CRNTLVL_REG h));
          [reflexivity|contradiction].
    + destruct (Z.eqb_spec reg (AB8500_CH_OPT_CRNTLVL_REG h)) as [Eo|Eo].
      * unfold Return. cbn [fst snd].
        eapply adds_events_trans; [exact H1|]. apply Hsteps.
        -- right; right; exact Eo.
        -- cbn [shift_value]. unfold register_shift.
           destruct (Z.eqb_spec reg (AB8500_CH_OPT_CRNTLVL_REG h));
             [reflexivity|contradiction].
        -- cbn [prev_curr_index]. unfold previous_code.
           rewrite <- Erv, Z.shiftr_0_r.
           destruct (Z.eqb_spec reg (AB8500_MCH_IPT_CURLVL_REG h));
             [contradiction|].
           destruct (Z.eqb_spec reg (AB8500_USBCH_IPT_CRNTLVL_REG h));
             [contradiction|reflexivity].
        -- cbn [curr_index]. unfold target_code.
           destruct (Z.eqb_spec reg (AB8500_USBCH_IPT_CRNTLVL_REG h));
             [contradiction|reflexivity].
      * exact H1.
Qed.

Lemma written_set_current (ich reg : Z) (w : world) :
  adds_events (written_code h bus ich reg w)
    w (snd (ab8500_charger_set_current h bus ich reg w)).
Proof.
  unfold ab8500_charger_set_current, bind, modify_di, Return.
  cbn [fst snd].
  match goal with
  | |- context [set_current_body h bus ich reg ?w1] =>
      pose proof (written_set_current_body ich reg w1) as Hb;
      destruct (set_current_body h bus ich reg w1) as [ret w2]
  end.
  cbn [fst snd w_clock w_trace] in *. exact Hb.
Qed.

End WrittenCodes.

(** X2.  Whatever the chip answers, every register write that
    [ab8500_charger_set_current] makes sets, in the register it was
    called for, a code between the code it read as previous and the
    target code of the requested current: never above the higher of the
    two, never below the lower; and nothing is written for a current that
    has no code.  In particular a call that has to raise the current
    never writes a code above its target. *)
Theorem set_current_writes_between (h : kernel_headers) (bus : abx500_bus)
  (ich reg : Z) (w : world) (e : event) :
  headers_ok h ->
  let run := ab8500_charger_set_current h bus ich reg w in
  let A := previous_code h bus reg (w_clock w) in
  let B := target_code h reg ich in
  In e (events_since w (snd run)) ->
  is_write e = true ->
  exists c, e = code_write h reg c /\
            Z.min (A + 1) B <= c <= Z.max (A - 1) B /\ 0 <= B.
Proof.
  intros Hok. cbv zeta. intros Hin Hw.
  pose proof (written_set_current h bus Hok ich reg w) as Hev.
  apply adds_events_since in Hev. rewrite Forall_forall in Hev.
  now apply Hev.
Qed.

Lemma set_current_writes_between_witness :
  exists c, Set_register 0x0B 0xC2 0x20 = code_write ab8500_headers 0xC2 c /\
            2 <= c <= 3 /\ 0 <= 3.
Proof.
  apply (set_current_writes_between ab8500_headers (steady_bus 0 0x10)
           300 0xC2 (boot usb_plugged_di) (Set_register 0x0B 0xC2 0x20)).
  - exact ab8500_headers_ok.
  - vm_compute. auto.
  - reflexivity.
Defined.

(** ** The input current limit *)

(** The entry that a code stands for is not above the encoded value. *)
Lemma regval_scan_floor (a : list Z) (x : Z) (n : nat) :
  forall s r,
    (1 <= s -> at_index a (s - 1) <= x) ->
    regval_scan a x s n = Some r -> 0 <= r -> at_index a r <= x.
Proof.
  induction n as [|n IH]; intros s r Hs H Hr; [discriminate|].
  simpl in H. destruct (Z.ltb_spec x (at_index a s)) as [Hlt|Hge].
  - injection H as <-. apply Hs. lia.
  - apply (IH (s + 1) r); [|exact H|exact Hr].
    intros _. now replace (s + 1 - 1) with s by lia.
Qed.

Lemma table_to_regval_floor (a : list Z) (start low x : Z) :
  0 <= start <= 1 -> at_index a 0 <= x ->
  0 <= table_to_regval a start low x ->
  at_index a (table_to_regval a start low x) <= x.
Proof.
  intros Hs Hx. unfold table_to_regval.
  destruct (Z.ltb_spec x (at_index a 0)); [lia|].
  destruct (regval_scan a x start _) as [r|] eqn:E.
  - intros Hr. eapply regval_scan_floor; [|exact E|exact Hr].
    intros H1. now replace (start - 1) with 0 by lia.
  - unfold regval_last.
    destruct (Z.eqb_spec x (at_index a (ARRAY_SIZE a - 1))); lia.
Qed.

Lemma vbus_in_curr_to_regval_floor (x : Z) :
  50 <= x -> 0 <= ab8500_vbus_in_curr_to_regval x ->
  at_index ab8500_charger_vbus_in_curr_map
    (ab8500_vbus_in_curr_to_regval x) <= x.
Proof.
  intros Hx.
  apply (table_to_regval_floor ab8500_charger_vbus_in_curr_map 0 0 x);
    [lia|exact Hx].
Qed.

(** X3.  [ab8500_charger_set_vbus_in_curr] never programs an input
    current above the lowest limit in force: every code it writes to the
    USB input current register either lowers the code found there, or
    stands for a current that exceeds neither the requested limit, nor
    the battery's [usb_curr_max], nor [real_max_usb_in_curr[0]] when that
    is set, nor the current granted by the USB stack when that is 100 mA
    or more.  The limits are taken to be at least the 50 mA of code 0,
    below which the chip cannot go. *)
Theorem set_vbus_in_curr_within_limits (h : kernel_headers)
  (bus : abx500_bus) (ich_in : Z) (w : world) (e : event) :
  headers_ok h ->
  let di := w_di w in
  let reg := AB8500_USBCH_IPT_CRNTLVL_REG h in
  let run := ab8500_charger_set_vbus_in_curr h bus ich_in w in
  let usb_max := usb_curr_max (chg_params (bat di)) in
  let real_max := fst (real_max_usb_in_curr (vbus_drop di)) in
  let granted := usb_current (usb_state di) in
  50 <= ich_in -> 50 <= usb_max -> (0 < real_max -> 50 <= real_max) ->
  In e (events_since w (snd run)) ->
  is_write e = true ->
  exists c, e = code_write h reg c /\
    (c < previous_code h bus reg (w_clock w) \/
     let mA := at_index ab8500_charger_vbus_in_curr_map c in
     mA <= ich_in /\ mA <= usb_max /\
     (0 < real_max -> mA <= real_max) /\
     (100 <= granted -> mA <= granted)).
Proof.
  intros Hok. cbv zeta. intros Hi Hm Hr Hin Hw.
  unfold ab8500_charger_set_vbus_in_curr, bind, get_di in Hin.
  cbn [fst snd] in Hin.
  match type of Hin with
  | context [ab8500_charger_set_current h bus ?v _ w] =>
      set (v0 := v) in *
  end.
  assert (Hv : 50 <= v0 /\ v0 <= ich_in /\
               v0 <= usb_curr_max (chg_params (bat (w_di w))) /\
               (0 < fst (real_max_usb_in_curr (vbus_drop (w_di w))) ->
                v0 <= fst (real_max_usb_in_curr (vbus_drop (w_di w)))) /\
               (100 <= usb_current (usb_state (w_di w)) ->
                v0 <= usb_current (usb_state (w_di w)))).
  { subst v0. unfold VBAT_TRESH_IP_CUR_RED, USB_CH_IP_CUR_LVL_0P05,
      USB_CH_IP_CUR_LVL_0P45.
    destruct (Z.gtb_spec (fst (real_max_usb_in_curr (vbus_drop (w_di w)))) 0);
      destruct (Z.geb_spec (usb_current (usb_state (w_di w))) 100);
      repeat match goal with
             | |- context [if ?a =? ?b then _ else _] =>
                 destruct (Z.eqb_spec a b)
             | |- context [if ?a <? ?b then _ else _] =>
                 destruct (Z.ltb_spec a b)
             end; lia. }
  pose proof (written_set_current h bus Hok v0
                (AB8500_USBCH_IPT_CRNTLVL_REG h) w) as Hev.
  apply adds_events_since in Hev. rewrite Forall_forall in Hev.
  destruct (Hev e Hin Hw) as [c [-> [Hc HB]]].
  exists c. split; [reflexivity|].
  set (A := previous_code h bus (AB8500_USBCH_IPT_CRNTLVL_REG h) (w_clock w))
    in *.
  destruct (Z.lt_ge_cases c A) as [Hlt|Hge]; [left; exact Hlt|right].
  assert (HA : 0 <= A).
  { apply (previous_code_range h bus _ (w_clock w) Hok).
    right; left; reflexivity. }
  unfold target_code in Hc, HB. rewrite Z.eqb_refl in Hc, HB.
  set (B := ab8500_vbus_in_curr_to_regval v0) in *.
  assert (HcB : 0 <= c <= B) by lia.
  assert (HB16 : B < 16).
  { pose proof (table_to_regval_range ab8500_charger_vbus_in_curr_map
                  0 0 v0) as HR.
    change (ARRAY_SIZE ab8500_charger_vbus_in_curr_map) with 16 in HR.
    apply HR; lia. }
  assert (Hmono : at_index ab8500_charger_vbus_in_curr_map c <=
                  at_index ab8500_charger_vbus_in_curr_map B).
  { apply increasing_at_index_le; [reflexivity|lia|lia|].
    change (ARRAY_SIZE ab8500_charger_vbus_in_curr_map) with 16. lia. }
  pose proof (vbus_in_curr_to_regval_floor v0 (proj1 Hv) HB) as Hfl.
  fold B in Hfl. destruct Hv as [_ [H1 [H2 [H3 H4]]]].
  repeat split; lia.
Qed.

Lemma set_vbus_in_curr_within_limits_witness :
  exists c, Set_register 0x0B 0xC2 0x60 = code_write ab8500_headers 0xC2 c /\
    (c < 1 \/
     at_index ab8500_charger_vbus_in_curr_map c <= 1500 /\
     at_index ab8500_charger_vbus_in_curr_map c <= 1500 /\
     (0 < 500 -> at_index ab8500_charger_vbus_in_curr_map c <= 500) /\
     (100 <= 500 -> at_index ab8500_charger_vbus_in_curr_map c <= 500)).
Proof.
  apply (set_vbus_in_curr_within_limits ab8500_headers (steady_bus 0 0x10)
           1500 (boot configured_di) (Set_register 0x0B 0xC2 0x60)).
  - exact ab8500_headers_ok.
  - vm_compute; discriminate.
  - vm_compute; discriminate.
  - intros _. vm_compute; discriminate.
  - vm_compute. repeat (first [left; reflexivity | right]).
  - reflexivity.
Defined.

(** ** Software fallback and automatic power-on *)

Lemma to_u8_idem (x : Z) : to_u8 (to_u8 x) = to_u8 x.
Proof. unfold to_u8. apply Z.mod_mod. lia. Qed.

Lemma to_u8_testbit (x i : Z) :
  Z.testbit (to_u8 x) i = (i <? 8) && Z.testbit x i.
Proof.
  unfold to_u8. change 256 with (2 ^ 8). apply Z.testbit_mod_pow2. lia.
Qed.

(** The byte written back by [ab8500_enable_disable_sw_fallback]. *)
Lemma sw_fallback_bits (fallback : bool) (x i : Z) :
  0 <= i ->
  Z.testbit
    (to_u8 (if fallback then to_u8 (Z.lor (to_u8 x) 0x8)
            else to_u8 (Z.land (to_u8 x) (Z.lnot 0x8)))) i =
  if i =? 3 then fallback else Z.testbit (to_u8 x) i.
Proof.
  intros Hi.
  assert (H8 : forall j, Z.testbit 8 j = (j =? 3)).
  { intros j. change 8 with (2 ^ 3). rewrite Z.pow2_bits_eqb by lia.
    apply Z.eqb_sym. }
  destruct fallback; rewrite to_u8_idem, to_u8_testbit.
  - rewrite Z.lor_spec, H8, to_u8_testbit.
    destruct (Z.eqb_spec i 3) as [->|Hne]; [now rewrite orb_true_r|].
    rewrite orb_false_r. now destruct (i <? 8).
  - rewrite Z.land_spec, Z.lnot_spec, H8, to_u8_testbit by exact Hi.
    destruct (Z.eqb_spec i 3) as [->|Hne];
      [cbn [negb]; now rewrite !andb_false_r|].
    cbn [negb]. rewrite andb_true_r. now destruct (i <? 8).
Qed.

(** X4.  When its first three register accesses succeed,
    [ab8500_enable_disable_sw_fallback] reads register 0x15 of bank 0,
    opens the OTP emulation (0x11 := 2), writes 0x15 back and closes the
    emulation again (0x11 := 0).  The byte written back has bit 3 equal
    to the requested fallback mode and every other bit as it was read;
    [*di] is not touched. *)
Theorem sw_fallback_sets_bit_3 (bus : abx500_bus) (fallback : bool)
  (w : world) :
  fst (bus_reply bus (w_clock w)) = 0 ->
  fst (bus_reply bus (S (w_clock w))) = 0 ->
  fst (bus_reply bus (S (S (w_clock w)))) = 0 ->
  let run := ab8500_enable_disable_sw_fallback bus fallback w in
  let reg := to_u8 (snd (bus_reply bus (w_clock w))) in
  exists v,
    events_since w (snd run) =
      [ Get_register 0x15 0x00; Set_register 0x11 0x00 0x2;
        Set_register 0x15 0x00 v; Set_register 0x11 0x00 0x0 ] /\
    (forall i, 0 <= i ->
       Z.testbit v i = if i =? 3 then fallback else Z.testbit reg i) /\
    w_di (snd run) = w_di w.
Proof.
  intros H0 H1 H2. cbv zeta.
  unfold ab8500_enable_disable_sw_fallback, bind,
    abx500_get_register_interruptible, abx500_set_register_interruptible,
    call, Return.
  cbn [fst snd w_clock w_trace w_di]. rewrite H0. cbn [truthy Z.eqb negb].
  cbn [fst snd w_clock w_trace w_di]. rewrite H1. cbn [truthy Z.eqb negb].
  cbn [fst snd w_clock w_trace w_di]. rewrite H2. cbn [truthy Z.eqb negb].
  cbn [fst snd w_clock w_trace w_di].
  eexists. split; [|split; [|reflexivity]].
  - apply events_since_app. cbn [w_trace]. rewrite <- !app_assoc.
    reflexivity.
  - intros i Hi. apply sw_fallback_bits. exact Hi.
Qed.

Lemma sw_fallback_sets_bit_3_witness :
  exists v,
    events_since (boot usb_plugged_di)
      (snd (ab8500_enable_disable_sw_fallback (steady_bus 0 0x41) true
              (boot usb_plugged_di))) =
      [ Get_register 0x15 0x00; Set_register 0x11 0x00 0x2;
        Set_register 0x15 0x00 v; Set_register 0x11 0x00 0x0 ] /\
    (forall i, 0 <= i ->
       Z.testbit v i = if i =? 3 then true else Z.testbit 0x41 i) /\
    w_di (snd (ab8500_enable_disable_sw_fallback (steady_bus 0 0x41) true
                 (boot usb_plugged_di))) = usb_plugged_di.
Proof.
  apply (sw_fallback_sets_bit_3 (steady_bus 0 0x41) true
           (boot usb_plugged_di)); reflexivity.
Defined.

Section Autopower.

Variable bus : abx500_bus.

Lemma sw_fallback_keeps_di (fallback : bool) :
  always (same_field (fun di => di))
    (ab8500_enable_disable_sw_fallback bus fallback).
Proof. unfold ab8500_enable_disable_sw_fallback. always_run. Qed.

Lemma sw_fallback_events (fallback : bool) :
  always (adds_events (fun e => match e with
                                | Get_register _ _ | Set_register _ _ _ => True
                                | _ => False
                                end))
    (ab8500_enable_disable_sw_fallback bus fallback).
Proof.
  unfold ab8500_enable_disable_sw_fallback,
    abx500_get_register_interruptible, abx500_set_register_interruptible.
  repeat first [ always_step
               | apply adds_events_call; exact I ].
Qed.

End Autopower.

(** X5.  With [autopower_cfg] set, [ab8500_power_supply_changed] leaves
    [di->autopower] equal to "a charger is connected" (AC or USB); it
    switches the software fallback only when that value changes, and it
    ends, in every case, by notifying the power supply it was given.
    Without [autopower_cfg] it only notifies. *)
Theorem power_supply_changed_tracks_chargers (bus : abx500_bus)
  (psy : power_supply) (w : world) :
  let di := w_di w in
  let connected := truthy (charger_connected (ac di)) ||
                   truthy (charger_connected (usb di)) in
  let w' := snd (ab8500_power_supply_changed bus psy w) in
  (if autopower_cfg (pdata di)
   then w_di w' = set_autopower connected di \/
        (w_di w' = di /\ autopower di = connected)
   else w_di w' = di) /\
  (exists evs, events_since w w' = evs ++ [Power_supply_changed psy] /\
     ((autopower_cfg (pdata di) = false \/ autopower di = connected) ->
      evs = [])).
Proof.
  cbv zeta. unfold ab8500_power_supply_changed, bind, get_di, when.
  cbn [fst snd].
  destruct (autopower_cfg (pdata (w_di w))) eqn:Ecfg.
  - destruct (truthy (charger_connected (usb (w_di w)))) eqn:Eu;
      destruct (truthy (charger_connected (ac (w_di w)))) eqn:Ea;
      destruct (autopower (w_di w)) eqn:Eap;
      cbn [negb andb orb];
      unfold bind, modify_di, Return, power_supply_changed, emit;
      cbn [fst snd w_di w_clock w_trace];
      try (split; [right; split; reflexivity
                  |exists []; split;
                   [apply events_since_app; reflexivity|reflexivity]]);
      match goal with
         | |- context [ab8500_enable_disable_sw_fallback bus ?f ?w1] =>
             pose proof (sw_fallback_keeps_di bus f w1) as Hk;
             pose proof (sw_fallback_events bus f w1) as [evs [Ht _]];
             destruct (ab8500_enable_disable_sw_fallback bus f w1)
               as [[] w2]
         end;
      unfold same_field in Hk; cbn [fst snd w_di w_trace] in *;
      (split; [left; rewrite Hk; reflexivity|]);
      exists evs; (split; [apply events_since_app; rewrite Ht;
                           now rewrite app_assoc|]);
      intros [H|H]; discriminate H.
  - unfold Return, power_supply_changed, emit.
    cbn [fst snd w_di w_clock w_trace].
    split; [reflexivity|]. exists []. split; [|reflexivity].
    apply events_since_app. reflexivity.
Qed.

(** ** USB link classification *)

(** X6.  For every link status other than RESERVED,
    [ab8500_charger_max_usb_curr] makes no call to the chip and returns 0
    or -ENXIO; it returns -ENXIO, refusing the charge, only with the
    input current limit at its minimum of 50 mA.  For every link status,
    RESERVED included, it leaves [real_max_usb_in_curr[0]] equal to the
    limit it has set and [real_max_usb_in_curr[1]] as it was. *)
Theorem max_usb_curr_outcomes (h : kernel_headers) (bus : abx500_bus)
  (link_status : Z) (w : world) :
  headers_ok h ->
  let run := ab8500_charger_max_usb_curr h bus link_status w in
  let di' := w_di (snd run) in
  real_max_usb_in_curr (vbus_drop di') =
    (max_usb_in_curr di', snd (real_max_usb_in_curr (vbus_drop (w_di w)))) /\
  (link_status_of_int link_status <> Some USB_STAT_RESERVED ->
   events_since w (snd run) = [] /\
   (fst run = 0 \/
    fst run = - ENXIO h /\ max_usb_in_curr di' = USB_CH_IP_CUR_LVL_0P05)).
Proof.
  intros Hok. cbv zeta. split.
  - unfold ab8500_charger_max_usb_curr.
    match goal with
    | |- context [bind ?m _] => set (m0 := m)
    end.
    assert (Hk : always (same_field vbus_drop) m0).
    { subst m0.
      unfold usb_type, usb_type_not_configured, usb_type_not_allowed,
        usb_type_reserved, ab8500_charger_get_vbus_voltage.
      always_run. }
    specialize (Hk w). unfold same_field in Hk.
    unfold bind, get_di, modify_di, Return.
    destruct (m0 w) as [ret w1].
    cbn [fst snd w_di] in *. rewrite <- Hk. reflexivity.
  - intros Hl. unfold ab8500_charger_max_usb_curr.
    destruct (link_status_of_int link_status) as [[]|]; try congruence;
      unfold usb_type, usb_type_not_configured, usb_type_not_allowed,
        bind, get_di, modify_di, Return;
      cbn [fst snd w_di w_trace];
      try (destruct (truthy _));
      cbn [fst snd w_di w_trace];
      (split; [unfold events_since; cbn [w_trace];
               now rewrite skipn_all
              |first [left; reflexivity | right; split; reflexivity]]).
Qed.

Lemma max_usb_curr_outcomes_witness :
  let run := ab8500_charger_max_usb_curr ab8500_headers (steady_bus 0 0)
               (int_of_link_status USB_STAT_HM_IDGND)
               (boot usb_plugged_di) in
  real_max_usb_in_curr (vbus_drop (w_di (snd run))) = (50, 0) /\
  events_since (boot usb_plugged_di) (snd run) = [] /\
  fst run = -6.
Proof.
  destruct (max_usb_curr_outcomes ab8500_headers (steady_bus 0 0)
              (int_of_link_status USB_STAT_HM_IDGND) (boot usb_plugged_di)
              ab8500_headers_ok) as [H1 H2].
  destruct H2 as [H2 H3]; [vm_compute; discriminate|].
  split; [exact H1|]. split; [exact H2|]. reflexivity.
Defined.

Lemma link_status_field_range (x : Z) :
  0 <= Z.shiftr (Z.land x AB8500_USB_LINK_STATUS) 3 < 16.
Proof.
  rewrite Z.shiftr_land. change (Z.shiftr AB8500_USB_LINK_STATUS 3)
    with (Z.ones 4).
  rewrite Z.land_ones by lia. apply Z.mod_pos_bound. reflexivity.
Qed.

(** The four bits of the link status always name an enumerator. *)
Lemma link_status_field (val : Z) :
  exists s,
    link_status_of_int
      (to_u8 (Z.shiftr (Z.land (to_u8 val) AB8500_USB_LINK_STATUS) 3)) =
    Some s.
Proof.
  pose proof (link_status_field_range (to_u8 val)) as H.
  set (v := Z.shiftr _ 3) in *. clearbody v.
  replace (to_u8 v) with v by (unfold to_u8; now rewrite Z.mod_small by lia).
  assert (Hv : v = 0 \/ v = 1 \/ v = 2 \/ v = 3 \/ v = 4 \/ v = 5 \/ v = 6 \/
               v = 7 \/ v = 8 \/ v = 9 \/ v = 10 \/ v = 11 \/ v = 12 \/
               v = 13 \/ v = 14 \/ v = 15) by lia.
  repeat (destruct Hv as [->|Hv]; [eexists; reflexivity|]).
  subst v. eexists; reflexivity.
Qed.

(** X7.  When its two reads succeed, [ab8500_charger_read_usb_type]
    classifies the link status held in bits 6..3 of the UsbLineStatus
    register, and this value always names one of the sixteen link
    statuses: the branch for an unknown USB type is never taken from
    here. *)
Theorem read_usb_type_known_status (h : kernel_headers) (bus : abx500_bus)
  (w : world) :
  0 <= fst (bus_reply bus (w_clock w)) ->
  0 <= fst (bus_reply bus (S (w_clock w))) ->
  let line_stat := to_u8 (snd (bus_reply bus (S (w_clock w)))) in
  let w2 := {| w_di := w_di w; w_clock := S (S (w_clock w));
               w_trace := w_trace w ++
                 [ Get_register (AB8500_INTERRUPT h)
                     (AB8500_IT_SOURCE21_REG h);
                   Get_register (AB8500_USB h)
                     (AB8500_USB_LINE_STAT_REG h) ] |} in
  exists s,
    link_status_of_int (Z.shiftr (Z.land line_stat 0x78) 3) = Some s /\
    ab8500_charger_read_usb_type h bus w =
    ab8500_charger_max_usb_curr h bus (int_of_link_status s) w2.
Proof.
  intros H1 H2. cbv zeta. apply Z.ltb_ge in H1, H2.
  destruct (link_status_field (snd (bus_reply bus (S (w_clock w)))))
    as [s Hs].
  exists s.
  assert (Hv : to_u8 (Z.shiftr
                 (Z.land (to_u8 (snd (bus_reply bus (S (w_clock w)))))
                    AB8500_USB_LINK_STATUS) 3) = int_of_link_status s).
  { revert Hs. generalize (to_u8 (Z.shiftr
                 (Z.land (to_u8 (snd (bus_reply bus (S (w_clock w)))))
                    AB8500_USB_LINK_STATUS) 3)).
    intros v Hs. unfold link_status_of_int in Hs.
    destruct (Z.ltb_spec v 0); [discriminate|].
    assert (Hn : (Z.to_nat v < 16)%nat).
    { change 16%nat with (length link_status_enumerators).
      apply nth_error_Some. rewrite Hs. discriminate. }
    assert (Hc : v = 0 \/ v = 1 \/ v = 2 \/ v = 3 \/ v = 4 \/ v = 5 \/
                 v = 6 \/ v = 7 \/ v = 8 \/ v = 9 \/ v = 10 \/ v = 11 \/
                 v = 12 \/ v = 13 \/ v = 14 \/ v = 15) by lia.
    repeat (destruct Hc as [->|Hc];
            [cbn in Hs; injection Hs as <-; reflexivity|]).
    subst v. cbn in Hs. injection Hs as <-. reflexivity. }
  split.
  - pose proof (link_status_field_range
                  (to_u8 (snd (bus_reply bus (S (w_clock w)))))) as Hx.
    change 0x78 with AB8500_USB_LINK_STATUS.
    rewrite <- Hs. f_equal. symmetry. unfold to_u8 at 1.
    apply Z.mod_small. lia.
  - unfold ab8500_charger_read_usb_type, bind,
      abx500_get_register_interruptible, call.
    cbn [fst snd w_di w_clock w_trace]. rewrite H1.
    cbn [fst snd w_di w_clock w_trace]. rewrite H2.
    rewrite Hv, <- app_assoc. reflexivity.
Qed.

Lemma read_usb_type_known_status_witness :
  exists s,
    link_status_of_int (Z.shiftr (Z.land (to_u8 0x38) 0x78) 3) = Some s /\
    ab8500_charger_read_usb_type ab8500_headers (steady_bus 0 0x38)
      (boot usb_plugged_di) =
    ab8500_charger_max_usb_curr ab8500_headers (steady_bus 0 0x38)
      (int_of_link_status s)
      {| w_di := usb_plugged_di; w_clock := 2;
         w_trace := [Get_register 0x0E 0x14; Get_register 0x05 0x80] |}.
Proof.
  apply (read_usb_type_known_status ab8500_headers (steady_bus 0 0x38)
           (boot usb_plugged_di)); vm_compute; discriminate.
Defined.

(** ** Presence as the two power supplies report it *)

(** X8.  The properties PRESENT and ONLINE are answered alike, without
    any call to the chip, and at most one of the two power supplies
    reports the charger: the USB supply when the link was classified as a
    host, the AC supply otherwise.  The two answers add up to
    [usb.charger_connected]. *)
Theorem usb_present_on_one_supply (h : kernel_headers) (bus : abx500_bus)
  (psp : power_supply_property) (old : power_supply_propval) (w : world) :
  psp = POWER_SUPPLY_PROP_PRESENT \/ psp = POWER_SUPPLY_PROP_ONLINE ->
  let mains := ab8500_charger_usb_get_property h bus
                 POWER_SUPPLY_TYPE_MAINS psp old w in
  let usb_psy := ab8500_charger_usb_get_property h bus
                   POWER_SUPPLY_TYPE_USB psp old w in
  exists a u,
    mains = ((0, Intval a), w) /\ usb_psy = ((0, Intval u), w) /\
    (a = 0 \/ u = 0) /\
    a + u = charger_connected (usb (w_di w)) /\
    (if is_usb_host (w_di w) then a = 0 else u = 0).
Proof.
  intros [->| ->]; cbv zeta;
    unfold ab8500_charger_usb_get_property, bind, get_di, Return;
    cbn [fst snd]; destruct (is_usb_host (w_di w));
    eexists; eexists; (split; [reflexivity|]); (split; [reflexivity|]);
    (split; [auto|]); (split; [lia|reflexivity]).
Qed.

Lemma usb_present_on_one_supply_witness :
  exists a u,
    ab8500_charger_usb_get_property ab8500_headers (steady_bus 0 0)
      POWER_SUPPLY_TYPE_MAINS POWER_SUPPLY_PROP_PRESENT (Intval 7)
      (boot configured_di) = ((0, Intval a), boot configured_di) /\
    ab8500_charger_usb_get_property ab8500_headers (steady_bus 0 0)
      POWER_SUPPLY_TYPE_USB POWER_SUPPLY_PROP_PRESENT (Intval 7)
      (boot configured_di) = ((0, Intval u), boot configured_di) /\
    (a = 0 \/ u = 0) /\ a + u = 1 /\ a = 0.
Proof.
  apply (usb_present_on_one_supply ab8500_headers (steady_bus 0 0)
           POWER_SUPPLY_PROP_PRESENT (Intval 7) (boot configured_di)).
  left. reflexivity.
Defined.

(** ** Polling while a failure lasts *)

Section Polling.

Variable h : kernel_headers.
Variable bus : abx500_bus.

Local Abbreviation no_queue :=
  (fun e : event => match e with Queue_delayed_work _ _ => False | _ => True end).

Lemma power_supply_changed_no_queue (psy : power_supply) :
  always (adds_events no_queue) (ab8500_power_supply_changed bus psy).
Proof.
  unfold ab8500_power_supply_changed, power_supply_changed.
  repeat first
    [ always_step
    | apply adds_events_emit; exact I
    | eapply adds_events_weaken; [|apply sw_fallback_events];
      cbv beta; intros []; tauto ].
Qed.

End Polling.

(** X9.  The checks of the overvoltage and of the charger-not-ok status
    poll again after one second exactly while the failure lasts: with
    the status register read, [ab8500_charger_check_hw_failure_work]
    queues itself if and only if it leaves [vbus_ovv] set, and
    [ab8500_charger_check_usbchargernotok_work] if and only if it leaves
    [usbchargernotok] set.  The overvoltage check started with the flag
    clear does nothing at all. *)
Theorem check_works_poll_while_failing (h : kernel_headers)
  (bus : abx500_bus) (w : world) :
  0 <= fst (bus_reply bus (w_clock w)) ->
  let ovv := snd (ab8500_charger_check_hw_failure_work h bus w) in
  let nok := snd (ab8500_charger_check_usbchargernotok_work h bus w) in
  (In (Queue_delayed_work CHECK_HW_FAILURE_WORK 1000) (events_since w ovv)
   <-> vbus_ovv (flags (w_di ovv)) = true) /\
  (vbus_ovv (flags (w_di w)) = false -> ovv = w) /\
  (In (Queue_delayed_work CHECK_USBCHGNOTOK_WORK 1000) (events_since w nok)
   <-> usbchargernotok (flags (w_di nok)) = true).
Proof.
  intros Hr. cbv zeta. apply Z.ltb_ge in Hr.
  split; [|split].
  - unfold ab8500_charger_check_hw_failure_work, bind, get_di.
    cbn [fst snd].
    destruct (vbus_ovv (flags (w_di w))) eqn:Eo.
    + unfold abx500_get_register_interruptible, call, bind.
      cbn [fst snd w_di w_clock w_trace]. rewrite Hr.
      unfold when.
      destruct (truthy (Z.land _ VBUS_OVV_TH)); cbn [negb].
      * unfold Return, queue_delayed_work, emit.
        cbn [fst snd w_di w_clock w_trace]. rewrite Eo.
        cbn [fst snd w_di w_clock w_trace].
        split; [intros _; exact Eo|intros _].
        unfold events_since. cbn [w_trace].
        rewrite <- app_assoc, skipn_app, skipn_all, Nat.sub_diag.
        cbn. auto.
      * unfold bind, modify_di. cbn [fst snd].
        match goal with
        | |- context [ab8500_power_supply_changed bus ?p ?w1] =>
            pose proof (power_supply_changed_no_queue bus p w1)
              as [evs [Ht F]];
            pose proof (writes_power_supply_changed bus [] [] p w1) as Hf;
            destruct (ab8500_power_supply_changed bus p w1) as [[] w2]
        end.
        cbn [fst snd w_di w_clock w_trace] in *.
        unfold Return. cbn [fst snd].
        assert (Ho : vbus_ovv (flags (w_di w2)) = false).
        { destruct (Hf Vbus_ovv) as [Hraise _]. cbn in Hraise.
          destruct (vbus_ovv (flags (w_di w2))); [|reflexivity].
          exfalso. now apply Hraise. }
        rewrite Ho. cbn [fst snd]. rewrite ?Ho.
        split; [|discriminate]. intros Hin. exfalso.
        unfold events_since in Hin. rewrite Ht, <- app_assoc in Hin.
        rewrite skipn_app, skipn_all, Nat.sub_diag in Hin.
        cbn [skipn app] in Hin. destruct Hin as [Hin|Hin]; [discriminate|].
        rewrite Forall_forall in F. exact (F _ Hin).
    + unfold Return, when. cbn [fst snd]. rewrite Eo. cbn [fst snd].
      unfold events_since. rewrite skipn_all. cbn.
      split; [tauto|congruence].
  - intros Eo. unfold ab8500_charger_check_hw_failure_work, bind, get_di.
    cbn [fst snd]. rewrite Eo. unfold Return, when. cbn [fst snd].
    rewrite Eo. reflexivity.
  - unfold ab8500_charger_check_usbchargernotok_work,
      abx500_get_register_interruptible, call, queue_delayed_work, when,
      ab8500_charger_psy_changed, power_supply_changed, emit, bind,
      modify_di, get_di, Return.
    cbn [fst snd w_di w_clock w_trace]. rewrite Hr.
    destruct (truthy (Z.land _ VBUS_CH_NOK));
      cbn [fst snd w_di w_clock w_trace flags usbchargernotok on_flags
           update_di set_usbchargernotok set_vbus_collapse keep];
      destruct (usbchargernotok (flags (w_di w)));
      cbn [negb Bool.eqb fst snd w_di w_clock w_trace is_usb_host
           on_flags update_di keep];
      try destruct (is_usb_host (w_di w));
      cbn [fst snd w_di w_clock w_trace flags usbchargernotok on_flags
           update_di set_usbchargernotok set_vbus_collapse keep];
      unfold events_since; cbn [w_trace];
      rewrite <- ?app_assoc, skipn_app, skipn_all, Nat.sub_diag;
      cbn [skipn app In]; split; try tauto; try discriminate;
      intros H; repeat destruct H as [H|H]; try discriminate H; tauto.
Qed.

Lemma check_works_poll_while_failing_witness :
  In (Queue_delayed_work CHECK_USBCHGNOTOK_WORK 1000)
    (events_since (boot usb_plugged_di)
       (snd (ab8500_charger_check_usbchargernotok_work ab8500_headers
               (steady_bus 0 0x08) (boot usb_plugged_di)))).
Proof.
  apply (check_works_poll_while_failing ab8500_headers (steady_bus 0 0x08)
           (boot usb_plugged_di)).
  - vm_compute; discriminate.
  - reflexivity.
Defined.

(** ** Plug detection and the forcing of an invalid charger *)

Lemma detect_chargers_run (h : kernel_headers) (bus : abx500_bus)
  (w : world) :
  0 <= fst (bus_reply bus (w_clock w)) ->
  ab8500_charger_detect_chargers h bus false w =
  (if vbus_debounced bus w then USB_PW_CONN else NO_PW_CONN,
   chargers_detected h w).
Proof.
  intros Hr. apply Z.ltb_ge in Hr.
  unfold ab8500_charger_detect_chargers, bind, when, msleep, emit, Return,
    abx500_get_register_interruptible, call, vbus_debounced, usbch_stat1,
    chargers_detected.
  cbn [negb fst snd w_di w_clock w_trace]. rewrite Hr.
  rewrite <- app_assoc.
  destruct (truthy _ && truthy _); reflexivity.
Qed.

Lemma detect_chargers_failed (h : kernel_headers) (bus : abx500_bus)
  (w : world) :
  fst (bus_reply bus (w_clock w)) < 0 ->
  ab8500_charger_detect_chargers h bus false w =
  (fst (bus_reply bus (w_clock w)), chargers_detected h w).
Proof.
  intros Hr. apply Z.ltb_lt in Hr.
  unfold ab8500_charger_detect_chargers, bind, when, msleep, emit, Return,
    abx500_get_register_interruptible, call, chargers_detected.
  cbn [negb fst snd w_di w_clock w_trace]. rewrite Hr.
  now rewrite <- app_assoc.
Qed.

Section Frames.

Variable h : kernel_headers.
Variable bus : abx500_bus.

Context {X : Type}.
Variable f : ab8500_charger -> X.

(** What the frame lemmas ask of the field read by [f]: it is none of
    the fields that the classification and the connection update
    assign. *)
Hypothesis f_max : forall v di, f (set_max_usb_in_curr v di) = f di.
Hypothesis f_host : forall v di, f (set_is_usb_host v di) = f di.
Hypothesis f_rid : forall v di, f (set_is_aca_rid v di) = f di.
Hypothesis f_flags : forall g di, f (on_flags g di) = f di.
Hypothesis f_drop : forall g di, f (on_vbus_drop g di) = f di.
Hypothesis f_usb : forall g di, f (on_usb g di) = f di.

Ltac frame_modify :=
  apply same_field_modify; intros ?;
  first [apply f_max | apply f_host | apply f_rid | apply f_flags
        | apply f_drop | apply f_usb].

Ltac frame_run :=
  repeat first
    [ match goal with
      | |- always (same_field f) (modify_di _) => frame_modify
      end
    | always_step
    | progress unfold abx500_get_register_interruptible,
        abx500_set_register_interruptible,
        abx500_mask_and_set_register_interruptible, ab8500_gpadc_convert,
        msleep, power_supply_changed, sysfs_notify, queue_delayed_work,
        cancel_delayed_work_sync ].

Lemma frame_max_usb_curr (link_status : Z) :
  always (same_field f) (ab8500_charger_max_usb_curr h bus link_status).
Proof.
  unfold ab8500_charger_max_usb_curr, usb_type, usb_type_not_configured,
    usb_type_not_allowed, usb_type_reserved,
    ab8500_charger_get_vbus_voltage.
  frame_run.
Qed.

Lemma frame_read_usb_type :
  always (same_field f) (ab8500_charger_read_usb_type h bus).
Proof.
  pose proof frame_max_usb_curr.
  unfold ab8500_charger_read_usb_type. frame_run. auto.
Qed.

Lemma frame_set_usb_connected (connected : bool) :
  always (same_field f) (ab8500_charger_set_usb_connected connected).
Proof. unfold ab8500_charger_set_usb_connected. frame_run. Qed.

Lemma frame_psy_changed : always (same_field f) ab8500_charger_psy_changed.
Proof. unfold ab8500_charger_psy_changed. frame_run. Qed.

End Frames.

(** Routines under which the trace only grows. *)
Ltac grows_run :=
  repeat first
    [ apply adds_events_call; exact I
    | apply adds_events_emit; exact I
    | always_step
    | progress unfold abx500_get_register_interruptible,
        abx500_set_register_interruptible,
        abx500_mask_and_set_register_interruptible, ab8500_gpadc_convert,
        msleep, power_supply_changed, sysfs_notify, queue_delayed_work,
        cancel_delayed_work_sync ].

Section Grows.

Variable h : kernel_headers.
Variable bus : abx500_bus.

Local Abbreviation grows := (adds_events (fun _ : event => True)).

Lemma grows_max_usb_curr (link_status : Z) :
  always grows (ab8500_charger_max_usb_curr h bus link_status).
Proof.
  unfold ab8500_charger_max_usb_curr, usb_type, usb_type_not_configured,
    usb_type_not_allowed, usb_type_reserved,
    ab8500_charger_get_vbus_voltage.
  grows_run.
Qed.

Lemma grows_read_usb_type :
  always grows (ab8500_charger_read_usb_type h bus).
Proof.
  pose proof grows_max_usb_curr.
  unfold ab8500_charger_read_usb_type. grows_run. auto.
Qed.

Lemma grows_set_usb_connected (connected : bool) :
  always grows (ab8500_charger_set_usb_connected connected).
Proof. unfold ab8500_charger_set_usb_connected. grows_run. Qed.

Lemma grows_psy_changed : always grows ab8500_charger_psy_changed.
Proof. unfold ab8500_charger_psy_changed. grows_run. Qed.

End Grows.

(** An event of the trace is still there after a run that only adds to
    it. *)
Lemma grows_keeps_event (P : event -> Prop) (w0 w w' : world) (e : event) :
  adds_events (fun _ => True) w0 w -> adds_events P w w' ->
  In e (events_since w0 w) -> In e (events_since w0 w').
Proof.
  intros [e0 [H0 _]] [e1 [H1 _]]. unfold events_since.
  rewrite H1, H0, <- app_assoc.
  rewrite !skipn_app, !skipn_all, Nat.sub_diag. cbn [app skipn].
  intros H. apply in_or_app. now left.
Qed.

Lemma bind_run {A B : Type} (m : prog A) (k : A -> prog B) (w : world) :
  bind m k w = k (fst (m w)) (snd (m w)).
Proof. unfold bind. now destruct (m w). Qed.

Section InvalidCharger.

Variable h : kernel_headers.
Variable bus : abx500_bus.

Lemma invalid_charger_detect_unplugged (w : world) :
  invalid_charger_detect h bus NO_PW_CONN w =
  (true, {| w_di := set_invalid_charger_detect_state 0 (w_di w);
            w_clock := w_clock w; w_trace := w_trace w |}).
Proof. reflexivity. Qed.

Lemma invalid_charger_detect_state_0 (w : world) :
  invalid_charger_detect_state (w_di w) = 0 ->
  0 <= fst (bus_reply bus (w_clock w)) ->
  line_status (snd (bus_reply bus (w_clock w))) =
    int_of_link_status USB_STAT_NOT_VALID_LINK ->
  invalid_charger_detect h bus USB_PW_CONN w =
  (false, {| w_di := set_invalid_charger_detect_state 1 (w_di w);
             w_clock := S (S (S (w_clock w)));
             w_trace := w_trace w ++
               [ Get_register (AB8500_USB h) (AB8500_USB_LINE_STAT_REG h);
                 Mask_and_set_register (AB8500_CHARGER h)
                   (AB8500_USBCH_CTRL1_REG h) USB_CH_ENA USB_CH_ENA;
                 Mask_and_set_register (AB8500_USB h)
                   (AB8500_USB_LINE_CTRL2_REG h) 0x01 0x01 ] |}).
Proof.
  intros H0 Hl Hs. apply Z.geb_le in Hl. unfold line_status in Hs.
  unfold invalid_charger_detect.
  change (truthy (Z.land USB_PW_CONN USB_PW_CONN)) with true. cbv iota.
  unfold bind, abx500_get_register_interruptible,
    abx500_mask_and_set_register_interruptible, call, get_di, modify_di,
    Return.
  cbn [fst snd w_di w_clock w_trace].
  rewrite Hl, Hs, H0. cbn [Z.eqb andb int_of_link_status Pos.eqb].
  cbn [fst snd w_di w_clock w_trace]. rewrite <- !app_assoc. reflexivity.
Qed.

Lemma invalid_charger_detect_state_1 (w : world) :
  invalid_charger_detect_state (w_di w) = 1 ->
  invalid_charger_detect h bus USB_PW_CONN w =
  (true, {| w_di := set_invalid_charger_detect_state 2 (w_di w);
            w_clock := S (S (w_clock w));
            w_trace := w_trace w ++
              [ Get_register (AB8500_USB h) (AB8500_USB_LINE_STAT_REG h);
                Mask_and_set_register (AB8500_USB h)
                  (AB8500_USB_LINE_CTRL2_REG h) 0x01 0x00 ] |}).
Proof.
  intros H1. unfold invalid_charger_detect.
  change (truthy (Z.land USB_PW_CONN USB_PW_CONN)) with true. cbv iota.
  unfold bind, abx500_get_register_interruptible,
    abx500_mask_and_set_register_interruptible, call, get_di, modify_di,
    Return, when.
  cbn [fst snd w_di w_clock w_trace].
  rewrite H1. change (1 =? 0) with false. rewrite !andb_false_r.
  change (1 =? 1) with true. cbv iota.
  cbn [fst snd w_di w_clock w_trace]. rewrite <- !app_assoc. reflexivity.
Qed.

(** The second half of the work keeps the state of the forcing and only
    adds to the trace. *)
Lemma link_status_work_tail (d : Z) :
  let tail :=
    (if negb (truthy (Z.land d USB_PW_CONN)) then
       modify_di (set_vbus_detected false) ;;
       ab8500_charger_set_usb_connected false ;;
       ab8500_charger_psy_changed ;;
       cancel_delayed_work_sync ATTACH_WORK
     else
       modify_di (set_vbus_detected true) ;;
       ret <- ab8500_charger_read_usb_type h bus ;;
       if negb (truthy ret) then
         di <- get_di ;;
         if is_aca_rid di =? 1 then
           modify_di (set_is_aca_rid (is_aca_rid di + 1)) ;;
           queue_delayed_work ATTACH_WORK WAIT_ACA_RID_ENUMERATION
         else queue_delayed_work ATTACH_WORK 0
       else if ret =? - ENXIO h then
         modify_di (on_flags (set_report_charger_no_charge true)) ;;
         modify_di (set_is_usb_host true) ;;
         ab8500_charger_set_usb_connected true ;;
         ab8500_charger_psy_changed
       else Return tt) in
  always (same_field invalid_charger_detect_state) tail /\
  always (adds_events (fun _ => True)) tail.
Proof.
  cbv zeta. split.
  - assert (Fread : always (same_field invalid_charger_detect_state)
                      (ab8500_charger_read_usb_type h bus))
      by (apply frame_read_usb_type; intros; reflexivity).
    assert (Fconn : forall c,
               always (same_field invalid_charger_detect_state)
                 (ab8500_charger_set_usb_connected c))
      by (intros c; apply frame_set_usb_connected; intros; reflexivity).
    assert (Fpsy : always (same_field invalid_charger_detect_state)
                     ab8500_charger_psy_changed)
      by apply frame_psy_changed.
    always_run; auto.
  - pose proof (grows_read_usb_type h bus).
    pose proof grows_set_usb_connected. pose proof grows_psy_changed.
    grows_run; auto.
Qed.

End InvalidCharger.

(** X10.  The work that follows a change of the USB link status keeps a
    small state machine in [invalid_charger_detect_state] to force the
    chip to charge from a charger it found invalid.  With the charger
    status read: when VBUS is not detected the state returns to 0; when
    VBUS is detected in state 0 and the link status reads NOT_VALID_LINK,
    the work enables the charger and the USB charger detection, moves to
    state 1 and stops there, touching nothing else; and when VBUS is
    detected in state 1 it disables the USB charger detection again and
    moves to state 2. *)
Theorem link_status_work_forces_invalid_charger (h : kernel_headers)
  (bus : abx500_bus) (w : world) :
  0 <= fst (bus_reply bus (w_clock w)) ->
  let di := w_di w in
  let w' := snd (ab8500_charger_usb_link_status_work h bus w) in
  let line := bus_reply bus (S (w_clock w)) in
  (vbus_debounced bus w = false ->
   invalid_charger_detect_state (w_di w') = 0) /\
  (vbus_debounced bus w = true ->
   invalid_charger_detect_state di = 0 ->
   0 <= fst line ->
   line_status (snd line) = int_of_link_status USB_STAT_NOT_VALID_LINK ->
   w' = {| w_di := set_invalid_charger_detect_state 1 di;
           w_clock := S (S (S (S (w_clock w))));
           w_trace := w_trace w ++
             [ Msleep 110;
               Get_register (AB8500_CHARGER h) (AB8500_CH_USBCH_STAT1_REG h);
               Get_register (AB8500_USB h) (AB8500_USB_LINE_STAT_REG h);
               Mask_and_set_register (AB8500_CHARGER h)
                 (AB8500_USBCH_CTRL1_REG h) USB_CH_ENA USB_CH_ENA;
               Mask_and_set_register (AB8500_USB h)
                 (AB8500_USB_LINE_CTRL2_REG h) 0x01 0x01 ] |}) /\
  (vbus_debounced bus w = true ->
   invalid_charger_detect_state di = 1 ->
   invalid_charger_detect_state (w_di w') = 2 /\
   In (Mask_and_set_register (AB8500_USB h) (AB8500_USB_LINE_CTRL2_REG h)
         0x01 0x00)
      (events_since w w')).
Proof.
  intros Hr. cbv zeta.
  unfold ab8500_charger_usb_link_status_work.
  rewrite bind_run, (detect_chargers_run h bus w Hr). cbn [fst snd].
  destruct (vbus_debounced bus w) eqn:Ed.
  - change (USB_PW_CONN <? 0) with false. cbv iota.
    split; [discriminate|]. split.
    + intros _ H0 Hl Hs. rewrite bind_run.
      rewrite (invalid_charger_detect_state_0 h bus (chargers_detected h w)
                 H0 Hl Hs).
      cbn [fst snd negb]. unfold Return, chargers_detected.
      cbn [fst snd w_di w_clock w_trace]. rewrite <- !app_assoc.
      reflexivity.
    + intros _ H1. rewrite bind_run.
      rewrite (invalid_charger_detect_state_1 h bus (chargers_detected h w)
                 H1).
      cbn [fst snd negb].
      destruct (link_status_work_tail h bus USB_PW_CONN) as [Hk Hg].
      match goal with
      | |- context [snd (_ ?w2)] => specialize (Hk w2); specialize (Hg w2)
      end.
      unfold same_field in Hk. cbn [w_di] in Hk.
      split; [rewrite Hk; reflexivity|].
      eapply grows_keeps_event. 2: exact Hg.
      * eexists.
        split; [unfold chargers_detected; cbn [w_trace];
                rewrite <- !app_assoc; reflexivity
               |repeat constructor].
      * unfold events_since, chargers_detected. cbn [w_trace].
        rewrite <- !app_assoc, skipn_app, skipn_all, Nat.sub_diag.
        cbn. change (to_u8 1) with 1. change (to_u8 0) with 0. auto.
  - change (NO_PW_CONN <? 0) with false. cbv iota.
    split; [intros _|split; discriminate].
    rewrite bind_run, invalid_charger_detect_unplugged. cbn [fst snd negb].
    destruct (link_status_work_tail h bus NO_PW_CONN) as [Hk _].
    match goal with
    | |- context [snd (_ ?w2)] => specialize (Hk w2)
    end.
    unfold same_field in Hk. rewrite Hk. reflexivity.
Qed.

Lemma link_status_work_forces_invalid_charger_witness :
  invalid_charger_detect_state
    (w_di (snd (ab8500_charger_usb_link_status_work ab8500_headers
                  (steady_bus 0 0x00) (boot usb_plugged_di)))) = 0.
Proof.
  destruct (link_status_work_forces_invalid_charger ab8500_headers
              (steady_bus 0 0x00) (boot usb_plugged_di)) as [H _].
  - vm_compute; discriminate.
  - apply H. reflexivity.
Defined.

(** ** The current granted by the USB stack *)

(** What [ab8500_charger_get_usb_cur] returns and leaves behind. *)
Lemma get_usb_cur_run (h : kernel_headers) (w : world) :
  headers_ok h ->
  let granted := usb_current (usb_state (w_di w)) in
  let run := ab8500_charger_get_usb_cur h w in
  let di' := w_di (snd run) in
  (fst run = 0 <-> In granted [100; 200; 300; 400; 500]) /\
  (fst run = 0 ->
   max_usb_in_curr di' =
     at_index ab8500_charger_vbus_in_curr_map
       (ab8500_vbus_in_curr_to_regval granted) /\
   max_usb_in_curr di' <= granted) /\
  (fst run <> 0 ->
   fst run = - EPERM h /\ max_usb_in_curr di' = USB_CH_IP_CUR_LVL_0P05) /\
  fst (real_max_usb_in_curr (vbus_drop di')) = max_usb_in_curr di' /\
  w_trace (snd run) = w_trace w /\ w_clock (snd run) = w_clock w.
Proof.
  intros [_ [_ [_ [Hp _]]]]. cbv zeta.
  unfold ab8500_charger_get_usb_cur, bind, get_di, modify_di, Return.
  cbn [fst snd].
  destruct (Z.eqb_spec (usb_current (usb_state (w_di w))) 100) as [E|N1];
    [rewrite E; cbn; repeat split; auto; try lia; try discriminate;
     intros H; now destruct H|].
  destruct (Z.eqb_spec (usb_current (usb_state (w_di w))) 200) as [E|N2];
    [rewrite E; cbn; repeat split; auto; try lia; try discriminate;
     intros H; now destruct H|].
  destruct (Z.eqb_spec (usb_current (usb_state (w_di w))) 300) as [E|N3];
    [rewrite E; cbn; repeat split; auto; try lia; try discriminate;
     intros H; now destruct H|].
  destruct (Z.eqb_spec (usb_current (usb_state (w_di w))) 400) as [E|N4];
    [rewrite E; cbn; repeat split; auto; try lia; try discriminate;
     intros H; now destruct H|].
  destruct (Z.eqb_spec (usb_current (usb_state (w_di w))) 500) as [E|N5];
    [rewrite E; cbn; repeat split; auto 6; try lia; try discriminate;
     intros H; now destruct H|].
  cbn [fst snd w_di w_trace w_clock].
  split; [|split; [|split; [|split; [|split]]]]; try reflexivity.
  - split; [lia|]. cbn. intros [H|[H|[H|[H|[H|[]]]]]]; congruence.
  - lia.
  - intros _. split; reflexivity.
Qed.

(** X11.  [ab8500_charger_get_usb_cur] accepts exactly the grants of
    100, 200, 300, 400 and 500 mA.  For these it returns 0 and sets the
    input current limit to the level that the VBUS input current table
    gives for the grant, the highest level not above it (98, 193, 290,
    380 and 500 mA).  For any other grant it returns -EPERM with the
    limit at 50 mA.  In both cases [real_max_usb_in_curr[0]] follows the
    limit, and the chip is not touched. *)
Theorem get_usb_cur_levels (h : kernel_headers) (w : world) :
  headers_ok h ->
  let granted := usb_current (usb_state (w_di w)) in
  let run := ab8500_charger_get_usb_cur h w in
  let di' := w_di (snd run) in
  (fst run = 0 <-> In granted [100; 200; 300; 400; 500]) /\
  (fst run = 0 ->
   max_usb_in_curr di' =
     at_index ab8500_charger_vbus_in_curr_map
       (ab8500_vbus_in_curr_to_regval granted) /\
   max_usb_in_curr di' <= granted) /\
  (fst run <> 0 ->
   fst run = - EPERM h /\ max_usb_in_curr di' = USB_CH_IP_CUR_LVL_0P05) /\
  fst (real_max_usb_in_curr (vbus_drop di')) = max_usb_in_curr di' /\
  w_trace (snd run) = w_trace w /\ w_clock (snd run) = w_clock w.
Proof. exact (get_usb_cur_run h w). Qed.

Lemma get_usb_cur_levels_witness :
  max_usb_in_curr
    (w_di (snd (ab8500_charger_get_usb_cur ab8500_headers
                  (boot (on_usb_state (set_usb_current 300)
                           configured_di))))) =
    at_index ab8500_charger_vbus_in_curr_map
      (ab8500_vbus_in_curr_to_regval 300) /\
  max_usb_in_curr
    (w_di (snd (ab8500_charger_get_usb_cur ab8500_headers
                  (boot (on_usb_state (set_usb_current 300)
                           configured_di))))) <= 300.
Proof.
  destruct (get_usb_cur_levels ab8500_headers
              (boot (on_usb_state (set_usb_current 300) configured_di))
              ab8500_headers_ok) as [_ [H _]].
  apply H. reflexivity.
Defined.

(** ** Detection of the USB type at plug-in *)

Lemma line_status_range (val : Z) : 0 <= line_status val < 16.
Proof. apply link_status_field_range. Qed.

Lemma polled_1 (h : kernel_headers) (k : nat) (w : world) :
  polled h (S k) w = polled h k (polled h 1 w).
Proof.
  unfold polled. cbn [w_di w_clock w_trace repeat concat].
  rewrite app_nil_r, <- app_assoc. f_equal. lia.
Qed.

Section DetectUsbType.

Variable h : kernel_headers.
Variable bus : abx500_bus.

(** The loop with [n] turns left makes [k] polls when the first [k - 1]
    find no link status and the last one finds one, or is the last turn
    of the loop. *)
Lemma detect_usb_type_poll_run (n : nat) :
  forall (k : nat) (val : Z) (w : world),
    (1 <= k <= n)%nat ->
    (forall i, (i < 2 * k)%nat -> 0 <= fst (bus_reply bus (w_clock w + i))) ->
    (forall j, (j < k - 1)%nat -> poll_status bus w j = 0) ->
    poll_status bus w (k - 1) <> 0 \/ k = n ->
    detect_usb_type_poll h bus n val w =
    (inr (poll_status bus w (k - 1)), polled h k w).
Proof.
  induction n as [|n IH]; intros k val w Hk Hok Hz Hlast; [lia|].
  cbn [detect_usb_type_poll].
  unfold bind at 1. unfold msleep, emit. cbn [fst snd].
  unfold bind at 1. unfold abx500_get_register_interruptible at 1, call.
  cbn [fst snd w_di w_clock w_trace].
  pose proof (Hok 0%nat ltac:(lia)) as H0. rewrite Nat.add_0_r in H0.
  apply Z.ltb_ge in H0. rewrite H0.
  unfold bind at 1. unfold abx500_get_register_interruptible at 1, call.
  cbn [fst snd w_di w_clock w_trace].
  pose proof (Hok 1%nat ltac:(lia)) as H1.
  replace (w_clock w + 1)%nat with (S (w_clock w)) in H1 by lia.
  apply Z.ltb_ge in H1. rewrite H1.
  assert (Hs : to_u8 (Z.shiftr
                 (Z.land (to_u8 (snd (bus_reply bus (S (w_clock w)))))
                    AB8500_USB_LINK_STATUS) 3) = poll_status bus w 0).
  { unfold poll_status.
    replace (w_clock w + 2 * 0 + 1)%nat with (S (w_clock w)) by lia.
    pose proof (line_status_range (snd (bus_reply bus (S (w_clock w)))))
      as Hr.
    unfold line_status in *. unfold to_u8 at 1. apply Z.mod_small. lia. }
  rewrite Hs.
  assert (Hw1 : {| w_di := w_di w; w_clock := S (S (w_clock w));
                   w_trace := ((w_trace w ++ [Msleep 250]) ++
                     [Get_register (AB8500_INTERRUPT h)
                        (AB8500_IT_SOURCE21_REG h)]) ++
                     [Get_register (AB8500_USB h)
                        (AB8500_USB_LINE_STAT_REG h)] |} = polled h 1 w).
  { unfold polled, usb_type_poll. cbn [repeat concat w_di w_clock w_trace].
    rewrite <- !app_assoc. cbn [app]. f_equal. lia. }
  rewrite Hw1.
  destruct (Nat.eq_dec k 1) as [->|Hk1].
  - cbn [Nat.sub] in *.
    unfold truthy. destruct (Z.eqb_spec (poll_status bus w 0) 0) as [E|E].
    + cbn [negb]. destruct Hlast as [Hl|Hl]; [contradiction|].
      assert (n = O) by lia. subst n. cbn [detect_usb_type_poll].
      unfold Return. now rewrite E.
    + reflexivity.
  - assert (Hz0 : poll_status bus w 0 = 0) by (apply Hz; lia).
    rewrite Hz0. cbn [truthy Z.eqb negb].
    rewrite (IH (k - 1)%nat 0 (polled h 1 w)).
    + rewrite <- polled_1. replace (S (k - 1)) with k by lia.
      f_equal. f_equal. unfold poll_status, polled. cbn [w_clock].
      do 3 f_equal. lia.
    + lia.
    + intros i Hi. unfold polled. cbn [w_clock].
      replace (w_clock w + 2 * 1 + i)%nat with (w_clock w + (2 + i))%nat
        by lia.
      apply Hok. lia.
    + intros j Hj. unfold poll_status, polled. cbn [w_clock].
      replace (w_clock w + 2 * 1 + 2 * j + 1)%nat
        with (w_clock w + 2 * (S j) + 1)%nat by lia.
      apply (Hz (S j)). lia.
    + destruct Hlast as [Hl|Hl]; [left|right; lia].
      unfold poll_status, polled in *. cbn [w_clock].
      replace (w_clock w + 2 * 1 + 2 * (k - 1 - 1) + 1)%nat
        with (w_clock w + 2 * (k - 1) + 1)%nat by lia.
      exact Hl.
Qed.

End DetectUsbType.

(** X12.  [ab8500_charger_detect_usb_type] polls the link status every
    250 ms, at most ten times, and stops at the first poll that finds a
    link status other than 0.  When the reads of its [k] polls succeed,
    it classifies the link status of the last poll: the first one that
    is not 0, or 0 (NOT_CONFIGURED) after ten polls that all found 0. *)
Theorem detect_usb_type_polls (h : kernel_headers) (bus : abx500_bus)
  (k : nat) (w : world) :
  (1 <= k <= 10)%nat ->
  (forall i, (i < 2 * k)%nat -> 0 <= fst (bus_reply bus (w_clock w + i))) ->
  (forall j, (j < k - 1)%nat -> poll_status bus w j = 0) ->
  poll_status bus w (k - 1) <> 0 \/ k = 10%nat ->
  ab8500_charger_detect_usb_type h bus w =
  ab8500_charger_max_usb_curr h bus (poll_status bus w (k - 1))
    (polled h k w).
Proof.
  intros Hk Hok Hz Hl. unfold ab8500_charger_detect_usb_type.
  rewrite bind_run.
  now rewrite (detect_usb_type_poll_run h bus 10 k 0 w Hk Hok Hz Hl).
Qed.

Lemma detect_usb_type_polls_witness :
  ab8500_charger_detect_usb_type ab8500_headers
    (scripted_bus [(0, 0); (0, 0); (0, 0); (0, 0x38)])
    (boot usb_plugged_di) =
  ab8500_charger_max_usb_curr ab8500_headers
    (scripted_bus [(0, 0); (0, 0); (0, 0); (0, 0x38)]) 7
    (polled ab8500_headers 2 (boot usb_plugged_di)).
Proof.
  apply (detect_usb_type_polls ab8500_headers
           (scripted_bus [(0, 0); (0, 0); (0, 0); (0, 0x38)]) 2
           (boot usb_plugged_di)).
  - lia.
  - intros i Hi.
    destruct i as [|[|[|[|i]]]]; try (vm_compute; discriminate). lia.
  - intros j Hj. destruct j as [|j]; [reflexivity|lia].
  - left. vm_compute. discriminate.
Defined.

(** ** What the works of the USB stack leave alone *)

Section StackFrames.

Variable h : kernel_headers.
Variable bus : abx500_bus.

Context {X : Type}.
Variable f : ab8500_charger -> X.

Hypothesis f_max : forall v di, f (set_max_usb_in_curr v di) = f di.
Hypothesis f_host : forall v di, f (set_is_usb_host v di) = f di.
Hypothesis f_rid : forall v di, f (set_is_aca_rid v di) = f di.
Hypothesis f_flags : forall g di, f (on_flags g di) = f di.
Hypothesis f_drop : forall g di, f (on_vbus_drop g di) = f di.
Hypothesis f_usb : forall g di, f (on_usb g di) = f di.
Hypothesis f_sess :
  forall v di, f (set_current_stepping_sessions v di) = f di.

Ltac frame_modify :=
  apply same_field_modify; intros ?;
  first [apply f_max | apply f_host | apply f_rid | apply f_flags
        | apply f_drop | apply f_usb | apply f_sess].

Ltac frame_run :=
  repeat first
    [ match goal with
      | |- always (same_field f) (modify_di _) => frame_modify
      end
    | always_step
    | progress unfold abx500_get_register_interruptible,
        abx500_set_register_interruptible,
        abx500_mask_and_set_register_interruptible, ab8500_gpadc_convert,
        msleep, power_supply_changed, sysfs_notify, queue_delayed_work,
        cancel_delayed_work_sync ].

Lemma frame_get_usb_cur :
  always (same_field f) (ab8500_charger_get_usb_cur h).
Proof. unfold ab8500_charger_get_usb_cur. frame_run. Qed.

Lemma frame_detect_usb_type_poll (n : nat) :
  forall val, always (same_field f) (detect_usb_type_poll h bus n val).
Proof.
  induction n as [|n IH]; intros val; cbn [detect_usb_type_poll];
    frame_run. apply IH.
Qed.

Lemma frame_detect_usb_type :
  always (same_field f) (ab8500_charger_detect_usb_type h bus).
Proof.
  pose proof frame_detect_usb_type_poll.
  pose proof (frame_max_usb_curr h bus f f_max f_host f_rid f_flags f_drop).
  unfold ab8500_charger_detect_usb_type. frame_run; auto.
Qed.

Lemma frame_serve_interrupts : always (same_field f) (serve_interrupts bus).
Proof.
  intros w. unfold serve_interrupts.
  destruct (vbus_ch_drop_end_irq bus (w_clock w)); [|reflexivity].
  revert w. change (always (same_field f)
                      ab8500_charger_vbuschdropend_handler).
  unfold ab8500_charger_vbuschdropend_handler. frame_run.
Qed.

Lemma frame_step_down (reg sh d B : Z) (n : nat) :
  forall i ret, always (same_field f) (step_down h bus reg sh d B n i ret).
Proof.
  induction n as [|n IH]; intros i ret; cbn [step_down]; frame_run.
  apply IH.
Qed.

Lemma frame_step_up (reg sh d B : Z) (n : nat) :
  forall i allow ret,
    always (same_field f) (step_up h bus reg sh d B n i allow ret).
Proof.
  pose proof frame_serve_interrupts.
  induction n as [|n IH]; intros i allow ret; cbn [step_up]; frame_run;
    auto.
Qed.

Lemma frame_set_current (ich reg : Z) :
  always (same_field f) (ab8500_charger_set_current h bus ich reg).
Proof.
  pose proof frame_step_down. pose proof frame_step_up.
  unfold ab8500_charger_set_current, set_current_body, set_current_switch,
    set_current_steps.
  frame_run; auto.
Qed.

Lemma frame_set_vbus_in_curr (ich_in : Z) :
  always (same_field f) (ab8500_charger_set_vbus_in_curr h bus ich_in).
Proof.
  pose proof frame_set_current.
  unfold ab8500_charger_set_vbus_in_curr. frame_run; auto.
Qed.

End StackFrames.

(** The connection update called with [false] leaves the USB charger
    not connected. *)
Lemma set_usb_connected_false (w : world) :
  charger_connected
    (usb (w_di (snd (ab8500_charger_set_usb_connected false w)))) = 0.
Proof.
  unfold ab8500_charger_set_usb_connected, bind, get_di, when.
  cbn [fst snd Z.b2z negb].
  destruct (Z.eqb_spec 0 (charger_connected (usb (w_di w)))) as [E|E];
    cbn [negb]; [unfold Return; cbn [snd]; now rewrite <- E|].
  unfold bind, modify_di, get_di, Return, sysfs_notify, emit.
  cbn [fst snd w_di]. now destruct (is_usb_host _).
Qed.

(** ** The work that detects the USB type *)

(** X13.  [ab8500_charger_detect_usb_type_work] takes over what the
    status register says about VBUS: with the register read,
    [vbus_detected] is set exactly when both debounced detection bits
    are, and without VBUS the USB charger ends not connected.  On a chip
    later than revision 1.1 the type of the USB is detected from here
    only once, for a cable found at start-up: the work clears
    [vbus_detected_start], and when that flag is already clear it does
    nothing beyond recording that VBUS is there.  When the register
    cannot be read, nothing is changed. *)
Theorem detect_usb_type_work_tracks_vbus (h : kernel_headers)
  (bus : abx500_bus) (is_ab8500_1p1_or_earlier : bool) (w : world) :
  let w' := snd (ab8500_charger_detect_usb_type_work h bus
                   is_ab8500_1p1_or_earlier w) in
  (fst (bus_reply bus (w_clock w)) < 0 -> w' = chargers_detected h w) /\
  (0 <= fst (bus_reply bus (w_clock w)) ->
   vbus_detected (w_di w') = vbus_debounced bus w /\
   (vbus_debounced bus w = false ->
    charger_connected (usb (w_di w')) = 0) /\
   (vbus_debounced bus w = true -> is_ab8500_1p1_or_earlier = false ->
    vbus_detected_start (w_di w') = false /\
    (vbus_detected_start (w_di w) = false ->
     w' = {| w_di := set_vbus_detected true (w_di w);
             w_clock := S (w_clock w);
             w_trace := w_trace w ++
               [ Msleep 110;
                 Get_register (AB8500_CHARGER h)
                   (AB8500_CH_USBCH_STAT1_REG h) ] |}))).
Proof.
  cbv zeta. unfold ab8500_charger_detect_usb_type_work. split.
  - intros Hr. rewrite bind_run, (detect_chargers_failed h bus w Hr).
    cbn [fst snd]. apply Z.ltb_lt in Hr. now rewrite Hr.
  - intros Hr. rewrite bind_run, (detect_chargers_run h bus w Hr).
    cbn [fst snd].
    assert (Fdet : forall {X : Type} (f : ab8500_charger -> X),
               (forall v di, f (set_max_usb_in_curr v di) = f di) ->
               (forall v di, f (set_is_usb_host v di) = f di) ->
               (forall v di, f (set_is_aca_rid v di) = f di) ->
               (forall g di, f (on_flags g di) = f di) ->
               (forall g di, f (on_vbus_drop g di) = f di) ->
               (forall g di, f (on_usb g di) = f di) ->
               always (same_field f) (detect_usb_type_and_connect h bus)).
    { intros X f f1 f2 f3 f4 f5 f6. unfold detect_usb_type_and_connect.
      pose proof (frame_detect_usb_type h bus f f1 f2 f3 f4 f5).
      pose proof (fun c => frame_set_usb_connected f f2 f3 f4 f5 f6 c).
      pose proof (frame_psy_changed f).
      always_run; auto. }
    destruct (vbus_debounced bus w) eqn:Ed.
    + change (USB_PW_CONN <? 0) with false.
      change (truthy (Z.land USB_PW_CONN USB_PW_CONN)) with true.
      cbv iota. cbn [negb]. rewrite bind_run.
      change (snd (modify_di (set_vbus_detected true)
                     (chargers_detected h w)))
        with {| w_di := set_vbus_detected true (w_di w);
                w_clock := S (w_clock w);
                w_trace := w_trace w ++
                  [ Msleep 110;
                    Get_register (AB8500_CHARGER h)
                      (AB8500_CH_USBCH_STAT1_REG h) ] |}.
      set (w1 := {| w_di := set_vbus_detected true (w_di w) |}).
      cbn [fst].
      split; [|split; [discriminate|]].
      * destruct is_ab8500_1p1_or_earlier.
        -- rewrite (Fdet _ vbus_detected); reflexivity.
        -- rewrite bind_run. change (get_di w1) with (w_di w1, w1).
           cbn [fst snd]. unfold when.
           destruct (vbus_detected_start (w_di w1)); [|reflexivity].
           rewrite bind_run.
           rewrite (Fdet _ vbus_detected); reflexivity.
      * intros _ ->. rewrite bind_run. change (get_di w1) with (w_di w1, w1).
        cbn [fst snd]. unfold when.
        change (vbus_detected_start (w_di w1))
          with (vbus_detected_start (w_di w)).
        destruct (vbus_detected_start (w_di w)) eqn:Es.
        -- rewrite bind_run. split; [|discriminate].
           rewrite (Fdet _ vbus_detected_start); reflexivity.
        -- split; [exact Es|]. intros _. reflexivity.
    + change (NO_PW_CONN <? 0) with false.
      change (truthy (Z.land NO_PW_CONN USB_PW_CONN)) with false.
      cbv iota. cbn [negb]. rewrite bind_run.
      set (w1 := snd (modify_di (set_vbus_detected false)
                        (chargers_detected h w))).
      cbn [fst]. rewrite bind_run.
      split; [|split; [intros _|discriminate]].
      * rewrite (frame_psy_changed vbus_detected).
        rewrite frame_set_usb_connected; intros; reflexivity.
      * rewrite (frame_psy_changed (fun di => charger_connected (usb di))).
        apply set_usb_connected_false.
Qed.

(** ** The state reported by the USB stack *)

Section StateChanged.

Variable h : kernel_headers.
Variable bus : abx500_bus.

Lemma frame_usb_state_configured {X : Type} (f : ab8500_charger -> X) :
  (forall v di, f (set_max_usb_in_curr v di) = f di) ->
  (forall v di, f (set_is_usb_host v di) = f di) ->
  (forall v di, f (set_is_aca_rid v di) = f di) ->
  (forall g di, f (on_flags g di) = f di) ->
  (forall g di, f (on_vbus_drop g di) = f di) ->
  (forall g di, f (on_usb g di) = f di) ->
  (forall v di, f (set_current_stepping_sessions v di) = f di) ->
  always (same_field f) (usb_state_configured h bus).
Proof.
  intros f1 f2 f3 f4 f5 f6 f7. unfold usb_state_configured.
  pose proof (frame_get_usb_cur h f f1 f5).
  pose proof (fun i => frame_set_vbus_in_curr h bus f f4 f7 i).
  pose proof (fun c => frame_set_usb_connected f f2 f3 f4 f5 f6 c).
  pose proof (frame_psy_changed f).
  always_run; auto.
Qed.

Local Abbreviation notifies :=
  (adds_events (fun e => match e with
                         | Sysfs_notify _ | Power_supply_changed _ => True
                         | _ => False
                         end)).

Lemma notifies_set_usb_connected (connected : bool) :
  always notifies (ab8500_charger_set_usb_connected connected).
Proof.
  unfold ab8500_charger_set_usb_connected, sysfs_notify.
  repeat first [ always_step | apply adds_events_emit; exact I ].
Qed.

Lemma notifies_psy_changed : always notifies ab8500_charger_psy_changed.
Proof.
  unfold ab8500_charger_psy_changed, power_supply_changed.
  repeat first [ always_step | apply adds_events_emit; exact I ].
Qed.

End StateChanged.

(** X14.  [ab8500_charger_usb_state_changed_work] does nothing while
    VBUS is not detected.  Otherwise it takes over the state and the
    current that the notifier has left in [state_tmp] and
    [usb_current_tmp].  For a reset, a suspend or the state MAX it takes
    the USB charger for not connected and only notifies, without any
    access to the chip.  For the state CONFIGURED with a current other
    than 100, 200, 300, 400 or 500 mA it lowers [max_usb_in_curr] to
    50 mA and stops: no register is written and the connection is left
    as it was. *)
Theorem usb_state_changed_work_commits (h : kernel_headers)
  (bus : abx500_bus) (w : world) :
  headers_ok h ->
  let di := w_di w in
  let w' := snd (ab8500_charger_usb_state_changed_work h bus w) in
  let tmp := usb_state di in
  (vbus_detected di = false -> w' = w) /\
  (vbus_detected di = true ->
   usb_state (w_di w') =
     {| usb_current := usb_current_tmp tmp;
        usb_current_tmp := usb_current_tmp tmp;
        state := state_tmp tmp; state_tmp := state_tmp tmp |} /\
   (In (state_tmp tmp)
       [ AB8500_BM_USB_STATE_RESET_HS; AB8500_BM_USB_STATE_RESET_FS;
         AB8500_BM_USB_STATE_SUSPEND; AB8500_BM_USB_STATE_MAX ] ->
    charger_connected (usb (w_di w')) = 0 /\
    Forall (fun e => match e with
                     | Sysfs_notify _ | Power_supply_changed _ => True
                     | _ => False
                     end) (events_since w w')) /\
   (state_tmp tmp = AB8500_BM_USB_STATE_CONFIGURED ->
    ~ In (usb_current_tmp tmp) [100; 200; 300; 400; 500] ->
    max_usb_in_curr (w_di w') = USB_CH_IP_CUR_LVL_0P05 /\
    events_since w w' = [] /\
    usb (w_di w') = usb di)).
Proof.
  intros Hok. cbv zeta.
  unfold ab8500_charger_usb_state_changed_work.
  rewrite bind_run. change (get_di w) with (w_di w, w). cbn [fst snd].
  destruct (vbus_detected (w_di w)) eqn:Ev; cbn [negb].
  2: { split; [reflexivity|discriminate]. }
  split; [discriminate|]. intros _.
  rewrite !bind_run.
  set (w2 := snd (modify_di _ (snd (modify_di _ w)))).
  assert (Hw2 : w2 = {| w_di := on_usb_state
                          (fun s => {| usb_current := usb_current_tmp s;
                                       usb_current_tmp := usb_current_tmp s;
                                       state := state_tmp s;
                                       state_tmp := state_tmp s |}) (w_di w);
                        w_clock := w_clock w; w_trace := w_trace w |})
    by reflexivity.
  change (get_di w2) with (w_di w2, w2). cbn [fst snd].
  assert (Hst : state (usb_state (w_di w2)) = state_tmp (usb_state (w_di w)))
    by (rewrite Hw2; reflexivity).
  assert (Hus : usb_state (w_di w2) =
                {| usb_current := usb_current_tmp (usb_state (w_di w));
                   usb_current_tmp := usb_current_tmp (usb_state (w_di w));
                   state := state_tmp (usb_state (w_di w));
                   state_tmp := state_tmp (usb_state (w_di w)) |})
    by (rewrite Hw2; reflexivity).
  assert (Hconf : always (same_field usb_state) (usb_state_configured h bus))
    by (apply frame_usb_state_configured; intros; reflexivity).
  assert (Hdis : always (same_field usb_state)
                   (ab8500_charger_set_usb_connected false ;;
                    ab8500_charger_psy_changed)).
  { apply always_bind; [always_order| |intros _].
    - apply frame_set_usb_connected; intros; reflexivity.
    - apply frame_psy_changed. }
  assert (Hnot : always (adds_events
                   (fun e => match e with
                             | Sysfs_notify _ | Power_supply_changed _ => True
                             | _ => False
                             end))
                   (ab8500_charger_set_usb_connected false ;;
                    ab8500_charger_psy_changed)).
  { apply always_bind; [always_order| |intros _].
    - apply notifies_set_usb_connected.
    - apply notifies_psy_changed. }
  assert (Hoff : forall w0,
             charger_connected
               (usb (w_di (snd ((ab8500_charger_set_usb_connected false ;;
                                 ab8500_charger_psy_changed) w0)))) = 0).
  { intros w0. rewrite bind_run.
    rewrite (frame_psy_changed (fun di => charger_connected (usb di))).
    apply set_usb_connected_false. }
  rewrite Hst.
  split; [|split].
  - rewrite <- Hus.
    destruct (state_tmp (usb_state (w_di w)));
      try apply Hdis; try apply Hconf.
    rewrite bind_run, Hconf. reflexivity.
  - intros Hin.
    assert (Hev : forall w3, w_trace w2 = w_trace w ->
              adds_events
                (fun e => match e with
                          | Sysfs_notify _ | Power_supply_changed _ => True
                          | _ => False
                          end) w2 w3 ->
              Forall (fun e => match e with
                               | Sysfs_notify _ | Power_supply_changed _ =>
                                   True
                               | _ => False
                               end) (events_since w w3)).
    { intros w3 Ht [evs [He F]]. unfold events_since.
      rewrite He, Ht, skipn_app, skipn_all, Nat.sub_diag. exact F. }
    destruct (state_tmp (usb_state (w_di w)));
      try (exfalso; cbn in Hin; intuition discriminate);
      (split; [apply Hoff|apply Hev; [rewrite Hw2; reflexivity|apply Hnot]]).
  - intros -> Hn. unfold usb_state_configured.
    rewrite bind_run.
    destruct (get_usb_cur_run h w2 Hok) as [Hz [Hf [Hm [_ [Ht Hc]]]]].
    assert (Hne : fst (ab8500_charger_get_usb_cur h w2) <> 0).
    { intros E. apply Hz in E. apply Hn.
      rewrite Hw2 in E. exact E. }
    unfold truthy. destruct (Z.eqb_spec
      (fst (ab8500_charger_get_usb_cur h w2)) 0) as [E|_]; [contradiction|].
    cbn [negb]. unfold Return. cbn [snd].
    split; [apply Hm; exact Hne|]. split.
    + unfold events_since. rewrite Ht, Hw2. cbn [w_trace].
      apply skipn_all.
    + rewrite (frame_get_usb_cur h usb); [rewrite Hw2; reflexivity| |];
        intros; reflexivity.
Qed.

Lemma usb_state_changed_work_commits_witness :
  let w := boot (on_usb_state (set_usb_current_tmp 8) configured_di) in
  let w' := snd (ab8500_charger_usb_state_changed_work ab8500_headers
                   (steady_bus 0 0x10) w) in
  max_usb_in_curr (w_di w') = USB_CH_IP_CUR_LVL_0P05 /\
  events_since w w' = [] /\
  usb (w_di w') = usb (w_di w).
Proof.
  destruct (usb_state_changed_work_commits ab8500_headers (steady_bus 0 0x10)
              (boot (on_usb_state (set_usb_current_tmp 8) configured_di))
              ab8500_headers_ok) as [_ H].
  destruct H as [_ [_ H]]; [reflexivity|].
  apply H; [reflexivity|].
  vm_compute. intros [H1|[H1|[H1|[H1|[H1|[]]]]]]; discriminate H1.
Defined.

(** ** The charger watchdog *)

Lemma chwdexp_handler_run (w : world) :
  let di := w_di w in
  let psy := if is_usb_host di then USB_CHG_PSY else AC_CHG_PSY in
  let di1 := if truthy (charger_online (ac di))
             then on_ac (set_wd_expired true) di else di in
  let di2 := if truthy (charger_online (usb di))
             then on_usb (set_wd_expired true) di1 else di1 in
  ab8500_charger_chwdexp_handler w =
  (tt, {| w_di := di2; w_clock := w_clock w;
          w_trace := w_trace w ++
            (if truthy (charger_online (ac di))
             then [Power_supply_changed psy] else []) ++
            (if truthy (charger_online (usb di))
             then [Power_supply_changed psy] else []) |}).
Proof.
  cbv zeta. destruct w as [di t tr].
  destruct di as [m vd vds acn va vu vb ob ap inv host rid sess pd b fl us
                  a u dr].
  destruct a as [ac_conn ac_on ac_v ac_cv ac_wd].
  destruct u as [u_conn u_on u_v u_cv u_wd].
  unfold ab8500_charger_chwdexp_handler, bind, get_di, when, modify_di,
    ab8500_charger_psy_changed, power_supply_changed, emit, Return, truthy.
  cbn. destruct host;
    repeat (match goal with
            | |- context [if negb (?x =? 0) then _ else _] =>
                destruct (x =? 0)
            end; cbn);
    rewrite <- ?app_assoc, ?app_nil_r; reflexivity.
Qed.

(** X15.  The handler of the watchdog interrupt marks the chargers that
    are online as expired and no others, leaves the event flags alone
    and only notifies the power supply.  From then on the health of the
    supply reads DEAD, unless a report of no charge or of a charger that
    is not ok takes precedence. *)
Theorem chwdexp_marks_online_chargers (h : kernel_headers)
  (bus : abx500_bus) (psy_type : power_supply_type)
  (old : power_supply_propval) (w : world) :
  let di := w_di w in
  let w' := snd (ab8500_charger_chwdexp_handler w) in
  let di' := w_di w' in
  wd_expired (usb di') =
    wd_expired (usb di) || truthy (charger_online (usb di)) /\
  wd_expired (ac di') =
    wd_expired (ac di) || truthy (charger_online (ac di)) /\
  flags di' = flags di /\
  Forall (fun e => match e with Power_supply_changed _ => True
                   | _ => False end) (events_since w w') /\
  (truthy (charger_online (usb di)) || truthy (charger_online (ac di))
     = true ->
   report_charger_no_charge (flags di) = false ->
   usbchargernotok (flags di) = false ->
   psy_type = POWER_SUPPLY_TYPE_MAINS \/ psy_type = POWER_SUPPLY_TYPE_USB ->
   fst (ab8500_charger_usb_get_property h bus psy_type
          POWER_SUPPLY_PROP_HEALTH old w') =
   (0, Health POWER_SUPPLY_HEALTH_DEAD)).
Proof.
  cbv zeta. rewrite chwdexp_handler_run. cbn [snd w_di].
  split; [|split; [|split; [|split]]].
  - destruct (truthy (charger_online (ac (w_di w))));
      destruct (truthy (charger_online (usb (w_di w))));
      cbn; now rewrite ?orb_true_r, ?orb_false_r.
  - destruct (truthy (charger_online (ac (w_di w))));
      destruct (truthy (charger_online (usb (w_di w))));
      cbn; now rewrite ?orb_true_r, ?orb_false_r.
  - destruct (truthy (charger_online (ac (w_di w))));
      destruct (truthy (charger_online (usb (w_di w)))); reflexivity.
  - unfold events_since. cbn [w_trace].
    rewrite skipn_app, skipn_all, Nat.sub_diag. cbn [skipn app].
    destruct (truthy (charger_online (ac (w_di w))));
      destruct (truthy (charger_online (usb (w_di w))));
      repeat constructor.
  - intros Hon Hnc Hnok Hpsy.
    assert (Hh : usb_health
                   (if truthy (charger_online (usb (w_di w)))
                    then on_usb (set_wd_expired true)
                           (if truthy (charger_online (ac (w_di w)))
                            then on_ac (set_wd_expired true) (w_di w)
                            else w_di w)
                    else if truthy (charger_online (ac (w_di w)))
                         then on_ac (set_wd_expired true) (w_di w)
                         else w_di w) = POWER_SUPPLY_HEALTH_DEAD).
    { assert (Hfu : forall g di, flags (on_usb g di) = flags di)
        by reflexivity.
      assert (Hfa : forall g di, flags (on_ac g di) = flags di)
        by reflexivity.
      unfold usb_health.
      destruct (truthy (charger_online (ac (w_di w))));
        destruct (truthy (charger_online (usb (w_di w))));
        try discriminate Hon;
        rewrite ?Hfu, ?Hfa, Hnc, Hnok; cbn; now rewrite ?orb_true_r. }
    destruct Hpsy as [-> | ->];
      unfold ab8500_charger_usb_get_property, bind, get_di, Return;
      cbn [fst snd w_di]; now rewrite Hh.
Qed.

(** ** The interface of the charging algorithm *)

Lemma sbind_run {A B : Type} (m : sprog A) (k : A -> sprog B) (s : system) :
  sbind m k s = k (fst (m s)) (snd (m s)).
Proof. unfold sbind. destruct (m s); reflexivity. Qed.

Lemma lift_run {A : Type} (m : prog A) (s : system) :
  lift m s = (fst (m (sys_world s)),
              {| sys_world := snd (m (sys_world s));
                 sys_calls := sys_calls s |}).
Proof. unfold lift. destruct (m (sys_world s)); reflexivity. Qed.

Section SAlways.

Context {I : system -> system -> Prop}.
Hypothesis I_refl : forall s, I s s.
Hypothesis I_trans : forall s1 s2 s3, I s1 s2 -> I s2 s3 -> I s1 s3.

Lemma salways_Return {A : Type} (a : A) : salways I (sReturn a).
Proof. intros s. apply I_refl. Qed.

Lemma salways_bind {A B : Type} (m : sprog A) (k : A -> sprog B) :
  salways I m -> (forall a, salways I (k a)) -> salways I (sbind m k).
Proof.
  intros Hm Hk s. rewrite sbind_run.
  eapply I_trans; [apply Hm | apply Hk].
Qed.

Lemma salways_swhen (c : bool) (m : sprog unit) :
  salways I m -> salways I (swhen c m).
Proof. intros Hm. destruct c; [exact Hm | apply salways_Return]. Qed.

(** A routine that starts by reading [*di] may be checked with the
    structure it finds. *)
Lemma salways_get_di {B : Type} (k : ab8500_charger -> sprog B) :
  (forall s, I s (snd (k (w_di (sys_world s)) s))) ->
  salways I (sbind (lift get_di) k).
Proof.
  intros Hk s. rewrite sbind_run, lift_run. cbn.
  destruct s as [w c]. apply Hk.
Qed.

Lemma srun_bind {A B : Type} (m : sprog A) (k : A -> sprog B) (s : system) :
  I s (snd (m s)) -> (forall a, salways I (k a)) ->
  I s (snd (sbind m k s)).
Proof.
  intros Hm Hk. rewrite sbind_run. eapply I_trans; [apply Hm | apply Hk].
Qed.

End SAlways.

Lemma regulator_follows_flag_refl (s : system) : regulator_follows_flag s s.
Proof. exists []. rewrite app_nil_r. split; [reflexivity | cbn; lia]. Qed.

Lemma regulator_uses_app (a b : list (nat * kernel_service)) :
  regulator_uses (a ++ b) = regulator_uses a + regulator_uses b.
Proof. induction a as [|x a IH]; cbn; [reflexivity | rewrite IH; lia]. Qed.

Lemma regulator_follows_flag_trans (s1 s2 s3 : system) :
  regulator_follows_flag s1 s2 -> regulator_follows_flag s2 s3 ->
  regulator_follows_flag s1 s3.
Proof.
  intros [a [Ha Ea]] [b [Hb Eb]]. exists (a ++ b). split.
  - rewrite Hb, Ha, app_assoc. reflexivity.
  - rewrite regulator_uses_app. lia.
Qed.

(** A routine of the driver proper calls no service; it keeps the
    balance if it keeps the flag. *)
Lemma regulator_follows_flag_lift {A : Type} (m : prog A) :
  always (same_field vddadc_en_usb) m ->
  salways regulator_follows_flag (lift m).
Proof.
  intros Hm s. rewrite lift_run. cbn. exists []. rewrite app_nil_r.
  split; [reflexivity|]. cbn. rewrite (Hm (sys_world s)). lia.
Qed.

Lemma regulator_follows_flag_ask {A : Type} (k : kernel_service)
  (answer : nat -> A) :
  regulator_delta k = 0 -> salways regulator_follows_flag (ask k answer).
Proof.
  intros Hk s. exists [(length (w_trace (sys_world s)), k)].
  split; [reflexivity|]. cbn. lia.
Qed.

Section Regulator.

Variable h : kernel_headers.
Variable r : bm_headers.
Variable cfg : kernel_config.
Variable bus : abx500_bus.
Variable env : kernel_env.

Local Abbreviation keeps_flag := (always (same_field vddadc_en_usb)).
Local Abbreviation balanced := (salways regulator_follows_flag).

Lemma keeps_flag_led_en (on : bool) :
  keeps_flag (ab8500_charger_led_en h r bus on).
Proof. unfold ab8500_charger_led_en. always_run. Qed.

Lemma keeps_flag_set_vbus_in_curr (ich : Z) :
  keeps_flag (ab8500_charger_set_vbus_in_curr h bus ich).
Proof. apply frame_set_vbus_in_curr; intros; reflexivity. Qed.

Lemma keeps_flag_set_output_curr (ich : Z) :
  keeps_flag (ab8500_charger_set_output_curr h bus ich).
Proof. apply frame_set_current; intros; reflexivity. Qed.

Lemma keeps_flag_psy_changed :
  keeps_flag ab8500_charger_psy_changed.
Proof. apply frame_psy_changed; intros; reflexivity. Qed.

Lemma keeps_flag_set_register (bank reg v : Z) :
  keeps_flag (abx500_set_register_interruptible bus bank reg v).
Proof. unfold abx500_set_register_interruptible. always_run. Qed.

Ltac balanced_order :=
  first [ exact regulator_follows_flag_refl
        | exact regulator_follows_flag_trans ].

Ltac balanced_step :=
  match goal with
  | |- salways _ (sbind _ _) =>
      apply salways_bind; [balanced_order| |intros ?]
  | |- salways _ (sReturn _) => apply salways_Return; balanced_order
  | |- salways _ (swhen _ _) => apply salways_swhen; [balanced_order|]
  | |- salways _ (service _) =>
      apply regulator_follows_flag_ask; reflexivity
  | |- salways _ (ask _ _) =>
      apply regulator_follows_flag_ask; reflexivity
  | |- salways _ (lift (modify_di _)) =>
      apply regulator_follows_flag_lift, same_field_modify;
      intros ?; reflexivity
  | |- salways _ (lift get_di) =>
      apply regulator_follows_flag_lift, always_get_di;
      exact (same_field_refl _)
  | |- salways _ (lift _) =>
      apply regulator_follows_flag_lift;
      first [ apply keeps_flag_led_en | apply keeps_flag_set_vbus_in_curr
            | apply keeps_flag_set_output_curr
            | apply keeps_flag_psy_changed
            | apply keeps_flag_set_register ]
  | |- salways _ (if ?c then _ else _) => destruct c
  | |- salways _ (match ?x with _ => _ end) => destruct x
  end.

(** The two places that touch the regulator. *)
Lemma regulator_enable_block (s : system) :
  regulator_follows_flag s
    (snd (swhen (negb (vddadc_en_usb (w_di (sys_world s))))
            (sbind (service Regulator_enable)
               (fun _ => lift (modify_di (set_vddadc_en_usb true)))) s)).
Proof.
  destruct (vddadc_en_usb (w_di (sys_world s))) eqn:E; cbn.
  - apply regulator_follows_flag_refl.
  - exists [(length (w_trace (sys_world s)), Regulator_enable)].
    split; [reflexivity|]. cbn. rewrite E. reflexivity.
Qed.

Lemma regulator_disable_block (s : system) :
  regulator_follows_flag s
    (snd (swhen (vddadc_en_usb (w_di (sys_world s)))
            (sbind (service Regulator_disable)
               (fun _ => lift (modify_di (set_vddadc_en_usb false)))) s)).
Proof.
  destruct (vddadc_en_usb (w_di (sys_world s))) eqn:E; cbn.
  - exists [(length (w_trace (sys_world s)), Regulator_disable)].
    split; [reflexivity|]. cbn. rewrite E. reflexivity.
  - apply regulator_follows_flag_refl.
Qed.

Lemma balanced_usb_en_enable (vset ich_out : Z) :
  balanced (usb_en_enable h r cfg bus vset ich_out).
Proof.
  unfold usb_en_enable. apply salways_get_di. intros s.
  destruct (negb (truthy (charger_connected (usb (w_di (sys_world s)))))).
  - apply regulator_follows_flag_refl.
  - apply srun_bind.
    + exact regulator_follows_flag_trans.
    + apply regulator_enable_block.
    + intros _. repeat balanced_step.
Qed.

Lemma balanced_usb_en_disable :
  balanced (usb_en_disable h r cfg bus env).
Proof.
  unfold usb_en_disable.
  repeat first
    [ match goal with
      | |- salways _ (sbind (lift get_di) _) =>
          apply salways_get_di; intros s;
          apply srun_bind;
          [exact regulator_follows_flag_trans
          | apply regulator_disable_block | intros _]
      end
    | balanced_step ].
Qed.

End Regulator.

(** X16.  Whatever it is asked and however the chip answers,
    [ab8500_charger_usb_en] enables and disables the VDD ADC regulator
    exactly as often as it changes [vddadc_en_usb]: the enables minus the
    disables it has made are the flag after the call minus the flag
    before it.  So the regulator is never enabled or disabled twice in a
    row. *)
Theorem usb_en_regulator_follows_flag (h : kernel_headers) (r : bm_headers)
  (cfg : kernel_config) (bus : abx500_bus) (env : kernel_env)
  (psy_type : power_supply_type) (enable : bool) (vset ich_out : Z)
  (s : system) :
  regulator_follows_flag s
    (snd (ab8500_charger_usb_en h r cfg bus env psy_type enable vset
            ich_out s)).
Proof.
  revert s. change (salways regulator_follows_flag
    (ab8500_charger_usb_en h r cfg bus env psy_type enable vset ich_out)).
  unfold ab8500_charger_usb_en.
  destruct psy_type; try (apply salways_Return;
                          exact regulator_follows_flag_refl).
  all: apply salways_bind;
    [ exact regulator_follows_flag_trans
    | destruct enable;
      [apply balanced_usb_en_enable | apply balanced_usb_en_disable]
    | intros [ret|ret] ].
  all: try (apply salways_Return; exact regulator_follows_flag_refl).
  all: apply salways_bind;
    [ exact regulator_follows_flag_trans
    | apply regulator_follows_flag_lift, frame_psy_changed;
      intros; reflexivity
    | intros _; apply salways_Return; exact regulator_follows_flag_refl ].
Qed.

(** X17.  What [ab8500_charger_usb_en] refuses.  For a supply that is
    neither the mains nor the USB one, and for an enable while no USB
    charger is connected, it returns -ENXIO and has done nothing at all.
    For an enable with a voltage or a current that the tables do not
    encode it returns -ENXIO without any access to the chip and without
    notification, but the VDD ADC regulator is by then enabled and
    [vddadc_en_usb] set. *)
Theorem usb_en_refusals (h : kernel_headers) (r : bm_headers)
  (cfg : kernel_config) (bus : abx500_bus) (env : kernel_env)
  (psy_type : power_supply_type) (vset ich_out : Z) (s : system) :
  let di := w_di (sys_world s) in
  let usb_en := ab8500_charger_usb_en h r cfg bus env psy_type in
  (psy_type <> POWER_SUPPLY_TYPE_MAINS ->
   psy_type <> POWER_SUPPLY_TYPE_USB ->
   forall enable, usb_en enable vset ich_out s = (- ENXIO h, s)) /\
  (charger_connected (usb di) = 0 ->
   usb_en true vset ich_out s = (- ENXIO h, s)) /\
  (psy_type = POWER_SUPPLY_TYPE_MAINS \/ psy_type = POWER_SUPPLY_TYPE_USB ->
   charger_connected (usb di) <> 0 ->
   ab8500_voltage_to_regval vset < 0 \/
   ab8500_current_to_regval ich_out < 0 ->
   usb_en true vset ich_out s =
     (- ENXIO h,
      {| sys_world :=
           {| w_di := set_vddadc_en_usb true di;
              w_clock := w_clock (sys_world s);
              w_trace := w_trace (sys_world s) |};
         sys_calls :=
           sys_calls s ++
           (if vddadc_en_usb di then []
            else [(length (w_trace (sys_world s)), Regulator_enable)]) |})).
Proof.
  intros di usb_en. subst usb_en di.
  destruct s as [[di c t] calls]. cbn [sys_world w_di w_clock w_trace sys_calls].
  split; [|split].
  - intros Hm Hu enable. destruct psy_type; try reflexivity; congruence.
  - intros Hc.
    assert (Ht : truthy (charger_connected (usb di)) = false)
      by (unfold truthy; rewrite Hc; reflexivity).
    unfold ab8500_charger_usb_en, usb_en_enable.
    destruct psy_type; try reflexivity.
    all: rewrite !sbind_run; cbn [lift get_di fst snd sys_world w_di];
      rewrite Ht; reflexivity.
  - intros Hp Hc Hbad.
    assert (Hb : (ab8500_voltage_to_regval vset <? 0) ||
                 (ab8500_current_to_regval ich_out <? 0) = true).
    { apply orb_true_iff. destruct Hbad as [H|H]; [left|right];
        apply Z.ltb_lt; exact H. }
    assert (Ht : truthy (charger_connected (usb di)) = true).
    { unfold truthy. apply negb_true_iff, Z.eqb_neq. exact Hc. }
    unfold ab8500_charger_usb_en, usb_en_enable.
    destruct Hp as [-> | ->].
    all: rewrite !sbind_run; cbn [lift get_di fst snd sys_world w_di];
      rewrite Ht; cbn [negb]; rewrite !sbind_run; rewrite Hb;
      destruct di as [a1 a2 a3 a4 a5 flag a7 a8 a9 a10 a11 a12 a13 a14
                        a15 a16 a17 a18 a19 a20];
      destruct flag; cbn; rewrite ?app_nil_r; reflexivity.
Qed.

Lemma usb_en_refusals_witness :
  ab8500_charger_usb_en ab8500_headers ab8500_bm_headers sample_config
    (steady_bus 0 0) quiet_env POWER_SUPPLY_TYPE_USB true 5000 500
    (start usb_plugged_di) =
  (-6, {| sys_world := boot (set_vddadc_en_usb true usb_plugged_di);
          sys_calls := [(0%nat, Regulator_enable)] |}).
Proof.
  destruct (usb_en_refusals ab8500_headers ab8500_bm_headers sample_config
              (steady_bus 0 0) quiet_env POWER_SUPPLY_TYPE_USB 5000 500
              (start usb_plugged_di)) as [_ [_ H]].
  apply H.
  - right; reflexivity.
  - vm_compute. discriminate.
  - left. vm_compute. reflexivity.
Defined.

Lemma truthy_false (x : Z) : truthy x = false -> x = 0.
Proof. unfold truthy. intros H. apply negb_false_iff, Z.eqb_eq in H. exact H. Qed.

Lemma truthy_true (x : Z) : truthy x = true -> x <> 0.
Proof. unfold truthy. intros H. apply negb_true_iff, Z.eqb_neq in H. exact H. Qed.

Section UsbEn.

Variable h : kernel_headers.
Variable r : bm_headers.
Variable cfg : kernel_config.
Variable bus : abx500_bus.
Variable env : kernel_env.
Hypothesis h_ok : headers_ok h.

(** The part of [*di] that the enable and the disable are about. *)
Local Abbreviation charging := (fun di => (usb di, vddadc_en_usb di)).

Lemma charging_set_register (bank reg v : Z) :
  always (same_field charging)
    (abx500_set_register_interruptible bus bank reg v).
Proof. unfold abx500_set_register_interruptible. always_run. Qed.

Lemma charging_led_en (on : bool) :
  always (same_field charging) (ab8500_charger_led_en h r bus on).
Proof. unfold ab8500_charger_led_en. always_run. Qed.

Lemma charging_set_vbus_in_curr (ich : Z) :
  always (same_field charging) (ab8500_charger_set_vbus_in_curr h bus ich).
Proof. apply frame_set_vbus_in_curr; intros; reflexivity. Qed.

Lemma charging_set_output_curr (ich : Z) :
  always (same_field charging) (ab8500_charger_set_output_curr h bus ich).
Proof. apply frame_set_current; intros; reflexivity. Qed.

(** One step of a routine: a call into the driver proper that keeps
    the field read with [f]. *)
Lemma sbind_lift_post {A B X : Type} (f : ab8500_charger -> X)
  (Q : B * system -> Prop) (m : prog A) (k : A -> sprog B) (s : system) :
  always (same_field f) m ->
  (forall a w', f (w_di w') = f (w_di (sys_world s)) ->
     Q (k a {| sys_world := w'; sys_calls := sys_calls s |})) ->
  Q (sbind (lift m) k s).
Proof.
  intros Hm HQ. rewrite sbind_run, lift_run. cbn [fst snd].
  apply HQ. apply Hm.
Qed.

(** The same for the LED, switched under a configuration option, whose
    return code is dropped. *)
Lemma sbind_swhen_lift_post {A B X : Type} (f : ab8500_charger -> X)
  (Q : B * system -> Prop) (c : bool) (m : prog A) (k : unit -> sprog B)
  (s : system) :
  always (same_field f) m ->
  (forall w', f (w_di w') = f (w_di (sys_world s)) ->
     Q (k tt {| sys_world := w'; sys_calls := sys_calls s |})) ->
  Q (sbind (swhen c (sbind (lift m) (fun _ => sReturn tt))) k s).
Proof.
  intros Hm HQ. destruct c; cbn [swhen].
  - rewrite !sbind_run, lift_run. cbn [fst snd sReturn].
    apply HQ. apply Hm.
  - rewrite sbind_run. cbn [fst snd sReturn].
    destruct s as [w calls]. apply HQ. reflexivity.
Qed.

Lemma usb_en_enable_result (vset ich_out : Z) (s : system)
  (Q : (Z + Z) * system -> Prop) :
  (forall ret s', ret <> 0 -> Q (inl ret, s')) ->
  (forall s',
     charger_connected (usb (w_di (sys_world s))) <> 0 ->
     0 <= ab8500_voltage_to_regval vset ->
     0 <= ab8500_current_to_regval ich_out ->
     usb (w_di (sys_world s')) =
       set_charger_online 1 (usb (w_di (sys_world s))) ->
     vddadc_en_usb (w_di (sys_world s')) = true ->
     (exists n, last (sys_calls s') (O, Udelay 0) =
                (n, Queue_delayed CHECK_VBAT_WORK 1000)) ->
     Q (inr 0, s')) ->
  Q (usb_en_enable h r cfg bus vset ich_out s).
Proof.
  intros Qerr Qok.
  assert (Henxio : - ENXIO h <> 0) by (unfold headers_ok in h_ok; lia).
  unfold usb_en_enable.
  rewrite sbind_run. cbn [lift get_di fst snd].
  destruct (truthy (charger_connected (usb (w_di (sys_world s))))) eqn:Hc;
    cbn [negb]; [|apply Qerr, Henxio].
  apply truthy_true in Hc.
  rewrite sbind_run.
  set (s1 := snd (swhen _ _ _)).
  assert (H1 : usb (w_di (sys_world s1)) = usb (w_di (sys_world s)) /\
               vddadc_en_usb (w_di (sys_world s1)) = true).
  { subst s1. destruct s as [[di c t] calls].
    cbn [sys_world w_di]. destruct (vddadc_en_usb di) eqn:E; cbn.
    - split; [reflexivity | exact E].
    - split; reflexivity. }
  clearbody s1. destruct H1 as [Hu1 Hf1].
  destruct (Z.ltb_spec (ab8500_voltage_to_regval vset) 0) as [|Hv];
    cbn [orb]; [apply Qerr, Henxio|].
  destruct (Z.ltb_spec (ab8500_current_to_regval ich_out) 0) as [|Hi];
    [apply Qerr, Henxio|].
  apply (sbind_lift_post charging); [apply charging_set_register|].
  intros ret w2 H2.
  destruct (truthy ret) eqn:Hret; [apply Qerr, truthy_true, Hret|].
  rewrite sbind_run. cbn [lift get_di fst snd sys_world sys_calls].
  apply (sbind_lift_post charging); [apply charging_set_register|].
  cbn [sys_world sys_calls].
  intros ret3 w3 H3.
  destruct (truthy ret3) eqn:Hret3; [apply Qerr, truthy_true, Hret3|].
  apply (sbind_swhen_lift_post charging); [apply charging_led_en|].
  cbn [sys_world sys_calls]. intros w4 H4.
  rewrite sbind_run. cbn [lift modify_di fst snd sys_world sys_calls w_di
                            w_clock w_trace].
  rewrite sbind_run. cbn [lift get_di fst snd sys_world sys_calls w_di].
  apply (sbind_lift_post charging); [apply charging_set_vbus_in_curr|].
  cbn [sys_world sys_calls w_di]. intros ret5 w5 H5.
  destruct (truthy ret5) eqn:Hret5; [apply Qerr, truthy_true, Hret5|].
  apply (sbind_lift_post charging); [apply charging_set_output_curr|].
  cbn [sys_world sys_calls w_di]. intros ret6 w6 H6.
  destruct (truthy ret6) eqn:Hret6; [apply Qerr, truthy_true, Hret6|].
  apply truthy_false in Hret6. subst ret6.
  rewrite sbind_run. cbn [service ask sReturn fst snd sys_world sys_calls].
  injection H2 as H2u H2f. injection H3 as H3u H3f.
  injection H4 as H4u H4f. injection H5 as H5u H5f.
  injection H6 as H6u H6f.
  apply Qok; cbn [sys_world sys_calls]; auto.
  - rewrite H6u, H5u. destruct (w_di w4) eqn:E4; cbn in *. 
    rewrite H4u, H3u, H2u, Hu1. reflexivity.
  - rewrite H6f, H5f. destruct (w_di w4) eqn:E4; cbn in *.
    congruence.
  - eexists. rewrite last_last. reflexivity.
Qed.

Lemma usb_en_disable_result (s : system) (Q : (Z + Z) * system -> Prop) :
  (forall ret s',
     ret <> 0 ->
     usb (w_di (sys_world s')) = usb (w_di (sys_world s)) ->
     vddadc_en_usb (w_di (sys_world s')) =
       vddadc_en_usb (w_di (sys_world s)) ->
     sys_calls s' = sys_calls s ->
     Q (inl ret, s')) ->
  (forall s',
     usb (w_di (sys_world s')) =
       set_wd_expired false
         (set_charger_online 0 (usb (w_di (sys_world s)))) ->
     vddadc_en_usb (w_di (sys_world s')) = false ->
     Q (inr 0, s')) ->
  Q (usb_en_disable h r cfg bus env s).
Proof.
  intros Qerr Qok. unfold usb_en_disable.
  apply (sbind_lift_post charging); [apply charging_set_register|].
  intros ret1 w1 H1. injection H1 as H1u H1f.
  destruct (truthy ret1) eqn:Hret1;
    [apply Qerr; auto using truthy_true|].
  apply (sbind_swhen_lift_post charging); [apply charging_led_en|].
  cbn [sys_world sys_calls]. intros w2 H2. injection H2 as H2u H2f.
  apply (sbind_lift_post charging); [apply charging_set_vbus_in_curr|].
  cbn [sys_world sys_calls]. intros ret3 w3 H3. injection H3 as H3u H3f.
  destruct (truthy ret3) eqn:Hret3;
    [apply Qerr; cbn [sys_world sys_calls]; auto using truthy_true;
     congruence|].
  apply (sbind_lift_post charging); [apply charging_set_output_curr|].
  cbn [sys_world sys_calls]. intros ret4 w4 H4. injection H4 as H4u H4f.
  destruct (truthy ret4) eqn:Hret4;
    [apply Qerr; cbn [sys_world sys_calls]; auto using truthy_true;
     congruence|].
  apply truthy_false in Hret4. subst ret4.
  assert (Hu : usb (w_di w4) = usb (w_di (sys_world s))) by congruence.
  clear - Qok Hu.
  destruct w4 as [di4 c4 t4]. cbn [w_di] in Hu.
  destruct di4 as [a1 a2 a3 a4 a5 flag a7 a8 a9 a10 a11 a12 a13 a14
                     a15 a16 a17 a18 u a20].
  cbn [usb] in Hu. subst u.
  destruct flag; rewrite !sbind_run; cbn;
    match goal with
    | |- context [delayed_work_pending_reply env ?n] =>
        destruct (delayed_work_pending_reply env n)
    end; cbn;
    apply Qok; reflexivity.
Qed.

Lemma psy_changed_run (w : world) :
  ab8500_charger_psy_changed w =
  (tt, {| w_di := w_di w; w_clock := w_clock w;
          w_trace := w_trace w ++
            [Power_supply_changed
               (if is_usb_host (w_di w) then USB_CHG_PSY
                else AC_CHG_PSY)] |}).
Proof.
  unfold ab8500_charger_psy_changed, bind, get_di, power_supply_changed,
    emit.
  destruct (is_usb_host (w_di w)); reflexivity.
Qed.

End UsbEn.

(** X18.  What a call of [ab8500_charger_usb_en] has done when it
    returns.  If it returns 0 it has ended with a notification of the
    power supply; an enable then was asked with a charger connected and
    a voltage and current that the tables encode, has set
    [usb.charger_online] and [vddadc_en_usb] and has queued the battery
    voltage check one second ahead as its last service call; a disable
    has cleared [usb.charger_online], [usb.wd_expired] and
    [vddadc_en_usb].  A disable that does not return 0 has left the
    charger state, the flag and the services untouched: the charger
    still counts as online. *)
Theorem usb_en_outcome (h : kernel_headers) (r : bm_headers)
  (cfg : kernel_config) (bus : abx500_bus) (env : kernel_env)
  (psy_type : power_supply_type) (enable : bool) (vset ich_out : Z)
  (s : system) :
  headers_ok h ->
  let res :=
    ab8500_charger_usb_en h r cfg bus env psy_type enable vset ich_out s in
  let di := w_di (sys_world s) in
  let di' := w_di (sys_world (snd res)) in
  (fst res = 0 ->
   (exists p, last (w_trace (sys_world (snd res))) (Msleep 0) =
              Power_supply_changed p) /\
   if enable then
     charger_connected (usb di) <> 0 /\
     0 <= ab8500_voltage_to_regval vset /\
     0 <= ab8500_current_to_regval ich_out /\
     usb di' = set_charger_online 1 (usb di) /\
     vddadc_en_usb di' = true /\
     exists n, last (sys_calls (snd res)) (O, Udelay 0) =
               (n, Queue_delayed CHECK_VBAT_WORK 1000)
   else
     usb di' = set_wd_expired false (set_charger_online 0 (usb di)) /\
     vddadc_en_usb di' = false) /\
  (fst res <> 0 -> enable = false ->
   usb di' = usb di /\
   vddadc_en_usb di' = vddadc_en_usb di /\
   sys_calls (snd res) = sys_calls s).
Proof.
  intros h_ok res di di'. subst res di di'.
  assert (Henxio : - ENXIO h <> 0) by (unfold headers_ok in h_ok; lia).
  unfold ab8500_charger_usb_en.
  destruct psy_type.
  1, 2: cbn [sReturn fst snd]; split; [intros H; contradiction|];
    intros _ _; repeat split; reflexivity.
  all: rewrite sbind_run; destruct enable.
  all: match goal with
       | |- context [usb_en_enable ?a ?b ?c ?d ?e ?f ?g] =>
           pattern (usb_en_enable a b c d e f g);
           apply usb_en_enable_result; [exact h_ok| |]
       | |- context [usb_en_disable ?a ?b ?c ?d ?e ?g] =>
           pattern (usb_en_disable a b c d e g);
           apply usb_en_disable_result
       end.
  all: cbn [fst snd sReturn].
  all: try (intros ret s' Hret; intros; split;
            [ intros Hz; contradiction
            | intros _ He;
              first [discriminate He | repeat split; assumption] ]).
  all: intros s'; intros;
    rewrite sbind_run, lift_run, psy_changed_run;
    cbn [fst snd sReturn sys_world sys_calls w_di w_trace];
    (split; [intros _ | intros Hz; contradiction Hz; reflexivity]);
    (split; [eexists; rewrite last_last; reflexivity | auto 10]).
Qed.

Lemma usb_en_outcome_witness :
  let res :=
    ab8500_charger_usb_en ab8500_headers ab8500_bm_headers sample_config
      (steady_bus 0 0) quiet_env POWER_SUPPLY_TYPE_USB true 4200 500
      (start usb_plugged_di) in
  fst res = 0 /\
  charger_online (usb (w_di (sys_world (snd res)))) = 1 /\
  sys_calls (snd res) =
    [(0%nat, Regulator_enable); (12%nat, Queue_delayed CHECK_VBAT_WORK 1000)].
Proof.
  cbv zeta.
  assert (H0 : fst (ab8500_charger_usb_en ab8500_headers ab8500_bm_headers
                      sample_config (steady_bus 0 0) quiet_env
                      POWER_SUPPLY_TYPE_USB true 4200 500
                      (start usb_plugged_di)) = 0)
    by (vm_compute; reflexivity).
  destruct (usb_en_outcome ab8500_headers ab8500_bm_headers sample_config
              (steady_bus 0 0) quiet_env POWER_SUPPLY_TYPE_USB true 4200
              500 (start usb_plugged_di) ab8500_headers_ok) as [H _].
  destruct (H H0) as [_ [_ [_ [_ [Hu _]]]]].
  split; [exact H0|]. split.
  - rewrite Hu. reflexivity.
  - vm_compute. reflexivity.
Defined.

(** ** The battery voltage check *)

Lemma ext_psy_found_true (names : list String.string) :
  ext_psy_found names true = true.
Proof.
  induction names as [|n names IH]; cbn; [reflexivity|].
  destruct (String.eqb n usb_chg_psy_name); exact IH.
Qed.

Lemma ext_psy_found_In (names : list String.string) :
  ext_psy_found names false = true <-> In usb_chg_psy_name names.
Proof.
  induction names as [|n names IH]; cbn.
  - split; [discriminate | contradiction].
  - destruct (String.eqb_spec n usb_chg_psy_name) as [->|Hne].
    + rewrite ext_psy_found_true. split; auto.
    + rewrite IH. split; [auto | intros [H|H]; [contradiction | exact H]].
Qed.

Lemma with_vbat_again (v v' : Z) (w : world) :
  with_vbat v' (with_vbat v w) = with_vbat v' w.
Proof. reflexivity. Qed.

(** The scan of the properties of a battery whose voltage can be read:
    the voltage is assigned at each VOLTAGE_NOW in the list. *)
Lemma ext_psy_properties_battery (ext : ext_power_supply) (uV : Z)
  (props : list power_supply_property) (w : world) :
  ext_type ext = POWER_SUPPLY_TYPE_BATTERY ->
  get_property ext POWER_SUPPLY_PROP_VOLTAGE_NOW = (0, uV) ->
  ext_psy_properties ext props w =
  (tt, if existsb (fun p => match p with
                            | POWER_SUPPLY_PROP_VOLTAGE_NOW => true
                            | _ => false
                            end) props
       then with_vbat (to_int (Z.quot uV 1000)) w else w).
Proof.
  intros Ht Hg. revert w.
  induction props as [|p props IH]; intros w; [reflexivity|].
  cbn [ext_psy_properties existsb]. rewrite bind_run.
  destruct p; cbn [orb].
  5: { rewrite Hg, Ht. cbn [truthy Z.eqb negb modify_di fst snd].
       rewrite IH.
       destruct (existsb _ props); reflexivity. }
  all: match goal with
       | |- context [get_property ?e ?p] =>
           destruct (get_property e p) as [err intval]
       end;
    destruct (truthy err); cbn [Return fst snd]; apply IH.
Qed.

(** Without a readable voltage of a battery the scan changes nothing. *)
Lemma ext_psy_properties_none (ext : ext_power_supply)
  (props : list power_supply_property) (w : world) :
  ext_type ext <> POWER_SUPPLY_TYPE_BATTERY \/
  ~ In POWER_SUPPLY_PROP_VOLTAGE_NOW props \/
  fst (get_property ext POWER_SUPPLY_PROP_VOLTAGE_NOW) <> 0 ->
  ext_psy_properties ext props w = (tt, w).
Proof.
  intros Hno. revert w.
  induction props as [|p props IH]; intros w; [reflexivity|].
  cbn [ext_psy_properties]. rewrite bind_run.
  assert (Hrest : ext_type ext <> POWER_SUPPLY_TYPE_BATTERY \/
                  ~ In POWER_SUPPLY_PROP_VOLTAGE_NOW props \/
                  fst (get_property ext POWER_SUPPLY_PROP_VOLTAGE_NOW) <> 0).
  { destruct Hno as [H|[H|H]]; auto. right; left. intros Hin.
    apply H. right. exact Hin. }
  destruct p.
  5: { destruct (get_property ext POWER_SUPPLY_PROP_VOLTAGE_NOW)
         as [err intval] eqn:Hg.
       destruct (truthy err) eqn:He; [cbn [Return fst snd]; auto|].
       apply truthy_false in He.
       destruct (ext_type ext) eqn:Ht; cbn [Return fst snd]; auto.
       exfalso. destruct Hno as [H|[H|H]].
       - congruence.
       - apply H. left. reflexivity.
       - apply H. cbn. exact He. }
  all: match goal with
       | |- context [get_property ?e ?p] =>
           destruct (get_property e p) as [err intval]
       end;
    destruct (truthy err); cbn [Return fst snd]; auto.
Qed.

(** X19.  [ab8500_charger_get_ext_psy_data] always returns 0 and takes
    the battery voltage from the supplies that feed the USB charger:
    for a battery that lists ab8500_usb among the supplies it feeds and
    whose VOLTAGE_NOW can be read it stores the reading, divided by 1000
    towards zero, in [di->vbat] and changes nothing else; for any other
    supply (not feeding ab8500_usb, not a battery, without VOLTAGE_NOW
    or failing to read it) it changes nothing at all. *)
Theorem get_ext_psy_data_reads_battery_voltage (ext : ext_power_supply)
  (w : world) :
  let res := ab8500_charger_get_ext_psy_data ext w in
  let listed := In usb_chg_psy_name (supplied_to ext) in
  let battery := ext_type ext = POWER_SUPPLY_TYPE_BATTERY in
  let has_voltage := In POWER_SUPPLY_PROP_VOLTAGE_NOW (properties ext) in
  let reading := get_property ext POWER_SUPPLY_PROP_VOLTAGE_NOW in
  fst res = 0 /\
  (listed -> battery -> has_voltage -> fst reading = 0 ->
   snd res = with_vbat (to_int (Z.quot (snd reading) 1000)) w) /\
  (~ listed \/ ~ battery \/ ~ has_voltage \/ fst reading <> 0 ->
   snd res = w).
Proof.
  cbv zeta. unfold ab8500_charger_get_ext_psy_data.
  destruct (ext_psy_found (supplied_to ext) false) eqn:Hf; cbn [negb].
  - apply ext_psy_found_In in Hf. rewrite bind_run. cbn [Return fst snd].
    split; [reflexivity|]. split.
    + intros _ Hb Hv Hr.
      rewrite (ext_psy_properties_battery ext
                 (snd (get_property ext POWER_SUPPLY_PROP_VOLTAGE_NOW)));
        [|exact Hb|].
      * cbn [snd].
        replace (existsb _ (properties ext)) with true; [reflexivity|].
        symmetry. apply existsb_exists.
        exists POWER_SUPPLY_PROP_VOLTAGE_NOW. split; [exact Hv|reflexivity].
      * destruct (get_property ext POWER_SUPPLY_PROP_VOLTAGE_NOW).
        cbn in Hr. subst. reflexivity.
    + intros [H|H]; [contradiction|].
      rewrite ext_psy_properties_none; [reflexivity | exact H].
  - split; [reflexivity|]. split.
    + intros Hl. apply ext_psy_found_In in Hl. congruence.
    + reflexivity.
Qed.

Lemma with_vbat_same (w : world) : with_vbat (vbat (w_di w)) w = w.
Proof. destruct w as [di c t]. destruct di. reflexivity. Qed.

Lemma ext_psy_properties_run (ext : ext_power_supply)
  (props : list power_supply_property) (w : world) :
  exists v, ext_psy_properties ext props w = (tt, with_vbat v w).
Proof.
  revert w. induction props as [|p props IH]; intros w.
  - exists (vbat (w_di w)). rewrite with_vbat_same. reflexivity.
  - cbn [ext_psy_properties]. rewrite bind_run.
    destruct (get_property ext p) as [err intval].
    destruct (truthy err); [apply IH|].
    destruct p; try apply IH.
    destruct (ext_type ext); try apply IH.
    cbn [modify_di fst snd].
    match goal with
    | |- context [ext_psy_properties ext props ?w1] =>
        destruct (IH w1) as [v Hv]; rewrite Hv
    end.
    exists v. reflexivity.
Qed.

Lemma class_for_each_device_run (devs : list ext_power_supply) (w : world) :
  exists v, class_for_each_device devs w = (0, with_vbat v w).
Proof.
  revert w. induction devs as [|d devs IH]; intros w.
  - exists (vbat (w_di w)). rewrite with_vbat_same. reflexivity.
  - cbn [class_for_each_device]. rewrite bind_run.
    unfold ab8500_charger_get_ext_psy_data.
    destruct (negb (ext_psy_found (supplied_to d) false)).
    + cbn [Return fst snd truthy Z.eqb negb]. apply IH.
    + rewrite bind_run.
      destruct (ext_psy_properties_run d (properties d) w) as [v Hv].
      rewrite Hv. cbn [Return fst snd truthy Z.eqb negb].
      destruct (IH (with_vbat v w)) as [v' Hv']. rewrite Hv'.
      exists v'. reflexivity.
Qed.

Lemma vbat_check_period_eq (v : Z) :
  (if (v <? VBAT_TRESH_IP_CUR_RED + 100) &&
      (v >? VBAT_TRESH_IP_CUR_RED - 100) then 1 else 10) * 1000 =
  vbat_check_period v.
Proof.
  unfold vbat_check_period, VBAT_TRESH_IP_CUR_RED.
  destruct (Z.ltb_spec v (3800 + 100)), (Z.gtb_spec v (3800 - 100)),
    (Z.ltb_spec 3700 v), (Z.ltb_spec v 3900); cbn; lia.
Qed.

Lemma same_side_spec (old v : Z) :
  ((old <=? VBAT_TRESH_IP_CUR_RED) && (v <=? VBAT_TRESH_IP_CUR_RED)) ||
  ((old >? VBAT_TRESH_IP_CUR_RED) && (v >? VBAT_TRESH_IP_CUR_RED)) = true
  <-> same_side old v.
Proof.
  unfold same_side, VBAT_TRESH_IP_CUR_RED.
  destruct (Z.leb_spec old 3800), (Z.leb_spec v 3800),
    (Z.gtb_spec old 3800), (Z.gtb_spec v 3800); cbn; split;
    intros; try discriminate; try reflexivity; lia.
Qed.

(** X20.  A run of [ab8500_charger_check_vbat_work].  It leaves
    [old_vbat] equal to the battery voltage it has just collected and
    makes two service calls: the walk over the power supplies and the
    queueing of its own next run, 1 s ahead for a voltage strictly
    between 3700 and 3900 mV and 10 s ahead otherwise.  On its first run
    ([old_vbat] is 0), and whenever the old and the new voltage are on
    the same side of 3800 mV, it does not touch the chip and notifies
    nobody; otherwise it ends with a notification of the USB supply. *)
Theorem check_vbat_work_reschedules (h : kernel_headers) (bus : abx500_bus)
  (env : kernel_env) (s : system) :
  let s' := snd (ab8500_charger_check_vbat_work h bus env s) in
  let di := w_di (sys_world s) in
  let di' := w_di (sys_world s') in
  old_vbat di' = vbat di' /\
  (exists n m,
     sys_calls s' = sys_calls s ++
       [ (n, Class_for_each_device);
         (m, Queue_delayed CHECK_VBAT_WORK
               (vbat_check_period (vbat di'))) ]) /\
  (old_vbat di = 0 \/ same_side (old_vbat di) (vbat di') ->
   w_trace (sys_world s') = w_trace (sys_world s) /\
   w_clock (sys_world s') = w_clock (sys_world s)) /\
  (old_vbat di <> 0 -> ~ same_side (old_vbat di) (vbat di') ->
   last (w_trace (sys_world s')) (Msleep 0) =
     Power_supply_changed USB_CHG_PSY).
Proof.
  cbv zeta.
  pattern (snd (ab8500_charger_check_vbat_work h bus env s)).
  match goal with |- ?P0 _ => set (P := P0) end.
  unfold ab8500_charger_check_vbat_work.
  destruct s as [w calls].
  rewrite sbind_run. cbn [ask fst snd sys_world sys_calls].
  rewrite sbind_run, lift_run. cbn [fst snd sys_world sys_calls].
  destruct (class_for_each_device_run
              (power_supply_class env (length calls)) w) as [v Hv].
  rewrite Hv. cbn [fst snd].
  rewrite sbind_run. cbn [lift get_di fst snd sys_world sys_calls].
  rewrite sbind_run.
  set (s1 := snd (swhen _ _ _)).
  assert (H1 : w_trace (sys_world s1) = w_trace w /\
               w_clock (sys_world s1) = w_clock w /\
               vbat (w_di (sys_world s1)) = v /\
               old_vbat (w_di (sys_world s1)) =
                 (if old_vbat (w_di w) =? 0 then v else old_vbat (w_di w)) /\
               sys_calls s1 =
                 calls ++ [(length (w_trace w), Class_for_each_device)]).
  { subst s1. cbn [with_vbat w_di set_vbat update_di_rest old_vbat].
    unfold keep.
    destruct (old_vbat (w_di w) =? 0); cbn; repeat split; reflexivity. }
  clearbody s1. destruct s1 as [w1 c1].
  cbn [sys_world sys_calls] in H1.
  destruct H1 as [Ht1 [Hc1 [Hv1 [Ho1 Hs1]]]].
  rewrite sbind_run. cbn [lift get_di fst snd sys_world sys_calls].
  rewrite sbind_run.
  set (s2 := snd (swhen _ _ _)).
  assert (H2 : vbat (w_di (sys_world s2)) = v /\
               sys_calls s2 = c1 /\
               (same_side (old_vbat (w_di w1)) v ->
                w_trace (sys_world s2) = w_trace w /\
                w_clock (sys_world s2) = w_clock w) /\
               (~ same_side (old_vbat (w_di w1)) v ->
                last (w_trace (sys_world s2)) (Msleep 0) =
                  Power_supply_changed USB_CHG_PSY)).
  { subst s2. rewrite Hv1.
    pose proof (same_side_spec (old_vbat (w_di w1)) v) as Hside.
    destruct (_ || _); cbn [negb swhen sReturn snd sys_world sys_calls].
    - repeat split; auto. intros Hn. exfalso. apply Hn, Hside. reflexivity.
    - rewrite sbind_run, !lift_run.
      cbn [fst snd sys_world sys_calls power_supply_changed emit w_di
           w_trace].
      pose proof (frame_set_vbus_in_curr h bus vbat
                    ltac:(intros; reflexivity) ltac:(intros; reflexivity)
                    (max_usb_in_curr (w_di w1)) w1) as Hf.
      unfold same_field in Hf. rewrite Hf.
      repeat split; auto;
        try (match goal with
             | Hy : same_side _ _ |- _ => apply Hside in Hy; discriminate Hy
             end).
      rewrite last_last. reflexivity. }
  clearbody s2. destruct s2 as [w2 c2].
  cbn [sys_world sys_calls] in H2.
  destruct H2 as [Hv2 [Hs2 [Hsame Hcross]]].
  rewrite !sbind_run.
  cbn [lift get_di modify_di service ask fst snd sys_world sys_calls
       w_di w_clock w_trace].
  subst P. cbn beta.
  cbn [sys_world sys_calls w_di w_clock w_trace set_old_vbat update_di_rest
       old_vbat vbat keep].
  rewrite vbat_check_period_eq, Hv2.
  split; [reflexivity|]. split.
  { eexists. eexists. rewrite Hs2, Hs1, <- app_assoc. reflexivity. }
  rewrite Ho1 in Hsame, Hcross.
  split.
  - intros Hq. apply Hsame.
    destruct (Z.eqb_spec (old_vbat (w_di w)) 0) as [E|E].
    + unfold same_side. lia.
    + destruct Hq as [Hq|Hq]; [contradiction | exact Hq].
  - intros Hn Hx. apply Hcross.
    destruct (Z.eqb_spec (old_vbat (w_di w)) 0) as [E|E];
      [contradiction | exact Hx].
Qed.

(** ** The notifier of the USB stack *)

Section Notifier.

Variable h : kernel_headers.
Variable r : bm_headers.
Variable bus : abx500_bus.
Hypothesis h_ok : headers_ok h.

Local Abbreviation grows := (adds_events (fun _ : event => True)).
Local Abbreviation work := (ab8500_charger_usb_state_changed_work h bus).

Lemma grows_set_current (ich reg : Z) :
  always grows (ab8500_charger_set_current h bus ich reg).
Proof.
  intros w. destruct (written_set_current h bus h_ok ich reg w)
    as [evs [He _]].
  exists evs. split; [exact He|]. apply Forall_forall. intros; exact I.
Qed.

Lemma grows_usb_state_configured :
  always grows (usb_state_configured h bus).
Proof.
  pose proof grows_set_current.
  pose proof grows_set_usb_connected.
  pose proof grows_psy_changed.
  unfold usb_state_configured, ab8500_charger_get_usb_cur,
    ab8500_charger_set_vbus_in_curr.
  grows_run; auto.
Qed.

(** What the work keeps and what it takes over. *)
Lemma usb_state_changed_work_run (w : world) :
  vbus_detected (w_di w) = true ->
  let w' := snd (work w) in
  let tmp := usb_state (w_di w) in
  vbus_detected (w_di w') = true /\
  usb_state (w_di w') =
    {| usb_current := usb_current_tmp tmp;
       usb_current_tmp := usb_current_tmp tmp;
       state := state_tmp tmp; state_tmp := state_tmp tmp |} /\
  (state_tmp tmp = AB8500_BM_USB_STATE_SUSPEND ->
   charger_connected (usb (w_di w')) = 0) /\
  (state_tmp tmp = AB8500_BM_USB_STATE_RESUME ->
   exists rest, w_trace w' = w_trace w ++ Msleep 1000 :: rest).
Proof.
  intros Ev. cbv zeta.
  unfold ab8500_charger_usb_state_changed_work.
  rewrite bind_run. change (get_di w) with (w_di w, w). cbn [fst snd].
  rewrite Ev. cbn [negb].
  rewrite !bind_run.
  set (w2 := snd (modify_di _ (snd (modify_di _ w)))).
  assert (Hw2 : w2 = {| w_di := on_usb_state
                          (fun s => {| usb_current := usb_current_tmp s;
                                       usb_current_tmp := usb_current_tmp s;
                                       state := state_tmp s;
                                       state_tmp := state_tmp s |}) (w_di w);
                        w_clock := w_clock w; w_trace := w_trace w |})
    by reflexivity.
  change (get_di w2) with (w_di w2, w2). cbn [fst snd].
  assert (Hst : state (usb_state (w_di w2)) = state_tmp (usb_state (w_di w)))
    by (rewrite Hw2; reflexivity).
  pose (kept := fun di => (vbus_detected di, usb_state di)).
  assert (Hk2 : kept (w_di w2) =
                (true,
                 {| usb_current := usb_current_tmp (usb_state (w_di w));
                    usb_current_tmp := usb_current_tmp (usb_state (w_di w));
                    state := state_tmp (usb_state (w_di w));
                    state_tmp := state_tmp (usb_state (w_di w)) |})).
  { rewrite Hw2. unfold kept. cbn. rewrite Ev. reflexivity. }
  assert (Hconf : always (same_field kept) (usb_state_configured h bus))
    by (apply frame_usb_state_configured; intros; reflexivity).
  assert (Hdis : always (same_field kept)
                   (ab8500_charger_set_usb_connected false ;;
                    ab8500_charger_psy_changed)).
  { apply always_bind; [always_order| |intros _].
    - apply frame_set_usb_connected; intros; reflexivity.
    - apply frame_psy_changed. }
  assert (Hoff : forall w0,
             charger_connected
               (usb (w_di (snd ((ab8500_charger_set_usb_connected false ;;
                                 ab8500_charger_psy_changed) w0)))) = 0).
  { intros w0. rewrite bind_run.
    rewrite (frame_psy_changed (fun di => charger_connected (usb di))).
    apply set_usb_connected_false. }
  rewrite Hst.
  assert (Hkept : kept (w_di (snd
            (match state_tmp (usb_state (w_di w)) with
             | AB8500_BM_USB_STATE_CONFIGURED => usb_state_configured h bus
             | AB8500_BM_USB_STATE_RESUME =>
                 msleep 1000 ;; usb_state_configured h bus
             | _ => ab8500_charger_set_usb_connected false ;;
                    ab8500_charger_psy_changed
             end w2))) = kept (w_di w2)).
  { destruct (state_tmp (usb_state (w_di w)));
      try apply Hdis; try apply Hconf.
    rewrite bind_run.
    etransitivity; [apply Hconf | reflexivity]. }
  rewrite Hk2 in Hkept. unfold kept in Hkept.
  injection Hkept as Hv Hu.
  split; [exact Hv|]. split; [exact Hu|]. split.
  - intros ->. apply Hoff.
  - intros ->. rewrite bind_run.
    destruct (grows_usb_state_configured (snd (msleep 1000 w2)))
      as [evs [He _]].
    exists evs. rewrite He, Hw2. cbn [msleep emit snd w_trace].
    rewrite <- app_assoc. reflexivity.
Qed.

(** The state that the notifier makes up from the current. *)
Lemma usb_notifier_call_run (p : Z) (s : system) :
  let s' := snd (ab8500_charger_usb_notifier_call r (USB_EVENT_VBUS r) p s) in
  let di := w_di (sys_world s) in
  let mA := to_u32 p in
  vbus_detected (w_di (sys_world s')) = vbus_detected di /\
  usb_state (w_di (sys_world s')) =
    {| usb_current := usb_current (usb_state di);
       usb_current_tmp := to_int mA;
       state := state (usb_state di);
       state_tmp :=
         if (usb_current (usb_state di) =? 2) && (mA >? 2)
         then AB8500_BM_USB_STATE_RESUME
         else if mA =? 0 then AB8500_BM_USB_STATE_RESET_HS
         else if mA =? 2 then AB8500_BM_USB_STATE_SUSPEND
         else if mA >=? 8 then AB8500_BM_USB_STATE_CONFIGURED
         else AB8500_BM_USB_STATE_RESET_FS |} /\
  w_trace (sys_world s') = w_trace (sys_world s) /\
  sys_calls s' = sys_calls s ++
    [(length (w_trace (sys_world s)),
      Queue_delayed USB_STATE_CHANGED_WORK 500)].
Proof.
  cbv zeta. unfold ab8500_charger_usb_notifier_call.
  rewrite Z.eqb_refl. cbn [negb]. repeat split; reflexivity.
Qed.

End Notifier.

(** X21.  How the notifier and the work it queues compose.  While VBUS
    is detected, a notification of 2 mA followed by a run of
    [ab8500_charger_usb_state_changed_work] leaves the state SUSPEND with
    a current of 2 mA and the USB charger not connected.  A notification
    of more than 2 mA that comes next is taken for a RESUME, whatever the
    current: the work then commits the state RESUME with that current
    and starts by sleeping one second.  Each notification queues the
    work half a second ahead. *)
Theorem suspend_then_current_resumes (h : kernel_headers) (r : bm_headers)
  (bus : abx500_bus) (s : system) (mA : Z) :
  headers_ok h ->
  vbus_detected (w_di (sys_world s)) = true ->
  2 < mA < 2 ^ 32 ->
  let notify p := ab8500_charger_usb_notifier_call r (USB_EVENT_VBUS r) p in
  let work := lift (ab8500_charger_usb_state_changed_work h bus) in
  let s2 := snd (work (snd (notify 2 s))) in
  let s4 := snd (work (snd (notify mA s2))) in
  usb_state (w_di (sys_world s2)) =
    {| usb_current := 2; usb_current_tmp := 2;
       state := AB8500_BM_USB_STATE_SUSPEND;
       state_tmp := AB8500_BM_USB_STATE_SUSPEND |} /\
  charger_connected (usb (w_di (sys_world s2))) = 0 /\
  usb_state (w_di (sys_world s4)) =
    {| usb_current := to_int mA; usb_current_tmp := to_int mA;
       state := AB8500_BM_USB_STATE_RESUME;
       state_tmp := AB8500_BM_USB_STATE_RESUME |} /\
  (exists rest,
     events_since (sys_world s2) (sys_world s4) = Msleep 1000 :: rest) /\
  (exists n m,
     calls_since (length (sys_calls s)) s4 =
       [ (n, Queue_delayed USB_STATE_CHANGED_WORK 500);
         (m, Queue_delayed USB_STATE_CHANGED_WORK 500) ]).
Proof.
  intros h_ok Ev HmA. cbv zeta.
  set (s1 := snd (ab8500_charger_usb_notifier_call r (USB_EVENT_VBUS r) 2 s)).
  destruct (usb_notifier_call_run r 2 s) as [Hv1 [Hu1 [Ht1 Hc1]]].
  fold s1 in Hv1, Hu1, Ht1, Hc1.
  rewrite lift_run. cbn [snd].
  rewrite Ev in Hv1.
  destruct (usb_state_changed_work_run h bus h_ok (sys_world s1) Hv1)
    as [Hv2 [Hu2 [Hoff2 _]]].
  set (w2 := snd (ab8500_charger_usb_state_changed_work h bus
                    (sys_world s1))) in *.
  rewrite Hu1 in Hu2, Hoff2. cbn [usb_current_tmp state_tmp] in Hu2, Hoff2.
  change (to_u32 2) with 2 in Hu2, Hoff2.
  change (to_int 2) with 2 in Hu2.
  replace ((usb_current (usb_state (w_di (sys_world s))) =? 2) && (2 >? 2))
    with false in Hu2, Hoff2 by (symmetry; apply andb_false_r).
  cbn in Hu2, Hoff2.
  set (s2 := {| sys_world := w2; sys_calls := sys_calls s1 |}).
  set (s3 := snd (ab8500_charger_usb_notifier_call r (USB_EVENT_VBUS r)
                    mA s2)).
  destruct (usb_notifier_call_run r mA s2) as [Hv3 [Hu3 [Ht3 Hc3]]].
  fold s3 in Hv3, Hu3, Ht3, Hc3.
  cbn [s2 sys_world sys_calls] in Hv3, Hu3, Ht3, Hc3.
  rewrite Hv2 in Hv3. rewrite Hu2 in Hu3.
  cbn [usb_current state] in Hu3.
  assert (Hm : to_u32 mA = mA) by (unfold to_u32; apply Z.mod_small; lia).
  rewrite Hm in Hu3.
  replace (mA >? 2) with true in Hu3 by (symmetry; apply Z.gtb_lt; lia).
  cbn in Hu3.
  rewrite lift_run. cbn [snd sys_world sys_calls].
  destruct (usb_state_changed_work_run h bus h_ok (sys_world s3) Hv3)
    as [_ [Hu4 [_ Hres4]]].
  rewrite Hu3 in Hu4, Hres4. cbn [usb_current_tmp state_tmp] in Hu4, Hres4.
  split; [exact Hu2|]. split; [apply Hoff2; reflexivity|].
  split; [exact Hu4|]. split.
  - destruct (Hres4 eq_refl) as [rest Hrest]. exists rest.
    unfold events_since. rewrite Hrest, Ht3.
    rewrite skipn_app, skipn_all, Nat.sub_diag. reflexivity.
  - unfold calls_since. cbn [sys_calls]. rewrite Hc3, Hc1, <- app_assoc.
    rewrite skipn_app, skipn_all, Nat.sub_diag. cbn.
    eexists. eexists. reflexivity.
Qed.

Lemma suspend_then_current_resumes_witness :
  let notify p :=
    ab8500_charger_usb_notifier_call ab8500_bm_headers 1 p in
  let work :=
    lift (ab8500_charger_usb_state_changed_work ab8500_headers
            (steady_bus 0 0)) in
  let s2 := snd (work (snd (notify 2 (start configured_di)))) in
  let s4 := snd (work (snd (notify 500 s2))) in
  state (usb_state (w_di (sys_world s4))) = AB8500_BM_USB_STATE_RESUME /\
  usb_current (usb_state (w_di (sys_world s4))) = 500.
Proof.
  cbv zeta.
  destruct (suspend_then_current_resumes ab8500_headers ab8500_bm_headers
              (steady_bus 0 0) (start configured_di) 500 ab8500_headers_ok
              eq_refl ltac:(lia)) as [_ [_ [H _]]].
  cbv zeta in H.
  change (USB_EVENT_VBUS ab8500_bm_headers) with 1 in H.
  rewrite H. split; reflexivity.
Defined.

(** ** Start-up of the chip *)

Lemma truthy_land_1 (y : Z) : truthy (Z.land y 1) = Z.testbit y 0.
Proof.
  change 1 with (Z.ones 1) at 1. rewrite Z.land_ones by lia.
  change (2 ^ 1) with 2. rewrite <- Z.bit0_mod.
  destruct (Z.testbit y 0); reflexivity.
Qed.

Lemma testbit_254 (i : Z) :
  0 <= i -> Z.testbit 254 i = (1 <=? i) && (i <? 8).
Proof.
  intros Hi.
  destruct (Z.ltb_spec i 8) as [Hlt|Hge].
  - assert (H : i = 0 \/ i = 1 \/ i = 2 \/ i = 3 \/ i = 4 \/ i = 5 \/
                i = 6 \/ i = 7) by lia.
    repeat (destruct H as [->|H]; [reflexivity|]). subst. reflexivity.
  - rewrite andb_false_r. apply Z.bits_above_log2; [lia|].
    change (Z.log2 254) with 7. lia.
Qed.

(** The byte written back to the register that holds the watchdog bit:
    bit 0 is that of the real watchdog register, the other bits are
    those read from the emulation register. *)
Lemma otp_wd_bits (v wdog_reg i : Z) :
  0 <= i ->
  Z.testbit
    (to_u8 (if truthy (Z.land (to_u8 wdog_reg) MAIN_WDOG_ENA)
            then to_u8 (Z.lor (to_u8 (Z.land (to_u8 v) 254)) MAIN_WDOG_ENA)
            else to_u8 (Z.land (to_u8 v) 254))) i =
  if i =? 0 then Z.testbit wdog_reg 0 else Z.testbit (to_u8 v) i.
Proof.
  intros Hi. unfold MAIN_WDOG_ENA.
  rewrite truthy_land_1, (to_u8_testbit wdog_reg 0).
  change (0 <? 8) with true. cbn [andb].
  assert (H1 : forall j, 0 <= j -> Z.testbit 1 j = (j =? 0)).
  { intros j Hj. change 1 with (2 ^ 0). rewrite Z.pow2_bits_eqb by lia.
    apply Z.eqb_sym. }
  destruct (Z.testbit wdog_reg 0); rewrite !to_u8_idem;
    repeat (first [ rewrite to_u8_testbit | rewrite Z.lor_spec
                  | rewrite Z.land_spec | rewrite testbit_254 by exact Hi
                  | rewrite H1 by exact Hi ]);
    destruct (Z.eqb_spec i 0), (Z.ltb_spec i 8), (Z.leb_spec 1 i),
      (Z.testbit v i); cbn; try reflexivity; lia.
Qed.

Section OtpEmulation.

Variable r : bm_headers.
Variable bus : abx500_bus.

(** The loop that reads the emulation registers. *)
Lemma otp_emul_read_run (n : nat) :
  forall (i : Z) (w : world),
  otp_emul_read r bus n i w =
  (map (fun j => to_u8 (snd (bus_reply bus (j + w_clock w)%nat))) (seq 0 n),
   {| w_di := w_di w; w_clock := (n + w_clock w)%nat;
      w_trace := w_trace w ++
        map (fun j => Get_register (AB8500_OTP_EMUL r)
                        (to_u8 (i + Z.of_nat j))) (seq 0 n) |}).
Proof.
  induction n as [|n IH]; intros i w.
  - cbn. rewrite app_nil_r. destruct w; reflexivity.
  - cbn [otp_emul_read]. unfold abx500_get_register_interruptible.
    rewrite bind_run. cbn [call fst snd].
    rewrite bind_run, IH. cbn [fst snd Return w_di w_clock w_trace].
    cbn [seq map]. rewrite <- seq_shift, !map_map.
    unfold Return. rewrite <- app_assoc. cbn [app Nat.add Z.of_nat].
    rewrite Z.add_0_r.
    replace (n + S (w_clock w))%nat with (S (n + w_clock w)) by lia.
    f_equal; [f_equal|f_equal; f_equal; f_equal]; apply map_ext; intros j.
    + now rewrite Nat.add_succ_r.
    + do 2 f_equal. lia.
Qed.

(** The loop that writes them back, on a chip that accepts the writes. *)
Lemma otp_emul_write_run (regs : list Z) :
  forall (i : Z) (w : world),
  (forall j, (j < length regs)%nat ->
     fst (bus_reply bus (j + w_clock w)%nat) = 0) ->
  otp_emul_write r bus regs i w =
  (0,
   {| w_di := w_di w; w_clock := (length regs + w_clock w)%nat;
      w_trace := w_trace w ++
        map (fun jv => Set_register (AB8500_OTP_EMUL r)
                         (to_u8 (i + Z.of_nat (fst jv))) (to_u8 (snd jv)))
            (combine (seq 0 (length regs)) regs) |}).
Proof.
  induction regs as [|v regs IH]; intros i w Hok.
  - cbn. rewrite app_nil_r. destruct w; reflexivity.
  - assert (H0 : fst (bus_reply bus (w_clock w)) = 0)
      by (apply (Hok 0%nat); cbn [length]; lia).
    cbn [otp_emul_write]. unfold abx500_set_register_interruptible.
    rewrite bind_run. cbn [call fst snd]. rewrite H0.
    cbn [truthy Z.eqb negb]. rewrite IH.
    2: { intros j Hj. cbn [w_clock].
         replace (j + S (w_clock w))%nat with (S j + w_clock w)%nat by lia.
         apply Hok. cbn [length]. lia. }
    cbn [w_di w_clock w_trace length seq combine map fst snd].
    rewrite <- seq_shift, <- app_assoc. cbn [app Z.of_nat].
    rewrite Z.add_0_r.
    replace (length regs + S (w_clock w))%nat
      with (S (length regs + w_clock w)) by lia.
    assert (Hc : forall (l : list nat) (l' : list Z),
              combine (map S l) l' =
              map (fun jv => (S (fst jv), snd jv)) (combine l l')).
    { induction l as [|x l IHl]; intros [|y l']; cbn;
        try reflexivity. now rewrite IHl. }
    rewrite Hc, map_map. do 4 f_equal.
    apply map_ext. intros [j x]. cbn [fst snd]. do 2 f_equal. lia.
Qed.

Lemma array_store_length (a : list Z) (v : Z) :
  forall k, length (array_store a k v) = length a.
Proof. induction a as [|x a IH]; intros [|k]; cbn; auto. Qed.

(** The replies the routine waits for, at the times of its writes. *)
Lemma otp_writes_accepted_at (c : nat) :
  otp_writes_accepted bus c ->
  fst (bus_reply bus c) = 0 /\
  fst (bus_reply bus (16 + S c)%nat) = 0 /\
  (forall j, (j < 16)%nat ->
     fst (bus_reply bus (j + S (16 + S c))%nat) = 0).
Proof.
  intros Hok. split; [|split].
  - apply (Hok 0%nat). lia.
  - apply (Hok 17%nat). lia.
  - intros j Hj.
    replace (j + S (16 + S c))%nat with (j + 18 + c)%nat by lia.
    apply Hok. lia.
Qed.

(** The whole routine, its writes accepted: 35 accesses and nothing
    else. *)
Lemma otp_emulation_run (wdog_reg : Z) (w : world) :
  otp_writes_accepted bus (w_clock w) ->
  exists evs,
    ab8500_enable_otp_emulation_of_main_wd r bus wdog_reg w =
    (tt, {| w_di := w_di w; w_clock := (35 + w_clock w)%nat;
            w_trace := w_trace w ++ evs |}) /\
    length evs = 35%nat.
Proof.
  intros Hok. apply otp_writes_accepted_at in Hok.
  destruct Hok as [H0 [H17 Hloop]].
  unfold ab8500_enable_otp_emulation_of_main_wd.
  unfold abx500_set_register_interruptible.
  rewrite bind_run. cbn [call fst snd w_clock w_trace w_di].
  rewrite H0. cbn [truthy Z.eqb negb].
  rewrite bind_run, otp_emul_read_run. cbn [fst snd w_clock w_trace w_di].
  change (Z.to_nat AB8500_OTP_NO_OF_REGS) with 16%nat.
  set (regs := map _ (seq 0 16)).
  assert (Hregs : length regs = 16%nat)
    by (subst regs; rewrite length_map, length_seq; reflexivity).
  rewrite bind_run. cbn [call fst snd w_clock w_trace w_di].
  rewrite H17. cbn [truthy Z.eqb negb].
  rewrite bind_run, otp_emul_write_run
    by (cbn [w_clock]; rewrite array_store_length, Hregs; exact Hloop).
  cbn [fst snd truthy Z.eqb negb w_clock w_trace w_di].
  rewrite bind_run. cbn [call fst snd w_clock w_trace w_di].
  rewrite array_store_length, Hregs.
  eexists. split.
  - destruct (truthy _); cbn [Return]; rewrite <- !app_assoc; reflexivity.
  - repeat first
      [ rewrite length_app | rewrite length_map | rewrite length_combine
      | rewrite length_seq | rewrite array_store_length
      | progress cbn [length app] ].
    rewrite Hregs. reflexivity.
Qed.

End OtpEmulation.

(** X22.  When the chip accepts the writes of
    [ab8500_enable_otp_emulation_of_main_wd] whose return the routine
    tests (all but the last, after which it ends either way), and
    whatever the returns of its 16 reads, which it never looks at, the
    routine opens the emulation registers, reads the 16 of them,
    switches to the emulated contents, writes the 16 registers back and
    hands the chip over to them.  Every register gets back the byte that
    its read left in [otp_regs], except the one that holds the watchdog
    configuration: its bit 0 becomes bit 0 of the real watchdog register
    and its other bits are kept. *)
Theorem otp_emulation_writes_back (r : bm_headers) (bus : abx500_bus)
  (wdog_reg : Z) (w : world) :
  bm_headers_ok r ->
  otp_writes_accepted bus (w_clock w) ->
  let w' := snd (ab8500_enable_otp_emulation_of_main_wd r bus wdog_reg w) in
  let otp_reg i := to_u8 (snd (bus_reply bus (i + 1 + w_clock w)%nat)) in
  exists otp_wd,
    (forall i, 0 <= i ->
       Z.testbit otp_wd i =
       if i =? 0 then Z.testbit wdog_reg 0
       else Z.testbit (otp_reg (Z.to_nat (AB8500_OTP_CONF_15 r))) i) /\
    events_since w w' =
      Set_register (AB8500_DEVELOPMENT r) 0x00 0x2 ::
      map (fun i => Get_register (AB8500_OTP_EMUL r) (Z.of_nat i))
          (seq 0 16) ++
      Set_register (AB8500_STE_TEST r) 0xB1 0x2 ::
      map (fun i => Set_register (AB8500_OTP_EMUL r) (Z.of_nat i)
                      (if Z.of_nat i =? AB8500_OTP_CONF_15 r then otp_wd
                       else otp_reg i))
          (seq 0 16) ++
      [Set_register (AB8500_STE_TEST r) 0xB1 0x3].
Proof.
  intros Hr Hok. cbv zeta.
  assert (Hk : exists k, (k < 16)%nat /\ AB8500_OTP_CONF_15 r = Z.of_nat k).
  { unfold bm_headers_ok, AB8500_OTP_NO_OF_REGS in Hr.
    exists (Z.to_nat (AB8500_OTP_CONF_15 r)). split; lia. }
  destruct Hk as [k [Hk Hc15]]. rewrite Hc15.
  destruct w as [di c t]. cbn [w_clock] in Hok.
  apply otp_writes_accepted_at in Hok. destruct Hok as [H0 [H17 Hloop]].
  unfold ab8500_enable_otp_emulation_of_main_wd, events_since.
  rewrite Hc15. clear Hc15 Hr.
  unfold abx500_set_register_interruptible.
  rewrite bind_run. cbn [call fst snd w_clock w_trace w_di].
  rewrite H0. cbn [truthy Z.eqb negb].
  rewrite bind_run, otp_emul_read_run. cbn [fst snd w_clock w_trace w_di].
  change (Z.to_nat AB8500_OTP_NO_OF_REGS) with 16%nat.
  set (regs := map _ (seq 0 16)).
  assert (Hregs : length regs = 16%nat)
    by (subst regs; rewrite length_map, length_seq; reflexivity).
  rewrite bind_run. cbn [call fst snd w_clock w_trace w_di].
  rewrite H17. cbn [truthy Z.eqb negb].
  rewrite bind_run, otp_emul_write_run
    by (cbn [w_clock]; rewrite array_store_length, Hregs; exact Hloop).
  cbn [fst snd truthy Z.eqb negb w_clock w_trace w_di].
  rewrite bind_run. cbn [call fst snd w_clock w_trace w_di].
  assert (Hend : forall (b : bool) (w0 : world),
            snd ((if b then Return tt else Return tt) w0) = w0)
    by (intros [|] w0; reflexivity).
  rewrite Hend. cbn [w_trace]. clear Hend.
  rewrite <- !app_assoc, skipn_app, skipn_all, Nat.sub_diag.
  cbn [skipn app].
  unfold at_index. rewrite !Nat2Z.id.
  eexists. split.
  2: { f_equal. f_equal. f_equal. f_equal.
       instantiate (1 := to_u8 (to_u8
         (if truthy (Z.land (to_u8 wdog_reg) MAIN_WDOG_ENA)
          then to_u8 (Z.lor (to_u8 (Z.land (nth k regs 0) 254))
                        MAIN_WDOG_ENA)
          else to_u8 (Z.land (nth k regs 0) 254)))).
       clear Hregs. subst regs.
       do 16 (destruct k as [|k];
              [cbn [seq map combine array_store length fst snd nth];
               rewrite !to_u8_idem; reflexivity|]).
       lia. }
  intros i Hi. rewrite to_u8_idem. clear Hregs. subst regs.
  replace (nth k (map (fun j => to_u8 (snd (bus_reply bus (j + S c)%nat)))
                      (seq 0 16)) 0)
    with (to_u8 (snd (bus_reply bus (k + 1 + c)%nat))).
  - apply otp_wd_bits. exact Hi.
  - rewrite (nth_indep _ 0 (to_u8 (snd (bus_reply bus (0 + S c)%nat))))
      by (rewrite length_map, length_seq; exact Hk).
    rewrite (map_nth (fun j => to_u8 (snd (bus_reply bus (j + S c)%nat)))),
      seq_nth by exact Hk.
    do 3 f_equal. lia.
Qed.

(** At a sample: the reads all return an error code and leave 0xFF, the
    last write is refused, the real watchdog register holds 0. *)
Lemma otp_emulation_writes_back_witness :
  let bus := scripted_bus ((0, 0) :: repeat (-5, 0xFF) 16 ++
                           repeat (0, 0) 17 ++ [(-5, 0)]) in
  events_since (boot usb_plugged_di)
    (snd (ab8500_enable_otp_emulation_of_main_wd ab8500_bm_headers
            bus 0x00 (boot usb_plugged_di))) =
  Set_register 0x11 0x00 0x2 ::
  map (fun i => Get_register 0x15 (Z.of_nat i)) (seq 0 16) ++
  Set_register 0x14 0xB1 0x2 ::
  map (fun i => Set_register 0x15 (Z.of_nat i)
                  (if Z.of_nat i =? 0x0E then 0xFE else 0xFF)) (seq 0 16) ++
  [Set_register 0x14 0xB1 0x3].
Proof.
  cbv zeta.
  destruct (otp_emulation_writes_back ab8500_bm_headers
              (scripted_bus ((0, 0) :: repeat (-5, 0xFF) 16 ++
                             repeat (0, 0) 17 ++ [(-5, 0)]))
              0x00 (boot usb_plugged_di))
    as [otp_wd [_ H]].
  - unfold bm_headers_ok. vm_compute. split; [discriminate | reflexivity].
  - intros n Hn. cbn [boot w_clock]. rewrite Nat.add_0_r.
    destruct Hn as [->|Hn]; [reflexivity|].
    do 17 (destruct n as [|n]; [lia|]).
    do 17 (destruct n as [|n]; [reflexivity|]).
    lia.
  - vm_compute. reflexivity.
Defined.

Section InitHw.

Variable h : kernel_headers.
Variable r : bm_headers.
Variable cfg : kernel_config.
Variable bkup : ab8500_bm_backup.
Variable bus : abx500_bus.
Variable is_ab8500_1p1_or_earlier : bool.

(** The writes of the maximum levels, when they are accepted. *)
Lemma init_hw_max_levels_run (w : world) :
  (forall j, (j < (if is_ab8500_1p1_or_earlier then 0 else 2))%nat ->
             fst (bus_reply bus (w_clock w + j)%nat) = 0) ->
  exists evs ret,
    init_hw_max_levels h r bus is_ab8500_1p1_or_earlier w =
    (inr ret,
     {| w_di := w_di w;
        w_clock := ((if is_ab8500_1p1_or_earlier then 0 else 2) +
                    w_clock w)%nat;
        w_trace := w_trace w ++ evs |}) /\
    length evs = (if is_ab8500_1p1_or_earlier then 0 else 2)%nat /\
    Forall (fun e => exists reg v,
              e = Set_register (AB8500_CHARGER h) reg v) evs.
Proof.
  intros Hok. unfold init_hw_max_levels.
  destruct is_ab8500_1p1_or_earlier; cbn [negb].
  - exists [], 0. rewrite app_nil_r. destruct w.
    split; [reflexivity|]. split; [reflexivity|]. constructor.
  - unfold abx500_set_register_interruptible.
    rewrite bind_run. cbn [call fst snd].
    pose proof (Hok 0%nat ltac:(lia)) as H0. rewrite Nat.add_0_r in H0.
    rewrite H0. cbn [truthy Z.eqb negb].
    rewrite bind_run. cbn [call fst snd w_clock].
    pose proof (Hok 1%nat ltac:(lia)) as H1. rewrite Nat.add_1_r in H1.
    rewrite H1. cbn [truthy Z.eqb negb Return w_di w_clock w_trace].
    eexists. eexists. split; [|split].
    + rewrite <- app_assoc. reflexivity.
    + reflexivity.
    + repeat constructor; eexists; eexists; reflexivity.
Qed.

(** The LED and backup battery set-up, when its writes are accepted;
    the return of the closing mask-and-set is not looked at. *)
Lemma init_hw_led_and_backup_run (w : world) :
  (forall n, (n < init_hw_closing_tested cfg)%nat ->
     fst (bus_reply bus (w_clock w + n)%nat) = 0) ->
  exists c,
    init_hw_led_and_backup h r cfg bkup bus 0 w =
    (0, {| w_di := w_di w; w_clock := c;
           w_trace := w_trace w ++ init_hw_closing h r cfg bkup |}).
Proof.
  intros Hok. destruct w as [di c0 t]. cbn [w_clock] in Hok.
  assert (H0 : (0 < init_hw_closing_tested cfg)%nat ->
               fst (bus_reply bus c0) = 0).
  { intros Hlt. rewrite <- (Nat.add_0_r c0). now apply Hok. }
  assert (H1 : (1 < init_hw_closing_tested cfg)%nat ->
               fst (bus_reply bus (S c0)) = 0).
  { intros Hlt. rewrite <- (Nat.add_1_r c0). now apply Hok. }
  clear Hok. revert H0 H1.
  unfold init_hw_closing_tested, init_hw_led_and_backup, init_hw_closing,
    ab8500_charger_led_en, abx500_set_register_interruptible,
    abx500_mask_and_set_register_interruptible.
  destruct (CONFIG_AB8500_BM_ENABLE_CONTROL_CHARGING_LED cfg),
    (CONFIG_AB8500_BM_ENABLE_BACKUP_CHARGER cfg); cbn [negb app Nat.add];
    intros H0 H1;
    repeat first
      [ rewrite bind_run
      | progress cbn [call fst snd Return truthy Z.eqb negb Z.ltb
                      Z.compare w_di w_clock w_trace]
      | rewrite H0 by lia
      | rewrite H1 by lia ];
    eexists; rewrite <- ?app_assoc, ?app_nil_r; reflexivity.
Qed.

End InitHw.

(** X23.  When the main watchdog register cannot be read,
    [ab8500_charger_init_hw_registers] gives up and returns 0, as for a
    success: after the writes of the maximum levels (on a chip later than
    1.1) and of the VBUS over-voltage selection, all accepted, the failed
    read is its last access to the chip, and it has called no service. *)
Theorem init_hw_registers_gives_up_quietly (h : kernel_headers)
  (r : bm_headers) (cfg : kernel_config) (bkup : ab8500_bm_backup)
  (bus : abx500_bus) (is_ab8500_1p1_or_earlier : bool) (s : system) :
  let c := w_clock (sys_world s) in
  let k := if is_ab8500_1p1_or_earlier then 0%nat else 2%nat in
  (forall j, (j <= k)%nat -> fst (bus_reply bus (c + j)%nat) = 0) ->
  fst (bus_reply bus (c + k + 1)%nat) < 0 ->
  let res := ab8500_charger_init_hw_registers h r cfg bkup bus
               is_ab8500_1p1_or_earlier s in
  fst res = 0 /\
  sys_calls (snd res) = sys_calls s /\
  w_di (sys_world (snd res)) = w_di (sys_world s) /\
  exists evs,
    events_since (sys_world s) (sys_world (snd res)) =
      evs ++
      [ Set_register (AB8500_CHARGER h) (AB8500_USBCH_CTRL2_REG r)
          (to_u8 (Z.lor (VBUS_OVV_SELECT_6P3V r)
                        (VBUS_AUTO_IN_CURR_LIM_ENA r)));
        Get_register (AB8500_SYS_CTRL2_BLOCK r)
          (AB8500_MAIN_WDOG_CTRL_REG h) ] /\
    Forall (fun e => exists reg v,
              e = Set_register (AB8500_CHARGER h) reg v) evs.
Proof.
  intros c k Hok Hfail. cbv zeta. subst c.
  destruct s as [w calls]. cbn [sys_world] in *.
  unfold ab8500_charger_init_hw_registers.
  rewrite sbind_run, lift_run. cbn [sys_world sys_calls fst snd].
  destruct (init_hw_max_levels_run h r bus is_ab8500_1p1_or_earlier w)
    as [evs [ret [Hrun [_ Hevs]]]].
  { intros j Hj. apply Hok. subst k.
    destruct is_ab8500_1p1_or_earlier; lia. }
  rewrite Hrun. cbn [fst snd].
  unfold abx500_set_register_interruptible,
    abx500_get_register_interruptible.
  rewrite sbind_run, lift_run.
  cbn [call fst snd sys_world sys_calls w_clock w_trace w_di].
  rewrite (Nat.add_comm _ (w_clock w)), Hok by lia.
  cbn [truthy Z.eqb negb].
  rewrite sbind_run, lift_run.
  cbn [call fst snd sys_world sys_calls w_clock w_trace w_di].
  fold k.
  replace (S (w_clock w + k)) with (w_clock w + k + 1)%nat by lia.
  destruct (Z.ltb_spec (fst (bus_reply bus (w_clock w + k + 1)%nat)) 0)
    as [_|Hge]; [|lia].
  cbn [sReturn fst snd sys_world sys_calls w_di w_trace].
  split; [reflexivity|]. split; [reflexivity|]. split; [reflexivity|].
  exists evs. split; [|exact Hevs].
  unfold events_since. cbn [w_trace sys_world snd].
  rewrite <- !app_assoc, skipn_app, skipn_all, Nat.sub_diag.
  reflexivity.
Qed.

Lemma init_hw_registers_gives_up_quietly_witness :
  ab8500_charger_init_hw_registers ab8500_headers ab8500_bm_headers
    sample_config {| bkup_bat_v := 0; bkup_bat_i := 0 |}
    (scripted_bus [(0, 0); (0, 0); (0, 0); (-5, 0)]) false
    (start usb_plugged_di) =
  (0, {| sys_world :=
           {| w_di := usb_plugged_di; w_clock := 4;
              w_trace := [ Set_register 0x0B 0x41 0x4D;
                           Set_register 0x0B 0x43 0x0F;
                           Set_register 0x0B 0xC1 0x3C;
                           Get_register 0x02 0x01 ] |};
         sys_calls := [] |}).
Proof.
  pose proof (init_hw_registers_gives_up_quietly ab8500_headers
                ab8500_bm_headers sample_config
                {| bkup_bat_v := 0; bkup_bat_i := 0 |}
                (scripted_bus [(0, 0); (0, 0); (0, 0); (-5, 0)]) false
                (start usb_plugged_di)) as H.
  cbv zeta in H.
  destruct H as [H0 _].
  - intros j Hj. cbn in Hj.
    assert (Hc : j = 0%nat \/ j = 1%nat \/ j = 2%nat) by lia.
    destruct Hc as [->|[->| ->]]; reflexivity.
  - vm_compute. reflexivity.
  - vm_compute. reflexivity.
Defined.

(** X24.  When the chip accepts the writes of
    [ab8500_charger_init_hw_registers] whose return is tested and answers
    the read of the main watchdog register without error (a return that
    is not negative), whatever it returns to the reads of the emulation
    registers, to the last write of the OTP emulation and to the closing
    mask-and-set, the function returns 0 and takes the main watchdog over
    in four consecutive writes: the value read from the watchdog register
    with the enable and kick bits added, then enable and kick alone, then
    the value read, restored as it was, then the charger watchdog
    timeout.  Its one service call, the delay of 63 us, comes between
    the first and the second of these writes.  The access just before
    the 35 accesses of the OTP emulation is the read of the watchdog
    register, and what follows the four writes is the LED and backup
    battery set-up of the configuration. *)
Theorem init_hw_registers_takes_over_watchdog (h : kernel_headers)
  (r : bm_headers) (cfg : kernel_config) (bkup : ab8500_bm_backup)
  (bus : abx500_bus) (is_ab8500_1p1_or_earlier : bool) (s : system) :
  let w := sys_world s in
  let c := w_clock w in
  let k := if is_ab8500_1p1_or_earlier then 1%nat else 3%nat in
  (forall n, (n < k)%nat -> fst (bus_reply bus (c + n)%nat) = 0) ->
  0 <= fst (bus_reply bus (c + k)%nat) ->
  otp_writes_accepted bus (c + k + 1) ->
  (forall n, (n < 4 + init_hw_closing_tested cfg)%nat ->
     fst (bus_reply bus (c + k + 36 + n)%nat) = 0) ->
  let save_val := to_u8 (snd (bus_reply bus (k + w_clock w)%nat)) in
  let res := ab8500_charger_init_hw_registers h r cfg bkup bus
               is_ab8500_1p1_or_earlier s in
  fst res = 0 /\
  exists before,
    length before = (k + 1 + 35)%nat /\
    nth_error before k =
      Some (Get_register (AB8500_SYS_CTRL2_BLOCK r)
              (AB8500_MAIN_WDOG_CTRL_REG h)) /\
    events_since w (sys_world (snd res)) =
      before ++
      [ Set_register (AB8500_SYS_CTRL2_BLOCK r) (AB8500_MAIN_WDOG_CTRL_REG h)
          (to_u8 (Z.lor (Z.lor save_val MAIN_WDOG_ENA) MAIN_WDOG_KICK));
        Set_register (AB8500_SYS_CTRL2_BLOCK r) (AB8500_MAIN_WDOG_CTRL_REG h)
          (Z.lor MAIN_WDOG_ENA MAIN_WDOG_KICK);
        Set_register (AB8500_SYS_CTRL2_BLOCK r) (AB8500_MAIN_WDOG_CTRL_REG h)
          save_val;
        Set_register (AB8500_CHARGER h) (AB8500_CH_WD_TIMER_REG r)
          WD_TIMER ] ++
      init_hw_closing h r cfg bkup /\
    calls_since (length (sys_calls s)) (snd res) =
      [ ((length (w_trace w) + length before + 1)%nat, Udelay 63) ].
Proof.
  intros w c k Hbefore Hread Hotpok Hafter save_val. cbv zeta.
  subst w c. destruct s as [w calls]. cbn [sys_world sys_calls] in *.
  unfold ab8500_charger_init_hw_registers.
  rewrite sbind_run, lift_run. cbn [sys_world sys_calls fst snd].
  destruct (init_hw_max_levels_run h r bus is_ab8500_1p1_or_earlier w)
    as [evs [ret [Hrun [Hlen Hevs]]]].
  { intros j Hj. apply Hbefore. subst k.
    destruct is_ab8500_1p1_or_earlier; lia. }
  rewrite Hrun. cbn [fst snd].
  unfold abx500_set_register_interruptible,
    abx500_get_register_interruptible.
  rewrite sbind_run, lift_run.
  cbn [call fst snd sys_world sys_calls w_clock w_trace w_di].
  assert (Hctrl2 : fst (bus_reply bus
                     ((if is_ab8500_1p1_or_earlier then 0 else 2) +
                      w_clock w)%nat) = 0).
  { replace ((if is_ab8500_1p1_or_earlier then 0 else 2) + w_clock w)%nat
      with (w_clock w + (if is_ab8500_1p1_or_earlier then 0 else 2))%nat
      by lia.
    apply Hbefore. subst k. destruct is_ab8500_1p1_or_earlier; lia. }
  rewrite Hctrl2. cbn [truthy Z.eqb negb].
  rewrite sbind_run, lift_run.
  cbn [call fst snd sys_world sys_calls w_clock w_trace w_di].
  assert (Hk : S ((if is_ab8500_1p1_or_earlier then 0 else 2) + w_clock w)
               = (k + w_clock w)%nat)
    by (subst k; destruct is_ab8500_1p1_or_earlier; reflexivity).
  rewrite Hk. fold save_val.
  assert (Hr : (fst (bus_reply bus (k + w_clock w)%nat) <? 0) = false)
    by (apply Z.ltb_ge; now rewrite Nat.add_comm).
  rewrite Hr.
  rewrite sbind_run, lift_run. cbn [fst snd sys_world sys_calls].
  match goal with
  | |- context [ab8500_enable_otp_emulation_of_main_wd r bus ?v ?w0] =>
      destruct (otp_emulation_run r bus v w0) as [otp [Hotp Hotplen]]
  end.
  { cbn [w_clock].
    now replace (S (k + w_clock w)) with (w_clock w + k + 1)%nat by lia. }
  rewrite Hotp. cbn [fst snd w_di w_clock w_trace].
  assert (Hwr : forall n, (n < 4 + init_hw_closing_tested cfg)%nat ->
            fst (bus_reply bus (n + (35 + S (k + w_clock w)))%nat) = 0).
  { intros n Hn.
    replace (n + (35 + S (k + w_clock w)))%nat
      with (w_clock w + k + 36 + n)%nat by lia.
    now apply Hafter. }
  clear Hbefore Hread Hotpok Hafter Hctrl2 Hr.
  set (c1 := (35 + S (k + w_clock w))%nat) in *.
  pose proof (Hwr 0%nat ltac:(lia)) as E0.
  pose proof (Hwr 1%nat ltac:(lia)) as E1.
  pose proof (Hwr 2%nat ltac:(lia)) as E2.
  pose proof (Hwr 3%nat ltac:(lia)) as E3.
  cbn [Nat.add] in E0, E1, E2, E3.
  rewrite sbind_run, lift_run.
  cbn [call fst snd sys_world sys_calls w_clock w_trace w_di].
  rewrite E0. cbn [truthy Z.eqb negb].
  rewrite sbind_run.
  cbn [service ask fst snd sys_world sys_calls w_clock w_trace w_di].
  rewrite sbind_run, lift_run.
  cbn [call fst snd sys_world sys_calls w_clock w_trace w_di].
  rewrite E1. cbn [truthy Z.eqb negb].
  rewrite sbind_run, lift_run.
  cbn [call fst snd sys_world sys_calls w_clock w_trace w_di].
  rewrite E2. cbn [truthy Z.eqb negb].
  rewrite sbind_run, lift_run.
  cbn [call fst snd sys_world sys_calls w_clock w_trace w_di].
  rewrite E3. cbn [truthy Z.eqb negb].
  rewrite lift_run. cbn [fst snd sys_world sys_calls].
  match goal with
  | |- context [init_hw_led_and_backup h r cfg bkup bus 0 ?w0] =>
      destruct (init_hw_led_and_backup_run h r cfg bkup bus w0)
        as [c2 Hclose]
  end.
  { intros n Hn. cbn [w_clock].
    replace (S (S (S (S c1))) + n)%nat with (4 + n + c1)%nat by lia.
    apply Hwr. lia. }
  rewrite Hclose. cbn [fst snd w_di w_clock w_trace sys_world sys_calls].
  split; [reflexivity|].
  exists (evs ++
          [ Set_register (AB8500_CHARGER h) (AB8500_USBCH_CTRL2_REG r)
              (to_u8 (Z.lor (VBUS_OVV_SELECT_6P3V r)
                            (VBUS_AUTO_IN_CURR_LIM_ENA r)));
            Get_register (AB8500_SYS_CTRL2_BLOCK r)
              (AB8500_MAIN_WDOG_CTRL_REG h) ] ++ otp).
  assert (Hke : k = S (length evs))
    by (subst k; rewrite Hlen; destruct is_ab8500_1p1_or_earlier;
        reflexivity).
  split; [|split; [|split]].
  - rewrite !length_app, Hotplen. cbn [length]. lia.
  - rewrite nth_error_app2 by lia.
    replace (k - length evs)%nat with 1%nat by lia. reflexivity.
  - unfold events_since. cbn [w_trace].
    rewrite <- !app_assoc, skipn_app, skipn_all, Nat.sub_diag.
    cbn [skipn app]. unfold save_val at 2. rewrite to_u8_idem.
    reflexivity.
  - unfold calls_since. cbn [sys_calls].
    rewrite skipn_app, skipn_all, Nat.sub_diag. cbn [skipn app].
    do 2 f_equal. rewrite !length_app. cbn [length]. lia.
Qed.

(** At a sample, on a chip of revision 1.1 or earlier: the read of the
    watchdog register returns a positive code, the reads of the emulation
    registers return an error code, and the last write of the OTP
    emulation is refused. *)
Lemma init_hw_registers_takes_over_watchdog_witness :
  let bus := scripted_bus ((0, 0x04) :: (1, 0x04) :: (0, 0x04) ::
                           repeat (-5, 0x04) 16 ++ repeat (0, 0x04) 17 ++
                           (-5, 0x04) :: repeat (0, 0x04) 5) in
  let res :=
    ab8500_charger_init_hw_registers ab8500_headers ab8500_bm_headers
      sample_config {| bkup_bat_v := 0; bkup_bat_i := 0 |}
      bus true (start usb_plugged_di) in
  fst res = 0 /\
  sys_calls (snd res) = [(38%nat, Udelay 63)] /\
  skipn 37 (w_trace (sys_world (snd res))) =
    [ Set_register 0x02 0x01 0x07; Set_register 0x02 0x01 0x03;
      Set_register 0x02 0x01 0x04; Set_register 0x0B 0x50 0x30;
      Set_register 0x0B 0x53 0x00 ].
Proof.
  cbv zeta.
  destruct (init_hw_registers_takes_over_watchdog ab8500_headers
              ab8500_bm_headers sample_config
              {| bkup_bat_v := 0; bkup_bat_i := 0 |}
              (scripted_bus ((0, 0x04) :: (1, 0x04) :: (0, 0x04) ::
                             repeat (-5, 0x04) 16 ++ repeat (0, 0x04) 17 ++
                             (-5, 0x04) :: repeat (0, 0x04) 5))
              true (start usb_plugged_di))
    as [H0 _].
  - intros n Hn. destruct n as [|n]; [reflexivity|lia].
  - vm_compute. discriminate.
  - intros n Hn. destruct Hn as [->|Hn]; [reflexivity|].
    do 17 (destruct n as [|n]; [lia|]).
    do 17 (destruct n as [|n]; [reflexivity|]).
    lia.
  - intros n Hn.
    do 6 (destruct n as [|n]; [reflexivity|]).
    vm_compute in Hn. lia.
  - split; [exact H0|]. split; vm_compute; reflexivity.
Defined.

(** X25.  [ab8500_charger_update_charger_current] resets the counter of
    the input current drops only once the output current is set.  When
    setting the current fails, its return code and its world are those
    of the call, with nothing written after it.  When the call returns
    0, the write of 1 to the charger control register is its last
    access to the chip, and every write before it puts a code between
    the previous and the target code into the output current
    register. *)
Theorem update_charger_current_resets_counter_last (h : kernel_headers)
  (bus : abx500_bus) (psy_type : power_supply_type) (ich_out : Z)
  (w : world) :
  headers_ok h ->
  psy_type = POWER_SUPPLY_TYPE_MAINS \/ psy_type = POWER_SUPPLY_TYPE_USB ->
  let res := ab8500_charger_update_charger_current h bus psy_type ich_out w in
  let set := ab8500_charger_set_output_curr h bus ich_out w in
  (fst set <> 0 -> res = set) /\
  (fst res = 0 ->
   exists evs,
     events_since w (snd res) =
       evs ++ [Set_register (AB8500_CHARGER h) (AB8500_CHARGER_CTRL h) 0x1] /\
     Forall (written_code h bus ich_out (AB8500_CH_OPT_CRNTLVL_REG h) w)
            evs).
Proof.
  intros h_ok Hp. cbv zeta.
  assert (Hrun : ab8500_charger_update_charger_current h bus psy_type
                   ich_out w =
                 (ret <- ab8500_charger_set_output_curr h bus ich_out ;;
                  if truthy ret then Return ret else
                  ret <- abx500_set_register_interruptible bus
                           (AB8500_CHARGER h) (AB8500_CHARGER_CTRL h) 0x1 ;;
                  if truthy ret then Return ret else Return ret) w)
    by (destruct Hp as [-> | ->]; reflexivity).
  rewrite Hrun. clear Hrun. rewrite bind_run.
  destruct (written_set_current h bus h_ok ich_out
              (AB8500_CH_OPT_CRNTLVL_REG h) w) as [evs [He Hevs]].
  fold (ab8500_charger_set_output_curr h bus ich_out) in He.
  destruct (ab8500_charger_set_output_curr h bus ich_out w) as [ret w1].
  cbn [fst snd] in *.
  destruct (truthy ret) eqn:Hret.
  - split; [reflexivity|]. cbn [Return fst].
    intros H0. apply truthy_true in Hret. contradiction.
  - apply truthy_false in Hret. split; [intros Hn; contradiction|].
    intros _. exists evs. split; [|exact Hevs].
    unfold abx500_set_register_interruptible.
    rewrite bind_run. cbn [call fst snd].
    assert (Ht : forall b : bool,
              w_trace (snd ((if b then Return (fst (bus_reply bus (w_clock w1)))
                             else Return (fst (bus_reply bus (w_clock w1))))
                            {| w_di := w_di w1; w_clock := S (w_clock w1);
                               w_trace := w_trace w1 ++
                                 [Set_register (AB8500_CHARGER h)
                                    (AB8500_CHARGER_CTRL h) (to_u8 1)] |})) =
              w_trace w1 ++ [Set_register (AB8500_CHARGER h)
                               (AB8500_CHARGER_CTRL h) 1])
      by (intros [|]; reflexivity).
    unfold events_since. rewrite Ht, He.
    rewrite <- app_assoc, skipn_app, skipn_all, Nat.sub_diag. reflexivity.
Qed.

Lemma update_charger_current_resets_counter_last_witness :
  exists evs,
    events_since (boot usb_plugged_di)
      (snd (ab8500_charger_update_charger_current ab8500_headers
              (steady_bus 0 0) POWER_SUPPLY_TYPE_USB 300
              (boot usb_plugged_di))) =
    evs ++ [Set_register 0x0B 0x56 1].
Proof.
  destruct (update_charger_current_resets_counter_last ab8500_headers
              (steady_bus 0 0) POWER_SUPPLY_TYPE_USB 300
              (boot usb_plugged_di) ab8500_headers_ok
              (or_intror eq_refl)) as [_ H].
  destruct H as [evs [He _]]; [reflexivity|].
  exists evs. exact He.
Defined.
